(** * GOCAD vessel parser: a shallow embedding of [scripts/gocad_vessel.py]

    The development follows the Python source function by function:
    - [Py]: the Python built-ins the parser leans on (string methods,
      [int()], [float()], binary64 arithmetic, [str.format]);
    - [Vessel]: the [PROPS] and [GOCAD_VESSEL] objects, the exception and
      [sys.exit] monad, and the methods of [GOCAD_VESSEL];
    - the theorems about the parser.

    Strings are byte strings and are read as ASCII text; Python floats are
    IEEE-754 binary64 values, modelled with the Standard Library's
    [spec_float] at precision 53 and maximal exponent 1024. *)

From Stdlib Require Import ZArith List String Ascii Bool Lia.
From Stdlib Require Import Strings.Byte.
From Stdlib Require Import Floats.SpecFloat.
From stdpp Require Import gmap strings pretty.

Local Open Scope string_scope.
Local Open Scope Z_scope.

(* ===================================================================== *)
(** * Python built-ins                                                    *)
(* ===================================================================== *)

Module Py.

(** ** Characters *)

Definition char_code (c : ascii) : Z := Z.of_nat (nat_of_ascii c).

(** [str.isspace] on ASCII: TAB..CR, FS..US and the blank. *)
Definition is_space (c : ascii) : bool :=
  let n := char_code c in
  ((9 <=? n) && (n <=? 13)) || ((28 <=? n) && (n <=? 32)).

Definition char_in (cs : string) (c : ascii) : bool :=
  existsb (Ascii.eqb c) (list_ascii_of_string cs).

Definition upper_char (c : ascii) : ascii :=
  let n := char_code c in
  if (97 <=? n) && (n <=? 122) then ascii_of_nat (Z.to_nat (n - 32)) else c.

(** ** String methods *)

Fixpoint upper (s : string) : string :=
  match s with
  | EmptyString => EmptyString
  | String c s' => String (upper_char c) (upper s')
  end.

Fixpoint lstrip_by (p : ascii -> bool) (s : string) : string :=
  match s with
  | EmptyString => EmptyString
  | String c s' => if p c then lstrip_by p s' else s
  end.

Fixpoint rstrip_by (p : ascii -> bool) (s : string) : string :=
  match s with
  | EmptyString => EmptyString
  | String c s' =>
      match rstrip_by p s' with
      | EmptyString => if p c then EmptyString else String c EmptyString
      | r => String c r
      end
  end.

Definition strip_by (p : ascii -> bool) (s : string) : string :=
  rstrip_by p (lstrip_by p s).

(** [s.strip()], [s.rstrip(chars)], [s.lstrip(chars)], [s.strip(chars)] *)
Definition strip (s : string) : string := strip_by is_space s.
Definition rstrip_chars (cs s : string) : string := rstrip_by (char_in cs) s.
Definition lstrip_chars (cs s : string) : string := lstrip_by (char_in cs) s.
Definition strip_chars (cs s : string) : string := strip_by (char_in cs) s.

(** [s.count(c)] for a one-character [c] *)
Fixpoint count (c : ascii) (s : string) : nat :=
  match s with
  | EmptyString => O
  | String d s' => if Ascii.eqb d c then S (count c s') else count c s'
  end.

(** [s.partition(c)] for a one-character separator: the text before the
    first occurrence, whether the separator was found, the text after. *)
Fixpoint partition (c : ascii) (s : string) : string * bool * string :=
  match s with
  | EmptyString => (EmptyString, false, EmptyString)
  | String d s' =>
      if Ascii.eqb d c then (EmptyString, true, s')
      else let '(b, f, a) := partition c s' in (String d b, f, a)
  end.

(** [s.replace(a, b)] for one-character [a] and [b] *)
Fixpoint replace (a b : ascii) (s : string) : string :=
  match s with
  | EmptyString => EmptyString
  | String d s' => String (if Ascii.eqb d a then b else d) (replace a b s')
  end.

(** [s.split()]: maximal runs of non-blank characters *)
Fixpoint split_ws_go (cur : string) (s : string) : list string :=
  match s with
  | EmptyString => match cur with EmptyString => [] | _ => [cur] end
  | String c s' =>
      if is_space c then
        match cur with
        | EmptyString => split_ws_go EmptyString s'
        | _ => cur :: split_ws_go EmptyString s'
        end
      else split_ws_go (String.append cur (String c EmptyString)) s'
  end.

Definition split (s : string) : list string := split_ws_go EmptyString s.

(** [s.split(c)]: every occurrence of [c] separates, empty fields kept *)
Fixpoint split_on_go (c : ascii) (cur : string) (s : string) : list string :=
  match s with
  | EmptyString => [cur]
  | String d s' =>
      if Ascii.eqb d c then cur :: split_on_go c EmptyString s'
      else split_on_go c (String.append cur (String d EmptyString)) s'
  end.

Definition split_on (c : ascii) (s : string) : list string :=
  split_on_go c EmptyString s.

(** Slices [s[:n]], [s[i:j]] and [s[-n:]] *)
Definition slice_to (n : nat) (s : string) : string := substring 0 n s.
Definition slice (i j : nat) (s : string) : string := substring i (j - i) s.
Definition slice_last (n : nat) (s : string) : string :=
  substring (String.length s - n) n s.

(** [seq[i]] with a non-negative index: [None] stands for [IndexError] *)
Definition index {A} (l : list A) (i : nat) : option A := nth_error l i.

(** ** [os.path] (POSIX flavour) *)

Fixpoint rfind_from (c : ascii) (s : string) (pos : nat) : option nat :=
  match s with
  | EmptyString => None
  | String d s' =>
      match rfind_from c s' (S pos) with
      | Some k => Some k
      | None => if Ascii.eqb d c then Some pos else None
      end
  end.

Definition rfind (c : ascii) (s : string) : option nat := rfind_from c s 0.

Definition basename (p : string) : string :=
  match rfind "/" p with
  | Some k => substring (S k) (String.length p - S k) p
  | None => p
  end.

(** [os.path.splitext]: the extension starts at the last dot of the last
    path component, leading dots of that component not counting. *)
Definition splitext (p : string) : string * string :=
  let start := match rfind "/" p with Some k => S k | None => O end in
  let base := substring start (String.length p - start) p in
  let body := lstrip_chars "." base in
  let lead := (String.length base - String.length body)%nat in
  match rfind "." body with
  | Some k =>
      let cut := (start + lead + k)%nat in
      (substring 0 cut p, substring cut (String.length p - cut) p)
  | None => (p, EmptyString)
  end.

Definition path_join (a b : string) : string :=
  match b with
  | String "/" _ => b
  | _ =>
      match a with
      | EmptyString => b
      | _ =>
          if String.eqb (slice_last 1 a) "/" then String.append a b
          else String.append a (String.append "/" b)
      end
  end.

(** ** [int(s)] and [int(s, 16)]

    Blanks around the literal are dropped, one sign is allowed, and the
    digits may be grouped with single underscores.  [None] stands for
    [ValueError]. *)

Definition digit_of (base : Z) (c : ascii) : option Z :=
  let n := char_code c in
  let d := if (48 <=? n) && (n <=? 57) then n - 48
           else if (97 <=? n) && (n <=? 122) then n - 87
           else if (65 <=? n) && (n <=? 90) then n - 55
           else base in
  if d <? base then Some d else None.

Fixpoint digits_us (base acc : Z) (after_digit : bool) (cs : list ascii)
  : option Z :=
  match cs with
  | [] => if after_digit then Some acc else None
  | c :: cs' =>
      if Ascii.eqb c "_" then
        if after_digit then digits_us base acc false cs' else None
      else
        match digit_of base c with
        | Some d => digits_us base (acc * base + d) true cs'
        | None => None
        end
  end.

Definition split_sign (cs : list ascii) : bool * list ascii :=
  match cs with
  | "-"%char :: r => (true, r)
  | "+"%char :: r => (false, r)
  | _ => (false, cs)
  end.

Definition int_base (base : Z) (s : string) : option Z :=
  let '(neg, r) := split_sign (list_ascii_of_string (strip s)) in
  let body :=
    if base =? 16 then
      match r with
      | "0"%char :: x :: r' =>
          if Ascii.eqb (upper_char x) "X" then
            match r' with "_"%char :: r'' => r'' | _ => r' end
          else r
      | _ => r
      end
    else r in
  match digits_us base 0 false body with
  | Some v => Some (if neg then - v else v)
  | None => None
  end.

Definition int (s : string) : option Z := int_base 10 s.
Definition int16 (s : string) : option Z := int_base 16 s.

(** ** Floats: IEEE-754 binary64 *)

Definition float := spec_float.
Definition prec : Z := 53.
Definition emax : Z := 1024.

Definition fmul : float -> float -> float := SFmul prec emax.
Definition fdiv : float -> float -> float := SFdiv prec emax.
Definition fadd : float -> float -> float := SFadd prec emax.
Definition fneg : float -> float := SFopp.
Definition feqb : float -> float -> bool := SFeqb.
Definition fltb : float -> float -> bool := SFltb.

(** [float(n)] for an integer [n] *)
Definition float_of_Z (n : Z) : float := binary_normalize prec emax n 0 false.

(** [sys.float_info.max] *)
Definition float_max : float := SFmax_float prec emax.

Definition is_nan (x : float) : bool :=
  match x with S754_nan => true | _ => false end.

Definition is_finite (x : float) : bool :=
  match x with S754_zero _ | S754_finite _ _ _ => true | _ => false end.

(** The correctly rounded value of [(-1)^neg * m * 10^e] *)
Definition float_of_decimal (neg : bool) (m e : Z) : float :=
  match m with
  | Zpos p =>
      if 0 <=? e then binary_round prec emax neg (Z.to_pos (Zpos p * 10 ^ e)) 0
      else fdiv (S754_finite neg p 0)
                (S754_finite false (Z.to_pos (10 ^ (- e))) 0)
  | _ => S754_zero neg
  end.

(** A run of digits grouped by single underscores: its value, the number
    of digits, and the text after it. *)
Fixpoint scan_digits (acc : Z) (n : Z) (cs : list ascii) : Z * Z * list ascii :=
  match cs with
  | c :: cs' =>
      match digit_of 10 c with
      | Some d => scan_digits (acc * 10 + d) (n + 1) cs'
      | None =>
          match cs' with
          | c' :: _ =>
              if Ascii.eqb c "_" && (0 <? n) then
                match digit_of 10 c' with
                | Some _ => scan_digits acc n cs'
                | None => (acc, n, cs)
                end
              else (acc, n, cs)
          | [] => (acc, n, cs)
          end
      end
  | [] => (acc, n, cs)
  end.

Definition scan_exponent (cs : list ascii) : option Z :=
  match cs with
  | [] => Some 0
  | c :: r =>
      if Ascii.eqb (upper_char c) "E" then
        let '(neg, r') := split_sign r in
        match scan_digits 0 0 r' with
        | (v, n, []) => if 0 <? n then Some (if neg then - v else v) else None
        | _ => None
        end
      else None
  end.

(** [float(s)]: [None] stands for [ValueError] *)
Definition float_of_string (s : string) : option float :=
  let '(neg, r) := split_sign (list_ascii_of_string (strip s)) in
  let word := upper (string_of_list_ascii r) in
  if String.eqb word "INF" || String.eqb word "INFINITY" then
    Some (S754_infinity neg)
  else if String.eqb word "NAN" then Some S754_nan
  else
    let '(ip, ni, r1) := scan_digits 0 0 r in
    let '(fp, nf, r2) :=
      match r1 with
      | "."%char :: r1' => scan_digits ip 0 r1'
      | _ => (ip, 0, r1)
      end in
    if (0 <? ni + nf) then
      match scan_exponent r2 with
      | Some ex => Some (float_of_decimal neg fp (ex - nf))
      | None => None
      end
    else None.

(** ** [max] and [min] of a non-empty list of floats, as the built-ins
    scan it: the first element is kept until a strictly larger (smaller)
    one is met. *)
Definition fmax_list (x : float) (l : list float) : float :=
  fold_left (fun m y => if fltb m y then y else m) l x.
Definition fmin_list (x : float) (l : list float) : float :=
  fold_left (fun m y => if fltb y m then y else m) l x.

(** ** [str(n)] and ['{0:08b}'.format(n)] *)

Definition str_of_Z (n : Z) : string := pretty n.

Fixpoint bin_digits (p : positive) (acc : string) : string :=
  match p with
  | xH => String "1" acc
  | xO q => bin_digits q (String "0" acc)
  | xI q => bin_digits q (String "1" acc)
  end.

Fixpoint zeros (n : nat) : string :=
  match n with O => EmptyString | S k => String "0" (zeros k) end.

(** Binary digits of a non-negative integer, zero-padded to width 8
    (the source only formats unsigned bytes). *)
Definition format_08b (n : Z) : string :=
  let body := match n with Zpos p => bin_digits p EmptyString | _ => "0" end in
  String.append (zeros (8 - String.length body)) body.

End Py.

(* ===================================================================== *)
(** * The vessel: objects, state and control                              *)
(* ===================================================================== *)

Module Vessel.
Import Py.

(** ** Data model *)

Definition coord : Type := float * float * float.
Definition rgba : Type := float * float * float * float.

(** Python compares tuples of floats component by component, plus and
    minus zero being equal.  (It also takes an object for equal to
    itself, which only shows for NaN coordinates; the keys are compared
    by value here.) *)
Definition coord_eqb (a b : coord) : bool :=
  let '(ax, ay, az) := a in
  let '(bx, by_, bz) := b in
  feqb ax bx && feqb ay by_ && feqb az bz.

(** Modelled from the spec: the named tuples of the geometry store are
    declared by the base class [MODEL_GEOMETRIES], which is not in the
    sources at hand.  The spec gives a vertex a sequence number and a
    position, an atom a sequence number and a vertex reference, a
    triangle and a segment a sequence number and three or two vertex
    references; the parser builds them as [VRTX(n, xyz)], [ATOM(n, v)],
    [TRGL(n, abc)] and [SEG(n, ab)] and reads [.n], [.v] and [.xyz]. *)
Record VRTX := { vrtx_n : Z; vrtx_xyz : coord }.
Record ATOM := { atom_n : Z; atom_v : Z }.
Record TRGL := { trgl_n : Z; trgl_abc : Z * Z * Z }.
Record SEG := { seg_n : Z; seg_ab : Z * Z }.

(** A property value attached to a point: one float, or an XYZ triple. *)
Inductive prop_value :=
| Scalar (v : float)
| Vector3 (x y z : float).

(** [PROPS.data]: a dictionary keyed by XYZ coordinate for point
    properties, a dense 3-d array (stored flat, last axis fastest, as
    [numpy.zeros] lays it out) for voxel properties. *)
Inductive prop_data :=
| PointData (d : list (coord * prop_value))
| VoxelData (nx ny nz : Z) (cells : list float).

Record stats := { st_min : float; st_max : float }.

Record PROPS := {
  file_name : string;
  data_sz : Z;
  data_type : string;
  signed_int : bool;
  data : prop_data;
  data_stats : option stats;
  colour_map : gmap Z coord;
  colourmap_name : string;
  class_name : string;
  no_data_marker : option float
}.

(** [PROPS.__init__] *)
Definition new_PROPS (name : string) : PROPS :=
  {| file_name := ""; data_sz := 0; data_type := "f"; signed_int := false;
     data := PointData []; data_stats := None; colour_map := ∅;
     colourmap_name := ""; class_name := name; no_data_marker := None |}.

Definition set_file_name (v : string) (p : PROPS) : PROPS :=
  {| file_name := v; data_sz := data_sz p; data_type := data_type p;
     signed_int := signed_int p; data := data p; data_stats := data_stats p;
     colour_map := colour_map p; colourmap_name := colourmap_name p;
     class_name := class_name p; no_data_marker := no_data_marker p |}.

Definition set_data_sz (v : Z) (p : PROPS) : PROPS :=
  {| file_name := file_name p; data_sz := v; data_type := data_type p;
     signed_int := signed_int p; data := data p; data_stats := data_stats p;
     colour_map := colour_map p; colourmap_name := colourmap_name p;
     class_name := class_name p; no_data_marker := no_data_marker p |}.

Definition set_data_type (v : string) (p : PROPS) : PROPS :=
  {| file_name := file_name p; data_sz := data_sz p; data_type := v;
     signed_int := signed_int p; data := data p; data_stats := data_stats p;
     colour_map := colour_map p; colourmap_name := colourmap_name p;
     class_name := class_name p; no_data_marker := no_data_marker p |}.

Definition set_signed_int (v : bool) (p : PROPS) : PROPS :=
  {| file_name := file_name p; data_sz := data_sz p; data_type := data_type p;
     signed_int := v; data := data p; data_stats := data_stats p;
     colour_map := colour_map p; colourmap_name := colourmap_name p;
     class_name := class_name p; no_data_marker := no_data_marker p |}.

Definition set_data (v : prop_data) (p : PROPS) : PROPS :=
  {| file_name := file_name p; data_sz := data_sz p; data_type := data_type p;
     signed_int := signed_int p; data := v; data_stats := data_stats p;
     colour_map := colour_map p; colourmap_name := colourmap_name p;
     class_name := class_name p; no_data_marker := no_data_marker p |}.

Definition set_data_stats (v : option stats) (p : PROPS) : PROPS :=
  {| file_name := file_name p; data_sz := data_sz p; data_type := data_type p;
     signed_int := signed_int p; data := data p; data_stats := v;
     colour_map := colour_map p; colourmap_name := colourmap_name p;
     class_name := class_name p; no_data_marker := no_data_marker p |}.

Definition set_colour_map (v : gmap Z coord) (p : PROPS) : PROPS :=
  {| file_name := file_name p; data_sz := data_sz p; data_type := data_type p;
     signed_int := signed_int p; data := data p; data_stats := data_stats p;
     colour_map := v; colourmap_name := colourmap_name p;
     class_name := class_name p; no_data_marker := no_data_marker p |}.

Definition set_colourmap_name (v : string) (p : PROPS) : PROPS :=
  {| file_name := file_name p; data_sz := data_sz p; data_type := data_type p;
     signed_int := signed_int p; data := data p; data_stats := data_stats p;
     colour_map := colour_map p; colourmap_name := v;
     class_name := class_name p; no_data_marker := no_data_marker p |}.

Definition set_no_data_marker (v : option float) (p : PROPS) : PROPS :=
  {| file_name := file_name p; data_sz := data_sz p; data_type := data_type p;
     signed_int := signed_int p; data := data p; data_stats := data_stats p;
     colour_map := colour_map p; colourmap_name := colourmap_name p;
     class_name := class_name p; no_data_marker := v |}.

(** ** Insertion-ordered dictionaries

    [prop_dict] and [local_props] are iterated, so their order matters:
    assigning to a present key keeps its place, a new key goes last. *)
Section Dict.
Context {K V : Type} (eqb : K -> K -> bool).

Fixpoint dict_get (d : list (K * V)) (k : K) : option V :=
  match d with
  | [] => None
  | (k', v) :: d' => if eqb k' k then Some v else dict_get d' k
  end.

Fixpoint dict_set (d : list (K * V)) (k : K) (v : V) : list (K * V) :=
  match d with
  | [] => [(k, v)]
  | (k', v') :: d' =>
      if eqb k' k then (k', v) :: d' else (k', v') :: dict_set d' k v
  end.

Definition dict_mem (d : list (K * V)) (k : K) : bool :=
  match dict_get d k with Some _ => true | None => false end.

Definition dict_values (d : list (K * V)) : list V := map snd d.
End Dict.

(** ** Output: log records and printed lines *)

Definition DEBUG : Z := 10.
Definition INFO : Z := 20.
Definition WARNING : Z := 30.
Definition ERROR : Z := 40.

Inductive output :=
| Printed (msg : string)
| Logged (level : Z) (msg : string).

(** ** The vessel object

    The fields of [GOCAD_VESSEL.__init__] keep their names.  [log_level]
    is the effective level of the class logger, [log] collects what is
    emitted.  The last six fields are attributes of the base class
    [MODEL_GEOMETRIES], modelled from the spec: the four ordered
    collections of the geometry store, the default colour and the
    bounding box. *)
Record GOCAD_VESSEL := {
  STOP_ON_EXC : bool;
  log_level : Z;
  log : list output;
  base_xyz : coord;
  group_name : string;
  nondefault_coords : bool;
  header_name : string;
  prop_dict : list (string * PROPS);
  invert_zaxis : bool;
  local_props : list (string * PROPS);
  is_ts : bool;
  is_vs : bool;
  is_pl : bool;
  is_vo : bool;
  xyz_mult : coord;
  xyz_unit : option string * option string * option string;
  axis_origin : option coord;
  axis_u : option coord;
  axis_v : option coord;
  axis_w : option coord;
  vol_dims : option (Z * Z * Z);
  axis_min : option coord;
  axis_max : option coord;
  flags_array_length : Z;
  flags_bit_length : Z;
  flags_bit_size : Z;
  flags_offset : Z;
  flags_file : string;
  region_dict : gmap string string;
  flags_dict : gmap (Z * Z * Z) string;
  np_filename : string;
  coord_sys_name : string;
  usesDefaultCoords : bool;
  _vrtx_arr : list VRTX;
  _atom_arr : list ATOM;
  _trgl_arr : list TRGL;
  _seg_arr : list SEG;
  rgba_tup : rgba;
  bbox : option (coord * coord)
}.

Definition set_log (v : list output) (s : GOCAD_VESSEL) : GOCAD_VESSEL :=
  {| STOP_ON_EXC := STOP_ON_EXC s; log_level := log_level s; log := v;
     base_xyz := base_xyz s; group_name := group_name s;
     nondefault_coords := nondefault_coords s;
     header_name := header_name s; prop_dict := prop_dict s;
     invert_zaxis := invert_zaxis s; local_props := local_props s;
     is_ts := is_ts s; is_vs := is_vs s; is_pl := is_pl s;
     is_vo := is_vo s; xyz_mult := xyz_mult s; xyz_unit := xyz_unit s;
     axis_origin := axis_origin s; axis_u := axis_u s; axis_v := axis_v s;
     axis_w := axis_w s; vol_dims := vol_dims s; axis_min := axis_min s;
     axis_max := axis_max s; flags_array_length := flags_array_length s;
     flags_bit_length := flags_bit_length s;
     flags_bit_size := flags_bit_size s; flags_offset := flags_offset s;
     flags_file := flags_file s; region_dict := region_dict s;
     flags_dict := flags_dict s; np_filename := np_filename s;
     coord_sys_name := coord_sys_name s;
     usesDefaultCoords := usesDefaultCoords s; _vrtx_arr := _vrtx_arr s;
     _atom_arr := _atom_arr s; _trgl_arr := _trgl_arr s;
     _seg_arr := _seg_arr s; rgba_tup := rgba_tup s; bbox := bbox s |}.

Definition set_header_name (v : string) (s : GOCAD_VESSEL) : GOCAD_VESSEL :=
  {| STOP_ON_EXC := STOP_ON_EXC s; log_level := log_level s; log := log s;
     base_xyz := base_xyz s; group_name := group_name s;
     nondefault_coords := nondefault_coords s; header_name := v;
     prop_dict := prop_dict s; invert_zaxis := invert_zaxis s;
     local_props := local_props s; is_ts := is_ts s; is_vs := is_vs s;
     is_pl := is_pl s; is_vo := is_vo s; xyz_mult := xyz_mult s;
     xyz_unit := xyz_unit s; axis_origin := axis_origin s;
     axis_u := axis_u s; axis_v := axis_v s; axis_w := axis_w s;
     vol_dims := vol_dims s; axis_min := axis_min s;
     axis_max := axis_max s; flags_array_length := flags_array_length s;
     flags_bit_length := flags_bit_length s;
     flags_bit_size := flags_bit_size s; flags_offset := flags_offset s;
     flags_file := flags_file s; region_dict := region_dict s;
     flags_dict := flags_dict s; np_filename := np_filename s;
     coord_sys_name := coord_sys_name s;
     usesDefaultCoords := usesDefaultCoords s; _vrtx_arr := _vrtx_arr s;
     _atom_arr := _atom_arr s; _trgl_arr := _trgl_arr s;
     _seg_arr := _seg_arr s; rgba_tup := rgba_tup s; bbox := bbox s |}.

Definition set_prop_dict (v : list (string * PROPS))
  (s : GOCAD_VESSEL) : GOCAD_VESSEL :=
  {| STOP_ON_EXC := STOP_ON_EXC s; log_level := log_level s; log := log s;
     base_xyz := base_xyz s; group_name := group_name s;
     nondefault_coords := nondefault_coords s;
     header_name := header_name s; prop_dict := v;
     invert_zaxis := invert_zaxis s; local_props := local_props s;
     is_ts := is_ts s; is_vs := is_vs s; is_pl := is_pl s;
     is_vo := is_vo s; xyz_mult := xyz_mult s; xyz_unit := xyz_unit s;
     axis_origin := axis_origin s; axis_u := axis_u s; axis_v := axis_v s;
     axis_w := axis_w s; vol_dims := vol_dims s; axis_min := axis_min s;
     axis_max := axis_max s; flags_array_length := flags_array_length s;
     flags_bit_length := flags_bit_length s;
     flags_bit_size := flags_bit_size s; flags_offset := flags_offset s;
     flags_file := flags_file s; region_dict := region_dict s;
     flags_dict := flags_dict s; np_filename := np_filename s;
     coord_sys_name := coord_sys_name s;
     usesDefaultCoords := usesDefaultCoords s; _vrtx_arr := _vrtx_arr s;
     _atom_arr := _atom_arr s; _trgl_arr := _trgl_arr s;
     _seg_arr := _seg_arr s; rgba_tup := rgba_tup s; bbox := bbox s |}.

Definition set_invert_zaxis (v : bool) (s : GOCAD_VESSEL) : GOCAD_VESSEL :=
  {| STOP_ON_EXC := STOP_ON_EXC s; log_level := log_level s; log := log s;
     base_xyz := base_xyz s; group_name := group_name s;
     nondefault_coords := nondefault_coords s;
     header_name := header_name s; prop_dict := prop_dict s;
     invert_zaxis := v; local_props := local_props s; is_ts := is_ts s;
     is_vs := is_vs s; is_pl := is_pl s; is_vo := is_vo s;
     xyz_mult := xyz_mult s; xyz_unit := xyz_unit s;
     axis_origin := axis_origin s; axis_u := axis_u s; axis_v := axis_v s;
     axis_w := axis_w s; vol_dims := vol_dims s; axis_min := axis_min s;
     axis_max := axis_max s; flags_array_length := flags_array_length s;
     flags_bit_length := flags_bit_length s;
     flags_bit_size := flags_bit_size s; flags_offset := flags_offset s;
     flags_file := flags_file s; region_dict := region_dict s;
     flags_dict := flags_dict s; np_filename := np_filename s;
     coord_sys_name := coord_sys_name s;
     usesDefaultCoords := usesDefaultCoords s; _vrtx_arr := _vrtx_arr s;
     _atom_arr := _atom_arr s; _trgl_arr := _trgl_arr s;
     _seg_arr := _seg_arr s; rgba_tup := rgba_tup s; bbox := bbox s |}.

Definition set_local_props (v : list (string * PROPS))
  (s : GOCAD_VESSEL) : GOCAD_VESSEL :=
  {| STOP_ON_EXC := STOP_ON_EXC s; log_level := log_level s; log := log s;
     base_xyz := base_xyz s; group_name := group_name s;
     nondefault_coords := nondefault_coords s;
     header_name := header_name s; prop_dict := prop_dict s;
     invert_zaxis := invert_zaxis s; local_props := v; is_ts := is_ts s;
     is_vs := is_vs s; is_pl := is_pl s; is_vo := is_vo s;
     xyz_mult := xyz_mult s; xyz_unit := xyz_unit s;
     axis_origin := axis_origin s; axis_u := axis_u s; axis_v := axis_v s;
     axis_w := axis_w s; vol_dims := vol_dims s; axis_min := axis_min s;
     axis_max := axis_max s; flags_array_length := flags_array_length s;
     flags_bit_length := flags_bit_length s;
     flags_bit_size := flags_bit_size s; flags_offset := flags_offset s;
     flags_file := flags_file s; region_dict := region_dict s;
     flags_dict := flags_dict s; np_filename := np_filename s;
     coord_sys_name := coord_sys_name s;
     usesDefaultCoords := usesDefaultCoords s; _vrtx_arr := _vrtx_arr s;
     _atom_arr := _atom_arr s; _trgl_arr := _trgl_arr s;
     _seg_arr := _seg_arr s; rgba_tup := rgba_tup s; bbox := bbox s |}.

Definition set_is_ts (v : bool) (s : GOCAD_VESSEL) : GOCAD_VESSEL :=
  {| STOP_ON_EXC := STOP_ON_EXC s; log_level := log_level s; log := log s;
     base_xyz := base_xyz s; group_name := group_name s;
     nondefault_coords := nondefault_coords s;
     header_name := header_name s; prop_dict := prop_dict s;
     invert_zaxis := invert_zaxis s; local_props := local_props s;
     is_ts := v; is_vs := is_vs s; is_pl := is_pl s; is_vo := is_vo s;
     xyz_mult := xyz_mult s; xyz_unit := xyz_unit s;
     axis_origin := axis_origin s; axis_u := axis_u s; axis_v := axis_v s;
     axis_w := axis_w s; vol_dims := vol_dims s; axis_min := axis_min s;
     axis_max := axis_max s; flags_array_length := flags_array_length s;
     flags_bit_length := flags_bit_length s;
     flags_bit_size := flags_bit_size s; flags_offset := flags_offset s;
     flags_file := flags_file s; region_dict := region_dict s;
     flags_dict := flags_dict s; np_filename := np_filename s;
     coord_sys_name := coord_sys_name s;
     usesDefaultCoords := usesDefaultCoords s; _vrtx_arr := _vrtx_arr s;
     _atom_arr := _atom_arr s; _trgl_arr := _trgl_arr s;
     _seg_arr := _seg_arr s; rgba_tup := rgba_tup s; bbox := bbox s |}.

Definition set_is_vs (v : bool) (s : GOCAD_VESSEL) : GOCAD_VESSEL :=
  {| STOP_ON_EXC := STOP_ON_EXC s; log_level := log_level s; log := log s;
     base_xyz := base_xyz s; group_name := group_name s;
     nondefault_coords := nondefault_coords s;
     header_name := header_name s; prop_dict := prop_dict s;
     invert_zaxis := invert_zaxis s; local_props := local_props s;
     is_ts := is_ts s; is_vs := v; is_pl := is_pl s; is_vo := is_vo s;
     xyz_mult := xyz_mult s; xyz_unit := xyz_unit s;
     axis_origin := axis_origin s; axis_u := axis_u s; axis_v := axis_v s;
     axis_w := axis_w s; vol_dims := vol_dims s; axis_min := axis_min s;
     axis_max := axis_max s; flags_array_length := flags_array_length s;
     flags_bit_length := flags_bit_length s;
     flags_bit_size := flags_bit_size s; flags_offset := flags_offset s;
     flags_file := flags_file s; region_dict := region_dict s;
     flags_dict := flags_dict s; np_filename := np_filename s;
     coord_sys_name := coord_sys_name s;
     usesDefaultCoords := usesDefaultCoords s; _vrtx_arr := _vrtx_arr s;
     _atom_arr := _atom_arr s; _trgl_arr := _trgl_arr s;
     _seg_arr := _seg_arr s; rgba_tup := rgba_tup s; bbox := bbox s |}.

Definition set_is_pl (v : bool) (s : GOCAD_VESSEL) : GOCAD_VESSEL :=
  {| STOP_ON_EXC := STOP_ON_EXC s; log_level := log_level s; log := log s;
     base_xyz := base_xyz s; group_name := group_name s;
     nondefault_coords := nondefault_coords s;
     header_name := header_name s; prop_dict := prop_dict s;
     invert_zaxis := invert_zaxis s; local_props := local_props s;
     is_ts := is_ts s; is_vs := is_vs s; is_pl := v; is_vo := is_vo s;
     xyz_mult := xyz_mult s; xyz_unit := xyz_unit s;
     axis_origin := axis_origin s; axis_u := axis_u s; axis_v := axis_v s;
     axis_w := axis_w s; vol_dims := vol_dims s; axis_min := axis_min s;
     axis_max := axis_max s; flags_array_length := flags_array_length s;
     flags_bit_length := flags_bit_length s;
     flags_bit_size := flags_bit_size s; flags_offset := flags_offset s;
     flags_file := flags_file s; region_dict := region_dict s;
     flags_dict := flags_dict s; np_filename := np_filename s;
     coord_sys_name := coord_sys_name s;
     usesDefaultCoords := usesDefaultCoords s; _vrtx_arr := _vrtx_arr s;
     _atom_arr := _atom_arr s; _trgl_arr := _trgl_arr s;
     _seg_arr := _seg_arr s; rgba_tup := rgba_tup s; bbox := bbox s |}.

Definition set_is_vo (v : bool) (s : GOCAD_VESSEL) : GOCAD_VESSEL :=
  {| STOP_ON_EXC := STOP_ON_EXC s; log_level := log_level s; log := log s;
     base_xyz := base_xyz s; group_name := group_name s;
     nondefault_coords := nondefault_coords s;
     header_name := header_name s; prop_dict := prop_dict s;
     invert_zaxis := invert_zaxis s; local_props := local_props s;
     is_ts := is_ts s; is_vs := is_vs s; is_pl := is_pl s; is_vo := v;
     xyz_mult := xyz_mult s; xyz_unit := xyz_unit s;
     axis_origin := axis_origin s; axis_u := axis_u s; axis_v := axis_v s;
     axis_w := axis_w s; vol_dims := vol_dims s; axis_min := axis_min s;
     axis_max := axis_max s; flags_array_length := flags_array_length s;
     flags_bit_length := flags_bit_length s;
     flags_bit_size := flags_bit_size s; flags_offset := flags_offset s;
     flags_file := flags_file s; region_dict := region_dict s;
     flags_dict := flags_dict s; np_filename := np_filename s;
     coord_sys_name := coord_sys_name s;
     usesDefaultCoords := usesDefaultCoords s; _vrtx_arr := _vrtx_arr s;
     _atom_arr := _atom_arr s; _trgl_arr := _trgl_arr s;
     _seg_arr := _seg_arr s; rgba_tup := rgba_tup s; bbox := bbox s |}.

Definition set_xyz_mult (v : coord) (s : GOCAD_VESSEL) : GOCAD_VESSEL :=
  {| STOP_ON_EXC := STOP_ON_EXC s; log_level := log_level s; log := log s;
     base_xyz := base_xyz s; group_name := group_name s;
     nondefault_coords := nondefault_coords s;
     header_name := header_name s; prop_dict := prop_dict s;
     invert_zaxis := invert_zaxis s; local_props := local_props s;
     is_ts := is_ts s; is_vs := is_vs s; is_pl := is_pl s;
     is_vo := is_vo s; xyz_mult := v; xyz_unit := xyz_unit s;
     axis_origin := axis_origin s; axis_u := axis_u s; axis_v := axis_v s;
     axis_w := axis_w s; vol_dims := vol_dims s; axis_min := axis_min s;
     axis_max := axis_max s; flags_array_length := flags_array_length s;
     flags_bit_length := flags_bit_length s;
     flags_bit_size := flags_bit_size s; flags_offset := flags_offset s;
     flags_file := flags_file s; region_dict := region_dict s;
     flags_dict := flags_dict s; np_filename := np_filename s;
     coord_sys_name := coord_sys_name s;
     usesDefaultCoords := usesDefaultCoords s; _vrtx_arr := _vrtx_arr s;
     _atom_arr := _atom_arr s; _trgl_arr := _trgl_arr s;
     _seg_arr := _seg_arr s; rgba_tup := rgba_tup s; bbox := bbox s |}.

Definition set_xyz_unit (v : option string * option string * option string)
  (s : GOCAD_VESSEL) : GOCAD_VESSEL :=
  {| STOP_ON_EXC := STOP_ON_EXC s; log_level := log_level s; log := log s;
     base_xyz := base_xyz s; group_name := group_name s;
     nondefault_coords := nondefault_coords s;
     header_name := header_name s; prop_dict := prop_dict s;
     invert_zaxis := invert_zaxis s; local_props := local_props s;
     is_ts := is_ts s; is_vs := is_vs s; is_pl := is_pl s;
     is_vo := is_vo s; xyz_mult := xyz_mult s; xyz_unit := v;
     axis_origin := axis_origin s; axis_u := axis_u s; axis_v := axis_v s;
     axis_w := axis_w s; vol_dims := vol_dims s; axis_min := axis_min s;
     axis_max := axis_max s; flags_array_length := flags_array_length s;
     flags_bit_length := flags_bit_length s;
     flags_bit_size := flags_bit_size s; flags_offset := flags_offset s;
     flags_file := flags_file s; region_dict := region_dict s;
     flags_dict := flags_dict s; np_filename := np_filename s;
     coord_sys_name := coord_sys_name s;
     usesDefaultCoords := usesDefaultCoords s; _vrtx_arr := _vrtx_arr s;
     _atom_arr := _atom_arr s; _trgl_arr := _trgl_arr s;
     _seg_arr := _seg_arr s; rgba_tup := rgba_tup s; bbox := bbox s |}.

Definition set_axis_origin (v : option coord)
  (s : GOCAD_VESSEL) : GOCAD_VESSEL :=
  {| STOP_ON_EXC := STOP_ON_EXC s; log_level := log_level s; log := log s;
     base_xyz := base_xyz s; group_name := group_name s;
     nondefault_coords := nondefault_coords s;
     header_name := header_name s; prop_dict := prop_dict s;
     invert_zaxis := invert_zaxis s; local_props := local_props s;
     is_ts := is_ts s; is_vs := is_vs s; is_pl := is_pl s;
     is_vo := is_vo s; xyz_mult := xyz_mult s; xyz_unit := xyz_unit s;
     axis_origin := v; axis_u := axis_u s; axis_v := axis_v s;
     axis_w := axis_w s; vol_dims := vol_dims s; axis_min := axis_min s;
     axis_max := axis_max s; flags_array_length := flags_array_length s;
     flags_bit_length := flags_bit_length s;
     flags_bit_size := flags_bit_size s; flags_offset := flags_offset s;
     flags_file := flags_file s; region_dict := region_dict s;
     flags_dict := flags_dict s; np_filename := np_filename s;
     coord_sys_name := coord_sys_name s;
     usesDefaultCoords := usesDefaultCoords s; _vrtx_arr := _vrtx_arr s;
     _atom_arr := _atom_arr s; _trgl_arr := _trgl_arr s;
     _seg_arr := _seg_arr s; rgba_tup := rgba_tup s; bbox := bbox s |}.

Definition set_axis_u (v : option coord) (s : GOCAD_VESSEL) : GOCAD_VESSEL :=
  {| STOP_ON_EXC := STOP_ON_EXC s; log_level := log_level s; log := log s;
     base_xyz := base_xyz s; group_name := group_name s;
     nondefault_coords := nondefault_coords s;
     header_name := header_name s; prop_dict := prop_dict s;
     invert_zaxis := invert_zaxis s; local_props := local_props s;
     is_ts := is_ts s; is_vs := is_vs s; is_pl := is_pl s;
     is_vo := is_vo s; xyz_mult := xyz_mult s; xyz_unit := xyz_unit s;
     axis_origin := axis_origin s; axis_u := v; axis_v := axis_v s;
     axis_w := axis_w s; vol_dims := vol_dims s; axis_min := axis_min s;
     axis_max := axis_max s; flags_array_length := flags_array_length s;
     flags_bit_length := flags_bit_length s;
     flags_bit_size := flags_bit_size s; flags_offset := flags_offset s;
     flags_file := flags_file s; region_dict := region_dict s;
     flags_dict := flags_dict s; np_filename := np_filename s;
     coord_sys_name := coord_sys_name s;
     usesDefaultCoords := usesDefaultCoords s; _vrtx_arr := _vrtx_arr s;
     _atom_arr := _atom_arr s; _trgl_arr := _trgl_arr s;
     _seg_arr := _seg_arr s; rgba_tup := rgba_tup s; bbox := bbox s |}.

Definition set_axis_v (v : option coord) (s : GOCAD_VESSEL) : GOCAD_VESSEL :=
  {| STOP_ON_EXC := STOP_ON_EXC s; log_level := log_level s; log := log s;
     base_xyz := base_xyz s; group_name := group_name s;
     nondefault_coords := nondefault_coords s;
     header_name := header_name s; prop_dict := prop_dict s;
     invert_zaxis := invert_zaxis s; local_props := local_props s;
     is_ts := is_ts s; is_vs := is_vs s; is_pl := is_pl s;
     is_vo := is_vo s; xyz_mult := xyz_mult s; xyz_unit := xyz_unit s;
     axis_origin := axis_origin s; axis_u := axis_u s; axis_v := v;
     axis_w := axis_w s; vol_dims := vol_dims s; axis_min := axis_min s;
     axis_max := axis_max s; flags_array_length := flags_array_length s;
     flags_bit_length := flags_bit_length s;
     flags_bit_size := flags_bit_size s; flags_offset := flags_offset s;
     flags_file := flags_file s; region_dict := region_dict s;
     flags_dict := flags_dict s; np_filename := np_filename s;
     coord_sys_name := coord_sys_name s;
     usesDefaultCoords := usesDefaultCoords s; _vrtx_arr := _vrtx_arr s;
     _atom_arr := _atom_arr s; _trgl_arr := _trgl_arr s;
     _seg_arr := _seg_arr s; rgba_tup := rgba_tup s; bbox := bbox s |}.

Definition set_axis_w (v : option coord) (s : GOCAD_VESSEL) : GOCAD_VESSEL :=
  {| STOP_ON_EXC := STOP_ON_EXC s; log_level := log_level s; log := log s;
     base_xyz := base_xyz s; group_name := group_name s;
     nondefault_coords := nondefault_coords s;
     header_name := header_name s; prop_dict := prop_dict s;
     invert_zaxis := invert_zaxis s; local_props := local_props s;
     is_ts := is_ts s; is_vs := is_vs s; is_pl := is_pl s;
     is_vo := is_vo s; xyz_mult := xyz_mult s; xyz_unit := xyz_unit s;
     axis_origin := axis_origin s; axis_u := axis_u s; axis_v := axis_v s;
     axis_w := v; vol_dims := vol_dims s; axis_min := axis_min s;
     axis_max := axis_max s; flags_array_length := flags_array_length s;
     flags_bit_length := flags_bit_length s;
     flags_bit_size := flags_bit_size s; flags_offset := flags_offset s;
     flags_file := flags_file s; region_dict := region_dict s;
     flags_dict := flags_dict s; np_filename := np_filename s;
     coord_sys_name := coord_sys_name s;
     usesDefaultCoords := usesDefaultCoords s; _vrtx_arr := _vrtx_arr s;
     _atom_arr := _atom_arr s; _trgl_arr := _trgl_arr s;
     _seg_arr := _seg_arr s; rgba_tup := rgba_tup s; bbox := bbox s |}.

Definition set_vol_dims (v : option (Z * Z * Z))
  (s : GOCAD_VESSEL) : GOCAD_VESSEL :=
  {| STOP_ON_EXC := STOP_ON_EXC s; log_level := log_level s; log := log s;
     base_xyz := base_xyz s; group_name := group_name s;
     nondefault_coords := nondefault_coords s;
     header_name := header_name s; prop_dict := prop_dict s;
     invert_zaxis := invert_zaxis s; local_props := local_props s;
     is_ts := is_ts s; is_vs := is_vs s; is_pl := is_pl s;
     is_vo := is_vo s; xyz_mult := xyz_mult s; xyz_unit := xyz_unit s;
     axis_origin := axis_origin s; axis_u := axis_u s; axis_v := axis_v s;
     axis_w := axis_w s; vol_dims := v; axis_min := axis_min s;
     axis_max := axis_max s; flags_array_length := flags_array_length s;
     flags_bit_length := flags_bit_length s;
     flags_bit_size := flags_bit_size s; flags_offset := flags_offset s;
     flags_file := flags_file s; region_dict := region_dict s;
     flags_dict := flags_dict s; np_filename := np_filename s;
     coord_sys_name := coord_sys_name s;
     usesDefaultCoords := usesDefaultCoords s; _vrtx_arr := _vrtx_arr s;
     _atom_arr := _atom_arr s; _trgl_arr := _trgl_arr s;
     _seg_arr := _seg_arr s; rgba_tup := rgba_tup s; bbox := bbox s |}.

Definition set_axis_min (v : option coord) (s : GOCAD_VESSEL) : GOCAD_VESSEL :=
  {| STOP_ON_EXC := STOP_ON_EXC s; log_level := log_level s; log := log s;
     base_xyz := base_xyz s; group_name := group_name s;
     nondefault_coords := nondefault_coords s;
     header_name := header_name s; prop_dict := prop_dict s;
     invert_zaxis := invert_zaxis s; local_props := local_props s;
     is_ts := is_ts s; is_vs := is_vs s; is_pl := is_pl s;
     is_vo := is_vo s; xyz_mult := xyz_mult s; xyz_unit := xyz_unit s;
     axis_origin := axis_origin s; axis_u := axis_u s; axis_v := axis_v s;
     axis_w := axis_w s; vol_dims := vol_dims s; axis_min := v;
     axis_max := axis_max s; flags_array_length := flags_array_length s;
     flags_bit_length := flags_bit_length s;
     flags_bit_size := flags_bit_size s; flags_offset := flags_offset s;
     flags_file := flags_file s; region_dict := region_dict s;
     flags_dict := flags_dict s; np_filename := np_filename s;
     coord_sys_name := coord_sys_name s;
     usesDefaultCoords := usesDefaultCoords s; _vrtx_arr := _vrtx_arr s;
     _atom_arr := _atom_arr s; _trgl_arr := _trgl_arr s;
     _seg_arr := _seg_arr s; rgba_tup := rgba_tup s; bbox := bbox s |}.

Definition set_axis_max (v : option coord) (s : GOCAD_VESSEL) : GOCAD_VESSEL :=
  {| STOP_ON_EXC := STOP_ON_EXC s; log_level := log_level s; log := log s;
     base_xyz := base_xyz s; group_name := group_name s;
     nondefault_coords := nondefault_coords s;
     header_name := header_name s; prop_dict := prop_dict s;
     invert_zaxis := invert_zaxis s; local_props := local_props s;
     is_ts := is_ts s; is_vs := is_vs s; is_pl := is_pl s;
     is_vo := is_vo s; xyz_mult := xyz_mult s; xyz_unit := xyz_unit s;
     axis_origin := axis_origin s; axis_u := axis_u s; axis_v := axis_v s;
     axis_w := axis_w s; vol_dims := vol_dims s; axis_min := axis_min s;
     axis_max := v; flags_array_length := flags_array_length s;
     flags_bit_length := flags_bit_length s;
     flags_bit_size := flags_bit_size s; flags_offset := flags_offset s;
     flags_file := flags_file s; region_dict := region_dict s;
     flags_dict := flags_dict s; np_filename := np_filename s;
     coord_sys_name := coord_sys_name s;
     usesDefaultCoords := usesDefaultCoords s; _vrtx_arr := _vrtx_arr s;
     _atom_arr := _atom_arr s; _trgl_arr := _trgl_arr s;
     _seg_arr := _seg_arr s; rgba_tup := rgba_tup s; bbox := bbox s |}.

Definition set_flags_array_length (v : Z) (s : GOCAD_VESSEL) : GOCAD_VESSEL :=
  {| STOP_ON_EXC := STOP_ON_EXC s; log_level := log_level s; log := log s;
     base_xyz := base_xyz s; group_name := group_name s;
     nondefault_coords := nondefault_coords s;
     header_name := header_name s; prop_dict := prop_dict s;
     invert_zaxis := invert_zaxis s; local_props := local_props s;
     is_ts := is_ts s; is_vs := is_vs s; is_pl := is_pl s;
     is_vo := is_vo s; xyz_mult := xyz_mult s; xyz_unit := xyz_unit s;
     axis_origin := axis_origin s; axis_u := axis_u s; axis_v := axis_v s;
     axis_w := axis_w s; vol_dims := vol_dims s; axis_min := axis_min s;
     axis_max := axis_max s; flags_array_length := v;
     flags_bit_length := flags_bit_length s;
     flags_bit_size := flags_bit_size s; flags_offset := flags_offset s;
     flags_file := flags_file s; region_dict := region_dict s;
     flags_dict := flags_dict s; np_filename := np_filename s;
     coord_sys_name := coord_sys_name s;
     usesDefaultCoords := usesDefaultCoords s; _vrtx_arr := _vrtx_arr s;
     _atom_arr := _atom_arr s; _trgl_arr := _trgl_arr s;
     _seg_arr := _seg_arr s; rgba_tup := rgba_tup s; bbox := bbox s |}.

Definition set_flags_bit_length (v : Z) (s : GOCAD_VESSEL) : GOCAD_VESSEL :=
  {| STOP_ON_EXC := STOP_ON_EXC s; log_level := log_level s; log := log s;
     base_xyz := base_xyz s; group_name := group_name s;
     nondefault_coords := nondefault_coords s;
     header_name := header_name s; prop_dict := prop_dict s;
     invert_zaxis := invert_zaxis s; local_props := local_props s;
     is_ts := is_ts s; is_vs := is_vs s; is_pl := is_pl s;
     is_vo := is_vo s; xyz_mult := xyz_mult s; xyz_unit := xyz_unit s;
     axis_origin := axis_origin s; axis_u := axis_u s; axis_v := axis_v s;
     axis_w := axis_w s; vol_dims := vol_dims s; axis_min := axis_min s;
     axis_max := axis_max s; flags_array_length := flags_array_length s;
     flags_bit_length := v; flags_bit_size := flags_bit_size s;
     flags_offset := flags_offset s; flags_file := flags_file s;
     region_dict := region_dict s; flags_dict := flags_dict s;
     np_filename := np_filename s; coord_sys_name := coord_sys_name s;
     usesDefaultCoords := usesDefaultCoords s; _vrtx_arr := _vrtx_arr s;
     _atom_arr := _atom_arr s; _trgl_arr := _trgl_arr s;
     _seg_arr := _seg_arr s; rgba_tup := rgba_tup s; bbox := bbox s |}.

Definition set_flags_bit_size (v : Z) (s : GOCAD_VESSEL) : GOCAD_VESSEL :=
  {| STOP_ON_EXC := STOP_ON_EXC s; log_level := log_level s; log := log s;
     base_xyz := base_xyz s; group_name := group_name s;
     nondefault_coords := nondefault_coords s;
     header_name := header_name s; prop_dict := prop_dict s;
     invert_zaxis := invert_zaxis s; local_props := local_props s;
     is_ts := is_ts s; is_vs := is_vs s; is_pl := is_pl s;
     is_vo := is_vo s; xyz_mult := xyz_mult s; xyz_unit := xyz_unit s;
     axis_origin := axis_origin s; axis_u := axis_u s; axis_v := axis_v s;
     axis_w := axis_w s; vol_dims := vol_dims s; axis_min := axis_min s;
     axis_max := axis_max s; flags_array_length := flags_array_length s;
     flags_bit_length := flags_bit_length s; flags_bit_size := v;
     flags_offset := flags_offset s; flags_file := flags_file s;
     region_dict := region_dict s; flags_dict := flags_dict s;
     np_filename := np_filename s; coord_sys_name := coord_sys_name s;
     usesDefaultCoords := usesDefaultCoords s; _vrtx_arr := _vrtx_arr s;
     _atom_arr := _atom_arr s; _trgl_arr := _trgl_arr s;
     _seg_arr := _seg_arr s; rgba_tup := rgba_tup s; bbox := bbox s |}.

Definition set_flags_offset (v : Z) (s : GOCAD_VESSEL) : GOCAD_VESSEL :=
  {| STOP_ON_EXC := STOP_ON_EXC s; log_level := log_level s; log := log s;
     base_xyz := base_xyz s; group_name := group_name s;
     nondefault_coords := nondefault_coords s;
     header_name := header_name s; prop_dict := prop_dict s;
     invert_zaxis := invert_zaxis s; local_props := local_props s;
     is_ts := is_ts s; is_vs := is_vs s; is_pl := is_pl s;
     is_vo := is_vo s; xyz_mult := xyz_mult s; xyz_unit := xyz_unit s;
     axis_origin := axis_origin s; axis_u := axis_u s; axis_v := axis_v s;
     axis_w := axis_w s; vol_dims := vol_dims s; axis_min := axis_min s;
     axis_max := axis_max s; flags_array_length := flags_array_length s;
     flags_bit_length := flags_bit_length s;
     flags_bit_size := flags_bit_size s; flags_offset := v;
     flags_file := flags_file s; region_dict := region_dict s;
     flags_dict := flags_dict s; np_filename := np_filename s;
     coord_sys_name := coord_sys_name s;
     usesDefaultCoords := usesDefaultCoords s; _vrtx_arr := _vrtx_arr s;
     _atom_arr := _atom_arr s; _trgl_arr := _trgl_arr s;
     _seg_arr := _seg_arr s; rgba_tup := rgba_tup s; bbox := bbox s |}.

Definition set_flags_file (v : string) (s : GOCAD_VESSEL) : GOCAD_VESSEL :=
  {| STOP_ON_EXC := STOP_ON_EXC s; log_level := log_level s; log := log s;
     base_xyz := base_xyz s; group_name := group_name s;
     nondefault_coords := nondefault_coords s;
     header_name := header_name s; prop_dict := prop_dict s;
     invert_zaxis := invert_zaxis s; local_props := local_props s;
     is_ts := is_ts s; is_vs := is_vs s; is_pl := is_pl s;
     is_vo := is_vo s; xyz_mult := xyz_mult s; xyz_unit := xyz_unit s;
     axis_origin := axis_origin s; axis_u := axis_u s; axis_v := axis_v s;
     axis_w := axis_w s; vol_dims := vol_dims s; axis_min := axis_min s;
     axis_max := axis_max s; flags_array_length := flags_array_length s;
     flags_bit_length := flags_bit_length s;
     flags_bit_size := flags_bit_size s; flags_offset := flags_offset s;
     flags_file := v; region_dict := region_dict s;
     flags_dict := flags_dict s; np_filename := np_filename s;
     coord_sys_name := coord_sys_name s;
     usesDefaultCoords := usesDefaultCoords s; _vrtx_arr := _vrtx_arr s;
     _atom_arr := _atom_arr s; _trgl_arr := _trgl_arr s;
     _seg_arr := _seg_arr s; rgba_tup := rgba_tup s; bbox := bbox s |}.

Definition set_region_dict (v : gmap string string)
  (s : GOCAD_VESSEL) : GOCAD_VESSEL :=
  {| STOP_ON_EXC := STOP_ON_EXC s; log_level := log_level s; log := log s;
     base_xyz := base_xyz s; group_name := group_name s;
     nondefault_coords := nondefault_coords s;
     header_name := header_name s; prop_dict := prop_dict s;
     invert_zaxis := invert_zaxis s; local_props := local_props s;
     is_ts := is_ts s; is_vs := is_vs s; is_pl := is_pl s;
     is_vo := is_vo s; xyz_mult := xyz_mult s; xyz_unit := xyz_unit s;
     axis_origin := axis_origin s; axis_u := axis_u s; axis_v := axis_v s;
     axis_w := axis_w s; vol_dims := vol_dims s; axis_min := axis_min s;
     axis_max := axis_max s; flags_array_length := flags_array_length s;
     flags_bit_length := flags_bit_length s;
     flags_bit_size := flags_bit_size s; flags_offset := flags_offset s;
     flags_file := flags_file s; region_dict := v;
     flags_dict := flags_dict s; np_filename := np_filename s;
     coord_sys_name := coord_sys_name s;
     usesDefaultCoords := usesDefaultCoords s; _vrtx_arr := _vrtx_arr s;
     _atom_arr := _atom_arr s; _trgl_arr := _trgl_arr s;
     _seg_arr := _seg_arr s; rgba_tup := rgba_tup s; bbox := bbox s |}.

Definition set_flags_dict (v : gmap (Z * Z * Z) string)
  (s : GOCAD_VESSEL) : GOCAD_VESSEL :=
  {| STOP_ON_EXC := STOP_ON_EXC s; log_level := log_level s; log := log s;
     base_xyz := base_xyz s; group_name := group_name s;
     nondefault_coords := nondefault_coords s;
     header_name := header_name s; prop_dict := prop_dict s;
     invert_zaxis := invert_zaxis s; local_props := local_props s;
     is_ts := is_ts s; is_vs := is_vs s; is_pl := is_pl s;
     is_vo := is_vo s; xyz_mult := xyz_mult s; xyz_unit := xyz_unit s;
     axis_origin := axis_origin s; axis_u := axis_u s; axis_v := axis_v s;
     axis_w := axis_w s; vol_dims := vol_dims s; axis_min := axis_min s;
     axis_max := axis_max s; flags_array_length := flags_array_length s;
     flags_bit_length := flags_bit_length s;
     flags_bit_size := flags_bit_size s; flags_offset := flags_offset s;
     flags_file := flags_file s; region_dict := region_dict s;
     flags_dict := v; np_filename := np_filename s;
     coord_sys_name := coord_sys_name s;
     usesDefaultCoords := usesDefaultCoords s; _vrtx_arr := _vrtx_arr s;
     _atom_arr := _atom_arr s; _trgl_arr := _trgl_arr s;
     _seg_arr := _seg_arr s; rgba_tup := rgba_tup s; bbox := bbox s |}.

Definition set_np_filename (v : string) (s : GOCAD_VESSEL) : GOCAD_VESSEL :=
  {| STOP_ON_EXC := STOP_ON_EXC s; log_level := log_level s; log := log s;
     base_xyz := base_xyz s; group_name := group_name s;
     nondefault_coords := nondefault_coords s;
     header_name := header_name s; prop_dict := prop_dict s;
     invert_zaxis := invert_zaxis s; local_props := local_props s;
     is_ts := is_ts s; is_vs := is_vs s; is_pl := is_pl s;
     is_vo := is_vo s; xyz_mult := xyz_mult s; xyz_unit := xyz_unit s;
     axis_origin := axis_origin s; axis_u := axis_u s; axis_v := axis_v s;
     axis_w := axis_w s; vol_dims := vol_dims s; axis_min := axis_min s;
     axis_max := axis_max s; flags_array_length := flags_array_length s;
     flags_bit_length := flags_bit_length s;
     flags_bit_size := flags_bit_size s; flags_offset := flags_offset s;
     flags_file := flags_file s; region_dict := region_dict s;
     flags_dict := flags_dict s; np_filename := v;
     coord_sys_name := coord_sys_name s;
     usesDefaultCoords := usesDefaultCoords s; _vrtx_arr := _vrtx_arr s;
     _atom_arr := _atom_arr s; _trgl_arr := _trgl_arr s;
     _seg_arr := _seg_arr s; rgba_tup := rgba_tup s; bbox := bbox s |}.

Definition set_coord_sys_name (v : string) (s : GOCAD_VESSEL) : GOCAD_VESSEL :=
  {| STOP_ON_EXC := STOP_ON_EXC s; log_level := log_level s; log := log s;
     base_xyz := base_xyz s; group_name := group_name s;
     nondefault_coords := nondefault_coords s;
     header_name := header_name s; prop_dict := prop_dict s;
     invert_zaxis := invert_zaxis s; local_props := local_props s;
     is_ts := is_ts s; is_vs := is_vs s; is_pl := is_pl s;
     is_vo := is_vo s; xyz_mult := xyz_mult s; xyz_unit := xyz_unit s;
     axis_origin := axis_origin s; axis_u := axis_u s; axis_v := axis_v s;
     axis_w := axis_w s; vol_dims := vol_dims s; axis_min := axis_min s;
     axis_max := axis_max s; flags_array_length := flags_array_length s;
     flags_bit_length := flags_bit_length s;
     flags_bit_size := flags_bit_size s; flags_offset := flags_offset s;
     flags_file := flags_file s; region_dict := region_dict s;
     flags_dict := flags_dict s; np_filename := np_filename s;
     coord_sys_name := v; usesDefaultCoords := usesDefaultCoords s;
     _vrtx_arr := _vrtx_arr s; _atom_arr := _atom_arr s;
     _trgl_arr := _trgl_arr s; _seg_arr := _seg_arr s;
     rgba_tup := rgba_tup s; bbox := bbox s |}.

Definition set_usesDefaultCoords (v : bool) (s : GOCAD_VESSEL) : GOCAD_VESSEL :=
  {| STOP_ON_EXC := STOP_ON_EXC s; log_level := log_level s; log := log s;
     base_xyz := base_xyz s; group_name := group_name s;
     nondefault_coords := nondefault_coords s;
     header_name := header_name s; prop_dict := prop_dict s;
     invert_zaxis := invert_zaxis s; local_props := local_props s;
     is_ts := is_ts s; is_vs := is_vs s; is_pl := is_pl s;
     is_vo := is_vo s; xyz_mult := xyz_mult s; xyz_unit := xyz_unit s;
     axis_origin := axis_origin s; axis_u := axis_u s; axis_v := axis_v s;
     axis_w := axis_w s; vol_dims := vol_dims s; axis_min := axis_min s;
     axis_max := axis_max s; flags_array_length := flags_array_length s;
     flags_bit_length := flags_bit_length s;
     flags_bit_size := flags_bit_size s; flags_offset := flags_offset s;
     flags_file := flags_file s; region_dict := region_dict s;
     flags_dict := flags_dict s; np_filename := np_filename s;
     coord_sys_name := coord_sys_name s; usesDefaultCoords := v;
     _vrtx_arr := _vrtx_arr s; _atom_arr := _atom_arr s;
     _trgl_arr := _trgl_arr s; _seg_arr := _seg_arr s;
     rgba_tup := rgba_tup s; bbox := bbox s |}.

Definition set_vrtx_arr (v : list VRTX) (s : GOCAD_VESSEL) : GOCAD_VESSEL :=
  {| STOP_ON_EXC := STOP_ON_EXC s; log_level := log_level s; log := log s;
     base_xyz := base_xyz s; group_name := group_name s;
     nondefault_coords := nondefault_coords s;
     header_name := header_name s; prop_dict := prop_dict s;
     invert_zaxis := invert_zaxis s; local_props := local_props s;
     is_ts := is_ts s; is_vs := is_vs s; is_pl := is_pl s;
     is_vo := is_vo s; xyz_mult := xyz_mult s; xyz_unit := xyz_unit s;
     axis_origin := axis_origin s; axis_u := axis_u s; axis_v := axis_v s;
     axis_w := axis_w s; vol_dims := vol_dims s; axis_min := axis_min s;
     axis_max := axis_max s; flags_array_length := flags_array_length s;
     flags_bit_length := flags_bit_length s;
     flags_bit_size := flags_bit_size s; flags_offset := flags_offset s;
     flags_file := flags_file s; region_dict := region_dict s;
     flags_dict := flags_dict s; np_filename := np_filename s;
     coord_sys_name := coord_sys_name s;
     usesDefaultCoords := usesDefaultCoords s; _vrtx_arr := v;
     _atom_arr := _atom_arr s; _trgl_arr := _trgl_arr s;
     _seg_arr := _seg_arr s; rgba_tup := rgba_tup s; bbox := bbox s |}.

Definition set_atom_arr (v : list ATOM) (s : GOCAD_VESSEL) : GOCAD_VESSEL :=
  {| STOP_ON_EXC := STOP_ON_EXC s; log_level := log_level s; log := log s;
     base_xyz := base_xyz s; group_name := group_name s;
     nondefault_coords := nondefault_coords s;
     header_name := header_name s; prop_dict := prop_dict s;
     invert_zaxis := invert_zaxis s; local_props := local_props s;
     is_ts := is_ts s; is_vs := is_vs s; is_pl := is_pl s;
     is_vo := is_vo s; xyz_mult := xyz_mult s; xyz_unit := xyz_unit s;
     axis_origin := axis_origin s; axis_u := axis_u s; axis_v := axis_v s;
     axis_w := axis_w s; vol_dims := vol_dims s; axis_min := axis_min s;
     axis_max := axis_max s; flags_array_length := flags_array_length s;
     flags_bit_length := flags_bit_length s;
     flags_bit_size := flags_bit_size s; flags_offset := flags_offset s;
     flags_file := flags_file s; region_dict := region_dict s;
     flags_dict := flags_dict s; np_filename := np_filename s;
     coord_sys_name := coord_sys_name s;
     usesDefaultCoords := usesDefaultCoords s; _vrtx_arr := _vrtx_arr s;
     _atom_arr := v; _trgl_arr := _trgl_arr s; _seg_arr := _seg_arr s;
     rgba_tup := rgba_tup s; bbox := bbox s |}.

Definition set_trgl_arr (v : list TRGL) (s : GOCAD_VESSEL) : GOCAD_VESSEL :=
  {| STOP_ON_EXC := STOP_ON_EXC s; log_level := log_level s; log := log s;
     base_xyz := base_xyz s; group_name := group_name s;
     nondefault_coords := nondefault_coords s;
     header_name := header_name s; prop_dict := prop_dict s;
     invert_zaxis := invert_zaxis s; local_props := local_props s;
     is_ts := is_ts s; is_vs := is_vs s; is_pl := is_pl s;
     is_vo := is_vo s; xyz_mult := xyz_mult s; xyz_unit := xyz_unit s;
     axis_origin := axis_origin s; axis_u := axis_u s; axis_v := axis_v s;
     axis_w := axis_w s; vol_dims := vol_dims s; axis_min := axis_min s;
     axis_max := axis_max s; flags_array_length := flags_array_length s;
     flags_bit_length := flags_bit_length s;
     flags_bit_size := flags_bit_size s; flags_offset := flags_offset s;
     flags_file := flags_file s; region_dict := region_dict s;
     flags_dict := flags_dict s; np_filename := np_filename s;
     coord_sys_name := coord_sys_name s;
     usesDefaultCoords := usesDefaultCoords s; _vrtx_arr := _vrtx_arr s;
     _atom_arr := _atom_arr s; _trgl_arr := v; _seg_arr := _seg_arr s;
     rgba_tup := rgba_tup s; bbox := bbox s |}.

Definition set_seg_arr (v : list SEG) (s : GOCAD_VESSEL) : GOCAD_VESSEL :=
  {| STOP_ON_EXC := STOP_ON_EXC s; log_level := log_level s; log := log s;
     base_xyz := base_xyz s; group_name := group_name s;
     nondefault_coords := nondefault_coords s;
     header_name := header_name s; prop_dict := prop_dict s;
     invert_zaxis := invert_zaxis s; local_props := local_props s;
     is_ts := is_ts s; is_vs := is_vs s; is_pl := is_pl s;
     is_vo := is_vo s; xyz_mult := xyz_mult s; xyz_unit := xyz_unit s;
     axis_origin := axis_origin s; axis_u := axis_u s; axis_v := axis_v s;
     axis_w := axis_w s; vol_dims := vol_dims s; axis_min := axis_min s;
     axis_max := axis_max s; flags_array_length := flags_array_length s;
     flags_bit_length := flags_bit_length s;
     flags_bit_size := flags_bit_size s; flags_offset := flags_offset s;
     flags_file := flags_file s; region_dict := region_dict s;
     flags_dict := flags_dict s; np_filename := np_filename s;
     coord_sys_name := coord_sys_name s;
     usesDefaultCoords := usesDefaultCoords s; _vrtx_arr := _vrtx_arr s;
     _atom_arr := _atom_arr s; _trgl_arr := _trgl_arr s; _seg_arr := v;
     rgba_tup := rgba_tup s; bbox := bbox s |}.

Definition set_rgba_tup (v : rgba) (s : GOCAD_VESSEL) : GOCAD_VESSEL :=
  {| STOP_ON_EXC := STOP_ON_EXC s; log_level := log_level s; log := log s;
     base_xyz := base_xyz s; group_name := group_name s;
     nondefault_coords := nondefault_coords s;
     header_name := header_name s; prop_dict := prop_dict s;
     invert_zaxis := invert_zaxis s; local_props := local_props s;
     is_ts := is_ts s; is_vs := is_vs s; is_pl := is_pl s;
     is_vo := is_vo s; xyz_mult := xyz_mult s; xyz_unit := xyz_unit s;
     axis_origin := axis_origin s; axis_u := axis_u s; axis_v := axis_v s;
     axis_w := axis_w s; vol_dims := vol_dims s; axis_min := axis_min s;
     axis_max := axis_max s; flags_array_length := flags_array_length s;
     flags_bit_length := flags_bit_length s;
     flags_bit_size := flags_bit_size s; flags_offset := flags_offset s;
     flags_file := flags_file s; region_dict := region_dict s;
     flags_dict := flags_dict s; np_filename := np_filename s;
     coord_sys_name := coord_sys_name s;
     usesDefaultCoords := usesDefaultCoords s; _vrtx_arr := _vrtx_arr s;
     _atom_arr := _atom_arr s; _trgl_arr := _trgl_arr s;
     _seg_arr := _seg_arr s; rgba_tup := v; bbox := bbox s |}.

Definition set_bbox (v : option (coord * coord))
  (s : GOCAD_VESSEL) : GOCAD_VESSEL :=
  {| STOP_ON_EXC := STOP_ON_EXC s; log_level := log_level s; log := log s;
     base_xyz := base_xyz s; group_name := group_name s;
     nondefault_coords := nondefault_coords s;
     header_name := header_name s; prop_dict := prop_dict s;
     invert_zaxis := invert_zaxis s; local_props := local_props s;
     is_ts := is_ts s; is_vs := is_vs s; is_pl := is_pl s;
     is_vo := is_vo s; xyz_mult := xyz_mult s; xyz_unit := xyz_unit s;
     axis_origin := axis_origin s; axis_u := axis_u s; axis_v := axis_v s;
     axis_w := axis_w s; vol_dims := vol_dims s; axis_min := axis_min s;
     axis_max := axis_max s; flags_array_length := flags_array_length s;
     flags_bit_length := flags_bit_length s;
     flags_bit_size := flags_bit_size s; flags_offset := flags_offset s;
     flags_file := flags_file s; region_dict := region_dict s;
     flags_dict := flags_dict s; np_filename := np_filename s;
     coord_sys_name := coord_sys_name s;
     usesDefaultCoords := usesDefaultCoords s; _vrtx_arr := _vrtx_arr s;
     _atom_arr := _atom_arr s; _trgl_arr := _trgl_arr s;
     _seg_arr := _seg_arr s; rgba_tup := rgba_tup s; bbox := v |}.

(** ** Control: exceptions, [sys.exit] and the vessel as state *)

Inductive exn :=
| ValueError | IndexError | OverflowError | KeyError | TypeError | IOError
| AttributeError.

Definition exn_eqb (a b : exn) : bool :=
  match a, b with
  | ValueError, ValueError | IndexError, IndexError
  | OverflowError, OverflowError | KeyError, KeyError
  | TypeError, TypeError | IOError, IOError
  | AttributeError, AttributeError => true
  | _, _ => false
  end.

(** How a computation ends: with a value, with a raised exception that
    nobody has caught yet, or with the process exiting. *)
Inductive result (A : Type) :=
| Ok (a : A) (s : GOCAD_VESSEL)
| Raised (e : exn) (s : GOCAD_VESSEL)
| Exited (code : Z) (s : GOCAD_VESSEL).
Arguments Ok {A} a s.
Arguments Raised {A} e s.
Arguments Exited {A} code s.

Definition M (A : Type) : Type := GOCAD_VESSEL -> result A.

(** The vessel a computation leaves behind, however it ends *)
Definition final {A} (r : result A) : GOCAD_VESSEL :=
  match r with Ok _ s | Raised _ s | Exited _ s => s end.

Definition ret {A} (a : A) : M A := fun s => Ok a s.

Definition bind {A B} (m : M A) (k : A -> M B) : M B :=
  fun s =>
    match m s with
    | Ok a s' => k a s'
    | Raised e s' => Raised e s'
    | Exited c s' => Exited c s'
    end.

Notation "'let*' x ':=' m 'in' k" := (bind m (fun x => k))
  (at level 10, x name, m at level 100, k at level 200, only parsing).
Notation "'let*' ' pat ':=' m 'in' k" :=
  (bind m (fun x => match x with pat => k end))
  (at level 10, pat pattern, m at level 100, k at level 200, only parsing).
Notation "m ;; k" := (bind m (fun _ => k))
  (at level 100, k at level 200, right associativity, only parsing).

Definition raise {A} (e : exn) : M A := fun s => Raised e s.
Definition sys_exit {A} (code : Z) : M A := fun s => Exited code s.
Definition get : M GOCAD_VESSEL := fun s => Ok s s.
Definition modify (f : GOCAD_VESSEL -> GOCAD_VESSEL) : M unit :=
  fun s => Ok tt (f s).

(** [try: m except (es) as exc: h exc] *)
Definition try_except {A} (m : M A) (es : list exn) (h : exn -> M A) : M A :=
  fun s =>
    match m s with
    | Raised e s' => if existsb (exn_eqb e) es then h e s' else Raised e s'
    | r => r
    end.

(** Lift a partial built-in: [None] raises [e]. *)
Definition or_raise {A} (e : exn) (o : option A) : M A :=
  match o with Some a => ret a | None => raise e end.

(** [arr[i]] *)
Definition item {A} (arr : list A) (i : nat) : M A :=
  or_raise IndexError (index arr i).

Definition py_int (s : string) : M Z := or_raise ValueError (int s).
Definition py_float (s : string) : M float :=
  or_raise ValueError (float_of_string s).

(** [for x in xs: body x] *)
Fixpoint for_each {A} (xs : list A) (body : A -> M unit) : M unit :=
  match xs with
  | [] => ret tt
  | x :: xs' => body x ;; for_each xs' body
  end.

(** ** Logging *)

Definition emit (o : output) : M unit :=
  modify (fun s => set_log (log s ++ [o]) s).

Definition logger_log (level : Z) (msg : string) : M unit :=
  let* s := get in
  if log_level s <=? level then emit (Logged level msg) else ret tt.

Definition logger_debug := logger_log DEBUG.
Definition logger_info := logger_log INFO.
Definition logger_warning := logger_log WARNING.
Definition logger_error := logger_log ERROR.
Definition print (msg : string) : M unit := emit (Printed msg).

(** The vessel after a logging call *)
Definition logged (level : Z) (msg : string) (s : GOCAD_VESSEL)
  : GOCAD_VESSEL :=
  final (logger_log level msg s).

(** ** Small helpers *)

Definition zero : float := float_of_Z 0.
Definition one : float := float_of_Z 1.

Definition str_in (s : string) (l : list string) : bool :=
  existsb (String.eqb s) l.

(** A value handed to the float scanner: a token of text, or a number
    already decoded from a binary file. *)
Inductive pyval :=
| PyStr (s : string)
| PyNum (x : float).

Definition pyval_in (v : pyval) (l : list string) : bool :=
  match v with PyStr s => str_in s l | PyNum _ => false end.

(** [float(v)] *)
Definition to_float (v : pyval) : M float :=
  match v with PyStr s => py_float s | PyNum x => ret x end.

(** ** [GOCAD_VESSEL.__handle_exc] *)

Definition exn_name (e : exn) : string :=
  match e with
  | ValueError => "ValueError" | IndexError => "IndexError"
  | OverflowError => "OverflowError" | KeyError => "KeyError"
  | TypeError => "TypeError" | IOError => "IOError"
  | AttributeError => "AttributeError"
  end.

Definition handle_exc (exc : exn) : M unit :=
  let* s := get in
  if (log_level s =? DEBUG) || STOP_ON_EXC s then
    if STOP_ON_EXC s then
      print "DEBUG MODE: CAUGHT EXCEPTION:" ;;
      print (exn_name exc) ;;
      print "traceback" ;;
      sys_exit 1
    else
      logger_debug "DEBUG MODE: CAUGHT EXCEPTION:" ;;
      logger_debug (exn_name exc) ;;
      logger_debug "traceback" ;;
      sys_exit 1
  else ret tt.

(** ** [GOCAD_VESSEL.__parse_float] *)

Definition parse_float (fp_str : pyval) (null_val : option float)
  : M (bool * float) :=
  logger_debug "fp_str = %s" ;;
  if pyval_in fp_str ["1.#INF"; "INF"] then ret (true, float_max)
  else if pyval_in fp_str ["-1.#INF"; "-INF"] then ret (true, fneg float_max)
  else
    try_except
      (let* fp := to_float fp_str in
       match null_val with
       | Some nv => if feqb fp nv then ret (false, nv) else ret (true, fp)
       | None => ret (true, fp)
       end)
      [OverflowError; ValueError]
      (fun exc => handle_exc exc ;; ret (false, zero)).

(** ** [GOCAD_VESSEL.__parse_int]

    [None] is the pair [(False, null_val)] of the source (its callers
    leave [null_val] at [None]), [Some n] the pair [(True, n)]. *)
Definition parse_int (int_str : string) : M (option Z) :=
  try_except
    (let* num := py_int int_str in ret (Some num))
    [OverflowError; ValueError]
    (fun exc => handle_exc exc ;; ret None).

(** ** The geometry store of the base class *)

Definition fmin2 (a b : float) : float := if fltb b a then b else a.
Definition fmax2 (a b : float) : float := if fltb a b then b else a.

(** Modelled from the spec: [MODEL_GEOMETRIES._calc_minmax] is not in the
    sources at hand; the spec has it accumulate the overall spatial
    bounding box of the points it is given. *)
Definition _calc_minmax (x y z : float) : M unit :=
  modify (fun s =>
    set_bbox
      (Some match bbox s with
            | None => ((x, y, z), (x, y, z))
            | Some ((x0, y0, z0), (x1, y1, z1)) =>
                ((fmin2 x0 x, fmin2 y0 y, fmin2 z0 z),
                 (fmax2 x1 x, fmax2 y1 y, fmax2 z1 z))
            end) s).

(** Modelled from the spec: [MODEL_GEOMETRIES._check_vertex] is not in
    the sources at hand; the spec requires that the referenced vertex
    already exists in the coordinate store, that is, that some vertex
    parsed so far carries the sequence number. *)
Definition _check_vertex (s : GOCAD_VESSEL) (num : Z) : bool :=
  existsb (fun v => vrtx_n v =? num) (_vrtx_arr s).

(** ** [GOCAD_VESSEL.__parse_XYZ]

    The source function is called with the constant [is_float] either
    [True] or [False]; the two branches are given separately.  [None] is
    the tuple [(False, None, None, None)], [Some (x, y, z)] the tuple
    [(True, x, y, z)]. *)
Definition parse_XYZ_float (x_str y_str z_str : string)
  (do_minmax convert : bool) : M (option coord) :=
  let* '(converted1, x) := parse_float (PyStr x_str) None in
  let* '(converted2, y) := parse_float (PyStr y_str) None in
  let* '(converted3, z) := parse_float (PyStr z_str) None in
  if negb converted1 || negb converted2 || negb converted3 then ret None
  else
    let* s := get in
    let '(mx, my, mz) := xyz_mult s in
    let '(x, y, z) :=
      if convert then (fmul x mx, fmul y my, fmul z mz) else (x, y, z) in
    (if do_minmax then _calc_minmax x y z else ret tt) ;;
    ret (Some (x, y, z)).

(** Every call with [is_float = False] passes [do_minmax = False]; the
    unit conversion only applies to floats. *)
Definition parse_XYZ_int (x_str y_str z_str : string) : M (option (Z * Z * Z)) :=
  try_except
    (let* x := py_int x_str in
     let* y := py_int y_str in
     let* z := py_int z_str in
     ret (Some (x, y, z)))
    [OverflowError; ValueError]
    (fun exc => handle_exc exc ;; ret None).

(** ** [GOCAD_VESSEL.make_vertex_dict] *)

Fixpoint number_vertices (vs : list VRTX) (idx : nat) (d : gmap Z nat)
  : gmap Z nat :=
  match vs with
  | [] => d
  | v :: vs' => number_vertices vs' (S idx) (<[vrtx_n v := idx]> d)
  end.

Fixpoint first_vertex (vs : list VRTX) (num : Z) (idx : nat) : option nat :=
  match vs with
  | [] => None
  | vert :: vs' =>
      if vrtx_n vert =? num then Some idx else first_vertex vs' num (S idx)
  end.

Definition make_vertex_dict (s : GOCAD_VESSEL) : gmap Z nat :=
  fold_left
    (fun d atom =>
       match first_vertex (_vrtx_arr s) (atom_v atom) 1 with
       | Some idx => <[atom_n atom := idx]> d
       | None => d
       end)
    (_atom_arr s)
    (number_vertices (_vrtx_arr s) 1 ∅).

(** ** Iterating over [local_props.values()]

    The body receives the property object and the loop-carried value and
    returns the object as it leaves it; the object is written back at its
    place before the next iteration. *)
Fixpoint loop_local_props {A} (todo : list (string * PROPS)) (i : nat)
  (acc : A) (body : A -> PROPS -> M (PROPS * A)) : M A :=
  match todo with
  | [] => ret acc
  | (k, prop_obj) :: todo' =>
      let* '(prop_obj', acc') := body acc prop_obj in
      modify (fun s =>
        set_local_props (<[i := (k, prop_obj')]> (local_props s)) s) ;;
      loop_local_props todo' (S i) acc' body
  end.

Definition for_local_props {A} (acc : A)
  (body : A -> PROPS -> M (PROPS * A)) : M A :=
  let* s := get in loop_local_props (local_props s) 0 acc body.

(** [prop_obj.data[coord_tup] = v] *)
Definition data_set (prop_obj : PROPS) (coord_tup : coord) (v : prop_value)
  : M PROPS :=
  match data prop_obj with
  | PointData d =>
      ret (set_data (PointData (dict_set coord_eqb d coord_tup v)) prop_obj)
  | VoxelData _ _ _ _ => raise IndexError
  end.

(** ** [GOCAD_VESSEL.__parse_props] *)

Definition is_control_node (fp_str : string) : bool :=
  String.eqb (upper (slice_to 2 fp_str)) "CN".

(** The token of the next property value: a control node in its place is
    skipped. *)
Definition prop_token (splitstr_arr : list string) (col_idx : nat)
  : M (nat * string) :=
  let* fp_str := item splitstr_arr col_idx in
  if is_control_node fp_str then
    let* fp_str := item splitstr_arr (col_idx + 1) in
    ret ((col_idx + 1)%nat, fp_str)
  else ret (col_idx, fp_str).

(** The body of [for prop_obj in self.local_props.values():] *)
Definition parse_props_body (splitstr_arr : list string) (coord_tup : coord)
  (col_idx : nat) (prop_obj : PROPS) : M (PROPS * nat) :=
  if data_sz prop_obj =? 1 then
    let* '(col_idx, fp_str) := prop_token splitstr_arr col_idx in
    let* '(converted, fp) :=
      parse_float (PyStr fp_str) (no_data_marker prop_obj) in
    let* prop_obj :=
      if converted then
        let* p := data_set prop_obj coord_tup (Scalar fp) in
        logger_debug "prop_obj.data[%s] = %f" ;; ret p
      else ret prop_obj in
    ret (prop_obj, (col_idx + 1)%nat)
  else if data_sz prop_obj =? 3 then
    let* '(col_idx, fp_strX) := prop_token splitstr_arr col_idx in
    let* fp_strY := item splitstr_arr (col_idx + 1) in
    let* fp_strZ := item splitstr_arr (col_idx + 2) in
    let* '(convertedX, fpX) :=
      parse_float (PyStr fp_strX) (no_data_marker prop_obj) in
    let* '(convertedY, fpY) :=
      parse_float (PyStr fp_strY) (no_data_marker prop_obj) in
    let* '(convertedZ, fpZ) :=
      parse_float (PyStr fp_strZ) (no_data_marker prop_obj) in
    let* prop_obj :=
      if convertedZ && convertedY && convertedX then
        let* p := data_set prop_obj coord_tup (Vector3 fpX fpY fpZ) in
        logger_debug "prop_obj.data[%s] = (%f,%f,%f)" ;; ret p
      else ret prop_obj in
    ret (prop_obj, (col_idx + 3)%nat)
  else
    logger_error "ERROR - Cannot process property size of != 3 and !=1: %d %s" ;;
    sys_exit 1.

Definition parse_props (splitstr_arr : list string) (coord_tup : coord)
  (is_patom : bool) : M unit :=
  (* PATOM properties start at the 4th column, PVRTX ones at the 6th *)
  let col_idx := if is_patom then 3%nat else 5%nat in
  for_local_props col_idx (parse_props_body splitstr_arr coord_tup) ;;
  ret tt.

(** ** [GOCAD_VESSEL.__setType] *)

Definition GOCAD_HEADERS : list (string * list string) :=
  [ ("TS", ["GOCAD TSURF 1"]);
    ("VS", ["GOCAD VSET 1"]);
    ("PL", ["GOCAD PLINE 1"]);
    ("GP", ["GOCAD HETEROGENEOUSGROUP 1"; "GOCAD HOMOGENEOUSGROUP 1"]);
    ("VO", ["GOCAD VOXET 1"]) ].

Definition headers_of (key : string) : list string :=
  match dict_get String.eqb GOCAD_HEADERS key with
  | Some l => l
  | None => []
  end.

(** The member type of a group file: the first key other than [GP]
    whose signatures contain the first line. *)
Fixpoint find_member (hs : list (string * list string)) (firstLineStr : string)
  : option string :=
  match hs with
  | [] => None
  | (key, sigs) :: hs' =>
      if negb (String.eqb key "GP") && str_in firstLineStr sigs then Some key
      else find_member hs' firstLineStr
  end.

Definition setType (fileExt firstLineStr : string) : M bool :=
  logger_debug "setType(%s,%s)" ;;
  let ext_str := upper (lstrip_chars "." fileExt) in
  (* Look for other GOCAD file types within a group file *)
  let found :=
    if String.eqb ext_str "GP" then find_member GOCAD_HEADERS firstLineStr
    else Some ext_str in
  match found with
  | None => ret false
  | Some ext_str =>
      if dict_mem String.eqb GOCAD_HEADERS ext_str then
        if String.eqb ext_str "TS" && str_in firstLineStr (headers_of "TS")
        then modify (set_is_ts true) ;; ret true
        else if String.eqb ext_str "VS" && str_in firstLineStr (headers_of "VS")
        then modify (set_is_vs true) ;; ret true
        else if String.eqb ext_str "PL" && str_in firstLineStr (headers_of "PL")
        then modify (set_is_pl true) ;; ret true
        else if String.eqb ext_str "VO" && str_in firstLineStr (headers_of "VO")
        then modify (set_is_vo true) ;; ret true
        else ret false
      else ret false
  end.

(** ** [GOCAD_VESSEL.__parse_property_header] *)

(** One step of the colour-table loop: entry [idx] of [lut_arr] is the
    colour index, the next three are its RGB floats. *)
Definition colour_entry (lut_arr : list string) (idx : nat) (prop_obj : PROPS)
  : M PROPS :=
  try_except
    (let* s1 := item lut_arr (idx + 1) in
     let* r := py_float s1 in
     let* s2 := item lut_arr (idx + 2) in
     let* g := py_float s2 in
     let* s3 := item lut_arr (idx + 3) in
     let* b := py_float s3 in
     let* s0 := item lut_arr idx in
     let* k := py_int s0 in
     logger_debug "prop_obj.colour_map = %s" ;;
     ret (set_colour_map (<[k := (r, g, b)]> (colour_map prop_obj)) prop_obj))
    [IndexError; OverflowError; ValueError]
    (fun exc => handle_exc exc ;; ret prop_obj).

Fixpoint colour_loop (n : nat) (lut_arr : list string) (idx : nat)
  (prop_obj : PROPS) : M PROPS :=
  match n with
  | O => ret prop_obj
  | S n' =>
      let* prop_obj := colour_entry lut_arr idx prop_obj in
      colour_loop n' lut_arr (idx + 4) prop_obj
  end.

Definition parse_property_header (prop_obj : PROPS) (line_str : string)
  : M PROPS :=
  let '(name_str, _, value_str) := partition ":" line_str in
  let name_str := strip name_str in
  let value_str := strip value_str in
  if String.eqb name_str "*COLORMAP*SIZE" then
    logger_debug "colourmap-size %s" ;; ret prop_obj
  else if String.eqb name_str "*COLORMAP*NBCOLORS" then
    logger_debug "numcolours %s" ;; ret prop_obj
  else if String.eqb name_str "HIGH_CLIP" then
    logger_debug "highclip %s" ;; ret prop_obj
  else if String.eqb name_str "LOW_CLIP" then
    logger_debug "lowclip %s" ;; ret prop_obj
  else if String.eqb name_str "COLORMAP" then
    logger_debug "prop_obj.colourmap_name = %s" ;;
    ret (set_colourmap_name value_str prop_obj)
  else if String.eqb name_str
            (String.append "*COLORMAP*"
               (String.append (colourmap_name prop_obj) "*COLORS")) then
    let lut_arr := split_on " " value_str in
    (* range(0, len(lut_arr), 4) *)
    colour_loop ((length lut_arr + 3) / 4)%nat lut_arr 0 prop_obj
  else ret prop_obj.

(** ** The local variables of [process_gocad] *)

Record locals := {
  firstLine : bool;
  inHeader : bool;
  inCoord : bool;
  inPropClassHeader : bool;
  inLocalPropClassHeader : bool;
  propClassIndex : string;
  seq_no : Z;
  seq_no_prev : Z
}.

Definition init_locals : locals :=
  {| firstLine := true; inHeader := false; inCoord := false;
     inPropClassHeader := false; inLocalPropClassHeader := false;
     propClassIndex := ""; seq_no := 0; seq_no_prev := -1 |}.

Definition set_firstLine (v : bool) (l : locals) : locals :=
  {| firstLine := v; inHeader := inHeader l; inCoord := inCoord l;
     inPropClassHeader := inPropClassHeader l;
     inLocalPropClassHeader := inLocalPropClassHeader l;
     propClassIndex := propClassIndex l; seq_no := seq_no l;
     seq_no_prev := seq_no_prev l |}.

Definition set_inHeader (v : bool) (l : locals) : locals :=
  {| firstLine := firstLine l; inHeader := v; inCoord := inCoord l;
     inPropClassHeader := inPropClassHeader l;
     inLocalPropClassHeader := inLocalPropClassHeader l;
     propClassIndex := propClassIndex l; seq_no := seq_no l;
     seq_no_prev := seq_no_prev l |}.

Definition set_inCoord (v : bool) (l : locals) : locals :=
  {| firstLine := firstLine l; inHeader := inHeader l; inCoord := v;
     inPropClassHeader := inPropClassHeader l;
     inLocalPropClassHeader := inLocalPropClassHeader l;
     propClassIndex := propClassIndex l; seq_no := seq_no l;
     seq_no_prev := seq_no_prev l |}.

Definition set_inPropClassHeader (v : bool) (l : locals) : locals :=
  {| firstLine := firstLine l; inHeader := inHeader l; inCoord := inCoord l;
     inPropClassHeader := v;
     inLocalPropClassHeader := inLocalPropClassHeader l;
     propClassIndex := propClassIndex l; seq_no := seq_no l;
     seq_no_prev := seq_no_prev l |}.

Definition set_inLocalPropClassHeader (v : bool) (l : locals) : locals :=
  {| firstLine := firstLine l; inHeader := inHeader l; inCoord := inCoord l;
     inPropClassHeader := inPropClassHeader l;
     inLocalPropClassHeader := v;
     propClassIndex := propClassIndex l; seq_no := seq_no l;
     seq_no_prev := seq_no_prev l |}.

Definition set_propClassIndex (v : string) (l : locals) : locals :=
  {| firstLine := firstLine l; inHeader := inHeader l; inCoord := inCoord l;
     inPropClassHeader := inPropClassHeader l;
     inLocalPropClassHeader := inLocalPropClassHeader l;
     propClassIndex := v; seq_no := seq_no l;
     seq_no_prev := seq_no_prev l |}.

Definition set_seq_no (v : Z) (l : locals) : locals :=
  {| firstLine := firstLine l; inHeader := inHeader l; inCoord := inCoord l;
     inPropClassHeader := inPropClassHeader l;
     inLocalPropClassHeader := inLocalPropClassHeader l;
     propClassIndex := propClassIndex l; seq_no := v;
     seq_no_prev := seq_no_prev l |}.

Definition set_seq_no_prev (v : Z) (l : locals) : locals :=
  {| firstLine := firstLine l; inHeader := inHeader l; inCoord := inCoord l;
     inPropClassHeader := inPropClassHeader l;
     inLocalPropClassHeader := inLocalPropClassHeader l;
     propClassIndex := propClassIndex l; seq_no := seq_no l;
     seq_no_prev := v |}.

(** What one line does to the loop: go on with the next line, or leave
    [process_gocad] with a return value. *)
Inductive ctl :=
| Continue (lc : locals)
| Return (b : bool).

(** ** Tokenising a line *)

Definition dquote : ascii := "034"%char.
Definition line_end_chars : string :=
  String " " (String "010" (String "013" EmptyString)).

(** The loop over double-quoted substrings: the blanks inside the first
    quoted pair become underscores, and the pair of quotes goes. *)
Fixpoint join_quoted (fuel : nat) (line_str : string) : string :=
  match fuel with
  | O => line_str
  | S fuel' =>
      if (2 <=? count dquote line_str)%nat then
        let '(before0, _, before2) := partition dquote line_str in
        let '(after0, _, after2) := partition dquote before2 in
        join_quoted fuel'
          (String.append before0
             (String.append " "
                (String.append (replace " " "_" (strip_chars " " after0))
                   (String.append " " after2))))
      else line_str
  end.

Definition line_str_of (line : string) : string :=
  let line_str := upper (rstrip_chars line_end_chars line) in
  join_quoted (count dquote line_str) line_str.

Definition splitstr_arr_raw_of (line : string) : list string :=
  split (rstrip_chars line_end_chars line).

Definition splitstr_arr_of (line : string) : list string :=
  split (line_str_of line).

(** ** The branches of the text loop of [process_gocad] *)

Definition white : rgba := (one, one, one, one).

(** [float(int(value_str[i:j], 16)) / 255.0] *)
Definition hex_channel (value_str : string) (i j : nat) : M float :=
  let* n := or_raise ValueError (int16 (slice i j value_str)) in
  ret (fdiv (float_of_Z n) (float_of_Z 255)).

(** The body of the [try] statement of the colour keys of the header *)
Definition colour_try (value_str : string) : M unit :=
  let* c0 := or_raise IndexError (String.get 0 value_str) in
  if negb (Ascii.eqb c0 "#") then
    let rgbsplit_arr := split_on " " value_str in
    if (length rgbsplit_arr =? 3)%nat then
      let* s0 := item rgbsplit_arr 0 in
      let* r := py_float s0 in
      let* s1 := item rgbsplit_arr 1 in
      let* g := py_float s1 in
      let* s2 := item rgbsplit_arr 2 in
      let* b := py_float s2 in
      modify (set_rgba_tup (r, g, b, one))
    else if (length rgbsplit_arr =? 4)%nat then
      let* s0 := item rgbsplit_arr 0 in
      let* r := py_float s0 in
      let* s1 := item rgbsplit_arr 1 in
      let* g := py_float s1 in
      let* s2 := item rgbsplit_arr 2 in
      let* b := py_float s2 in
      let* s3 := item rgbsplit_arr 3 in
      let* a := py_float s3 in
      modify (set_rgba_tup (r, g, b, a))
    else logger_debug "Could not parse colour %s"
  else
    let* r := hex_channel value_str 1 3 in
    let* g := hex_channel value_str 3 5 in
    let* b := hex_channel value_str 5 7 in
    modify (set_rgba_tup (r, g, b, one)).

(** The [try] statement itself *)
Definition parse_colour (value_str : string) : M unit :=
  try_except (colour_try value_str)
    [ValueError; OverflowError; IndexError]
    (fun exc => handle_exc exc ;; modify (set_rgba_tup white)).

Definition is_colour_key (name_str : string) : bool :=
  String.eqb name_str "*SOLID*COLOR" || String.eqb name_str "*ATOMS*COLOR".

(** [elif inHeader:] *)
Definition do_header (line_str : string) : M unit :=
  let '(name_str, _, value_str) := partition ":" line_str in
  let name_str := strip name_str in
  let value_str := strip value_str in
  logger_debug "inHeader name_str = %s value_str = %s" ;;
  (if is_colour_key name_str then
     parse_colour value_str ;;
     logger_debug "self.rgba_tup = %s"
   else ret tt) ;;
  if String.eqb name_str "NAME" then
    modify (set_header_name (replace "/" "-" value_str)) ;;
    logger_debug "self.header_name = %s"
  else ret tt.

(** [elif inCoord and splitstr_arr[0] == "NAME":] *)
Definition do_coord_name (lc : locals) (splitstr_arr : list string) : M ctl :=
  let* name := item splitstr_arr 1 in
  modify (set_coord_sys_name name) ;;
  if negb (String.eqb name "DEFAULT") then
    modify (set_usesDefaultCoords false) ;;
    logger_debug "usesDefaultCoords False" ;;
    let* s := get in
    if negb (nondefault_coords s) then
      logger_warning "SORRY - Does not support non-DEFAULT coordinates: %s" ;;
      logger_debug "process_gocad() return False" ;;
      ret (Return false)
    else ret (Continue lc)
  else ret (Continue lc).

(** [elif splitstr_arr[0] == "PROPERTY_CLASS_HEADER":] *)
Definition do_property_class_header (lc : locals) (splitstr_arr : list string)
  : M locals :=
  let* idx := item splitstr_arr 1 in
  let lc := set_propClassIndex idx lc in
  let* t2 := item splitstr_arr 2 in
  let* lc :=
    if String.eqb t2 "{" then ret (set_inLocalPropClassHeader true lc)
    else
      let* t3 := item splitstr_arr 3 in
      if String.eqb t3 "{" then
        modify (fun s =>
          if dict_mem String.eqb (prop_dict s) idx then s
          else set_prop_dict
                 (dict_set String.eqb (prop_dict s) idx (new_PROPS t2)) s) ;;
        ret (set_inPropClassHeader true lc)
      else
        logger_error "ERROR - Cannot parse property header" ;;
        sys_exit 1 in
  logger_debug "inPropClassHeader = %s" ;;
  ret lc.

(** [self.prop_dict[key]] and an assignment to one of its attributes *)
Definition get_prop (key : string) : M PROPS :=
  let* s := get in or_raise KeyError (dict_get String.eqb (prop_dict s) key).

Definition update_prop (key : string) (f : PROPS -> PROPS) : M unit :=
  let* p := get_prop key in
  modify (fun s =>
    set_prop_dict (dict_set String.eqb (prop_dict s) key (f p)) s).

(** [elif inPropClassHeader:] *)
Definition do_in_prop_class_header (lc : locals) (t0 line_str : string)
  : M locals :=
  if String.eqb t0 "}" then
    logger_debug "inPropClassHeader = %s" ;;
    ret (set_propClassIndex "" (set_inPropClassHeader false lc))
  else
    let* p := get_prop (propClassIndex lc) in
    let* p' := parse_property_header p line_str in
    modify (fun s =>
      set_prop_dict
        (dict_set String.eqb (prop_dict s) (propClassIndex lc) p') s) ;;
    ret lc.

(** [elif inLocalPropClassHeader:] *)
Definition do_in_local_prop_class_header (lc : locals) (t0 line_str : string)
  : M locals :=
  if String.eqb t0 "}" then
    logger_debug "inLocalPropClassHeader = %s" ;;
    ret (set_propClassIndex "" (set_inLocalPropClassHeader false lc))
  else
    let* s := get in
    match dict_get String.eqb (local_props s) (propClassIndex lc) with
    | Some p =>
        let* p' := parse_property_header p line_str in
        modify (fun s =>
          set_local_props
            (dict_set String.eqb (local_props s) (propClassIndex lc) p') s) ;;
        ret lc
    | None => ret lc
    end.

Definition set3 {A} (idx : nat) (v : A) (t : A * A * A) : A * A * A :=
  let '(a, b, c) := t in
  match idx with
  | O => (v, b, c)
  | S O => (a, v, c)
  | _ => (a, b, v)
  end.

(** [elif splitstr_arr[0] == "AXIS_UNIT":] *)
Definition do_axis_unit (splitstr_arr : list string) : M unit :=
  for_each [0; 1; 2]%nat (fun idx =>
    let* t := item splitstr_arr (idx + 1) in
    let unit_str :=
      strip_chars "'" (strip_chars " " (strip_by (Ascii.eqb dquote) t)) in
    if String.eqb unit_str "KM" then
      modify (fun s => set_xyz_mult (set3 idx (float_of_Z 1000) (xyz_mult s)) s)
    else if negb (str_in unit_str ["M"; "UNITLESS"; "NUMBER"; "MS"]) then
      logger_warning "WARNING - nonstandard units in 'AXIS_UNIT' "
    else
      modify (fun s => set_xyz_unit (set3 idx (Some unit_str) (xyz_unit s)) s)).

(** [elif splitstr_arr[0] == "PROPERTIES":] and ["PROPERTY_CLASSES"] *)
Definition do_properties (splitstr_arr : list string) (msg : string) : M unit :=
  (let* s := get in
   if (length (local_props s) =? 0)%nat then
     for_each (tl splitstr_arr) (fun class_name =>
       modify (fun s =>
         set_local_props
           (dict_set String.eqb (local_props s) class_name
              (new_PROPS class_name)) s))
   else ret tt) ;;
  logger_debug msg.

(** [elif splitstr_arr[0] == "ESIZES":] *)
Definition do_esizes (splitstr_arr : list string) : M unit :=
  for_local_props 1%nat (fun idx prop_obj =>
    let* prop_obj :=
      try_except
        (let* t := item splitstr_arr idx in
         let* n := py_int t in
         ret (set_data_sz n prop_obj))
        [ValueError; IndexError; OverflowError]
        (fun exc => handle_exc exc ;; ret prop_obj) in
    ret (prop_obj, S idx)) ;;
  logger_debug " property_sizes = %s".

(** [elif splitstr_arr[0] == "NO_DATA_VALUES":] *)
Definition do_no_data_values (splitstr_arr : list string) : M unit :=
  for_local_props 1%nat (fun idx prop_obj =>
    let* prop_obj :=
      try_except
        (let* t := item splitstr_arr idx in
         let* '(converted, fp) := parse_float (PyStr t) None in
         if converted then
           logger_debug "prop_obj.no_data_marker = %f" ;;
           ret (set_no_data_marker (Some fp) prop_obj)
         else ret prop_obj)
        [IndexError]
        (fun exc => handle_exc exc ;; ret prop_obj) in
    ret (prop_obj, S idx)) ;;
  logger_debug " property_nulls = %s".

(** [elif splitstr_arr[0] == "ATOM" or splitstr_arr[0] == 'PATOM':] *)
Definition do_atom (lc : locals) (t0 line_str : string)
  (splitstr_arr : list string) : M locals :=
  let lc := set_seq_no_prev (seq_no lc) lc in
  let* parsed :=
    try_except
      (let* t1 := item splitstr_arr 1 in
       let* n := py_int t1 in
       let* t2 := item splitstr_arr 2 in
       let* v_num := py_int t2 in
       ret (Some (n, v_num)))
      [OverflowError; ValueError; IndexError]
      (fun exc => handle_exc exc ;; ret None) in
  match parsed with
  | None => ret (set_seq_no (seq_no_prev lc) lc)
  | Some (n, v_num) =>
      let lc := set_seq_no n lc in
      let* s := get in
      (if _check_vertex s v_num then
         modify (fun s =>
           set_atom_arr
             (_atom_arr s ++ [{| atom_n := seq_no lc; atom_v := v_num |}]) s)
       else
         logger_error
           "ERROR - ATOM refers to VERTEX that has not been defined yet" ;;
         logger_error "    seq_no = %d" ;;
         logger_error "    v_num = %d" ;;
         logger_error "    line = %s" ;;
         sys_exit 1) ;;
      (* Atoms with attached properties *)
      (if String.eqb t0 "PATOM" then
         try_except
           (let* s := get in
            let vert_dict := make_vertex_dict s in
            let* i := or_raise KeyError (vert_dict !! v_num) in
            let* v := item (_vrtx_arr s) i in
            parse_props splitstr_arr (vrtx_xyz v) true)
           [IndexError]
           (fun exc => handle_exc exc)
       else ret tt) ;;
      ret lc
  end.

(** [elif splitstr_arr[0] == "PVRTX" or splitstr_arr[0] == "VRTX":] *)
Definition do_vrtx (lc : locals) (t0 : string) (splitstr_arr : list string)
  : M locals :=
  let lc := set_seq_no_prev (seq_no lc) lc in
  let* parsed :=
    try_except
      (let* t1 := item splitstr_arr 1 in
       let* n := py_int t1 in
       let* t2 := item splitstr_arr 2 in
       let* t3 := item splitstr_arr 3 in
       let* t4 := item splitstr_arr 4 in
       let* r := parse_XYZ_float t2 t3 t4 true true in
       logger_debug "ParseXYZ %s %f %f %f from %s %s %s" ;;
       ret (Some (n, r)))
      [IndexError; ValueError; OverflowError]
      (fun exc => handle_exc exc ;; ret None) in
  match parsed with
  | None => ret (set_seq_no (seq_no_prev lc) lc)
  | Some (n, None) => ret (set_seq_no n lc)
  | Some (n, Some (x_flt, y_flt, z_flt)) =>
      let lc := set_seq_no n lc in
      let* s := get in
      let z_flt := if invert_zaxis s then fneg z_flt else z_flt in
      modify (fun s =>
        set_vrtx_arr
          (_vrtx_arr s ++
             [{| vrtx_n := seq_no lc; vrtx_xyz := (x_flt, y_flt, z_flt) |}])
          s) ;;
      (* Vertices with attached properties *)
      (if String.eqb t0 "PVRTX" then
         parse_props splitstr_arr (x_flt, y_flt, z_flt) false
       else ret tt) ;;
      ret lc
  end.

(** [elif splitstr_arr[0] == "TRGL":] *)
Definition do_trgl (lc : locals) (splitstr_arr : list string) : M locals :=
  let lc := set_seq_no_prev (seq_no lc) lc in
  let* parsed :=
    try_except
      (let* t1 := item splitstr_arr 1 in
       let* n := py_int t1 in
       let* t2 := item splitstr_arr 2 in
       let* t3 := item splitstr_arr 3 in
       let* r := parse_XYZ_int t1 t2 t3 in
       ret (Some (n, r)))
      [IndexError; ValueError; OverflowError]
      (fun exc => handle_exc exc ;; ret None) in
  match parsed with
  | None => ret (set_seq_no (seq_no_prev lc) lc)
  | Some (n, None) => ret (set_seq_no n lc)
  | Some (n, Some abc) =>
      let lc := set_seq_no n lc in
      modify (fun s =>
        set_trgl_arr
          (_trgl_arr s ++ [{| trgl_n := seq_no lc; trgl_abc := abc |}]) s) ;;
      ret lc
  end.

(** [elif splitstr_arr[0] == "SEG":] *)
Definition do_seg (lc : locals) (splitstr_arr : list string) : M locals :=
  let* parsed :=
    try_except
      (let* t1 := item splitstr_arr 1 in
       let* a_int := py_int t1 in
       let* t2 := item splitstr_arr 2 in
       let* b_int := py_int t2 in
       ret (Some (a_int, b_int)))
      [IndexError; ValueError]
      (fun exc => handle_exc exc ;; ret None) in
  match parsed with
  | None => ret (set_seq_no (seq_no_prev lc) lc)
  | Some ab =>
      modify (fun s =>
        set_seg_arr
          (_seg_arr s ++ [{| seg_n := seq_no lc; seg_ab := ab |}]) s) ;;
      ret lc
  end.

(** The [PROP_*] lines of a voxet: per-class metadata of a binary file. *)
Definition do_prop_file (src_dir : string)
  (splitstr_arr splitstr_arr_raw : list string) : M unit :=
  let* raw2 := item splitstr_arr_raw 2 in
  let* t1 := item splitstr_arr 1 in
  update_prop t1 (set_file_name (path_join src_dir raw2)) ;;
  logger_debug "self.prop_dict[%s].file_name = %s".

Definition do_prop_esize (splitstr_arr : list string) : M unit :=
  try_except
    (let* t2 := item splitstr_arr 2 in
     let* n := py_int t2 in
     let* t1 := item splitstr_arr 1 in
     update_prop t1 (set_data_sz n) ;;
     logger_debug "self.prop_dict[%s].data_sz = %d")
    [IndexError; ValueError]
    (fun exc => handle_exc exc).

Definition do_prop_storage_type (splitstr_arr : list string) : M unit :=
  let* t2 := item splitstr_arr 2 in
  (if String.eqb t2 "OCTET" then
     let* t1 := item splitstr_arr 1 in update_prop t1 (set_data_type "b")
   else if String.eqb t2 "SHORT" then
     let* t1 := item splitstr_arr 1 in update_prop t1 (set_data_type "h")
   else
     logger_error "ERROR - unknown storage type" ;;
     sys_exit 1) ;;
  logger_debug "self.prop_dict[%s].data_type = %s".

Definition do_prop_signed (splitstr_arr : list string) : M unit :=
  let* t2 := item splitstr_arr 2 in
  let* t1 := item splitstr_arr 1 in
  update_prop t1 (set_signed_int (String.eqb t2 "1")) ;;
  logger_debug "self.prop_dict[%s].signed_int = %s".

Definition do_prop_etype (splitstr_arr : list string) : M unit :=
  let* t2 := item splitstr_arr 2 in
  if negb (String.eqb t2 "IEEE") then
    logger_error "ERROR - Cannot process %s type floating points" ;;
    sys_exit 1
  else ret tt.

Definition do_prop_eformat (splitstr_arr : list string) : M unit :=
  let* t2 := item splitstr_arr 2 in
  if negb (String.eqb t2 "RAW") then
    logger_error "ERROR - Cannot process %s format floating points" ;;
    sys_exit 1
  else ret tt.

Definition do_prop_offset (splitstr_arr : list string) : M unit :=
  let* t2 := item splitstr_arr 2 in
  let* n := py_int t2 in
  if negb (n =? 0) then
    logger_error "ERROR - Cannot process offsets of more than 0" ;;
    sys_exit 1
  else ret tt.

Definition do_prop_no_data_value (splitstr_arr : list string) : M unit :=
  let* t2 := item splitstr_arr 2 in
  let* '(converted, fp) := parse_float (PyStr t2) None in
  if converted then
    let* t1 := item splitstr_arr 1 in
    update_prop t1 (set_no_data_marker (Some fp)) ;;
    logger_debug "self.prop_dict[%s].no_data_marker = %f"
  else ret tt.

(** The [AXIS_*] lines: three numbers and the attribute they go to. *)
Definition do_axis_float (splitstr_arr : list string) (convert : bool)
  (store : option coord -> GOCAD_VESSEL -> GOCAD_VESSEL) (msg : string)
  : M unit :=
  let* t1 := item splitstr_arr 1 in
  let* t2 := item splitstr_arr 2 in
  let* t3 := item splitstr_arr 3 in
  let* r := parse_XYZ_float t1 t2 t3 false convert in
  match r with
  | Some xyz => modify (store (Some xyz)) ;; logger_debug msg
  | None => ret tt
  end.

Definition do_axis_n (splitstr_arr : list string) : M unit :=
  let* t1 := item splitstr_arr 1 in
  let* t2 := item splitstr_arr 2 in
  let* t3 := item splitstr_arr 3 in
  let* r := parse_XYZ_int t1 t2 t3 in
  match r with
  | Some dims => modify (set_vol_dims (Some dims)) ;;
                 logger_debug "self.vol_dims= %s"
  | None => ret tt
  end.

(** The [FLAGS_*] lines holding one integer *)
Definition do_flags_int (splitstr_arr : list string)
  (store : Z -> GOCAD_VESSEL -> GOCAD_VESSEL) (msg : string) : M unit :=
  let* t1 := item splitstr_arr 1 in
  let* r := parse_int t1 in
  match r with
  | Some l => modify (store l) ;; logger_debug msg
  | None => ret tt
  end.

Definition do_flags_file (src_dir : string) (splitstr_arr_raw : list string)
  : M unit :=
  let* raw1 := item splitstr_arr_raw 1 in
  modify (set_flags_file (path_join src_dir raw1)) ;;
  logger_debug "self.flags_file= %s".

Definition do_region (splitstr_arr : list string) : M unit :=
  let* t1 := item splitstr_arr 1 in
  let* t2 := item splitstr_arr 2 in
  modify (fun s => set_region_dict (<[t2 := t1]> (region_dict s)) s) ;;
  logger_debug "self.region_dict[%s] = %s".

(** ** The [elif] chain

    [keyword_chain] is the part of the chain below the header contexts:
    it looks at the first token only. *)
Definition keyword_chain (src_dir : string) (lc : locals) (t0 line_str : string)
  (splitstr_arr splitstr_arr_raw : list string) : M ctl :=
  let go (m : M unit) : M ctl := m ;; ret (Continue lc) in
  let upd (m : M locals) : M ctl := let* lc' := m in ret (Continue lc') in
  if String.eqb t0 "AXIS_UNIT" then go (do_axis_unit splitstr_arr)
  else if String.eqb t0 "PROPERTIES" then
    go (do_properties splitstr_arr " properties list = %s")
  else if String.eqb t0 "PROPERTY_CLASSES" then
    go (do_properties splitstr_arr " property classes = %s")
  else if String.eqb t0 "ESIZES" then go (do_esizes splitstr_arr)
  else if String.eqb t0 "NO_DATA_VALUES" then
    go (do_no_data_values splitstr_arr)
  else if String.eqb t0 "ATOM" || String.eqb t0 "PATOM" then
    upd (do_atom lc t0 line_str splitstr_arr)
  else if String.eqb t0 "PVRTX" || String.eqb t0 "VRTX" then
    upd (do_vrtx lc t0 splitstr_arr)
  else if String.eqb t0 "TRGL" then upd (do_trgl lc splitstr_arr)
  else if String.eqb t0 "SEG" then upd (do_seg lc splitstr_arr)
  else if String.eqb t0 "PROP_FILE" then
    go (do_prop_file src_dir splitstr_arr splitstr_arr_raw)
  else if String.eqb t0 "PROP_ESIZE" then go (do_prop_esize splitstr_arr)
  else if String.eqb t0 "PROP_STORAGE_TYPE" then
    go (do_prop_storage_type splitstr_arr)
  else if String.eqb t0 "PROP_SIGNED" then go (do_prop_signed splitstr_arr)
  else if String.eqb t0 "PROP_ETYPE" then go (do_prop_etype splitstr_arr)
  else if String.eqb t0 "PROP_EFORMAT" then go (do_prop_eformat splitstr_arr)
  else if String.eqb t0 "PROP_OFFSET" then go (do_prop_offset splitstr_arr)
  else if String.eqb t0 "PROP_NO_DATA_VALUE" then
    go (do_prop_no_data_value splitstr_arr)
  else if String.eqb t0 "AXIS_O" then
    go (do_axis_float splitstr_arr true set_axis_origin "self.axis_origin = %s")
  else if String.eqb t0 "AXIS_U" then
    go (do_axis_float splitstr_arr false set_axis_u "self.axis_u = %s")
  else if String.eqb t0 "AXIS_V" then
    go (do_axis_float splitstr_arr false set_axis_v "self.axis_v = %s")
  else if String.eqb t0 "AXIS_W" then
    go (do_axis_float splitstr_arr false set_axis_w "self.axis_w= %s")
  else if String.eqb t0 "AXIS_N" then go (do_axis_n splitstr_arr)
  else if String.eqb t0 "AXIS_MIN" then
    go (do_axis_float splitstr_arr false set_axis_min "self.axis_min= %s")
  else if String.eqb t0 "AXIS_MAX" then
    go (do_axis_float splitstr_arr false set_axis_max "self.axis_max= %s")
  else if String.eqb t0 "FLAGS_ARRAY_LENGTH" then
    go (do_flags_int splitstr_arr set_flags_array_length
          "self.flags_array_length= %d")
  else if String.eqb t0 "FLAGS_BIT_LENGTH" then
    go (do_flags_int splitstr_arr set_flags_bit_length
          "self.flags_bit_length= %d")
  else if String.eqb t0 "FLAGS_ESIZE" then
    go (do_flags_int splitstr_arr set_flags_bit_size "self.flags_bit_size= %d")
  else if String.eqb t0 "FLAGS_OFFSET" then
    go (do_flags_int splitstr_arr set_flags_offset "self.flags_offset= %d")
  else if String.eqb t0 "FLAGS_FILE" then
    go (do_flags_file src_dir splitstr_arr_raw)
  else if String.eqb t0 "REGION" then go (do_region splitstr_arr)
  else ret (Continue lc).

(** The contexts: coordinate system, header, property class headers. *)
Definition context_chain (src_dir : string) (lc : locals) (t0 line_str : string)
  (splitstr_arr splitstr_arr_raw : list string) : M ctl :=
  let go (m : M unit) : M ctl := m ;; ret (Continue lc) in
  let upd (m : M locals) : M ctl := let* lc' := m in ret (Continue lc') in
  if String.eqb t0 "HEADER" then
    logger_debug "inHeader = %s" ;; ret (Continue (set_inHeader true lc))
  else if String.eqb t0 "PROPERTY_CLASS_HEADER" then
    upd (do_property_class_header lc splitstr_arr)
  else if inHeader lc && String.eqb t0 "}" then
    logger_debug "inHeader = %s" ;; ret (Continue (set_inHeader false lc))
  else if inPropClassHeader lc then
    upd (do_in_prop_class_header lc t0 line_str)
  else if inLocalPropClassHeader lc then
    upd (do_in_local_prop_class_header lc t0 line_str)
  else if inHeader lc then go (do_header line_str)
  else keyword_chain src_dir lc t0 line_str splitstr_arr splitstr_arr_raw.

Definition dispatch (src_dir : string) (lc : locals) (t0 line_str : string)
  (splitstr_arr splitstr_arr_raw : list string) : M ctl :=
  (* Skip control nodes (used to denote fixed points in GOCAD) *)
  if String.eqb t0 "CNP" then
    logger_debug "Skip control nodes" ;; ret (Continue lc)
  else if String.eqb t0 "GOCAD_ORIGINAL_COORDINATE_SYSTEM" then
    logger_debug "inCoord True" ;; ret (Continue (set_inCoord true lc))
  else if String.eqb t0 "END_ORIGINAL_COORDINATE_SYSTEM" then
    logger_debug "inCoord False" ;; ret (Continue (set_inCoord false lc))
  else if inCoord lc && String.eqb t0 "NAME" then
    do_coord_name lc splitstr_arr
  else
    (* inCoord and splitstr_arr[0] == "ZPOSITIVE" and splitstr_arr[1] == "DEPTH" *)
    let* zpositive_depth :=
      if inCoord lc && String.eqb t0 "ZPOSITIVE" then
        let* t1 := item splitstr_arr 1 in ret (String.eqb t1 "DEPTH")
      else ret false in
    if zpositive_depth then
      modify (set_invert_zaxis true) ;;
      logger_debug "invert_zaxis = %s" ;;
      ret (Continue lc)
    else context_chain src_dir lc t0 line_str splitstr_arr splitstr_arr_raw.

(** One iteration of [for line in file_lines:] *)
Definition process_line (src_dir fileExt : string) (lc : locals)
  (line : string) : M ctl :=
  let line_str := line_str_of line in
  let splitstr_arr_raw := splitstr_arr_raw_of line in
  let splitstr_arr := splitstr_arr_of line in
  match splitstr_arr with
  | [] => ret (Continue lc)                     (* Skip blank lines *)
  | t0 :: _ =>
      logger_debug "splitstr_arr = %s" ;;
      if firstLine lc then
        let lc := set_firstLine false lc in
        let* ok := setType fileExt line_str in
        if negb ok then
          logger_debug "process_gocad() Can't set type, return False" ;;
          ret (Return false)
        else ret (Continue lc)
      else if str_in t0 ["SUBVSET"; "ILINE"; "TFACE"; "TVOLUME"] then
        logger_debug "Skip subset keywords" ;; ret (Continue lc)
      else dispatch src_dir lc t0 line_str splitstr_arr splitstr_arr_raw
  end.

Fixpoint process_lines (src_dir fileExt : string) (lc : locals)
  (file_lines : list string) : M ctl :=
  match file_lines with
  | [] => ret (Continue lc)
  | line :: rest =>
      let* c := process_line src_dir fileExt lc line in
      match c with
      | Continue lc' => process_lines src_dir fileExt lc' rest
      | Return b => ret (Return b)
      end
  end.

(** ** Max and min of the point properties *)

Definition first_val (v : prop_value) : float :=
  match v with Scalar x => x | Vector3 x _ _ => x end.

Definition calc_stats (prop_obj : PROPS) : M PROPS :=
  match data prop_obj with
  | PointData d =>
      ret (set_data_stats
             (Some match map first_val (dict_values d) with
                   | [] => {| st_min := float_max; st_max := fneg float_max |}
                   | x :: l => {| st_min := fmin_list x l; st_max := fmax_list x l |}
                   end) prop_obj)
  | VoxelData _ _ _ _ => raise AttributeError
  end.

Definition calc_local_stats : M unit :=
  for_local_props tt (fun _ prop_obj =>
    let* p := calc_stats prop_obj in ret (p, tt)).

(** ** Binary files

    The file system is an argument: a path names the bytes of a regular
    file or nothing. *)

Definition file_system : Type := string -> option (list byte).

Definition isfile (fs : file_system) (p : string) : bool :=
  match fs p with Some _ => true | None => false end.

(** [os.path.getsize]: a missing file raises [OSError], which is what
    [IOError] names. *)
Definition getsize (fs : file_system) (p : string) : M Z :=
  match fs p with
  | Some content => ret (Z.of_nat (length content))
  | None => raise IOError
  end.

Definition byte_val (b : byte) : Z := Z.of_N (Byte.to_N b).

(** Big-endian unsigned value of a group of bytes *)
Definition be_value (bs : list byte) : Z :=
  fold_left (fun acc b => acc * 256 + byte_val b) bs 0.

(** The value of an IEEE-754 bit pattern with [ebits] exponent bits and
    [mbits] fraction bits, as a binary64 (exact for half, single and
    double precision). *)
Definition ieee_value (ebits mbits : Z) (n : Z) : float :=
  let sign := Z.testbit n (ebits + mbits) in
  let e := Z.land (Z.shiftr n mbits) (2 ^ ebits - 1) in
  let m := Z.land n (2 ^ mbits - 1) in
  let bias := 2 ^ (ebits - 1) - 1 in
  if e =? 2 ^ ebits - 1 then
    if m =? 0 then S754_infinity sign else S754_nan
  else
    let '(mant, ex) :=
      if e =? 0 then (m, 1 - bias - mbits) else (2 ^ mbits + m, e - bias - mbits) in
    binary_normalize prec emax (if sign then - mant else mant) ex sign.

(** The value of an 80-bit extended-precision pattern of the x87 -- a
    sign bit, 15 exponent bits and a significand of 64 bits whose top
    bit is the integer bit -- rounded to binary64, as [float()] does.
    With a non-zero exponent and the integer bit clear the pattern is an
    invalid operand and the conversion gives a NaN. *)
Definition extended_value (n : Z) : float :=
  let sign := Z.testbit n 79 in
  let e := Z.land (Z.shiftr n 64) (2 ^ 15 - 1) in
  let m := Z.land n (2 ^ 64 - 1) in
  if e =? 2 ^ 15 - 1 then
    if m =? 2 ^ 63 then S754_infinity sign else S754_nan
  else if e =? 0 then
    binary_normalize prec emax (if sign then - m else m) (1 - 16383 - 63) sign
  else if Z.testbit m 63 then
    binary_normalize prec emax (if sign then - m else m) (e - 16383 - 63) sign
  else S754_nan.

(** The element types [PROPS.make_numpy_dtype] can ask for, all
    big-endian: integers of one or two bytes, floats of [size] bytes. *)
Inductive dtype :=
| DT_int (size : nat) (signed : bool)
| DT_float (size : nat).

Definition itemsize (dt : dtype) : nat :=
  match dt with DT_int n _ => n | DT_float n => n end.

(** The value of one item, as [float()] sees it.  The float of 16
    bytes is the [long double] of x86-64 Linux: numpy reverses the 16
    bytes of the big-endian item, and the 80 bits of the x87 format are
    the first ten bytes of the result, that is the last ten of the item
    in the file; the six bytes before them are padding. *)
Definition decode_item (dt : dtype) (bs : list byte) : float :=
  let n := be_value bs in
  match dt with
  | DT_int size signed =>
      let bits := 8 * Z.of_nat size in
      float_of_Z (if signed && Z.testbit n (bits - 1) then n - 2 ^ bits else n)
  | DT_float 2 => ieee_value 5 10 n
  | DT_float 4 => ieee_value 8 23 n
  | DT_float 16 => extended_value (be_value (skipn 6 bs))
  | DT_float _ => ieee_value 11 52 n
  end.

(** Whole items of [size] bytes each; a short tail is dropped. *)
Fixpoint chunks {A} (fuel size : nat) (l : list A) : list (list A) :=
  match fuel with
  | O => []
  | S fuel' =>
      if (size <=? length l)%nat && (0 <? size)%nat then
        firstn size l :: chunks fuel' size (skipn size l)
      else []
  end.

(** [PROPS.make_numpy_dtype].  The type letter is [f], the default, or
    the [b] or [h] of a [PROP_STORAGE_TYPE] line.  Floats come in 2, 4,
    8 or -- on x86-64 Linux, where [long double] takes 16 bytes -- 16
    bytes; numpy refuses the other widths with a [TypeError]. *)
Definition make_numpy_dtype (prop_obj : PROPS) : M dtype :=
  if String.eqb (data_type prop_obj) "h" then
    ret (DT_int 2 (signed_int prop_obj))
  else if String.eqb (data_type prop_obj) "b" then
    ret (DT_int 1 (signed_int prop_obj))
  else if String.eqb (data_type prop_obj) "f" &&
          ((data_sz prop_obj =? 2) || (data_sz prop_obj =? 4) ||
           (data_sz prop_obj =? 8) || (data_sz prop_obj =? 16)) then
    ret (DT_float (Z.to_nat (data_sz prop_obj)))
  else raise TypeError.

(** [numpy.fromfile(name, dtype=dt)] *)
Definition numpy_fromfile (fs : file_system) (name : string) (dt : dtype)
  : M (list float) :=
  match fs name with
  | Some content =>
      ret (map (decode_item dt) (chunks (length content) (itemsize dt) content))
  | None => raise IOError
  end.

(** [numpy.fromfile(name, dtype=('B', size))]: items of [size] unsigned
    bytes.  A count below one is refused. *)
Definition numpy_fromfile_bytes (fs : file_system) (name : string) (size : Z)
  : M (list (list byte)) :=
  if size <? 1 then raise ValueError
  else
    match fs name with
    | Some content => ret (chunks (length content) (Z.to_nat size) content)
    | None => raise IOError
    end.

(** The largest value of [intp], the index type of numpy, of 64 bits *)
Definition intp_max : Z := 2 ^ 63 - 1.

(** The shapes [numpy.zeros] makes an array of float64 for: no
    dimension is negative or above [intp_max], and the size in bytes,
    eight for each item, fits [intp] as well; the dimensions of zero are
    left out of that product, so that an empty array still needs the
    other dimensions to be in range. *)
Definition zeros_shape_ok (nx ny nz : Z) : bool :=
  forallb (fun d => (0 <=? d) && (d <=? intp_max)) [nx; ny; nz] &&
  (fold_left (fun nbytes d => if d =? 0 then nbytes else nbytes * d)
     [nx; ny; nz] 8 <=? intp_max).

(** [numpy.zeros((nx, ny, nz))], flat.  Another shape is refused with a
    [ValueError]; memory is taken to suffice for the shapes that pass. *)
Definition numpy_zeros (nx ny nz : Z) : M (list float) :=
  if zeros_shape_ok nx ny nz then ret (repeat zero (Z.to_nat (nx * ny * nz)))
  else raise ValueError.

(** [arr[i]] for an integer that may be negative *)
Definition item_Z {A} (arr : list A) (i : Z) : M A :=
  let n := Z.of_nat (length arr) in
  if 0 <=? i then item arr (Z.to_nat i)
  else if - n <=? i then item arr (Z.to_nat (n + i))
  else raise IndexError.

Definition range (n : Z) : list Z := map Z.of_nat (seq 0 (Z.to_nat n)).

(** [for x in xs:] with a loop-carried value *)
Fixpoint for_fold {A X} (xs : list X) (acc : A) (body : A -> X -> M A) : M A :=
  match xs with
  | [] => ret acc
  | x :: xs' => let* acc' := body acc x in for_fold xs' acc' body
  end.

(** The object at place [i] of [prop_dict.items()], and an update of it *)
Definition prop_at (i : nat) : M PROPS :=
  let* s := get in
  let* kp := or_raise KeyError (prop_dict s !! i) in
  ret (snd kp).

Definition update_prop_at (i : nat) (f : PROPS -> PROPS) : M unit :=
  modify (fun s =>
    match prop_dict s !! i with
    | Some (k, p) => set_prop_dict (<[i := (k, f p)]> (prop_dict s)) s
    | None => s
    end).

Definition need {A} (o : option A) : M A := or_raise TypeError o.

(** Sometimes the file name needs a [.vo] on the end: when the name is
    no file, ends in [@@], and the longer name is a file. *)
Definition needs_vo (fs : file_system) (name : string) : bool :=
  negb (isfile fs name) && String.eqb (slice_last 2 name) "@@" &&
  isfile fs (String.append name ".vo").

(** The name the size check and the reader then use *)
Definition vo_name (fs : file_system) (name : string) : string :=
  if needs_vo fs name then String.append name ".vo" else name.

(** ** [GOCAD_VESSEL.__read_voxel_files] *)

(** The body of the three nested loops over the cells of a property *)
Definition read_voxel_cell (i : nat) (f_arr : list float) (x y z : Z)
  (fl_idx : nat) : M nat :=
  let* prop_obj := prop_at i in
  let* v := item f_arr fl_idx in
  let* '(converted, fp) := parse_float (PyNum v) (no_data_marker prop_obj) in
  let fl_idx := S fl_idx in
  if negb converted then ret fl_idx
  else
    update_prop_at i (fun p =>
      match data p with
      | VoxelData nx ny nz cells =>
          set_data
            (VoxelData nx ny nz
               (<[Z.to_nat ((x * ny + y) * nz + z) := fp]> cells)) p
      | PointData _ => p
      end) ;;
    update_prop_at i (fun p =>
      match data_stats p with
      | Some st =>
          let st := if fltb (st_max st) fp
                    then {| st_min := st_min st; st_max := fp |} else st in
          let st := if fltb fp (st_min st)
                    then {| st_min := fp; st_max := st_max st |} else st in
          set_data_stats (Some st) p
      | None => p
      end) ;;
    let* s := get in
    let* '(ox, oy, oz) := need (axis_origin s) in
    let* '(nx, ny, nz) := need (vol_dims s) in
    let* '(ux, _, _) := need (axis_u s) in
    let* '(_, vy, _) := need (axis_v s) in
    let* '(_, _, wz) := need (axis_w s) in
    _calc_minmax
      (fadd ox (fmul (fdiv (float_of_Z x) (float_of_Z nx)) ux))
      (fadd oy (fmul (fdiv (float_of_Z y) (float_of_Z ny)) vy))
      (fadd oz (fmul (fdiv (float_of_Z z) (float_of_Z nz)) wz)) ;;
    ret fl_idx.

(** The body of [for file_idx, prop_obj in self.prop_dict.items():] *)
Definition read_voxel_prop (fs : file_system) (i : nat) : M unit :=
  (* Sometimes filename needs a .vo on the end *)
  (let* prop_obj := prop_at i in
   if needs_vo fs (file_name prop_obj) then
     update_prop_at i (set_file_name (String.append (file_name prop_obj) ".vo"))
   else ret tt) ;;
  try_except
    (let* prop_obj := prop_at i in
     (* Check file size first *)
     let* file_sz := getsize fs (file_name prop_obj) in
     let* '(nx, ny, nz) := let* s := get in need (vol_dims s) in
     let num_voxels := data_sz prop_obj * nx * ny * nz in
     if negb (file_sz =? num_voxels) then
       logger_error
         "SORRY - Cannot process voxel file - length (%d) is not correct %s" ;;
       sys_exit 1
     else
       (* Initialise data array to zeros *)
       let* cells := numpy_zeros nx ny nz in
       update_prop_at i (set_data (VoxelData nx ny nz cells)) ;;
       let* dt := make_numpy_dtype prop_obj in
       (* Read entire file, assumes file small enough to store in memory *)
       logger_info "Reading binary file: %s" ;;
       let* f_arr := numpy_fromfile fs (file_name prop_obj) dt in
       update_prop_at i
         (set_data_stats
            (Some {| st_min := float_max; st_max := fneg float_max |})) ;;
       for_fold (range nz) 0%nat (fun fl_idx z =>
         for_fold (range ny) fl_idx (fun fl_idx y =>
           for_fold (range nx) fl_idx (fun fl_idx x =>
             read_voxel_cell i f_arr x y z fl_idx))) ;;
       ret tt)
    [IOError]
    (fun e =>
       logger_error "SORRY - Cannot process voxel file IOError %s %s %s" ;;
       sys_exit 1).

(** The bits of one flags item, most significant first: the item is a
    single byte when [flags_bit_size] is one, else its bytes are taken
    from the last to the first. *)
Definition bit_mask_of (flags_bit_size : Z) (elem : list byte) : M string :=
  if flags_bit_size =? 1 then
    let* b := item elem 0 in ret (format_08b (byte_val b))
  else
    for_fold (rev (range flags_bit_size)) EmptyString (fun bit_mask b =>
      let* v := item_Z elem b in
      ret (String.append bit_mask (format_08b (byte_val v)))).

(** [for bit in bit_mask:] with [cnt] counting down *)
Fixpoint mark_regions (region_dict : gmap string string) (bit_mask : string)
  (cnt : Z) (cell : Z * Z * Z) (flags_dict : gmap (Z * Z * Z) string)
  : gmap (Z * Z * Z) string :=
  match bit_mask with
  | EmptyString => flags_dict
  | String bit rest =>
      let flags_dict :=
        match region_dict !! str_of_Z cnt with
        | Some key =>
            if Ascii.eqb bit "1" then <[cell := key]> flags_dict
            else flags_dict
        | None => flags_dict
        end in
      mark_regions region_dict rest (cnt - 1) cell flags_dict
  end.

Definition read_flags_cell (f_arr : list (list byte)) (x y z : Z) (f_idx : Z)
  : M Z :=
  let* s := get in
  let* elem := item_Z f_arr f_idx in
  let* bit_mask := bit_mask_of (flags_bit_size s) elem in
  let cnt := flags_bit_size s * 8 - 1 in
  modify (fun s =>
    set_flags_dict
      (mark_regions (region_dict s) bit_mask cnt (x, y, z) (flags_dict s)) s) ;;
  ret (f_idx + 1).

(** The flags file.  [Some b] is [return b] from within the block,
    [None] falls through to the end of the method. *)
Definition read_flags (fs : file_system) : M (option bool) :=
  let* s := get in
  if negb (String.eqb (flags_file s) "") then
    let* '(nx, ny, nz) := need (vol_dims s) in
    if negb (flags_array_length s =? nx * ny * nz) then
      logger_warning
        "SORRY - Cannot process voxel file, inconsistent size between data file and flag file" ;;
      logger_debug "process_gocad() return False" ;;
      ret (Some false)
    else
      (* Check file does not exist, sometimes needs a '.vo' on the end *)
      (if needs_vo fs (flags_file s) then
         modify (set_flags_file (String.append (flags_file s) ".vo"))
       else ret tt) ;;
      try_except
        (let* s := get in
         (* Check file size first *)
         let* file_sz := getsize fs (flags_file s) in
         let num_voxels := flags_bit_size s * nx * ny * nz in
         if negb (file_sz =? num_voxels) then
           logger_error
             "SORRY - Cannot process voxel flags file - length (%d) is not correct %s" ;;
           sys_exit 1
         else
           let* _ := numpy_zeros nx ny nz in
           logger_info "Reading binary flags file: %s" ;;
           let* f_arr := numpy_fromfile_bytes fs (flags_file s) (flags_bit_size s) in
           for_fold (range nz) (flags_offset s) (fun f_idx z =>
             for_fold (range ny) f_idx (fun f_idx y =>
               for_fold (range nx) f_idx (fun f_idx x =>
                 read_flags_cell f_arr x y z f_idx))) ;;
           ret None)
        [IOError]
        (fun e =>
           logger_error
             "SORRY - Cannot process voxel flags file, IOError %s %s %s" ;;
           logger_debug "process_gocad() return False" ;;
           ret (Some false))
  else ret None.

Definition read_voxel_files (fs : file_system) : M bool :=
  let* s := get in
  let* returned :=
    if is_vo s && (0 <? length (prop_dict s))%nat then
      for_each (seq 0 (length (prop_dict s))) (read_voxel_prop fs) ;;
      (* Open up flags file and look for regions *)
      read_flags fs
    else ret None in
  match returned with
  | Some b => ret b
  | None => logger_debug "self.flags_dict= %s" ;; ret true
  end.

(** ** [GOCAD_VESSEL.process_gocad] *)

Definition process_gocad (fs : file_system) (src_dir filename_str : string)
  (file_lines : list string) : M bool :=
  logger_debug "process_gocad(%s,%s,%d)" ;;
  let '(fileName, fileExt) := splitext filename_str in
  modify (set_np_filename (basename fileName)) ;;
  let* c := process_lines src_dir fileExt init_locals file_lines in
  match c with
  | Return b => ret b
  | Continue _ =>
      logger_debug "process_gocad() filename_str = %s" ;;
      (* Calculate max and min of properties *)
      calc_local_stats ;;
      logger_debug "process_gocad() returns" ;;
      (* Read in any binary data files and flags files attached to voxel files *)
      read_voxel_files fs
  end.

(** ** [GOCAD_VESSEL.__init__]

    [rgba0] is the colour the base class starts with. *)
Definition new_vessel (debug_level : Z) (base : coord) (group : string)
  (nondefault stop_on_exc : bool) (rgba0 : rgba) : GOCAD_VESSEL :=
  {| STOP_ON_EXC := stop_on_exc; log_level := debug_level; log := [];
     base_xyz := base; group_name := group; nondefault_coords := nondefault;
     header_name := ""; prop_dict := []; invert_zaxis := false;
     local_props := []; is_ts := false; is_vs := false; is_pl := false;
     is_vo := false; xyz_mult := (one, one, one);
     xyz_unit := (None, None, None); axis_origin := None; axis_u := None;
     axis_v := None; axis_w := None; vol_dims := None; axis_min := None;
     axis_max := None; flags_array_length := 0; flags_bit_length := 0;
     flags_bit_size := 0; flags_offset := 0; flags_file := "";
     region_dict := ∅; flags_dict := ∅; np_filename := "";
     coord_sys_name := "DEFAULT"; usesDefaultCoords := true;
     _vrtx_arr := []; _atom_arr := []; _trgl_arr := []; _seg_arr := [];
     rgba_tup := rgba0; bbox := None |}.

End Vessel.

(* ===================================================================== *)
(** * Vocabulary of the properties                                        *)
(* ===================================================================== *)

Import Py Vessel.

(** ** Tokens and vessels *)

(** The four spellings of infinity the float scanner knows *)
Definition infinity_tokens : list string :=
  ["1.#INF"; "INF"; "-1.#INF"; "-INF"].

(** A vessel with default settings ([STOP_ON_EXC] on, level INFO), and
    one that tolerates malformed input ([STOP_ON_EXC] off). *)
Definition strict_vessel : GOCAD_VESSEL :=
  new_vessel INFO (zero, zero, zero) "" false true white.

Definition lenient_vessel : GOCAD_VESSEL :=
  new_vessel INFO (zero, zero, zero) "" false false white.

(** A file system without files *)
Definition no_files : file_system := fun _ => None.

(** [tok] spells out the marker [m]: it is the text [float()] turns into
    [m], and not one of the infinity spellings. *)
Definition is_marker_text (m : float) (tok : string) : Prop :=
  str_in tok infinity_tokens = false /\ float_of_string tok = Some m.

(** The first tokens the chain gives a meaning that depends on the
    context, or skips. *)
Definition context_keywords : list string :=
  ["SUBVSET"; "ILINE"; "TFACE"; "TVOLUME"; "CNP";
   "GOCAD_ORIGINAL_COORDINATE_SYSTEM"; "END_ORIGINAL_COORDINATE_SYSTEM";
   "NAME"; "ZPOSITIVE"; "HEADER"; "PROPERTY_CLASS_HEADER"].

(** The float 7.5 *)
Definition seven_and_a_half : float := fdiv (float_of_Z 15) (float_of_Z 2).

(** ** Colour values *)

(** [float()] converts [t]; [int(t, 16)] converts [t] *)
Definition is_float_text (t : string) : bool :=
  match float_of_string t with Some _ => true | None => false end.

Definition is_hex_pair (t : string) : bool :=
  match int16 t with Some _ => true | None => false end.

(** The value starts with a hash sign *)
Definition starts_with_hash (v : string) : bool :=
  match String.get 0 v with Some c => Ascii.eqb c "#" | None => false end.

(** The number of fields the blanks of [v] separate *)
Definition field_count (v : string) : nat := length (split_on " " v).

(** A hexadecimal digit *)
Definition is_hex_digit (c : ascii) : bool :=
  existsb (Ascii.eqb c) (list_ascii_of_string "0123456789ABCDEFabcdef").

(** The two well-formed shapes of a colour value, in the spec's words:
    three or four space-separated floats, or [#RRGGBB] -- a hash sign
    and three pairs of hexadecimal digits, seven characters in all. *)
Definition colour_floats (v : string) : bool :=
  negb (String.eqb v "") && negb (starts_with_hash v) &&
  ((field_count v =? 3)%nat || (field_count v =? 4)%nat) &&
  forallb is_float_text (split_on " " v).

Definition colour_hex (v : string) : bool :=
  match v with
  | String c0 digits =>
      Ascii.eqb c0 "#" && (String.length digits =? 6)%nat &&
      forallb is_hex_digit (list_ascii_of_string digits)
  | EmptyString => false
  end.

(** A value of neither shape *)
Definition malformed_colour (v : string) : bool :=
  negb (colour_floats v) && negb (colour_hex v).

(** Among the malformed values, those that are some fields but neither
    three nor four. *)
Definition field_count_off (v : string) : bool :=
  negb (String.eqb v "") && negb (starts_with_hash v) &&
  negb ((field_count v =? 3)%nat || (field_count v =? 4)%nat).

(** The values line 490 makes a colour of: a hash sign first, and
    [int(_, 16)] takes each of the slices [1:3], [3:5] and [5:7].  Every
    [#RRGGBB] is one; so are malformed values such as [#FFFFF], with a
    last slice of one digit, [#FF0000ZZ], with characters the slices do
    not reach, and [#-1+2 3], with signs and a blank that [int] takes. *)
Definition hex_slices_read (v : string) : bool :=
  starts_with_hash v &&
  is_hex_pair (slice 1 3 v) && is_hex_pair (slice 3 5 v) &&
  is_hex_pair (slice 5 7 v).

(** The colour of three numbers below 256, without transparency *)
Definition hex_colour (r g b : Z) : rgba :=
  (fdiv (float_of_Z r) (float_of_Z 255),
   fdiv (float_of_Z g) (float_of_Z 255),
   fdiv (float_of_Z b) (float_of_Z 255), one).

(** ** Bits of a flags item *)

(** The binary digit of a bit *)
Definition bit_char (b : bool) : ascii := if b then "1" else "0".

(** The eight binary digits of a byte *)
Definition byte_bits (b : byte) : string := format_08b (byte_val b).

(** Bit [k] of a flags item whose byte [k / 8] holds it at place
    [k mod 8]: the first byte of the item is the least significant. *)
Definition group_bit (elem : list byte) (k : nat) : bool :=
  match nth_error elem (k / 8) with
  | Some b => Z.testbit (byte_val b) (Z.of_nat (k mod 8))
  | None => false
  end.

(** The bit mask of an item: the digits of its bytes, last byte first *)
Fixpoint mask_of (elem : list byte) : string :=
  match elem with
  | [] => EmptyString
  | b :: rest => String.append (mask_of rest) (byte_bits b)
  end.

(** ** Frames

    [preserves R m]: whatever way [m] ends, the vessel it leaves is
    related by [R] to the one it started from; and when [m] ends the
    process, the exit status is 1. *)

Definition exit_status_one {A} (r : result A) : Prop :=
  match r with Exited c _ => c = 1 | _ => True end.

Definition preserves {A} (R : GOCAD_VESSEL -> GOCAD_VESSEL -> Prop) (m : M A)
  : Prop :=
  forall s, R s (final (m s)) /\ exit_status_one (m s).

(** Reading property [i] leaves the volume, the flags metadata and the
    other property classes as they are. *)
Definition voxel_frame (i : nat) (s s' : GOCAD_VESSEL) : Prop :=
  is_vo s' = is_vo s /\
  vol_dims s' = vol_dims s /\
  flags_file s' = flags_file s /\
  flags_array_length s' = flags_array_length s /\
  flags_bit_size s' = flags_bit_size s /\
  length (prop_dict s') = length (prop_dict s) /\
  forall j, j <> i -> prop_dict s' !! j = prop_dict s !! j.

(** What the loop over the property classes leaves alone *)
Definition flags_frame (s s' : GOCAD_VESSEL) : Prop :=
  is_vo s' = is_vo s /\
  vol_dims s' = vol_dims s /\
  flags_file s' = flags_file s /\
  flags_array_length s' = flags_array_length s /\
  flags_bit_size s' = flags_bit_size s.

(** ** A small voxet *)

(** A voxet of one cell with one property class of one byte per cell,
    as the text loop leaves it, and a file system that holds its
    property file. *)
Definition one_cell_voxet : GOCAD_VESSEL :=
  set_prop_dict
    [("1", set_data_type "b" (set_file_name "p.bin"
                                (set_data_sz 1 (new_PROPS "P"))))]
    (set_axis_w (Some (zero, zero, one))
       (set_axis_v (Some (zero, one, zero))
          (set_axis_u (Some (one, zero, zero))
             (set_axis_origin (Some (zero, zero, zero))
                (set_vol_dims (Some (1, 1, 1))
                   (set_is_vo true lenient_vessel)))))).

(** Its property file of one byte, and a flags file of the given bytes *)
Definition one_cell_files (flags : list byte) : file_system :=
  fun name =>
    if String.eqb name "p.bin" then Some [x07]
    else if String.eqb name "flags.bin" then Some flags
    else None.

(** A voxet of two cells along x, one along y and three along z, with
    one property class of two bytes per cell, unsigned, and the
    no-data marker 1029; its property file holds the six items 257,
    514, 771, 1028, 1029 and 1542 in this order. *)
Definition six_cell_props : PROPS :=
  set_no_data_marker (Some (float_of_Z 1029))
    (set_signed_int false
       (set_data_type "h" (set_file_name "q.bin"
                             (set_data_sz 2 (new_PROPS "Q"))))).

Definition six_cell_voxet : GOCAD_VESSEL :=
  set_prop_dict [("1", six_cell_props)]
    (set_axis_w (Some (zero, zero, one))
       (set_axis_v (Some (zero, one, zero))
          (set_axis_u (Some (one, zero, zero))
             (set_axis_origin (Some (zero, zero, zero))
                (set_vol_dims (Some (2, 1, 3))
                   (set_is_vo true lenient_vessel)))))).

Definition six_cell_bytes : list byte :=
  [x01; x01; x02; x02; x03; x03; x04; x04; x04; x05; x06; x06].

Definition six_cell_files : file_system :=
  fun name => if String.eqb name "q.bin" then Some six_cell_bytes else None.

(** A voxet of two cells along z with one property class of floats of
    16 bytes; its property file holds 1.5 and -2 as big-endian items:
    six bytes of padding, then sign and exponent in two bytes and the
    significand in eight. *)
Definition long_double_props : PROPS :=
  set_file_name "r.bin" (set_data_sz 16 (new_PROPS "R")).

Definition long_double_voxet : GOCAD_VESSEL :=
  set_prop_dict [("1", long_double_props)]
    (set_axis_w (Some (zero, zero, one))
       (set_axis_v (Some (zero, one, zero))
          (set_axis_u (Some (one, zero, zero))
             (set_axis_origin (Some (zero, zero, zero))
                (set_vol_dims (Some (1, 1, 2))
                   (set_is_vo true lenient_vessel)))))).

Definition long_double_bytes : list byte :=
  [x00; x00; x00; x00; x00; x00; x3f; xff;
   xc0; x00; x00; x00; x00; x00; x00; x00;
   x00; x00; x00; x00; x00; x00; xc0; x00;
   x80; x00; x00; x00; x00; x00; x00; x00].

Definition long_double_files : file_system :=
  fun name =>
    if String.eqb name "r.bin" then Some long_double_bytes else None.

(** ** Frames of the text loop *)

(** The settings a vessel is created with *)
Definition config_frame (s s' : GOCAD_VESSEL) : Prop :=
  STOP_ON_EXC s' = STOP_ON_EXC s /\
  log_level s' = log_level s /\
  nondefault_coords s' = nondefault_coords s /\
  base_xyz s' = base_xyz s /\
  group_name s' = group_name s.

(** The settings and the type of the file *)
Definition type_frame (s s' : GOCAD_VESSEL) : Prop :=
  config_frame s s' /\
  is_ts s' = is_ts s /\ is_vs s' = is_vs s /\
  is_pl s' = is_pl s /\ is_vo s' = is_vo s.

(** [returns Q m]: every value [m] returns satisfies [Q]. *)
Definition returns {A} (Q : A -> Prop) (m : M A) : Prop :=
  forall s a s', m s = Ok a s' -> Q a.

(** The loop goes on after the first line. *)
Definition past_first_line (c : ctl) : Prop :=
  match c with Continue lc => firstLine lc = false | Return _ => True end.

(** ** The type of a file *)

(** The extension as [__setType] compares it; the type a first line is
    the signature of; the flag of a type. *)
Definition extension_of (fileExt : string) : string :=
  upper (lstrip_chars "." fileExt).

Definition signature_type (firstLineStr : string) : option string :=
  if String.eqb firstLineStr "GOCAD TSURF 1" then Some "TS"
  else if String.eqb firstLineStr "GOCAD VSET 1" then Some "VS"
  else if String.eqb firstLineStr "GOCAD PLINE 1" then Some "PL"
  else if String.eqb firstLineStr "GOCAD VOXET 1" then Some "VO"
  else None.

Definition set_type (k : string) (s : GOCAD_VESSEL) : GOCAD_VESSEL :=
  if String.eqb k "TS" then set_is_ts true s
  else if String.eqb k "VS" then set_is_vs true s
  else if String.eqb k "PL" then set_is_pl true s
  else if String.eqb k "VO" then set_is_vo true s
  else s.

(** The first line is the signature of the type the extension names, or
    of any of the four types when the file is a group file. *)
Definition accepts (fileExt firstLineStr : string) : bool :=
  match signature_type firstLineStr with
  | Some k =>
      String.eqb (extension_of fileExt) k ||
      String.eqb (extension_of fileExt) "GP"
  | None => false
  end.

(** A line of blanks only *)
Definition is_blank (line : string) : bool :=
  forallb is_space (list_ascii_of_string line).

(** ** Lines of the text loop *)

(** The loop is past the first line and in none of the header blocks. *)
Definition in_body (lc : locals) : Prop :=
  firstLine lc = false /\ inHeader lc = false /\
  inPropClassHeader lc = false /\ inLocalPropClassHeader lc = false.

(** The keywords whose branch reads the tokens after the first one with
    no [try] around it. *)
Definition unguarded_keywords : list string :=
  ["AXIS_UNIT"; "PROP_FILE"; "PROP_STORAGE_TYPE"; "PROP_SIGNED"; "PROP_ETYPE";
   "PROP_EFORMAT"; "PROP_OFFSET"; "PROP_NO_DATA_VALUE"; "AXIS_O"; "AXIS_U";
   "AXIS_V"; "AXIS_W"; "AXIS_N"; "AXIS_MIN"; "AXIS_MAX"; "FLAGS_ARRAY_LENGTH";
   "FLAGS_BIT_LENGTH"; "FLAGS_ESIZE"; "FLAGS_OFFSET"; "REGION"].

(** The encodings of a binary property file the reader does not take:
    the keyword of the line and its third token. *)
Definition unsupported_encoding (keyword value : string) : bool :=
  (String.eqb keyword "PROP_ETYPE" && negb (String.eqb value "IEEE")) ||
  (String.eqb keyword "PROP_EFORMAT" && negb (String.eqb value "RAW")) ||
  (String.eqb keyword "PROP_STORAGE_TYPE" &&
   negb (String.eqb value "OCTET") && negb (String.eqb value "SHORT")) ||
  (String.eqb keyword "PROP_OFFSET" &&
   match int value with Some n => negb (n =? 0) | None => false end).

(** What a [PROP_ESIZE], [PROP_SIGNED] or [PROP_STORAGE_TYPE] line with
    the given third token writes to the property class it names *)
Definition property_update (keyword value : string) : option (PROPS -> PROPS) :=
  if String.eqb keyword "PROP_ESIZE" then
    match int value with Some n => Some (set_data_sz n) | None => None end
  else if String.eqb keyword "PROP_SIGNED" then
    Some (set_signed_int (String.eqb value "1"))
  else if String.eqb keyword "PROP_STORAGE_TYPE" then
    if String.eqb value "OCTET" then Some (set_data_type "b")
    else if String.eqb value "SHORT" then Some (set_data_type "h")
    else None
  else None.

(** ** Coordinates *)

(** The float [__parse_float] makes of a token when there is no no-data
    marker to compare with: the infinity spellings stand for the largest
    finite floats, any other token is what [float()] makes of it. *)
Definition coordinate_value (tok : string) : option float :=
  if str_in tok ["1.#INF"; "INF"] then Some float_max
  else if str_in tok ["-1.#INF"; "-INF"] then Some (fneg float_max)
  else float_of_string tok.

(** The unit an [AXIS_UNIT] token names, the multiplier and the unit
    name of an axis after it *)
Definition unit_of (tok : string) : string :=
  strip_chars "'" (strip_chars " " (strip_by (Ascii.eqb dquote) tok)).

Definition unit_mult (tok : string) (m : float) : float :=
  if String.eqb (unit_of tok) "KM" then float_of_Z 1000 else m.

Definition unit_name (tok : string) (n : option string) : option string :=
  if str_in (unit_of tok) ["M"; "UNITLESS"; "NUMBER"; "MS"]
  then Some (unit_of tok) else n.

(** ** Property declarations *)

(** The names of a list in the order of their first occurrence *)
Fixpoint keep_first (seen names : list string) : list string :=
  match names with
  | [] => []
  | x :: rest =>
      if str_in x seen then keep_first seen rest
      else x :: keep_first (x :: seen) rest
  end.

(** A fresh property object under its name *)
Definition declared (name : string) : string * PROPS := (name, new_PROPS name).

(** The sizes of an [ESIZES] line given to the properties one by one *)
Fixpoint with_sizes (props : list (string * PROPS)) (sizes : list Z)
  : list (string * PROPS) :=
  match props, sizes with
  | (k, p) :: props', n :: sizes' => (k, set_data_sz n p) :: with_sizes props' sizes'
  | _, _ => props
  end.

(** ** The order of the floats

    The place of a float that is no NaN in the order [fltb] decides:
    the class (minus infinity, negative, zero, positive, plus infinity),
    then exponent and mantissa, both counted downwards for a negative
    float. *)
Definition float_rank (x : float) : Z * Z * Z :=
  match x with
  | S754_infinity true => (-2, 0, 0)
  | S754_finite true m e => (-1, - e, - Zpos m)
  | S754_zero _ => (0, 0, 0)
  | S754_finite false m e => (1, e, Zpos m)
  | S754_infinity false => (2, 0, 0)
  | S754_nan => (3, 0, 0)
  end.

Definition rank_lt (a b : Z * Z * Z) : Prop :=
  let '(a1, a2, a3) := a in
  let '(b1, b2, b3) := b in
  a1 < b1 \/ (a1 = b1 /\ (a2 < b2 \/ (a2 = b2 /\ a3 < b3))).

(** ** The header *)

(** Name and value of a header line: the text before and after the
    first colon, without the blanks around them. *)
Definition header_key (line_str : string) : string :=
  strip (fst (fst (partition ":" line_str))).

Definition header_value (line_str : string) : string :=
  strip (snd (partition ":" line_str)).

(** The colour a well-formed value stands for: a hash sign and three
    pairs of hexadecimal digits, or three or four floats with one blank
    between them. *)
Definition colour_value (v : string) : option rgba :=
  match String.get 0 v with
  | None => None
  | Some c0 =>
      if Ascii.eqb c0 "#" then
        match int16 (slice 1 3 v), int16 (slice 3 5 v), int16 (slice 5 7 v) with
        | Some r, Some g, Some b =>
            Some (fdiv (float_of_Z r) (float_of_Z 255),
                  fdiv (float_of_Z g) (float_of_Z 255),
                  fdiv (float_of_Z b) (float_of_Z 255), one)
        | _, _, _ => None
        end
      else
        match map float_of_string (split_on " " v) with
        | [Some r; Some g; Some b] => Some (r, g, b, one)
        | [Some r; Some g; Some b; Some a] => Some (r, g, b, a)
        | _ => None
        end
  end.

(** A line of the header block that the block itself handles *)
Definition in_header (lc : locals) : Prop :=
  firstLine lc = false /\ inHeader lc = true /\
  inPropClassHeader lc = false /\ inLocalPropClassHeader lc = false.

(** ** The axes of a voxet *)

(** The attribute an [AXIS_] line with three floats writes *)
Definition axis_field (keyword : string) (s : GOCAD_VESSEL) : option coord :=
  if String.eqb keyword "AXIS_O" then axis_origin s
  else if String.eqb keyword "AXIS_U" then axis_u s
  else if String.eqb keyword "AXIS_V" then axis_v s
  else if String.eqb keyword "AXIS_W" then axis_w s
  else if String.eqb keyword "AXIS_MIN" then axis_min s
  else if String.eqb keyword "AXIS_MAX" then axis_max s
  else None.

Definition axis_keywords : list string :=
  ["AXIS_O"; "AXIS_U"; "AXIS_V"; "AXIS_W"; "AXIS_MIN"; "AXIS_MAX"].

(** ** Colour tables *)

(** The fields of a colour table spell out the entries: four fields per
    entry, the index as an integer and the three colour components as
    floats. *)
Fixpoint reads_table (lut_arr : list string) (entries : list (Z * coord))
  : Prop :=
  match entries, lut_arr with
  | [], [] => True
  | (k, (r, g, b)) :: entries', tk :: tr :: tg :: tb :: lut_arr' =>
      int tk = Some k /\ float_of_string tr = Some r /\
      float_of_string tg = Some g /\ float_of_string tb = Some b /\
      reads_table lut_arr' entries'
  | _, _ => False
  end.

(** The colour map with the entries put in, one after the other *)
Definition with_entries (entries : list (Z * coord)) (m : gmap Z coord)
  : gmap Z coord :=
  fold_left (fun m e => <[fst e := snd e]> m) entries m.

(** The keys of a property class header that come before the colour
    table in the chain *)
Definition header_scalars : list string :=
  ["*COLORMAP*SIZE"; "*COLORMAP*NBCOLORS"; "HIGH_CLIP"; "LOW_CLIP"; "COLORMAP"].

(** ** The cells of a voxet *)

(** What a cell holds after the item [v] was read for it: the item,
    or the zero the array starts with when the item is the no-data
    marker. *)
Definition kept (marker : option float) (v : float) : float :=
  match marker with
  | Some nv => if feqb v nv then zero else v
  | None => v
  end.

(** The cells after the first [t] items of the file: the cell of every
    position holds the item read for it, or zero when its turn has not
    come.  Positions are counted in the order of the file, cells in the
    order of the array. *)
Definition cells_filled (NX NY NZ : nat) (marker : option float)
  (f_arr : list float) (t : nat) (cells : list float) : Prop :=
  length cells = (NX * NY * NZ)%nat /\
  forall a b c, (a < NX)%nat -> (b < NY)%nat -> (c < NZ)%nat ->
    cells !! ((a * NY + b) * NZ + c)%nat =
    Some (if ((c * NY + b) * NX + a <? t)%nat
          then kept marker (nth ((c * NY + b) * NX + a) f_arr zero)
          else zero).

(** The state of the reader of property [i] after the first [t] items:
    the volume, its axes and the marker are in place, and the cells are
    filled so far. *)
Definition voxel_filled (i : nat) (k : string) (NX NY NZ : nat)
  (marker : option float) (f_arr : list float) (t : nat) (s : GOCAD_VESSEL)
  : Prop :=
  exists q cells,
    prop_dict s !! i = Some (k, q) /\
    data q = VoxelData (Z.of_nat NX) (Z.of_nat NY) (Z.of_nat NZ) cells /\
    data_stats q <> None /\
    no_data_marker q = marker /\
    vol_dims s = Some (Z.of_nat NX, Z.of_nat NY, Z.of_nat NZ) /\
    axis_origin s <> None /\ axis_u s <> None /\
    axis_v s <> None /\ axis_w s <> None /\
    cells_filled NX NY NZ marker f_arr t cells.

(** ** The items of a flags file *)

(** How the loops over the cells stand after [t] cells when the first
    one reads item [k] of [len] items whose size is [size]: all went
    well (no cell was read, or the last item read is there) and the next
    item is [k + t], or an index was out of range. *)
Definition flags_run (size : Z) (len k t : nat) (r : result Z) : Prop :=
  if (t =? 0)%nat || (k + t <=? len)%nat then
    exists s', r = Ok (Z.of_nat (k + t)) s' /\ flags_bit_size s' = size
  else exists s', r = Raised IndexError s'.

(* ===================================================================== *)
(** * Properties of the parser                                            *)
(* ===================================================================== *)

(** ** Running the monad *)

Section Run.
Context {A B : Type}.

Lemma bind_ok (m : M A) (k : A -> M B) s a s' :
  m s = Ok a s' -> bind m k s = k a s'.
Proof. intros H. unfold bind. now rewrite H. Qed.

Lemma bind_raised (m : M A) (k : A -> M B) s e s' :
  m s = Raised e s' -> bind m k s = Raised e s'.
Proof. intros H. unfold bind. now rewrite H. Qed.

Lemma bind_exited (m : M A) (k : A -> M B) s c s' :
  m s = Exited c s' -> bind m k s = Exited c s'.
Proof. intros H. unfold bind. now rewrite H. Qed.
End Run.

Lemma logger_log_run level msg s :
  logger_log level msg s = Ok tt (logged level msg s).
Proof.
  unfold logged, logger_log, bind, get, emit, modify, ret.
  now destruct (log_level s <=? level).
Qed.

(** Unfolding the control operators, and replacing each logging call in
    head position by the vessel it leaves. *)
Ltac mred :=
  cbv beta iota delta
    [bind ret raise sys_exit get modify try_except or_raise item index need
     py_int py_float to_float
     logger_debug logger_info logger_warning logger_error];
  cbn [existsb exn_eqb orb].

Lemma print_run msg s :
  print msg s = Ok tt (set_log (log s ++ [Printed msg]) s).
Proof. reflexivity. Qed.

Ltac msimp := repeat (progress (mred; rewrite ?logger_log_run, ?print_run)).

(** Logging touches the log and nothing else. *)
Ltac logged_field :=
  intros; unfold logged, logger_log, bind, get, emit, modify, ret;
  match goal with |- context [?a <=? ?b] => destruct (a <=? b) end;
  reflexivity.

Lemma logged_STOP_ON_EXC l m s : STOP_ON_EXC (logged l m s) = STOP_ON_EXC s.
Proof. logged_field. Qed.
Lemma logged_log_level l m s : log_level (logged l m s) = log_level s.
Proof. logged_field. Qed.
Lemma logged_rgba_tup l m s : rgba_tup (logged l m s) = rgba_tup s.
Proof. logged_field. Qed.
Lemma logged_local_props l m s : local_props (logged l m s) = local_props s.
Proof. logged_field. Qed.
Lemma logged_prop_dict l m s : prop_dict (logged l m s) = prop_dict s.
Proof. logged_field. Qed.
Lemma logged_vrtx_arr l m s : _vrtx_arr (logged l m s) = _vrtx_arr s.
Proof. logged_field. Qed.
Lemma logged_atom_arr l m s : _atom_arr (logged l m s) = _atom_arr s.
Proof. logged_field. Qed.
Lemma logged_trgl_arr l m s : _trgl_arr (logged l m s) = _trgl_arr s.
Proof. logged_field. Qed.
Lemma logged_seg_arr l m s : _seg_arr (logged l m s) = _seg_arr s.
Proof. logged_field. Qed.

Lemma logged_quiet l m s : log_level s > l -> logged l m s = s.
Proof.
  intros H. unfold logged, logger_log, bind, get, emit, modify, ret.
  destruct (log_level s <=? l) eqn:E; [apply Z.leb_le in E; lia | reflexivity].
Qed.

(** ** Floats *)

Lemma digits2_pos_bound (m : positive) :
  (Z.pos m < 2 ^ Z.pos (digits2_pos m))%Z.
Proof.
  induction m as [m IH | m IH |]; cbn [digits2_pos].
  - rewrite Pos2Z.inj_succ, Z.pow_succ_r by lia. lia.
  - rewrite Pos2Z.inj_succ, Z.pow_succ_r by lia. lia.
  - reflexivity.
Qed.

(** No finite binary64 value lies above [sys.float_info.max]. *)
Lemma float_max_largest (x : float) :
  valid_binary prec emax x = true -> is_finite x = true ->
  SFleb x float_max = true.
Proof.
  destruct x as [sx | sx | | sx m e]; try discriminate.
  - intros _ _. reflexivity.
  - intros Hv _. cbn in Hv. unfold bounded, canonical_mantissa in Hv.
    apply andb_true_iff in Hv as [Hc He].
    apply Z.eqb_eq in Hc. apply Z.leb_le in He.
    unfold fexp, SpecFloat.emin, prec, emax in *.
    unfold SFleb, SFcompare, float_max, SFmax_float, prec, emax.
    destruct sx; [reflexivity |].
    change (1024 - 53)%Z with 971%Z.
    destruct (Z.compare_spec e 971) as [Heq | Hlt | Hgt]; [| reflexivity | lia].
    subst e.
    assert (Hd : (Z.pos (digits2_pos m) <= 53)%Z) by lia.
    pose proof (digits2_pos_bound m) as Hb.
    assert (Hm : (Z.pos m < 2 ^ 53)%Z).
    { eapply Z.lt_le_trans; [exact Hb |]. apply Z.pow_le_mono_r; lia. }
    change (Pos.iter xO 1%positive (Z.to_pos 53) - 1)%positive
      with 9007199254740991%positive.
    rewrite Pos.compare_cont_spec. cbn [Pos.switch_Eq].
    destruct (Pos.compare_spec m 9007199254740991) as [? | ? | Hgt];
      [reflexivity | reflexivity |].
    change (2 ^ 53)%Z with 9007199254740992%Z in Hm. lia.
Qed.

(** C8: the float scanner maps ["1.#INF"] and ["INF"] to one and the same
    value, the largest finite binary64 float [sys.float_info.max] (a
    finite number, not an infinity), and ["-1.#INF"] and ["-INF"] to its
    negation; this holds whatever no-data value the caller passes and in
    whatever state the vessel is, the only effect being the debug record
    of the token. *)
Theorem parse_float_infinity_tokens :
  forall (null_val : option float) (s : GOCAD_VESSEL),
    let s' := logged DEBUG "fp_str = %s" s in
    parse_float (PyStr "1.#INF") null_val s = Ok (true, float_max) s' /\
    parse_float (PyStr "INF") null_val s = Ok (true, float_max) s' /\
    parse_float (PyStr "-1.#INF") null_val s = Ok (true, fneg float_max) s' /\
    parse_float (PyStr "-INF") null_val s = Ok (true, fneg float_max) s' /\
    float_max = S754_finite false (2 ^ 53 - 1) 971 /\
    is_finite float_max = true /\
    (forall x : float,
        valid_binary prec emax x && is_finite x && negb (SFleb x float_max)
        = false).
Proof.
  intros null_val s s'. subst s'.
  repeat split;
    try (unfold parse_float; erewrite bind_ok by apply logger_log_run;
         reflexivity).
  intros x.
  destruct (valid_binary prec emax x) eqn:Hv; [| reflexivity].
  destruct (is_finite x) eqn:Hf; [| reflexivity].
  now rewrite float_max_largest.
Qed.

(** ** The no-data check of the float scanner *)

Lemma not_infinity_token t :
  str_in t infinity_tokens = false ->
  pyval_in (PyStr t) ["1.#INF"; "INF"] = false /\
  pyval_in (PyStr t) ["-1.#INF"; "-INF"] = false.
Proof.
  unfold infinity_tokens, pyval_in, str_in. cbn [existsb].
  intros H. repeat (apply orb_false_iff in H as [? H]).
  split; repeat (apply orb_false_iff; split); assumption.
Qed.

(** What the scanner does with a token that [float()] converts and that
    is none of the infinity spellings. *)
Lemma parse_float_ordinary t f null_val s :
  str_in t infinity_tokens = false ->
  float_of_string t = Some f ->
  parse_float (PyStr t) null_val s =
  Ok match null_val with
     | Some nv => if feqb f nv then (false, nv) else (true, f)
     | None => (true, f)
     end (logged DEBUG "fp_str = %s" s).
Proof.
  intros Hinf Hf. apply not_infinity_token in Hinf as [H1 H2].
  unfold parse_float. erewrite bind_ok by apply logger_log_run.
  rewrite H1, H2.
  unfold try_except, bind, to_float, py_float, or_raise. rewrite Hf.
  unfold ret. destruct null_val as [nv |]; [destruct (feqb f nv) |]; reflexivity.
Qed.





(** ** No-data markers of point properties *)

Lemma feqb_refl (x : float) : is_nan x = false -> feqb x x = true.
Proof.
  destruct x as [sx | sx | | sx m e]; try discriminate; intros _.
  - reflexivity.
  - now destruct sx.
  - unfold feqb, SFeqb, SFcompare.
    rewrite Z.compare_refl, Pos.compare_cont_refl. now destruct sx.
Qed.

Lemma parse_float_marker m tok s :
  is_nan m = false -> is_marker_text m tok ->
  parse_float (PyStr tok) (Some m) s =
  Ok (false, m) (logged DEBUG "fp_str = %s" s).
Proof.
  intros Hnan [Hinf Hf].
  rewrite (parse_float_ordinary tok m (Some m) s Hinf Hf).
  now rewrite feqb_refl.
Qed.

(** The scanner returns a pair or leaves through [sys.exit(1)]; it never
    lets an exception out. *)
Lemma parse_float_total v null_val s :
  (exists b x s', parse_float v null_val s = Ok (b, x) s') \/
  (exists s', parse_float v null_val s = Exited 1 s').
Proof.
  unfold parse_float. msimp.
  destruct (pyval_in v ["1.#INF"; "INF"]); [left; eauto |].
  destruct (pyval_in v ["-1.#INF"; "-INF"]); [left; eauto |].
  destruct v as [t | x]; msimp.
  - destruct (float_of_string t) as [f |]; msimp.
    + destruct null_val as [nv |]; [destruct (feqb f nv) |]; left; eauto.
    + unfold handle_exc. msimp.
      match goal with |- context [(?a =? DEBUG) || ?b] =>
        destruct ((a =? DEBUG) || b); msimp;
        [destruct b; msimp; right; eauto | left; eauto]
      end.
  - destruct null_val as [nv |]; [destruct (feqb x nv) |]; left; eauto.
Qed.

Lemma fmin_list_In l x : In (fmin_list x l) (x :: l).
Proof.
  unfold fmin_list. revert x.
  induction l as [| y l IH]; intros x; cbn [fold_left]; [now left |].
  destruct (fltb y x).
  - destruct (IH y) as [H | H]; [right; left; exact H | right; right; exact H].
  - destruct (IH x) as [H | H]; [left; exact H | right; right; exact H].
Qed.

Lemma fmax_list_In l x : In (fmax_list x l) (x :: l).
Proof.
  unfold fmax_list. revert x.
  induction l as [| y l IH]; intros x; cbn [fold_left]; [now left |].
  destruct (fltb x y).
  - destruct (IH y) as [H | H]; [right; left; exact H | right; right; exact H].
  - destruct (IH x) as [H | H]; [left; exact H | right; right; exact H].
Qed.

(** The statement of the spec fails for a marker spelt [INF]: the value [INF]
    of the vertex is textually the marker, yet it is stored in the
    mapping and it is both the minimum and the maximum.  It fails
    likewise for a marker spelt [NAN], a NaN being equal to nothing. *)
Lemma no_data_inf_token_is_stored :
  let run marker :=
    process_gocad no_files "" "points.vs"
      ["GOCAD VSET 1"; "PROPERTIES P"; "ESIZES 1";
       String.append "NO_DATA_VALUES " marker;
       String.append "PVRTX 1 0 0 0 " marker] strict_vessel in
  let stored r :=
    map (fun kp => (no_data_marker (snd kp), data (snd kp), data_stats (snd kp)))
        (local_props (final r)) in
  (exists s', run "INF" = Ok true s') /\
  stored (run "INF") =
    [(Some float_max,
      PointData [((zero, zero, zero), Scalar float_max)],
      Some {| st_min := float_max; st_max := float_max |})] /\
  (exists s', run "NAN" = Ok true s') /\
  stored (run "NAN") =
    [(Some S754_nan,
      PointData [((zero, zero, zero), Scalar S754_nan)],
      Some {| st_min := S754_nan; st_max := S754_nan |})].
Proof.
  cbv zeta. repeat split; try (eexists; vm_compute; reflexivity);
    vm_compute; reflexivity.
Qed.

(** C4 (amended): for a point property whose marker [m] is configured
    and is not NaN, a property token that spells out the marker -- the
    infinity spellings excepted -- is treated as absent.  A single-float
    property is handed back unchanged, so nothing enters its mapping; a
    three-float property is handed back unchanged as soon as one of its
    three tokens spells out the marker (unless a malformed sibling token
    ends the run first).  The minimum and maximum are then taken among
    the values the mapping holds, so an absent value takes no part. *)
Theorem no_data_token_is_absent :
  forall (s : GOCAD_VESSEL) (splitstr_arr : list string) (coord_tup : coord)
         (col_idx : nat) (prop_obj : PROPS) (m : float),
    no_data_marker prop_obj = Some m ->
    is_nan m = false ->
    (forall col' tok,
        data_sz prop_obj = 1 ->
        prop_token splitstr_arr col_idx s = Ok (col', tok) s ->
        is_marker_text m tok ->
        parse_props_body splitstr_arr coord_tup col_idx prop_obj s =
        Ok (prop_obj, (col' + 1)%nat) (logged DEBUG "fp_str = %s" s)) /\
    (forall col' tokX tokY tokZ,
        data_sz prop_obj = 3 ->
        prop_token splitstr_arr col_idx s = Ok (col', tokX) s ->
        nth_error splitstr_arr (col' + 1) = Some tokY ->
        nth_error splitstr_arr (col' + 2) = Some tokZ ->
        is_marker_text m tokX \/ is_marker_text m tokY \/ is_marker_text m tokZ ->
        (exists s', parse_props_body splitstr_arr coord_tup col_idx prop_obj s =
                    Ok (prop_obj, (col' + 3)%nat) s') \/
        (exists s', parse_props_body splitstr_arr coord_tup col_idx prop_obj s =
                    Exited 1 s')) /\
    (forall d,
        data prop_obj = PointData d -> d <> [] ->
        exists st,
          calc_stats prop_obj s = Ok (set_data_stats (Some st) prop_obj) s /\
          In (st_min st) (map first_val (dict_values d)) /\
          In (st_max st) (map first_val (dict_values d))).
Proof.
  intros s arr coord_tup col_idx prop_obj m Hm Hnan. split; [| split].
  - intros col' tok Hsz Htok Hmark.
    unfold parse_props_body. rewrite Hsz. cbn [Z.eqb Pos.eqb].
    rewrite (bind_ok _ _ _ _ _ Htok). cbv beta iota.
    rewrite Hm, (bind_ok _ _ _ _ _ (parse_float_marker _ _ _ Hnan Hmark)).
    reflexivity.
  - intros col' tokX tokY tokZ Hsz Htok HY HZ Hmark.
    unfold parse_props_body. rewrite Hsz. cbn [Z.eqb Pos.eqb].
    rewrite (bind_ok _ _ _ _ _ Htok). cbv beta iota.
    msimp. rewrite HY. msimp. rewrite HZ. msimp. rewrite Hm.
    destruct Hmark as [HX | [HY' | HZ']].
    + rewrite (parse_float_marker _ _ _ Hnan HX). msimp.
      destruct (parse_float_total (PyStr tokY) (Some m)
                  (logged DEBUG "fp_str = %s" s))
        as [(bY & y & sY & EY) | (sY & EY)]; rewrite EY; msimp;
        [| right; eauto].
      destruct (parse_float_total (PyStr tokZ) (Some m) sY)
        as [(bZ & z & sZ & EZ) | (sZ & EZ)]; rewrite EZ; msimp;
        [| right; eauto].
      rewrite andb_false_r. left. eauto.
    + destruct (parse_float_total (PyStr tokX) (Some m) s)
        as [(bX & x & sX & EX) | (sX & EX)]; rewrite EX; msimp;
        [| right; eauto].
      rewrite (parse_float_marker _ _ _ Hnan HY'). msimp.
      destruct (parse_float_total (PyStr tokZ) (Some m)
                  (logged DEBUG "fp_str = %s" sX))
        as [(bZ & z & sZ & EZ) | (sZ & EZ)]; rewrite EZ; msimp;
        [| right; eauto].
      rewrite andb_false_r. cbn [andb]. left. eauto.
    + destruct (parse_float_total (PyStr tokX) (Some m) s)
        as [(bX & x & sX & EX) | (sX & EX)]; rewrite EX; msimp;
        [| right; eauto].
      destruct (parse_float_total (PyStr tokY) (Some m) sX)
        as [(bY & y & sY & EY) | (sY & EY)]; rewrite EY; msimp;
        [| right; eauto].
      rewrite (parse_float_marker _ _ _ Hnan HZ'). msimp. left. eauto.
  - intros d Hd Hne. unfold calc_stats. rewrite Hd. unfold dict_values.
    destruct d as [| [c v] d]; [congruence |]. cbn [map snd].
    eexists. split; [reflexivity |]. cbn [st_min st_max]. split.
    + apply fmin_list_In.
    + apply fmax_list_In.
Qed.

(** The theorem at the marker -9999.0 of a vertex line. *)
Lemma no_data_token_is_absent_witness :
  let p := set_no_data_marker (float_of_string "-9999.0")
             (set_data_sz 1 (new_PROPS "P")) in
  parse_props_body ["PVRTX"; "1"; "0"; "0"; "0"; "-9999.0"] (zero, zero, zero)
    5 p strict_vessel =
  Ok (p, 6%nat) (logged DEBUG "fp_str = %s" strict_vessel).
Proof.
  intros p.
  refine (proj1 (no_data_token_is_absent strict_vessel
                   ["PVRTX"; "1"; "0"; "0"; "0"; "-9999.0"] (zero, zero, zero)
                   5%nat p (float_of_Z (-9999)) _ _) 5%nat "-9999.0" _ _ _).
  - vm_compute. reflexivity.
  - reflexivity.
  - reflexivity.
  - vm_compute. reflexivity.
  - split; vm_compute; reflexivity.
Defined.

(** ** Reaching the keyword branches *)

(** Outside the header contexts and after the first line, a line whose
    first token is no context keyword is handled by [keyword_chain]. *)
Lemma process_line_keyword src_dir fileExt lc line s t0 rest :
  firstLine lc = false ->
  inHeader lc = false ->
  inPropClassHeader lc = false ->
  inLocalPropClassHeader lc = false ->
  splitstr_arr_of line = t0 :: rest ->
  str_in t0 context_keywords = false ->
  process_line src_dir fileExt lc line s =
  keyword_chain src_dir lc t0 (line_str_of line) (t0 :: rest)
    (splitstr_arr_raw_of line) (logged DEBUG "splitstr_arr = %s" s).
Proof.
  intros Hfirst Hhdr Hpc Hlpc Hsplit Hkw.
  unfold context_keywords, str_in in Hkw. cbn [existsb] in Hkw.
  repeat (apply orb_false_iff in Hkw as [? Hkw]).
  unfold process_line. rewrite Hsplit. msimp. rewrite Hfirst.
  unfold dispatch, context_chain, str_in. cbn [existsb].
  repeat match goal with
         | H : String.eqb t0 _ = false |- _ => rewrite !H; clear H
         end.
  cbn [orb]. rewrite !andb_false_r. msimp.
  rewrite Hhdr, Hpc, Hlpc. reflexivity.
Qed.

(** An exit on a line ends the loop over the lines. *)
Lemma process_lines_exited src_dir fileExt lc line more s c s' :
  process_line src_dir fileExt lc line s = Exited c s' ->
  process_lines src_dir fileExt lc (line :: more) s = Exited c s'.
Proof. intros H. cbn [process_lines]. now rewrite (bind_exited _ _ _ _ _ H). Qed.

Lemma process_lines_continue src_dir fileExt lc line more s lc' s' :
  process_line src_dir fileExt lc line s = Ok (Continue lc') s' ->
  process_lines src_dir fileExt lc (line :: more) s =
  process_lines src_dir fileExt lc' more s'.
Proof. intros H. cbn [process_lines]. now rewrite (bind_ok _ _ _ _ _ H). Qed.

(** ** Atoms *)

Lemma check_vertex_false s num :
  _check_vertex s num = false <->
  (forall vert, In vert (_vrtx_arr s) -> vrtx_n vert <> num).
Proof.
  unfold _check_vertex. split.
  - intros H vert Hin Heq.
    assert (existsb (fun v => vrtx_n v =? num) (_vrtx_arr s) = true) as E.
    { apply existsb_exists. exists vert. split; [exact Hin | now apply Z.eqb_eq]. }
    congruence.
  - intros H. apply not_true_is_false. intros E.
    apply existsb_exists in E as (vert & Hin & Heq).
    apply Z.eqb_eq in Heq. exact (H vert Hin Heq).
Qed.

Lemma check_vertex_true s num :
  _check_vertex s num = true <->
  (exists vert, In vert (_vrtx_arr s) /\ vrtx_n vert = num).
Proof.
  unfold _check_vertex. rewrite existsb_exists.
  split; intros (vert & Hin & Heq); exists vert; split; trivial;
    now apply Z.eqb_eq.
Qed.

(** C3: on an [ATOM] or [PATOM] line that reaches its branch and whose
    two numbers parse, (1) if no vertex parsed so far carries the
    referenced sequence number, the process exits with status 1, and so
    does the loop over the lines; (2) if some vertex does, an [ATOM] line
    succeeds: the atom [(n, v_num)] -- a reference to that vertex, no
    position of its own -- is appended to the atoms, the vertices are
    left as they are, and the loop goes on with [n] as the running
    sequence number. *)
Theorem atom_vertex_reference :
  forall (src_dir fileExt : string) (lc : locals) (line : string)
         (s : GOCAD_VESSEL) (t0 t1 t2 : string) (rest : list string)
         (n v_num : Z),
    firstLine lc = false ->
    inHeader lc = false ->
    inPropClassHeader lc = false ->
    inLocalPropClassHeader lc = false ->
    splitstr_arr_of line = t0 :: t1 :: t2 :: rest ->
    t0 = "ATOM" \/ t0 = "PATOM" ->
    int t1 = Some n ->
    int t2 = Some v_num ->
    ((forall vert, In vert (_vrtx_arr s) -> vrtx_n vert <> v_num) ->
     exists s',
       process_line src_dir fileExt lc line s = Exited 1 s' /\
       forall more,
         process_lines src_dir fileExt lc (line :: more) s = Exited 1 s') /\
    (t0 = "ATOM" ->
     (exists vert, In vert (_vrtx_arr s) /\ vrtx_n vert = v_num) ->
     exists s',
       process_line src_dir fileExt lc line s =
       Ok (Continue (set_seq_no n (set_seq_no_prev (seq_no lc) lc))) s' /\
       _atom_arr s' = (_atom_arr s ++ [{| atom_n := n; atom_v := v_num |}])%list /\
       _vrtx_arr s' = _vrtx_arr s /\
       _trgl_arr s' = _trgl_arr s /\
       _seg_arr s' = _seg_arr s).
Proof.
  intros src_dir fileExt lc line s t0 t1 t2 rest n v_num
         Hfirst Hhdr Hpc Hlpc Hsplit Ht0 Hn Hv.
  assert (Hrun : process_line src_dir fileExt lc line s =
                 bind (do_atom lc t0 (line_str_of line) (t0 :: t1 :: t2 :: rest))
                      (fun lc' => ret (Continue lc'))
                      (logged DEBUG "splitstr_arr = %s" s)).
  { rewrite (process_line_keyword _ _ _ _ _ _ _ Hfirst Hhdr Hpc Hlpc Hsplit)
      by (destruct Ht0; subst t0; reflexivity).
    destruct Ht0; subst t0; reflexivity. }
  set (s1 := logged DEBUG "splitstr_arr = %s" s) in *.
  assert (Hvs : _vrtx_arr s1 = _vrtx_arr s) by apply logged_vrtx_arr.
  split.
  - intros Hnone.
    assert (Hck : _check_vertex s1 v_num = false).
    { apply check_vertex_false. now rewrite Hvs. }
    assert (exists s', process_line src_dir fileExt lc line s = Exited 1 s')
      as (s' & Hs').
    { rewrite Hrun. unfold do_atom. msimp. cbn [nth_error].
      rewrite Hn. msimp. rewrite Hv. msimp. rewrite Hck. msimp.
      eexists. reflexivity. }
    exists s'. split; [exact Hs' |].
    intros more. now apply process_lines_exited.
  - intros Hatom Hsome. subst t0.
    assert (Hck : _check_vertex s1 v_num = true).
    { apply check_vertex_true. now rewrite Hvs. }
    rewrite Hrun. unfold do_atom. msimp. cbn [nth_error].
    rewrite Hn. msimp. rewrite Hv. msimp. rewrite Hck. msimp.
    cbn [String.eqb Ascii.eqb Bool.eqb]. msimp.
    eexists. split; [reflexivity |].
    cbn [_atom_arr _vrtx_arr _trgl_arr _seg_arr set_atom_arr seq_no set_seq_no].
    subst s1.
    now rewrite logged_atom_arr, logged_vrtx_arr, logged_trgl_arr,
      logged_seg_arr.
Qed.

(** The theorem on a two-line surface: an atom that names vertex 1 after
    vertex 1 was read, and one that names vertex 7, which never was. *)
Lemma atom_vertex_reference_witness :
  let s := final (process_line "" ".ts" (set_firstLine false init_locals)
                    "VRTX 1 0 0 0" strict_vessel) in
  let lc := set_seq_no 1 (set_seq_no_prev 0 (set_firstLine false init_locals)) in
  (exists s', process_line "" ".ts" lc "ATOM 2 7" s = Exited 1 s') /\
  (exists s',
     process_line "" ".ts" lc "ATOM 2 1" s =
     Ok (Continue (set_seq_no 2 (set_seq_no_prev 1 lc))) s' /\
     _atom_arr s' = [{| atom_n := 2; atom_v := 1 |}]).
Proof.
  intros s lc. split.
  - destruct (atom_vertex_reference "" ".ts" lc "ATOM 2 7" s
                "ATOM" "2" "7" [] 2 7) as [H _];
      try reflexivity; [now left |].
    destruct H as (s' & Hs' & _).
    + intros vert Hin. vm_compute in Hin.
      destruct Hin as [<- | []]. vm_compute. discriminate.
    + exists s'. exact Hs'.
  - destruct (atom_vertex_reference "" ".ts" lc "ATOM 2 1" s
                "ATOM" "2" "1" [] 2 1) as [_ H];
      try reflexivity; [now left |].
    destruct H as (s' & Hs' & Hatoms & _).
    + reflexivity.
    + eexists. split; [vm_compute; now left | reflexivity].
    + exists s'. split; [exact Hs' | exact Hatoms].
Defined.

(** ** Properties attached to atoms *)

(** [make_vertex_dict] counts from one: the first vertex of the store,
    when no later vertex and no atom carries its sequence number, is
    given the number 1 -- which, used as a list index, is the place of
    the second vertex. *)
Lemma number_vertices_other vs idx d n :
  (forall w, In w vs -> vrtx_n w <> n) ->
  number_vertices vs idx d !! n = d !! n.
Proof.
  revert idx d. induction vs as [| w vs IH]; intros idx d H; [reflexivity |].
  cbn [number_vertices]. rewrite IH by (intros u Hu; apply H; now right).
  apply lookup_insert_ne. apply H. now left.
Qed.

Lemma make_vertex_dict_first s v rest :
  _vrtx_arr s = v :: rest ->
  (forall w, In w rest -> vrtx_n w <> vrtx_n v) ->
  (forall a, In a (_atom_arr s) -> atom_n a <> vrtx_n v) ->
  make_vertex_dict s !! vrtx_n v = Some 1%nat /\
  nth_error (_vrtx_arr s) 1 = nth_error rest 0.
Proof.
  intros Hvs Hrest Hatoms. unfold make_vertex_dict. rewrite Hvs. split; [| reflexivity].
  cbn [number_vertices].
  assert (Hfold : forall atoms (d : gmap Z nat),
             (forall a, In a atoms -> atom_n a <> vrtx_n v) ->
             fold_left
               (fun d atom =>
                  match first_vertex (v :: rest) (atom_v atom) 1 with
                  | Some idx => <[atom_n atom := idx]> d
                  | None => d
                  end) atoms d !! vrtx_n v = d !! vrtx_n v).
  { induction atoms as [| a atoms IH]; intros d H; [reflexivity |].
    cbn [fold_left]. rewrite IH by (intros u Hu; apply H; now right).
    destruct (first_vertex (v :: rest) (atom_v a) 1); [| reflexivity].
    apply lookup_insert_ne. apply H. now left. }
  rewrite Hfold by exact Hatoms.
  rewrite number_vertices_other by exact Hrest.
  apply lookup_insert_eq.
Qed.

(** C1: [make_vertex_dict] numbers the vertices from one, and the
    [PATOM] branch uses that number to index the vertex list, which
    counts from zero.  On a file with two vertices, the property value of
    an atom that names vertex 1 is therefore keyed to the position of
    vertex 2; when the atom names the last vertex the index is out of
    range, and the value is lost -- the run exits when [STOP_ON_EXC] is
    on, and nothing is stored when it is off. *)
Theorem patom_props_keyed_to_next_vertex :
  let lines v_num :=
    ["GOCAD VSET 1"; "PROPERTIES P"; "ESIZES 1";
     "VRTX 1 0 0 0"; "VRTX 2 1 1 1";
     String.append "PATOM 3 " (String.append v_num " 7.5")] in
  let run v_num vessel := process_gocad no_files "" "points.vs" (lines v_num) vessel in
  let stored r := map (fun kp => data (snd kp)) (local_props (final r)) in
  (* the atom names vertex 1, at (0, 0, 0) *)
  (exists s', run "1" strict_vessel = Ok true s') /\
  map vrtx_xyz (_vrtx_arr (final (run "1" strict_vessel))) =
    [(zero, zero, zero); (one, one, one)] /\
  _atom_arr (final (run "1" strict_vessel)) = [{| atom_n := 3; atom_v := 1 |}] /\
  stored (run "1" strict_vessel) =
    [PointData [((one, one, one), Scalar seven_and_a_half)]] /\
  (* the atom names vertex 2, the last one *)
  (exists s', run "2" strict_vessel = Exited 1 s') /\
  (exists s', run "2" lenient_vessel = Ok true s') /\
  stored (run "2" lenient_vessel) = [PointData []].
Proof.
  cbv zeta. repeat split; try (eexists; vm_compute; reflexivity);
    vm_compute; reflexivity.
Qed.

(** ** Segments *)

(** A well-formed [SEG] line appends the two references under the
    running sequence number and leaves the counters alone. *)
Lemma do_seg_appends lc t0 t1 t2 rest a b s :
  int t1 = Some a -> int t2 = Some b ->
  do_seg lc (t0 :: t1 :: t2 :: rest) s =
  Ok lc (set_seg_arr (_seg_arr s ++ [{| seg_n := seq_no lc; seg_ab := (a, b) |}]) s).
Proof.
  intros Ha Hb. unfold do_seg. msimp. cbn [nth_error].
  rewrite Ha. msimp. rewrite Hb. msimp. reflexivity.
Qed.

(** A [SEG] line that reaches its branch and parses appends its record
    under the running sequence number, whatever that is. *)
Lemma seg_line_appends src_dir fileExt lc line s t1 t2 rest a b :
  firstLine lc = false ->
  inHeader lc = false ->
  inPropClassHeader lc = false ->
  inLocalPropClassHeader lc = false ->
  splitstr_arr_of line = "SEG" :: t1 :: t2 :: rest ->
  int t1 = Some a -> int t2 = Some b ->
  exists s',
    process_line src_dir fileExt lc line s = Ok (Continue lc) s' /\
    _seg_arr s' = (_seg_arr s ++ [{| seg_n := seq_no lc; seg_ab := (a, b) |}])%list.
Proof.
  intros Hfirst Hhdr Hpc Hlpc Hsplit Ha Hb.
  rewrite (process_line_keyword _ _ _ _ _ _ _ Hfirst Hhdr Hpc Hlpc Hsplit)
    by reflexivity.
  unfold keyword_chain. cbn [String.eqb Ascii.eqb Bool.eqb andb orb].
  rewrite (bind_ok _ _ _ _ _ (do_seg_appends _ _ _ _ _ _ _ _ Ha Hb)).
  eexists. split; [reflexivity |].
  cbn [_seg_arr set_seg_arr]. now rewrite logged_seg_arr.
Qed.

(** C9: a [SEG] line that does not parse resets the running sequence
    number to [seq_no_prev], which the [SEG] branch, unlike the vertex,
    atom and triangle branches, has not saved first.  With [STOP_ON_EXC]
    off, the segment read after a malformed [SEG] line therefore carries
    the sequence number of the vertex before the last one (1, not 2); and
    when the malformed line comes first, the initial -1 rather than 0. *)
Theorem seg_after_malformed_seg_takes_stale_counter :
  let run lines := process_gocad no_files "" "lines.pl" lines lenient_vessel in
  let r := run ["GOCAD PLINE 1"; "VRTX 1 0 0 0"; "VRTX 2 1 0 0";
                "SEG 1 x"; "SEG 1 2"] in
  let r0 := run ["GOCAD PLINE 1"; "SEG 1 x"; "SEG 1 2"] in
  (exists s', r = Ok true s') /\
  map vrtx_n (_vrtx_arr (final r)) = [1; 2] /\
  _seg_arr (final r) = [{| seg_n := 1; seg_ab := (1, 2) |}] /\
  (exists s', r0 = Ok true s') /\
  _seg_arr (final r0) = [{| seg_n := -1; seg_ab := (1, 2) |}].
Proof.
  cbv zeta. repeat split; try (eexists; vm_compute; reflexivity);
    vm_compute; reflexivity.
Qed.

(** ** Header colours *)

(** [__handle_exc] by configuration *)
Lemma handle_exc_quiet exc s :
  STOP_ON_EXC s = false -> log_level s <> DEBUG -> handle_exc exc s = Ok tt s.
Proof.
  intros Hstop Hlvl. unfold handle_exc. msimp. rewrite Hstop.
  apply Z.eqb_neq in Hlvl. rewrite Hlvl. reflexivity.
Qed.

Lemma handle_exc_fatal exc s :
  STOP_ON_EXC s = true \/ log_level s = DEBUG ->
  exists s', handle_exc exc s = Exited 1 s' /\
             (STOP_ON_EXC s = true ->
              log s' = (log s ++ [Printed "DEBUG MODE: CAUGHT EXCEPTION:";
                                  Printed (exn_name exc);
                                  Printed "traceback"])%list).
Proof.
  intros H. unfold handle_exc. msimp.
  destruct (STOP_ON_EXC s) eqn:Hstop.
  - rewrite orb_true_r. msimp. eexists. split; [reflexivity |].
    intros _. cbn [log set_log]. now rewrite <- !app_assoc.
  - destruct H as [H | H]; [discriminate |].
    rewrite H. cbn [Z.eqb DEBUG Pos.eqb orb]. msimp.
    eexists. split; [reflexivity | discriminate].
Qed.

Lemma string_get_0_empty v : String.get 0 v = None -> v = "".
Proof. now destruct v. Qed.

(** What the [try] body does with a malformed value: it notes a wrong
    number of fields, makes a colour of a value whose slices [int]
    takes, and raises on the others. *)
Lemma colour_try_malformed v s :
  malformed_colour v = true ->
  (field_count_off v = true /\ hex_slices_read v = false /\
   colour_try v s = Ok tt (logged DEBUG "Could not parse colour %s" s)) \/
  (field_count_off v = false /\ hex_slices_read v = true /\
   exists r g b,
     int16 (slice 1 3 v) = Some r /\ int16 (slice 3 5 v) = Some g /\
     int16 (slice 5 7 v) = Some b /\
     colour_try v s = Ok tt (set_rgba_tup (hex_colour r g b) s)) \/
  (field_count_off v = false /\ hex_slices_read v = false /\
   exists e, (e = ValueError \/ e = IndexError) /\ colour_try v s = Raised e s).
Proof.
  unfold malformed_colour, colour_floats, hex_slices_read, field_count_off,
    starts_with_hash, field_count, colour_try.
  intros H. apply andb_true_iff in H as [Hf _].
  apply negb_true_iff in Hf. msimp.
  destruct (String.get 0 v) as [c |] eqn:Hget.
  2:{ right. right. rewrite (string_get_0_empty _ Hget). cbn.
      repeat split. exists IndexError. split; [now right | reflexivity]. }
  assert (Hne : String.eqb v "" = false) by (now destruct v).
  rewrite Hne in *. cbn [negb andb] in *.
  destruct (Ascii.eqb c "#") eqn:Hc; cbn [negb andb] in *.
  - right. unfold hex_channel, is_hex_pair, hex_colour. msimp.
    destruct (int16 (slice 1 3 v)) as [r |]; msimp;
      [| right; repeat split; exists ValueError; split; [now left | reflexivity]].
    destruct (int16 (slice 3 5 v)) as [g |]; msimp;
      [| right; repeat split; exists ValueError; split; [now left | reflexivity]].
    destruct (int16 (slice 5 7 v)) as [b |]; msimp;
      [| right; repeat split; exists ValueError; split; [now left | reflexivity]].
    left. repeat split. exists r, g, b. repeat split.
  - destruct (split_on " " v) as [| a [| b [| c3 [| d [| e l]]]]];
      cbn [length Nat.eqb orb negb andb forallb] in *;
      try (left; repeat split; msimp; reflexivity);
      right; right; (split; [reflexivity |]); (split; [reflexivity |]);
      exists ValueError; (split; [now left |]);
      unfold is_float_text in *; cbn [nth_error];
      repeat match goal with
             | |- context [float_of_string ?t] =>
                 destruct (float_of_string t); msimp; try reflexivity
             end;
      discriminate.
Qed.

(** [int(_, 16)] takes every pair of hexadecimal digits, so that every
    [#RRGGBB] is among the values line 490 reads: the malformed values
    that are read are those beyond this shape. *)
Lemma hex_pair_read c1 c2 :
  is_hex_digit c1 = true -> is_hex_digit c2 = true ->
  is_hex_pair (String c1 (String c2 "")) = true.
Proof.
  unfold is_hex_digit. rewrite !existsb_exists.
  intros (x1 & Hin1 & E1) (x2 & Hin2 & E2).
  apply Ascii.eqb_eq in E1, E2. subst x1 x2.
  cbn [list_ascii_of_string In] in Hin1, Hin2.
  repeat (destruct Hin1 as [<- | Hin1]; [| try contradiction]);
    repeat (destruct Hin2 as [<- | Hin2]; [| try contradiction]);
    vm_compute; reflexivity.
Qed.

Lemma colour_hex_is_read v : colour_hex v = true -> hex_slices_read v = true.
Proof.
  unfold colour_hex, hex_slices_read, starts_with_hash.
  destruct v as [| c0 [| a [| b [| c [| d [| e [| f [| g w]]]]]]]];
    try discriminate; cbn [String.length Nat.eqb andb];
    rewrite ?andb_false_r; try discriminate.
  cbn [list_ascii_of_string forallb String.get].
  intros H. apply andb_true_iff in H as [H Hd].
  apply andb_true_iff in H as [H _].
  repeat (let Hx := fresh "Hx" in apply andb_true_iff in Hd as [Hx Hd]).
  rewrite H. cbn [andb slice Nat.sub substring].
  now rewrite !hex_pair_read.
Qed.

(** Three malformed values that are read *)
Example malformed_values_read :
  forallb (fun v => malformed_colour v && hex_slices_read v)
    ["#FFFFF"; "#FF0000ZZ"; "#-1+2 3"] = true.
Proof. reflexivity. Qed.

Lemma colour_key_not_name name :
  is_colour_key name = true -> String.eqb name "NAME" = false.
Proof.
  unfold is_colour_key. intros H.
  apply orb_true_iff in H as [H | H]; apply String.eqb_eq in H; now subst.
Qed.

(** In the header, a line whose first token starts with an asterisk is
    handled by [do_header]. *)
Lemma process_line_header src_dir fileExt lc line s t0' rest :
  firstLine lc = false ->
  inHeader lc = true ->
  inPropClassHeader lc = false ->
  inLocalPropClassHeader lc = false ->
  splitstr_arr_of line = String "*" t0' :: rest ->
  process_line src_dir fileExt lc line s =
  bind (do_header (line_str_of line)) (fun _ => ret (Continue lc))
       (logged DEBUG "splitstr_arr = %s" s).
Proof.
  intros Hfirst Hhdr Hpc Hlpc Hsplit.
  unfold process_line. rewrite Hsplit. msimp. rewrite Hfirst.
  unfold dispatch, context_chain.
  cbn [str_in existsb String.eqb Ascii.eqb Bool.eqb orb andb].
  rewrite !andb_false_r. msimp. rewrite Hpc, Hlpc, Hhdr. reflexivity.
Qed.

(** The statement of the spec fails three times.  With the default
    [STOP_ON_EXC] a colour with a field that is no float ends the
    process; a colour of two fields, far from turning the model white,
    leaves the red of the line before it; and a hash sign with five
    digits is taken for a colour, the last slice being the one digit
    that is left, with the log of a well-formed line. *)
Lemma malformed_colour_fatal_ignored_or_read :
  (malformed_colour "1 0 X" = true /\
   exists s',
     process_gocad no_files "" "surface.ts"
       ["GOCAD TSURF 1"; "HEADER {"; "*solid*color: 1 0 x"; "}"]
       strict_vessel = Exited 1 s') /\
  (malformed_colour "0.5 0.5" = true /\
   let r := process_gocad no_files "" "surface.ts"
              ["GOCAD TSURF 1"; "HEADER {"; "*solid*color: #FF0000";
               "*atoms*color: 0.5 0.5"; "}"] lenient_vessel in
   (exists s', r = Ok true s') /\
   rgba_tup (final r) = (one, zero, zero, one) /\
   rgba_tup (final r) <> white) /\
  (malformed_colour "#FFFFF" = true /\
   let r := process_gocad no_files "" "surface.ts"
              ["GOCAD TSURF 1"; "HEADER {"; "*solid*color: #FFFFF"; "}"]
              strict_vessel in
   (exists s', r = Ok true s') /\
   rgba_tup (final r) = hex_colour 255 255 15 /\
   rgba_tup (final r) <> white /\
   log (final r) = log (final
     (process_gocad no_files "" "surface.ts"
        ["GOCAD TSURF 1"; "HEADER {"; "*solid*color: #FFFF0F"; "}"]
        strict_vessel))).
Proof.
  split; [split; [reflexivity | eexists; vm_compute; reflexivity] |].
  split.
  - split; [reflexivity |].
    cbv zeta. split; [eexists; vm_compute; reflexivity |].
    split; [vm_compute; reflexivity | vm_compute; discriminate].
  - split; [reflexivity |].
    cbv zeta. split; [eexists; vm_compute; reflexivity |].
    split; [vm_compute; reflexivity |].
    split; [vm_compute; discriminate | vm_compute; reflexivity].
Qed.

(** C2 (amended): a header line with one of the two colour keys and a
    malformed value -- neither three or four space-separated floats nor
    a hash sign followed by three pairs of hexadecimal digits -- is
    handled by the kind of defect and by the configuration.
    (1) A value of some other number of fields leaves the colour as it
    was and parsing continues; at a level above [DEBUG] nothing is
    logged.
    (2) A value that starts with a hash sign and whose slices [1:3],
    [3:5] and [5:7] [int(_, 16)] takes is read as a colour all the
    same: the three numbers over 255 with alpha 1; parsing continues and
    at a level above [DEBUG] nothing is logged.
    (3) Any other malformed value raises in the [try] body; with
    [STOP_ON_EXC] on or the level at [DEBUG] the process exits with
    status 1 and no further line is read.
    (4) With [STOP_ON_EXC] off and the level not [DEBUG] the colour
    becomes opaque white, parsing continues with the next line, and at a
    level above [DEBUG] nothing is logged. *)
Theorem header_colour_malformed :
  forall (src_dir fileExt : string) (lc : locals) (line : string)
         (s : GOCAD_VESSEL) (t0' : string) (rest : list string)
         (name value : string) (found : bool),
    firstLine lc = false ->
    inHeader lc = true ->
    inPropClassHeader lc = false ->
    inLocalPropClassHeader lc = false ->
    splitstr_arr_of line = String "*" t0' :: rest ->
    partition ":" (line_str_of line) = (name, found, value) ->
    is_colour_key (strip name) = true ->
    malformed_colour (strip value) = true ->
    (field_count_off (strip value) = true ->
     exists s',
       process_line src_dir fileExt lc line s = Ok (Continue lc) s' /\
       rgba_tup s' = rgba_tup s /\
       (log_level s > DEBUG -> log s' = log s)) /\
    (hex_slices_read (strip value) = true ->
     exists s' r g b,
       int16 (slice 1 3 (strip value)) = Some r /\
       int16 (slice 3 5 (strip value)) = Some g /\
       int16 (slice 5 7 (strip value)) = Some b /\
       process_line src_dir fileExt lc line s = Ok (Continue lc) s' /\
       rgba_tup s' = hex_colour r g b /\
       (log_level s > DEBUG -> log s' = log s)) /\
    (field_count_off (strip value) = false ->
     hex_slices_read (strip value) = false ->
     STOP_ON_EXC s = true \/ log_level s = DEBUG ->
     exists s',
       process_line src_dir fileExt lc line s = Exited 1 s' /\
       forall more,
         process_lines src_dir fileExt lc (line :: more) s = Exited 1 s') /\
    (field_count_off (strip value) = false ->
     hex_slices_read (strip value) = false ->
     STOP_ON_EXC s = false -> log_level s <> DEBUG ->
     exists s',
       process_line src_dir fileExt lc line s = Ok (Continue lc) s' /\
       rgba_tup s' = white /\
       (log_level s > DEBUG -> log s' = log s)).
Proof.
  intros src_dir fileExt lc line s t0' rest name value found
         Hfirst Hhdr Hpc Hlpc Hsplit Hpart Hkey Hbad.
  pose proof (process_line_header src_dir fileExt lc line s t0' rest
                Hfirst Hhdr Hpc Hlpc Hsplit) as Hrun.
  unfold do_header in Hrun. rewrite Hpart in Hrun.
  rewrite Hkey, (colour_key_not_name _ Hkey) in Hrun.
  unfold parse_colour in Hrun.
  set (s1 := logged DEBUG "splitstr_arr = %s" s) in *.
  set (s2 := logged DEBUG "inHeader name_str = %s value_str = %s" s1) in *.
  assert (Hstop2 : STOP_ON_EXC s2 = STOP_ON_EXC s).
  { subst s2 s1. now rewrite !logged_STOP_ON_EXC. }
  assert (Hlvl2 : log_level s2 = log_level s).
  { subst s2 s1. now rewrite !logged_log_level. }
  assert (Hrgba2 : rgba_tup s2 = rgba_tup s).
  { subst s2 s1. now rewrite !logged_rgba_tup. }
  assert (Hquiet : log_level s > DEBUG -> s2 = s).
  { intros Hq. subst s2 s1. rewrite (logged_quiet _ _ s Hq).
    now apply logged_quiet. }
  destruct (colour_try_malformed (strip value) s2 Hbad)
    as [(Hoff & Hhex & Htry) |
        [(Hoff & Hhex & r & g & b & Hr & Hg & Hb & Htry) |
         (Hoff & Hhex & e & He & Htry)]].
  - repeat split; try (intros; congruence).
    intros _. revert Hrun. msimp. fold s2. rewrite Htry. msimp. intros Hrun.
    eexists. split; [exact Hrun |]. split.
    + now rewrite !logged_rgba_tup.
    + intros Hq. rewrite !logged_quiet;
        rewrite ?logged_log_level, ?Hlvl2; try exact Hq.
      now rewrite Hquiet.
  - split; [intros; congruence |].
    split; [| split; intros; congruence].
    intros _. revert Hrun. msimp. fold s2. rewrite Htry. msimp. intros Hrun.
    eexists _, r, g, b. repeat (split; [eassumption |]). split.
    + now rewrite logged_rgba_tup.
    + intros Hq. rewrite logged_quiet by (cbn [log_level set_rgba_tup];
                                          now rewrite Hlvl2).
      cbn [log set_rgba_tup]. now rewrite Hquiet.
  - split; [intros; congruence |]. split; [intros; congruence |]. split.
    + intros _ _ Hfatal.
      destruct (handle_exc_fatal e s2) as (s' & Hs' & _).
      { now rewrite Hstop2, Hlvl2. }
      assert (process_line src_dir fileExt lc line s = Exited 1 s') as Hexit.
      { revert Hrun. msimp. fold s2. rewrite Htry.
        destruct He; subst e; msimp; rewrite Hs'; msimp; trivial. }
      exists s'. split; [exact Hexit |].
      intros more. now apply process_lines_exited.
    + intros _ _ Hstop Hlvl.
      assert (He' : handle_exc e s2 = Ok tt s2).
      { apply handle_exc_quiet; now rewrite ?Hstop2, ?Hlvl2. }
      revert Hrun. msimp. fold s2. rewrite Htry.
      destruct He; subst e; msimp; rewrite He'; msimp; intros Hrun;
        (eexists; split; [exact Hrun |]; split;
         [now rewrite logged_rgba_tup |]);
        intros Hq; (rewrite logged_quiet by (cbn [log_level set_rgba_tup];
                                             now rewrite Hlvl2));
        cbn [log set_rgba_tup]; now rewrite Hquiet.
Qed.

(** The theorem on a colour with a field that is no number, read in the
    header by a vessel that stops on exceptions and by one that does
    not, and on a hash sign with five digits, which the first of them
    reads as a colour. *)
Lemma header_colour_malformed_witness :
  let lc := set_inHeader true (set_firstLine false init_locals) in
  (exists s',
     process_line "" ".ts" lc "*solid*color: 1 0 x" strict_vessel =
     Exited 1 s') /\
  (exists s',
     process_line "" ".ts" lc "*solid*color: 1 0 x" lenient_vessel =
     Ok (Continue lc) s' /\ rgba_tup s' = white) /\
  (exists s',
     process_line "" ".ts" lc "*solid*color: #FFFFF" strict_vessel =
     Ok (Continue lc) s' /\ rgba_tup s' = hex_colour 255 255 15).
Proof.
  intros lc.
  split; [| split].
  - destruct (header_colour_malformed "" ".ts" lc "*solid*color: 1 0 x"
                strict_vessel "SOLID*COLOR:" ["1"; "0"; "X"]
                "*SOLID*COLOR" " 1 0 X" true)
      as (_ & _ & H & _); try reflexivity.
    destruct H as (s' & Hs' & _); [reflexivity | reflexivity | now left |].
    exists s'. exact Hs'.
  - destruct (header_colour_malformed "" ".ts" lc "*solid*color: 1 0 x"
                lenient_vessel "SOLID*COLOR:" ["1"; "0"; "X"]
                "*SOLID*COLOR" " 1 0 X" true)
      as (_ & _ & _ & H); try reflexivity.
    destruct H as (s' & Hs' & Hw & _);
      [reflexivity | reflexivity | reflexivity | vm_compute; discriminate |].
    exists s'. split; [exact Hs' | exact Hw].
  - destruct (header_colour_malformed "" ".ts" lc "*solid*color: #FFFFF"
                strict_vessel "SOLID*COLOR:" ["#FFFFF"]
                "*SOLID*COLOR" " #FFFFF" true)
      as (_ & H & _); try reflexivity.
    destruct H as (s' & r & g & b & Hr & Hg & Hb & Hs' & Hc & _);
      [reflexivity |].
    exists s'. split; [exact Hs' |].
    vm_compute in Hr, Hg, Hb.
    injection Hr as <-. injection Hg as <-. injection Hb as <-. exact Hc.
Defined.

(** ** Region flags *)

Lemma byte_bits_digits (b : byte) :
  byte_bits b =
  String (bit_char (Z.testbit (byte_val b) 7))
    (String (bit_char (Z.testbit (byte_val b) 6))
       (String (bit_char (Z.testbit (byte_val b) 5))
          (String (bit_char (Z.testbit (byte_val b) 4))
             (String (bit_char (Z.testbit (byte_val b) 3))
                (String (bit_char (Z.testbit (byte_val b) 2))
                   (String (bit_char (Z.testbit (byte_val b) 1))
                      (String (bit_char (Z.testbit (byte_val b) 0))
                         EmptyString))))))).
Proof. destruct b; reflexivity. Qed.

Lemma byte_bits_get (b : byte) (k : nat) :
  (k < 8)%nat ->
  String.get (7 - k) (byte_bits b) =
  Some (bit_char (Z.testbit (byte_val b) (Z.of_nat k))).
Proof.
  intros Hk. rewrite byte_bits_digits.
  do 8 (destruct k as [| k]; [reflexivity |]). lia.
Qed.

Lemma byte_bits_length (b : byte) : String.length (byte_bits b) = 8%nat.
Proof. now rewrite byte_bits_digits. Qed.

Lemma string_append_cons (c : ascii) (a b : string) :
  String.append (String c a) b = String c (String.append a b).
Proof. reflexivity. Qed.

Lemma string_append_empty_r (a : string) : String.append a EmptyString = a.
Proof.
  induction a as [| c a IH]; [reflexivity |].
  now rewrite string_append_cons, IH.
Qed.

Lemma string_length_append (a b : string) :
  String.length (String.append a b) = (String.length a + String.length b)%nat.
Proof.
  induction a as [| c a IH]; [reflexivity |].
  rewrite string_append_cons. cbn [String.length Nat.add]. now rewrite IH.
Qed.

Lemma string_append_assoc (a b c : string) :
  String.append (String.append a b) c = String.append a (String.append b c).
Proof.
  induction a as [| x a IH]; [reflexivity |].
  now rewrite !string_append_cons, IH.
Qed.

Lemma string_get_lt (s : string) (i : nat) (c : ascii) :
  String.get i s = Some c -> (i < String.length s)%nat.
Proof.
  revert i. induction s as [| x s IH]; intros i H; [discriminate |].
  destruct i as [| i]; cbn in *; [lia |]. apply IH in H. lia.
Qed.

Lemma mask_of_length (elem : list byte) :
  String.length (mask_of elem) = (8 * length elem)%nat.
Proof.
  induction elem as [| b rest IH]; [reflexivity |].
  cbn [mask_of Datatypes.length]. rewrite string_length_append, byte_bits_length, IH. lia.
Qed.

Lemma mask_of_snoc (l : list byte) (b : byte) :
  mask_of (l ++ [b]) = String.append (byte_bits b) (mask_of l).
Proof.
  induction l as [| a l IH]; cbn [mask_of app].
  - now rewrite string_append_empty_r.
  - now rewrite IH, string_append_assoc.
Qed.

(** Digit [8n - 1 - k] of the mask is bit [k] of the item: the mask runs
    from the most significant bit of the whole item down to bit 0. *)
Lemma mask_of_get (elem : list byte) (k : nat) :
  (k < 8 * length elem)%nat ->
  String.get (8 * length elem - 1 - k) (mask_of elem) =
  Some (bit_char (group_bit elem k)).
Proof.
  revert k. induction elem as [| b rest IH]; intros k Hk; [cbn in Hk; lia |].
  cbn [mask_of Datatypes.length] in *.
  destruct (Nat.lt_ge_cases k 8) as [Hlow | Hhigh].
  - replace (8 * S (length rest) - 1 - k)%nat
      with (7 - k + String.length (mask_of rest))%nat
      by (rewrite mask_of_length; lia).
    rewrite <- (append_correct2 (mask_of rest) (byte_bits b) (7 - k)).
    rewrite byte_bits_get by exact Hlow.
    unfold group_bit. rewrite Nat.div_small, Nat.mod_small by exact Hlow.
    reflexivity.
  - replace (8 * S (length rest) - 1 - k)%nat
      with (8 * length rest - 1 - (k - 8))%nat by lia.
    rewrite <- append_correct1 by (rewrite mask_of_length; lia).
    rewrite IH by lia.
    assert (Hk8 : k = (k - 8 + 1 * 8)%nat) by lia.
    assert (Hdiv : (k / 8 = S ((k - 8) / 8))%nat).
    { rewrite Hk8 at 1. rewrite Nat.div_add by lia. lia. }
    assert (Hmod : (k mod 8 = (k - 8) mod 8)%nat).
    { rewrite Hk8 at 1. now rewrite Nat.Div0.mod_add. }
    unfold group_bit. rewrite Hdiv, Hmod. reflexivity.
Qed.

(** The loop over the bits: nothing is written when no set bit is
    registered, and the last registered set bit of the mask decides. *)
Lemma mark_regions_none rd bm cnt cell fd :
  (forall i, String.get i bm = Some "1"%char ->
             rd !! str_of_Z (cnt - Z.of_nat i) = None) ->
  mark_regions rd bm cnt cell fd = fd.
Proof.
  revert cnt fd. induction bm as [| c bm IH]; intros cnt fd H; [reflexivity |].
  cbn [mark_regions].
  assert (Hhd : match rd !! str_of_Z cnt with
                | Some key => if Ascii.eqb c "1" then <[cell:=key]> fd else fd
                | None => fd
                end = fd).
  { destruct (rd !! str_of_Z cnt) as [key |] eqn:E; [| reflexivity].
    destruct (Ascii.eqb c "1") eqn:Ec; [| reflexivity].
    apply Ascii.eqb_eq in Ec. subst c.
    specialize (H 0%nat eq_refl). rewrite Z.sub_0_r in H. congruence. }
  rewrite Hhd. apply IH. intros i Hi.
  specialize (H (S i) Hi).
  now replace (cnt - 1 - Z.of_nat i) with (cnt - Z.of_nat (S i)) by lia.
Qed.

Lemma mark_regions_last rd bm cnt cell fd i name :
  String.get i bm = Some "1"%char ->
  rd !! str_of_Z (cnt - Z.of_nat i) = Some name ->
  (forall j, (i < j)%nat -> String.get j bm = Some "1"%char ->
             rd !! str_of_Z (cnt - Z.of_nat j) = None) ->
  mark_regions rd bm cnt cell fd = <[cell := name]> fd.
Proof.
  revert cnt fd i. induction bm as [| c bm IH]; intros cnt fd i Hi Hname Hlater;
    [discriminate |].
  cbn [mark_regions]. destruct i as [| i].
  - cbn in Hi. injection Hi as ->. rewrite Z.sub_0_r in Hname. rewrite Hname.
    cbn [Ascii.eqb Bool.eqb andb]. apply mark_regions_none.
    intros j Hj. specialize (Hlater (S j) ltac:(lia) Hj).
    now replace (cnt - 1 - Z.of_nat j) with (cnt - Z.of_nat (S j)) by lia.
  - cbn in Hi.
    rewrite (IH (cnt - 1) _ i Hi).
    + destruct (rd !! str_of_Z cnt) as [key |]; [| reflexivity].
      destruct (Ascii.eqb c "1"); [apply insert_insert_eq | reflexivity].
    + now replace (cnt - 1 - Z.of_nat i) with (cnt - Z.of_nat (S i)) by lia.
    + intros j Hj Hget. specialize (Hlater (S j) ltac:(lia) Hget).
      now replace (cnt - 1 - Z.of_nat j) with (cnt - Z.of_nat (S j)) by lia.
Qed.

Lemma mark_regions_other rd bm cnt cell fd cell' :
  cell' <> cell -> mark_regions rd bm cnt cell fd !! cell' = fd !! cell'.
Proof.
  intros Hne. revert cnt fd.
  induction bm as [| c bm IH]; intros cnt fd; [reflexivity |].
  cbn [mark_regions]. rewrite IH.
  destruct (rd !! str_of_Z cnt) as [key |]; [| reflexivity].
  destruct (Ascii.eqb c "1"); [| reflexivity].
  now apply lookup_insert_ne.
Qed.

Lemma bit_char_one b : bit_char b = "1"%char -> b = true.
Proof. now destruct b. Qed.

Lemma firstn_snoc {A} (l : list A) (n : nat) (x : A) :
  nth_error l n = Some x -> firstn (S n) l = (firstn n l ++ [x])%list.
Proof.
  revert n. induction l as [| a l IH]; intros n H.
  - destruct n; discriminate.
  - destruct n as [| n]; cbn in H.
    + now injection H as ->.
    + cbn [firstn app]. now rewrite <- IH.
Qed.

(** The accumulation of the mask over the bytes of an item, from the
    last byte down to the first *)
Lemma bit_mask_fold (elem : list byte) (n : nat) (acc : string) s :
  (n <= length elem)%nat ->
  for_fold (rev (range (Z.of_nat n))) acc
    (fun bit_mask b =>
       bind (item_Z elem b)
         (fun v => ret (String.append bit_mask (format_08b (byte_val v))))) s =
  Ok (String.append acc (mask_of (firstn n elem))) s.
Proof.
  unfold range. rewrite Nat2Z.id.
  remember (fun (bit_mask : string) (b : Z) =>
              bind (item_Z elem b)
                (fun v => ret (String.append bit_mask (format_08b (byte_val v)))))
    as body eqn:Hbody.
  revert acc. induction n as [| n IH]; intros acc Hn.
  - cbn [seq map rev for_fold firstn mask_of]. unfold ret.
    now rewrite string_append_empty_r.
  - rewrite seq_S, map_app, rev_app_distr. cbn [map rev app Nat.add for_fold].
    destruct (nth_error elem n) as [b |] eqn:Hb.
    2:{ apply nth_error_None in Hb. lia. }
    assert (Hstep : body acc (Z.of_nat n) s =
                    Ok (String.append acc (byte_bits b)) s).
    { rewrite Hbody. unfold bind, item_Z.
      destruct (0 <=? Z.of_nat n) eqn:E; [| apply Z.leb_gt in E; lia].
      rewrite Nat2Z.id. unfold item, index, or_raise. now rewrite Hb. }
    rewrite (bind_ok _ _ _ _ _ Hstep), IH by lia.
    rewrite (firstn_snoc elem n b Hb).
    rewrite mask_of_snoc, string_append_assoc. reflexivity.
Qed.

Lemma bit_mask_of_run (size : Z) (elem : list byte) s :
  Z.of_nat (length elem) = size -> 1 <= size ->
  bit_mask_of size elem s = Ok (mask_of elem) s.
Proof.
  intros Hlen Hsize. unfold bit_mask_of.
  destruct (size =? 1) eqn:E.
  - apply Z.eqb_eq in E. subst size.
    destruct elem as [| b [| b' rest]]; cbn [Datatypes.length] in E; try lia.
    reflexivity.
  - subst size. rewrite bit_mask_fold by lia.
    now rewrite firstn_all.
Qed.

(** C7: decoding one flags item.  The item is [flags_bit_size] bytes; its
    bits are unpacked from the most significant bit of the whole item
    (the top bit of its last byte) down to bit 0, the counter [cnt]
    running down from [8 * flags_bit_size - 1] by their side.
    (1) Cells other than [(x, y, z)] keep what they had.
    (2) When bit [k] is set and registered under [str(k)], and no set
    bit below [k] is registered, the cell gets the name registered for
    [k]: the last match in descending order of bit position stays.
    (3) When no set bit is registered, nothing is recorded.
    (4) In particular, a flags file of one byte per cell whose first
    byte has bit 3 set (the byte 8), read with region ["3"] registered
    as ["Shale"], gives ["Shale"] at the first cell; the second cell,
    whose byte has the unregistered bit 0 set, gets nothing. *)
Theorem region_flags_decoding :
  forall (s : GOCAD_VESSEL) (f_arr : list (list byte)) (x y z f_idx : Z)
         (elem : list byte),
    0 <= f_idx ->
    nth_error f_arr (Z.to_nat f_idx) = Some elem ->
    Z.of_nat (length elem) = flags_bit_size s ->
    1 <= flags_bit_size s ->
    (exists s',
       read_flags_cell f_arr x y z f_idx s = Ok (f_idx + 1) s' /\
       region_dict s' = region_dict s /\
       (forall cell, cell <> (x, y, z) ->
                     flags_dict s' !! cell = flags_dict s !! cell) /\
       (forall (k : nat) (name : string),
           (k < 8 * length elem)%nat ->
           group_bit elem k = true ->
           region_dict s !! str_of_Z (Z.of_nat k) = Some name ->
           (forall j, (j < k)%nat -> group_bit elem j = true ->
                      region_dict s !! str_of_Z (Z.of_nat j) = None) ->
           flags_dict s' !! (x, y, z) = Some name) /\
       ((forall k, (k < 8 * length elem)%nat -> group_bit elem k = true ->
                   region_dict s !! str_of_Z (Z.of_nat k) = None) ->
        flags_dict s' = flags_dict s)) /\
    (let fs : file_system :=
          fun p => if String.eqb p "flags" then Some [x08; x01] else None in
        let v :=
          set_region_dict {["3" := "Shale"]}
            (set_flags_file "flags"
               (set_flags_bit_size 1
                  (set_flags_array_length 2
                     (set_vol_dims (Some (2, 1, 1)) strict_vessel)))) in
        exists v',
          read_flags fs v = Ok None v' /\
          flags_dict v' !! (0, 0, 0) = Some "Shale" /\
          flags_dict v' !! (1, 0, 0) = None).
Proof.
  intros s f_arr x y z f_idx elem Hidx Helem Hlen Hsize. split.
  - assert (Hrun : read_flags_cell f_arr x y z f_idx s =
                   Ok (f_idx + 1)
                      (set_flags_dict
                         (mark_regions (region_dict s) (mask_of elem)
                            (flags_bit_size s * 8 - 1) (x, y, z)
                            (flags_dict s)) s)).
    { unfold read_flags_cell. msimp. unfold item_Z.
      destruct (0 <=? f_idx) eqn:E; [| apply Z.leb_gt in E; lia].
      msimp. rewrite Helem. msimp.
      rewrite (bit_mask_of_run _ _ _ Hlen Hsize). reflexivity. }
    eexists. split; [exact Hrun |]. cbn [flags_dict region_dict set_flags_dict].
    split; [reflexivity |]. split; [| split].
    + intros cell Hne. now apply mark_regions_other.
    + intros k name Hk Hbit Hname Hlow.
      rewrite (mark_regions_last _ _ _ _ _ (8 * length elem - 1 - k) name).
      * apply lookup_insert_eq.
      * rewrite mask_of_get by exact Hk. now rewrite Hbit.
      * rewrite <- Hname. f_equal. f_equal. lia.
      * intros j Hj Hget.
        pose proof (string_get_lt _ _ _ Hget) as Hjlt.
        rewrite mask_of_length in Hjlt.
        replace j with (8 * length elem - 1 - (8 * length elem - 1 - j))%nat
          in Hget by lia.
        rewrite mask_of_get in Hget by lia.
        injection Hget as Hc. apply bit_char_one in Hc.
        rewrite <- (Hlow (8 * length elem - 1 - j)%nat) by (lia || exact Hc).
        f_equal. f_equal. lia.
    + intros Hnone. apply mark_regions_none. intros i Hget.
      pose proof (string_get_lt _ _ _ Hget) as Hilt.
      rewrite mask_of_length in Hilt.
      replace i with (8 * length elem - 1 - (8 * length elem - 1 - i))%nat
        in Hget by lia.
      rewrite mask_of_get in Hget by lia.
      injection Hget as Hc. apply bit_char_one in Hc.
      rewrite <- (Hnone (8 * length elem - 1 - i)%nat) by (lia || exact Hc).
      f_equal. f_equal. lia.
  - intros fs v. eexists. repeat split; vm_compute; reflexivity.
Qed.

(** The theorem on the byte 9 (bits 0 and 3) with both bits registered:
    bit 0, the last one met, names the cell. *)
Lemma region_flags_decoding_witness :
  let s := set_region_dict {["3" := "Shale"; "0" := "Sand"]}
             (set_flags_bit_size 1 strict_vessel) in
  exists s',
    read_flags_cell [[x09]] 0 0 0 0 s = Ok 1 s' /\
    flags_dict s' !! (0, 0, 0) = Some "Sand".
Proof.
  intros s.
  destruct (region_flags_decoding s [[x09]] 0 0 0 0 [x09])
    as [(s' & Hrun & _ & _ & Hlow & _) _];
    [lia | reflexivity | reflexivity | cbn; lia |].
  exists s'. split; [exact Hrun |].
  apply (Hlow 0%nat "Sand");
    [cbn; lia | reflexivity | reflexivity | intros j Hj; lia].
Defined.

(** ** What a computation leaves alone *)

Section Preserves.
Variable R : GOCAD_VESSEL -> GOCAD_VESSEL -> Prop.
Hypothesis R_refl : forall s, R s s.
Hypothesis R_trans : forall a b c, R a b -> R b c -> R a c.

Lemma preserves_ret {A} (a : A) : preserves R (ret a).
Proof. intros s. split; [apply R_refl | exact I]. Qed.

Lemma preserves_raise {A} (e : exn) : preserves R (@raise A e).
Proof. intros s. split; [apply R_refl | exact I]. Qed.

Lemma preserves_sys_exit {A} : preserves R (@sys_exit A 1).
Proof. intros s. split; [apply R_refl | reflexivity]. Qed.

Lemma preserves_get : preserves R get.
Proof. intros s. split; [apply R_refl | exact I]. Qed.

Lemma preserves_modify (f : GOCAD_VESSEL -> GOCAD_VESSEL) :
  (forall s, R s (f s)) -> preserves R (modify f).
Proof. intros H s. split; [apply H | exact I]. Qed.

Lemma preserves_bind {A B} (m : M A) (k : A -> M B) :
  preserves R m -> (forall a, preserves R (k a)) -> preserves R (bind m k).
Proof.
  intros Hm Hk s. unfold bind. destruct (Hm s) as [Hr He].
  destruct (m s) as [a s1 | e s1 | c s1]; cbn [final] in *;
    [| split; trivial | split; trivial].
  destruct (Hk a s1) as [Hr' He'].
  split; [eapply R_trans; [exact Hr | exact Hr'] | exact He'].
Qed.

Lemma preserves_try {A} (m : M A) (es : list exn) (h : exn -> M A) :
  preserves R m -> (forall e, preserves R (h e)) ->
  preserves R (try_except m es h).
Proof.
  intros Hm Hh s. unfold try_except. destruct (Hm s) as [Hr He].
  destruct (m s) as [a s1 | e s1 | c s1]; cbn [final] in *;
    [split; trivial | | split; trivial].
  destruct (existsb (exn_eqb e) es); [| split; trivial].
  destruct (Hh e s1) as [Hr' He'].
  split; [eapply R_trans; [exact Hr | exact Hr'] | exact He'].
Qed.

Lemma preserves_for_fold {A X} (xs : list X) (acc : A) (body : A -> X -> M A) :
  (forall a x, preserves R (body a x)) -> preserves R (for_fold xs acc body).
Proof.
  intros Hb. revert acc. induction xs as [| x xs IH]; intros acc.
  - apply preserves_ret.
  - cbn [for_fold]. apply preserves_bind; [apply Hb | intros a; apply IH].
Qed.

Lemma preserves_for_each {X} (xs : list X) (body : X -> M unit) :
  (forall x, preserves R (body x)) -> preserves R (for_each xs body).
Proof.
  intros Hb. induction xs as [| x xs IH].
  - apply preserves_ret.
  - cbn [for_each]. apply preserves_bind; [apply Hb | intros _; exact IH].
Qed.
End Preserves.

(** Breaking a computation down to its state changes *)
Ltac frame_steps refl trans :=
  repeat match goal with
    | |- preserves _ (ret _) => apply (preserves_ret _ refl)
    | |- preserves _ (raise _) => apply (preserves_raise _ refl)
    | |- preserves _ (sys_exit 1) => apply (preserves_sys_exit _ refl)
    | |- preserves _ get => apply (preserves_get _ refl)
    | |- preserves _ (bind _ _) => apply (preserves_bind _ trans); [| intros ?]
    | |- preserves _ (try_except _ _ _) =>
        apply (preserves_try _ trans); [| intros ?]
    | |- preserves _ (for_fold _ _ _) =>
        apply (preserves_for_fold _ refl trans); intros ? ?
    | |- preserves _ (for_each _ _) =>
        apply (preserves_for_each _ refl trans); intros ?
    | |- preserves _ (if ?c then _ else _) => destruct c
    | |- preserves _ (match ?x with _ => _ end) => destruct x
    end.

(** ** Reading the property files *)

Lemma voxel_frame_refl i s : voxel_frame i s s.
Proof. unfold voxel_frame. auto 10. Qed.

Lemma voxel_frame_trans i a b c :
  voxel_frame i a b -> voxel_frame i b c -> voxel_frame i a c.
Proof.
  unfold voxel_frame.
  intros (A1 & A2 & A3 & A4 & A5 & A6 & A7) (B1 & B2 & B3 & B4 & B5 & B6 & B7).
  repeat split; try congruence.
  intros j Hj. rewrite B7, A7 by exact Hj. reflexivity.
Qed.

Lemma voxel_frame_log i l s : voxel_frame i s (set_log l s).
Proof. unfold voxel_frame. cbn. auto 10. Qed.

Lemma voxel_frame_logger i level msg :
  preserves (voxel_frame i) (logger_log level msg).
Proof.
  intros s. rewrite logger_log_run. cbn [final]. split; [| exact I].
  unfold logged, logger_log, bind, get, emit, modify, ret.
  destruct (log_level s <=? level); cbn [final];
    [apply voxel_frame_log | apply voxel_frame_refl].
Qed.

Lemma voxel_frame_print i msg : preserves (voxel_frame i) (print msg).
Proof. intros s. split; [apply voxel_frame_log | exact I]. Qed.

Lemma voxel_frame_calc_minmax i x y z :
  preserves (voxel_frame i) (_calc_minmax x y z).
Proof. intros s. split; [| exact I]. unfold voxel_frame. cbn. auto 10. Qed.

Lemma voxel_frame_update_prop_at i f :
  preserves (voxel_frame i) (update_prop_at i f).
Proof.
  intros s. split; [| exact I]. unfold update_prop_at, modify. cbn [final].
  destruct (prop_dict s !! i) as [[k p] |]; [| apply voxel_frame_refl].
  unfold voxel_frame. cbn. repeat split; trivial.
  - apply length_insert.
  - intros j Hj. apply list_lookup_insert_ne. congruence.
Qed.

Ltac voxel_frame_tac i :=
  repeat first
    [ match goal with
      | |- preserves _ (logger_log _ _) => apply (voxel_frame_logger i)
      | |- preserves _ (print _) => apply (voxel_frame_print i)
      | |- preserves _ (_calc_minmax _ _ _) => apply (voxel_frame_calc_minmax i)
      | |- preserves _ (update_prop_at _ _) =>
          apply (voxel_frame_update_prop_at i)
      end
    | progress frame_steps (voxel_frame_refl i) (voxel_frame_trans i) ].

Lemma voxel_frame_handle_exc i exc : preserves (voxel_frame i) (handle_exc exc).
Proof.
  unfold handle_exc, logger_debug. voxel_frame_tac i.
Qed.

Lemma voxel_frame_parse_float i v null_val :
  preserves (voxel_frame i) (parse_float v null_val).
Proof.
  unfold parse_float, to_float, py_float, or_raise, logger_debug.
  voxel_frame_tac i; apply voxel_frame_handle_exc.
Qed.

Lemma voxel_frame_read_voxel_cell i f_arr x y z fl_idx :
  preserves (voxel_frame i) (read_voxel_cell i f_arr x y z fl_idx).
Proof.
  unfold read_voxel_cell, prop_at, need, item, or_raise.
  voxel_frame_tac i; apply voxel_frame_parse_float.
Qed.

Lemma voxel_frame_read_voxel_prop fs i :
  preserves (voxel_frame i) (read_voxel_prop fs i).
Proof.
  unfold read_voxel_prop, prop_at, need, getsize, numpy_zeros,
    make_numpy_dtype, numpy_fromfile, or_raise, logger_error, logger_info.
  voxel_frame_tac i; apply voxel_frame_read_voxel_cell.
Qed.

Lemma prop_at_run i s k p :
  prop_dict s !! i = Some (k, p) -> prop_at i s = Ok p s.
Proof. intros H. unfold prop_at. msimp. now rewrite H. Qed.

(** The size check of one property class: a file whose size is not
    [data_sz * nx * ny * nz] ends the process before the data array is
    created; only the file name may have got its [.vo]. *)
Lemma read_voxel_prop_rejects fs s j k p nx ny nz content :
  prop_dict s !! j = Some (k, p) ->
  vol_dims s = Some (nx, ny, nz) ->
  fs (vo_name fs (file_name p)) = Some content ->
  Z.of_nat (length content) <> data_sz p * nx * ny * nz ->
  exists s' p',
    read_voxel_prop fs j s = Exited 1 s' /\
    prop_dict s' !! j = Some (k, p') /\
    data p' = data p /\ data_stats p' = data_stats p.
Proof.
  intros Hj Hdims Hfile Hsize.
  assert (Hrename :
    exists s1 p1,
      bind (prop_at j)
        (fun prop_obj =>
           if needs_vo fs (file_name prop_obj) then
             update_prop_at j
               (set_file_name (String.append (file_name prop_obj) ".vo"))
           else ret tt) s = Ok tt s1 /\
      prop_dict s1 !! j = Some (k, p1) /\
      file_name p1 = vo_name fs (file_name p) /\
      data_sz p1 = data_sz p /\ data p1 = data p /\
      data_stats p1 = data_stats p /\ vol_dims s1 = vol_dims s).
  { rewrite (bind_ok _ _ _ _ _ (prop_at_run _ _ _ _ Hj)).
    unfold vo_name. destruct (needs_vo fs (file_name p)).
    - unfold update_prop_at, modify. rewrite Hj.
      eexists _, _. split; [reflexivity |].
      cbn [prop_dict set_prop_dict vol_dims].
      split; [apply list_lookup_insert_eq; eapply lookup_lt_Some; exact Hj |].
      repeat split; reflexivity.
    - exists s, p. unfold ret. auto 10. }
  destruct Hrename as (s1 & p1 & Hrun1 & Hj1 & Hname & Hsz & Hdata & Hstats & Hdims1).
  unfold read_voxel_prop. rewrite (bind_ok _ _ _ _ _ Hrun1).
  unfold try_except.
  rewrite (bind_ok _ _ _ _ _ (prop_at_run _ _ _ _ Hj1)).
  unfold getsize. rewrite Hname, Hfile. msimp.
  rewrite Hdims1, Hdims. msimp. rewrite Hsz.
  destruct (Z.of_nat (length content) =? data_sz p * nx * ny * nz) eqn:E;
    [apply Z.eqb_eq in E; contradiction |].
  cbn [negb]. msimp.
  eexists _, p1. split; [reflexivity |].
  rewrite logged_prop_dict. auto.
Qed.

(** C5: in a volume file, take any registered property class whose
    binary file (under the name the reader settles on) has a size other
    than the element width times [nx * ny * nz].  Then
    (1) the reader never returns: the run ends in [sys.exit(1)], or, when
    an earlier property class of the file makes numpy raise, in that
    uncaught exception; the first property class is always rejected by
    the exit;
    (2) when the run ends, the data of the property class is what it was
    before the reader started: the rejection comes before the array is
    created, let alone filled. *)
Theorem voxel_file_size_mismatch_is_fatal :
  forall (fs : file_system) (s : GOCAD_VESSEL) (j : nat) (k : string)
         (p : PROPS) (nx ny nz : Z) (content : list byte),
    is_vo s = true ->
    prop_dict s !! j = Some (k, p) ->
    vol_dims s = Some (nx, ny, nz) ->
    fs (vo_name fs (file_name p)) = Some content ->
    Z.of_nat (length content) <> data_sz p * nx * ny * nz ->
    exists s' p',
      (read_voxel_files fs s = Exited 1 s' \/
       (0 < j)%nat /\ exists e, read_voxel_files fs s = Raised e s') /\
      prop_dict s' !! j = Some (k, p') /\
      data p' = data p /\ data_stats p' = data_stats p.
Proof.
  intros fs s j k p nx ny nz content Hvo Hj Hdims Hfile Hsize.
  assert (Hlen : (j < length (prop_dict s))%nat)
    by (eapply lookup_lt_Some; exact Hj).
  (* the loop over the property classes, from any place at or before [j] *)
  assert (Hloop : forall m a s0,
             (a <= j < a + m)%nat ->
             prop_dict s0 !! j = Some (k, p) ->
             vol_dims s0 = Some (nx, ny, nz) ->
             exists s' p',
               (for_each (seq a m) (read_voxel_prop fs) s0 = Exited 1 s' \/
                (a < j)%nat /\
                exists e, for_each (seq a m) (read_voxel_prop fs) s0 =
                          Raised e s') /\
               prop_dict s' !! j = Some (k, p') /\
               data p' = data p /\ data_stats p' = data_stats p).
  { induction m as [| m IH]; intros a s0 Ha Hj0 Hdims0; [lia |].
    cbn [seq for_each].
    destruct (Nat.eq_dec a j) as [-> | Hne].
    - destruct (read_voxel_prop_rejects fs s0 j k p nx ny nz content
                  Hj0 Hdims0 Hfile Hsize) as (s' & p' & Hrun & Hp').
      exists s', p'. split; [| exact Hp'].
      left. now rewrite (bind_exited _ _ _ _ _ Hrun).
    - destruct (voxel_frame_read_voxel_prop fs a s0) as [F Hone].
      unfold voxel_frame in F. destruct F as (_ & F2 & _ & _ & _ & _ & F7).
      specialize (F7 j ltac:(lia)).
      destruct (read_voxel_prop fs a s0) as [[] s1 | e s1 | c s1] eqn:Hrun;
        cbn [final] in *.
      + rewrite (bind_ok _ _ _ _ _ Hrun).
        destruct (IH (S a) s1) as (s' & p' & Hres & Hp');
          [lia | congruence | congruence |].
        exists s', p'. split; [| exact Hp'].
        destruct Hres as [Hres | (_ & e & Hres)]; [now left |].
        right. split; [lia | eauto].
      + exists s1, p. rewrite (bind_raised _ _ _ _ _ Hrun).
        split; [right; split; [lia | eauto] |].
        split; [congruence | auto].
      + exists s1, p. rewrite (bind_exited _ _ _ _ _ Hrun).
        cbn [exit_status_one] in Hone. subst c.
        split; [now left |]. split; [congruence | auto]. }
  destruct (Hloop (length (prop_dict s)) 0%nat s) as (s' & p' & Hres & Hp');
    [lia | exact Hj | exact Hdims |].
  exists s', p'. split; [| exact Hp'].
  unfold read_voxel_files. msimp. rewrite Hvo.
  destruct (0 <? length (prop_dict s))%nat eqn:E;
    [| apply Nat.ltb_ge in E; lia].
  cbn [andb].
  destruct Hres as [Hres | (Hpos & e & Hres)]; rewrite Hres; auto.
  right. split; [exact Hpos | eauto].
Qed.
(** The theorem on a property file of three bytes for a volume of two
    cells of four bytes each. *)
Lemma voxel_file_size_mismatch_is_fatal_witness :
  let fs : file_system :=
    fun name => if String.eqb name "p.bin" then Some [x00; x00; x00] else None in
  let p := set_file_name "p.bin" (set_data_sz 4 (new_PROPS "P")) in
  let s := set_prop_dict [("1", p)]
             (set_vol_dims (Some (2, 1, 1)) (set_is_vo true strict_vessel)) in
  exists s' p',
    read_voxel_files fs s = Exited 1 s' /\
    prop_dict s' !! 0%nat = Some ("1", p') /\ data p' = PointData [].
Proof.
  intros fs p s.
  destruct (voxel_file_size_mismatch_is_fatal fs s 0 "1" p 2 1 1
              [x00; x00; x00])
    as (s' & p' & Hres & Hp' & Hdata & _);
    [reflexivity | reflexivity | reflexivity | reflexivity
    | vm_compute; discriminate |].
  exists s', p'. split; [| split; [exact Hp' | exact Hdata]].
  destruct Hres as [Hres | (Hpos & _)]; [exact Hres | lia].
Defined.

(** ** The flags file *)

Lemma flags_frame_props_loop fs xs :
  preserves flags_frame (for_each xs (read_voxel_prop fs)).
Proof.
  apply preserves_for_each.
  - unfold flags_frame. auto 10.
  - unfold flags_frame. intros a b c (A1 & A2 & A3 & A4 & A5)
      (B1 & B2 & B3 & B4 & B5). repeat split; congruence.
  - intros i s. destruct (voxel_frame_read_voxel_prop fs i s) as [F Hone].
    split; [| exact Hone].
    unfold voxel_frame in F. unfold flags_frame. tauto.
Qed.

(** The statement of the spec fails twice.  A flags file whose byte size does
    not match the volume ends the process, even with [STOP_ON_EXC] off;
    and in a volume without property classes a flags file with the wrong
    element count is not looked at: the reader returns [True]. *)
Lemma flags_size_mismatch_fatal_or_unchecked :
  (exists s',
     process_gocad (one_cell_files [x00; x00]) "" "volume.vo"
       ["GOCAD VOXET 1"; "AXIS_O 0 0 0"; "AXIS_U 1 0 0"; "AXIS_V 0 1 0";
        "AXIS_W 0 0 1"; "AXIS_N 1 1 1";
        "PROPERTY_CLASS_HEADER 1 P {"; "}";
        "PROP_FILE 1 p.bin"; "PROP_ESIZE 1 1"; "PROP_STORAGE_TYPE 1 OCTET";
        "FLAGS_ARRAY_LENGTH 1"; "FLAGS_ESIZE 1"; "FLAGS_FILE flags.bin"]
       lenient_vessel = Exited 1 s') /\
  (exists s',
     process_gocad (one_cell_files [x00]) "" "volume.vo"
       ["GOCAD VOXET 1"; "AXIS_N 1 1 1";
        "FLAGS_ARRAY_LENGTH 5"; "FLAGS_ESIZE 1"; "FLAGS_FILE flags.bin"]
       lenient_vessel = Ok true s').
Proof.
  split; eexists; vm_compute; reflexivity.
Qed.

(** C6 (amended): in a volume file with at least one property class,
    once the property files have been read, a declared flags file is
    checked in two steps.
    (1) When the declared element count [flags_array_length] is not
    [nx * ny * nz], the reader returns [False] to its caller; the
    process goes on.
    (2) When the count matches and the file is not there, the reader
    returns [False] as well.
    (3) When the count matches and the file's size in bytes is not
    [flags_bit_size * nx * ny * nz], the process exits with status 1. *)
Theorem flags_file_size_checks :
  forall (fs : file_system) (s s1 : GOCAD_VESSEL) (nx ny nz : Z),
    is_vo s = true ->
    prop_dict s <> [] ->
    for_each (seq 0 (length (prop_dict s))) (read_voxel_prop fs) s = Ok tt s1 ->
    flags_file s <> "" ->
    vol_dims s = Some (nx, ny, nz) ->
    (flags_array_length s <> nx * ny * nz ->
     exists s', read_voxel_files fs s = Ok false s') /\
    (flags_array_length s = nx * ny * nz ->
     fs (vo_name fs (flags_file s)) = None ->
     exists s', read_voxel_files fs s = Ok false s') /\
    (flags_array_length s = nx * ny * nz ->
     forall content,
       fs (vo_name fs (flags_file s)) = Some content ->
       Z.of_nat (length content) <> flags_bit_size s * nx * ny * nz ->
       exists s', read_voxel_files fs s = Exited 1 s').
Proof.
  intros fs s s1 nx ny nz Hvo Hprops Hloop Hfile Hdims.
  destruct (flags_frame_props_loop fs (seq 0 (length (prop_dict s))) s)
    as [F _].
  rewrite Hloop in F. cbn [final] in F.
  destruct F as (_ & F2 & F3 & F4 & F5).
  assert (Hrun : read_voxel_files fs s =
                 bind (read_flags fs)
                   (fun returned =>
                      match returned with
                      | Some b => ret b
                      | None => bind (logger_debug "self.flags_dict= %s")
                                  (fun _ => ret true)
                      end) s1).
  { unfold read_voxel_files. msimp. rewrite Hvo.
    destruct (prop_dict s) as [| kp rest]; [contradiction |].
    cbn [length Nat.ltb Nat.leb andb]. cbn [length] in Hloop.
    rewrite Hloop. reflexivity. }
  assert (Hne : String.eqb (flags_file s1) "" = false).
  { rewrite F3. now apply String.eqb_neq. }
  rewrite Hrun. unfold read_flags. msimp. rewrite Hne. cbn [negb].
  rewrite F2, Hdims. msimp. rewrite F4.
  split; [| split].
  - intros Hcount.
    destruct (flags_array_length s =? nx * ny * nz) eqn:E;
      [apply Z.eqb_eq in E; contradiction |].
    cbn [negb]. msimp. eexists. reflexivity.
  - intros Hcount Hnone. rewrite Hcount, Z.eqb_refl. cbn [negb].
    rewrite F3. unfold vo_name in Hnone.
    destruct (needs_vo fs (flags_file s)); msimp; unfold getsize;
      cbn [flags_file set_flags_file]; rewrite ?F3, Hnone; msimp;
      eexists; reflexivity.
  - intros Hcount content Hsome Hsize. rewrite Hcount, Z.eqb_refl. cbn [negb].
    rewrite F3. unfold vo_name in Hsome.
    assert (Hcmp : (Z.of_nat (length content) =? flags_bit_size s * nx * ny * nz)
                   = false) by (now apply Z.eqb_neq).
    destruct (needs_vo fs (flags_file s)); msimp; unfold getsize;
      cbn [flags_file set_flags_file flags_bit_size]; rewrite ?F3, ?F5, Hsome;
      msimp; cbn [flags_bit_size set_flags_file]; rewrite ?F5, Hcmp;
      cbn [negb]; msimp; eexists; reflexivity.
Qed.

(** The theorem on the one-cell voxet: a declared count of five cells
    makes the reader return [False]; a flags file of two bytes for one
    cell of one byte ends the process. *)
Lemma flags_file_size_checks_witness :
  let fs := one_cell_files [x00; x00] in
  let declared n :=
    set_flags_file "flags.bin"
      (set_flags_bit_size 1 (set_flags_array_length n one_cell_voxet)) in
  (exists s', read_voxel_files fs (declared 5) = Ok false s') /\
  (exists s', read_voxel_files fs (declared 1) = Exited 1 s').
Proof.
  intros fs declared. split.
  - refine (proj1 (flags_file_size_checks fs (declared 5)
                     (final (for_each (seq 0 1) (read_voxel_prop fs) (declared 5)))
                     1 1 1 _ _ _ _ _) _).
    + reflexivity.
    + discriminate.
    + vm_compute. reflexivity.
    + discriminate.
    + reflexivity.
    + vm_compute. discriminate.
  - refine (proj2 (proj2 (flags_file_size_checks fs (declared 1)
                     (final (for_each (seq 0 1) (read_voxel_prop fs) (declared 1)))
                     1 1 1 _ _ _ _ _)) _ [x00; x00] _ _).
    + reflexivity.
    + discriminate.
    + vm_compute. reflexivity.
    + discriminate.
    + reflexivity.
    + reflexivity.
    + reflexivity.
    + vm_compute. discriminate.
Defined.

(** ** Tokenising: the loop over quoted substrings runs to its end *)

Lemma count_append c a b :
  count c (String.append a b) = (count c a + count c b)%nat.
Proof.
  induction a as [| d a IH]; [reflexivity |].
  rewrite string_append_cons. cbn [count].
  destruct (Ascii.eqb d c); rewrite IH; reflexivity.
Qed.

Lemma count_partition c s :
  count c (fst (fst (partition c s))) = 0%nat /\
  count c s =
  if snd (fst (partition c s)) then S (count c (snd (partition c s))) else 0%nat.
Proof.
  induction s as [| d s [IH1 IH2]]; [split; reflexivity |].
  cbn [partition count]. destruct (Ascii.eqb d c) eqn:E; cbn [fst snd count].
  - split; reflexivity.
  - destruct (partition c s) as [[b f] a]. cbn [fst snd count] in *.
    rewrite E. split; assumption.
Qed.

Lemma count_replace c a b s :
  Ascii.eqb a c = false -> Ascii.eqb b c = false ->
  count c (replace a b s) = count c s.
Proof.
  intros Ha Hb. induction s as [| d s IH]; [reflexivity |].
  cbn [replace count]. rewrite IH.
  destruct (Ascii.eqb d a) eqn:E; [| reflexivity].
  apply Ascii.eqb_eq in E. subst d. now rewrite Ha, Hb.
Qed.

Lemma count_lstrip c p s : p c = false -> count c (lstrip_by p s) = count c s.
Proof.
  intros Hp. induction s as [| d s IH]; [reflexivity |].
  cbn [lstrip_by count]. destruct (p d) eqn:E; [| reflexivity].
  destruct (Ascii.eqb d c) eqn:Ec; [| exact IH].
  apply Ascii.eqb_eq in Ec. congruence.
Qed.

Lemma count_rstrip c p s : p c = false -> count c (rstrip_by p s) = count c s.
Proof.
  intros Hp. induction s as [| d s IH]; [reflexivity |].
  cbn [rstrip_by count].
  destruct (rstrip_by p s) as [| e r] eqn:Er.
  - cbn [count] in IH. destruct (p d) eqn:E.
    + destruct (Ascii.eqb d c) eqn:Ec; [| now rewrite <- IH].
      apply Ascii.eqb_eq in Ec. congruence.
    + cbn [count]. now rewrite <- IH.
  - cbn [count]. cbn [count] in IH. now rewrite IH.
Qed.

(** Each round takes two quotes away, so as many rounds as there are
    quotes leave fewer than two of them: the fuel of [line_str_of] never
    runs out before the [while] condition fails. *)
Lemma join_quoted_done fuel s :
  (count dquote s <= fuel)%nat -> (count dquote (join_quoted fuel s) < 2)%nat.
Proof.
  revert s. induction fuel as [| fuel IH]; intros s Hs; cbn [join_quoted].
  - lia.
  - destruct (2 <=? count dquote s)%nat eqn:E;
      [apply Nat.leb_le in E | apply Nat.leb_gt in E; exact E].
    destruct (count_partition dquote s) as [Hb0 Hs2].
    destruct (partition dquote s) as [[before0 f] before2].
    cbn [fst snd] in *.
    destruct f; [| lia].
    destruct (count_partition dquote before2) as [Ha0 Hb2].
    destruct (partition dquote before2) as [[after0 f'] after2].
    cbn [fst snd] in *.
    destruct f'; [| lia].
    apply IH. rewrite !count_append.
    rewrite count_replace by reflexivity.
    unfold strip_chars, strip_by.
    rewrite count_rstrip, count_lstrip by reflexivity.
    change (count dquote " ") with 0%nat. lia.
Qed.

Lemma line_str_of_quotes line : (count dquote (line_str_of line) < 2)%nat.
Proof. unfold line_str_of. now apply join_quoted_done. Qed.

(** ** The text loop keeps the settings and the file type *)

Lemma config_frame_refl s : config_frame s s.
Proof. unfold config_frame. auto 10. Qed.

Lemma config_frame_trans a b c :
  config_frame a b -> config_frame b c -> config_frame a c.
Proof.
  unfold config_frame. intros (A1 & A2 & A3 & A4 & A5) (B1 & B2 & B3 & B4 & B5).
  repeat split; congruence.
Qed.

Lemma type_frame_refl s : type_frame s s.
Proof. unfold type_frame. split; [apply config_frame_refl | auto]. Qed.

Lemma type_frame_trans a b c :
  type_frame a b -> type_frame b c -> type_frame a c.
Proof.
  unfold type_frame. intros (A0 & A1 & A2 & A3 & A4) (B0 & B1 & B2 & B3 & B4).
  split; [eapply config_frame_trans; eassumption |].
  repeat split; congruence.
Qed.

Lemma preserves_weaken {A} (R R' : GOCAD_VESSEL -> GOCAD_VESSEL -> Prop)
  (m : M A) :
  (forall s s', R s s' -> R' s s') -> preserves R m -> preserves R' m.
Proof. intros H Hm s. destruct (Hm s) as [Hr He]. split; auto. Qed.

Lemma type_frame_config s s' : type_frame s s' -> config_frame s s'.
Proof. now intros [H _]. Qed.

(** A state change that writes neither a setting nor a type flag *)
Ltac frame_modify :=
  intros ?; unfold type_frame, config_frame;
  repeat match goal with
         | |- context [if ?c then _ else _] => destruct c
         | |- context [match ?x with Some _ => _ | None => _ end] => destruct x
         | |- context [let '(_, _) := ?x in _] => destruct x
         end;
  cbn; auto 12.

Lemma type_frame_logger level msg : preserves type_frame (logger_log level msg).
Proof.
  intros s. rewrite logger_log_run. cbn [final]. split; [| exact I].
  unfold logged, logger_log, bind, get, emit, modify, ret.
  destruct (log_level s <=? level); cbn [final];
    [| apply type_frame_refl].
  unfold type_frame, config_frame. cbn. auto 12.
Qed.

Lemma type_frame_print msg : preserves type_frame (print msg).
Proof. apply preserves_modify. frame_modify. Qed.

Create HintDb frame.
#[local] Hint Resolve type_frame_logger type_frame_print : frame.

Ltac type_frame_tac :=
  cbv zeta;
  repeat first
    [ progress frame_steps type_frame_refl type_frame_trans
    | match goal with
      | |- preserves _ (modify _) => apply preserves_modify; frame_modify
      | |- preserves _ (logger_log _ _) => apply type_frame_logger
      end
    | solve [auto with frame nocore] ].

Lemma type_frame_handle_exc exc : preserves type_frame (handle_exc exc).
Proof. unfold handle_exc, logger_debug. type_frame_tac. Qed.
#[local] Hint Resolve type_frame_handle_exc : frame.

Lemma type_frame_parse_float v null_val :
  preserves type_frame (parse_float v null_val).
Proof.
  unfold parse_float, to_float, py_float, or_raise, logger_debug.
  type_frame_tac.
Qed.
#[local] Hint Resolve type_frame_parse_float : frame.

Lemma type_frame_parse_int t : preserves type_frame (parse_int t).
Proof. unfold parse_int, py_int, or_raise. type_frame_tac. Qed.
#[local] Hint Resolve type_frame_parse_int : frame.

Lemma type_frame_calc_minmax x y z : preserves type_frame (_calc_minmax x y z).
Proof. unfold _calc_minmax. apply preserves_modify. intros s.
  unfold type_frame, config_frame. cbn. auto 12. Qed.
#[local] Hint Resolve type_frame_calc_minmax : frame.

Lemma type_frame_parse_XYZ_float x y z d c :
  preserves type_frame (parse_XYZ_float x y z d c).
Proof. unfold parse_XYZ_float. type_frame_tac. Qed.

Lemma type_frame_parse_XYZ_int x y z :
  preserves type_frame (parse_XYZ_int x y z).
Proof. unfold parse_XYZ_int, py_int, or_raise. type_frame_tac. Qed.
#[local] Hint Resolve type_frame_parse_XYZ_float type_frame_parse_XYZ_int : frame.

Lemma type_frame_loop_local_props {A} (body : A -> PROPS -> M (PROPS * A)) :
  (forall acc p, preserves type_frame (body acc p)) ->
  forall todo i acc, preserves type_frame (loop_local_props todo i acc body).
Proof.
  intros Hbody todo. induction todo as [| [k p] todo IH]; intros i acc;
    cbn [loop_local_props].
  - type_frame_tac.
  - apply (preserves_bind _ type_frame_trans); [apply Hbody |].
    intros [p' acc'].
    apply (preserves_bind _ type_frame_trans);
      [apply preserves_modify; frame_modify | intros _; apply IH].
Qed.

Lemma type_frame_for_local_props {A} (acc : A)
  (body : A -> PROPS -> M (PROPS * A)) :
  (forall acc p, preserves type_frame (body acc p)) ->
  preserves type_frame (for_local_props acc body).
Proof.
  intros Hbody. unfold for_local_props.
  apply (preserves_bind _ type_frame_trans);
    [apply (preserves_get _ type_frame_refl) |].
  intros s. apply type_frame_loop_local_props. exact Hbody.
Qed.

Lemma type_frame_item {A} (l : list A) i : preserves type_frame (item l i).
Proof. unfold item, or_raise. type_frame_tac. Qed.

Lemma type_frame_or_raise {A} e (o : option A) :
  preserves type_frame (or_raise e o).
Proof. unfold or_raise. type_frame_tac. Qed.

Lemma type_frame_py_int t : preserves type_frame (py_int t).
Proof. unfold py_int. apply type_frame_or_raise. Qed.

Lemma type_frame_py_float t : preserves type_frame (py_float t).
Proof. unfold py_float, or_raise. type_frame_tac. Qed.
#[local] Hint Resolve type_frame_item type_frame_or_raise type_frame_py_int
  type_frame_py_float : frame.

Lemma type_frame_data_set p c v : preserves type_frame (data_set p c v).
Proof. unfold data_set. type_frame_tac. Qed.
#[local] Hint Resolve type_frame_data_set : frame.

Lemma type_frame_prop_token arr i : preserves type_frame (prop_token arr i).
Proof. unfold prop_token. type_frame_tac. Qed.
#[local] Hint Resolve type_frame_prop_token : frame.

Lemma type_frame_parse_props arr c b : preserves type_frame (parse_props arr c b).
Proof.
  unfold parse_props. cbv zeta.
  apply (preserves_bind _ type_frame_trans); [| intros ?; type_frame_tac].
  apply type_frame_for_local_props. intros acc p.
  unfold parse_props_body, logger_debug, logger_error. type_frame_tac.
Qed.
#[local] Hint Resolve type_frame_parse_props : frame.

Lemma type_frame_colour_loop lut n : forall idx p,
  preserves type_frame (colour_loop n lut idx p).
Proof.
  induction n as [| n IH]; intros idx p; cbn [colour_loop].
  - type_frame_tac.
  - apply (preserves_bind _ type_frame_trans); [| intros ?; apply IH].
    unfold colour_entry, logger_debug. type_frame_tac.
Qed.

Lemma type_frame_parse_property_header p line :
  preserves type_frame (parse_property_header p line).
Proof.
  unfold parse_property_header, logger_debug.
  destruct (partition ":" line) as [[name_str _b] value_str].
  cbv zeta.
  repeat match goal with
         | |- preserves _ (if ?c then _ else _) => destruct c
         end;
    try apply type_frame_colour_loop; type_frame_tac.
Qed.
#[local] Hint Resolve type_frame_parse_property_header : frame.

Ltac type_frame_unfold :=
  unfold logger_debug, logger_info, logger_warning, logger_error.

Lemma type_frame_do_header line : preserves type_frame (do_header line).
Proof.
  unfold do_header, parse_colour, colour_try, hex_channel.
  destruct (partition ":" line) as [[name_str _b] value_str].
  type_frame_unfold. type_frame_tac.
Qed.

Lemma type_frame_do_coord_name lc arr :
  preserves type_frame (do_coord_name lc arr).
Proof. unfold do_coord_name. type_frame_unfold. type_frame_tac. Qed.

Lemma type_frame_do_property_class_header lc arr :
  preserves type_frame (do_property_class_header lc arr).
Proof. unfold do_property_class_header. type_frame_unfold. type_frame_tac. Qed.

Lemma type_frame_get_prop key : preserves type_frame (get_prop key).
Proof. unfold get_prop. type_frame_tac. Qed.
#[local] Hint Resolve type_frame_get_prop : frame.

Lemma type_frame_update_prop key f : preserves type_frame (update_prop key f).
Proof. unfold update_prop. type_frame_tac. Qed.
#[local] Hint Resolve type_frame_update_prop : frame.

Lemma type_frame_do_in_prop_class_header lc t0 line :
  preserves type_frame (do_in_prop_class_header lc t0 line).
Proof. unfold do_in_prop_class_header. type_frame_unfold. type_frame_tac. Qed.

Lemma type_frame_do_in_local_prop_class_header lc t0 line :
  preserves type_frame (do_in_local_prop_class_header lc t0 line).
Proof.
  unfold do_in_local_prop_class_header. type_frame_unfold. type_frame_tac.
Qed.

Lemma type_frame_do_axis_unit arr : preserves type_frame (do_axis_unit arr).
Proof. unfold do_axis_unit. type_frame_unfold. type_frame_tac. Qed.

Lemma type_frame_do_properties arr msg :
  preserves type_frame (do_properties arr msg).
Proof. unfold do_properties. type_frame_unfold. type_frame_tac. Qed.

Lemma type_frame_do_esizes arr : preserves type_frame (do_esizes arr).
Proof.
  unfold do_esizes. type_frame_unfold.
  apply (preserves_bind _ type_frame_trans); [| intros ?; type_frame_tac].
  apply type_frame_for_local_props. intros acc p. type_frame_tac.
Qed.

Lemma type_frame_do_no_data_values arr :
  preserves type_frame (do_no_data_values arr).
Proof.
  unfold do_no_data_values. type_frame_unfold.
  apply (preserves_bind _ type_frame_trans); [| intros ?; type_frame_tac].
  apply type_frame_for_local_props. intros acc p. type_frame_tac.
Qed.

Lemma type_frame_do_atom lc t0 line arr :
  preserves type_frame (do_atom lc t0 line arr).
Proof. unfold do_atom. type_frame_unfold. type_frame_tac. Qed.

Lemma type_frame_do_vrtx lc t0 arr : preserves type_frame (do_vrtx lc t0 arr).
Proof. unfold do_vrtx. type_frame_unfold. type_frame_tac. Qed.

Lemma type_frame_do_trgl lc arr : preserves type_frame (do_trgl lc arr).
Proof. unfold do_trgl. type_frame_unfold. type_frame_tac. Qed.

Lemma type_frame_do_seg lc arr : preserves type_frame (do_seg lc arr).
Proof. unfold do_seg. type_frame_unfold. type_frame_tac. Qed.

Lemma type_frame_do_prop_file d arr raw :
  preserves type_frame (do_prop_file d arr raw).
Proof. unfold do_prop_file. type_frame_unfold. type_frame_tac. Qed.

Lemma type_frame_do_prop_esize arr : preserves type_frame (do_prop_esize arr).
Proof. unfold do_prop_esize. type_frame_unfold. type_frame_tac. Qed.

Lemma type_frame_do_prop_storage_type arr :
  preserves type_frame (do_prop_storage_type arr).
Proof. unfold do_prop_storage_type. type_frame_unfold. type_frame_tac. Qed.

Lemma type_frame_do_prop_signed arr : preserves type_frame (do_prop_signed arr).
Proof. unfold do_prop_signed. type_frame_unfold. type_frame_tac. Qed.

Lemma type_frame_do_prop_etype arr : preserves type_frame (do_prop_etype arr).
Proof. unfold do_prop_etype. type_frame_unfold. type_frame_tac. Qed.

Lemma type_frame_do_prop_eformat arr :
  preserves type_frame (do_prop_eformat arr).
Proof. unfold do_prop_eformat. type_frame_unfold. type_frame_tac. Qed.

Lemma type_frame_do_prop_offset arr : preserves type_frame (do_prop_offset arr).
Proof. unfold do_prop_offset. type_frame_unfold. type_frame_tac. Qed.

Lemma type_frame_do_prop_no_data_value arr :
  preserves type_frame (do_prop_no_data_value arr).
Proof. unfold do_prop_no_data_value. type_frame_unfold. type_frame_tac. Qed.

Lemma type_frame_do_axis_float arr convert store msg :
  (forall v s, type_frame s (store v s)) ->
  preserves type_frame (do_axis_float arr convert store msg).
Proof.
  intros Hstore. unfold do_axis_float. type_frame_unfold.
  repeat first
    [ progress frame_steps type_frame_refl type_frame_trans
    | match goal with
      | |- preserves _ (modify _) =>
          apply preserves_modify; intros ?; apply Hstore
      end
    | solve [auto with frame nocore] ].
Qed.

Lemma type_frame_do_axis_n arr : preserves type_frame (do_axis_n arr).
Proof. unfold do_axis_n. type_frame_unfold. type_frame_tac. Qed.

Lemma type_frame_do_flags_int arr store msg :
  (forall v s, type_frame s (store v s)) ->
  preserves type_frame (do_flags_int arr store msg).
Proof.
  intros Hstore. unfold do_flags_int. type_frame_unfold.
  repeat first
    [ progress frame_steps type_frame_refl type_frame_trans
    | match goal with
      | |- preserves _ (modify _) =>
          apply preserves_modify; intros ?; apply Hstore
      end
    | solve [auto with frame nocore] ].
Qed.

Lemma type_frame_do_flags_file d raw : preserves type_frame (do_flags_file d raw).
Proof. unfold do_flags_file. type_frame_unfold. type_frame_tac. Qed.

Lemma type_frame_do_region arr : preserves type_frame (do_region arr).
Proof. unfold do_region. type_frame_unfold. type_frame_tac. Qed.

#[local] Hint Resolve type_frame_do_header type_frame_do_coord_name
  type_frame_do_property_class_header type_frame_do_in_prop_class_header
  type_frame_do_in_local_prop_class_header type_frame_do_axis_unit
  type_frame_do_properties type_frame_do_esizes type_frame_do_no_data_values
  type_frame_do_atom type_frame_do_vrtx type_frame_do_trgl type_frame_do_seg
  type_frame_do_prop_file type_frame_do_prop_esize
  type_frame_do_prop_storage_type type_frame_do_prop_signed
  type_frame_do_prop_etype type_frame_do_prop_eformat type_frame_do_prop_offset
  type_frame_do_prop_no_data_value type_frame_do_axis_n
  type_frame_do_flags_file type_frame_do_region : frame.

Ltac frame_store := intros ? ?; unfold type_frame, config_frame; cbn; auto 12.

Lemma type_frame_keyword_chain d lc t0 line arr raw :
  preserves type_frame (keyword_chain d lc t0 line arr raw).
Proof.
  unfold keyword_chain. cbv zeta.
  repeat match goal with
         | |- preserves _ (if ?c then _ else _) => destruct c
         end;
    try (apply (preserves_bind _ type_frame_trans);
         [| intros ?; apply (preserves_ret _ type_frame_refl)]);
    try (apply type_frame_do_axis_float; frame_store);
    try (apply type_frame_do_flags_int; frame_store);
    type_frame_tac.
Qed.

Lemma type_frame_context_chain d lc t0 line arr raw :
  preserves type_frame (context_chain d lc t0 line arr raw).
Proof.
  unfold context_chain. cbv zeta. type_frame_unfold.
  repeat match goal with
         | |- preserves _ (if ?c then _ else _) => destruct c
         end;
    try apply type_frame_keyword_chain; type_frame_tac.
Qed.

Lemma type_frame_dispatch d lc t0 line arr raw :
  preserves type_frame (dispatch d lc t0 line arr raw).
Proof.
  unfold dispatch. type_frame_unfold.
  repeat first
    [ apply type_frame_context_chain
    | progress frame_steps type_frame_refl type_frame_trans
    | match goal with
      | |- preserves _ (modify _) => apply preserves_modify; frame_modify
      | |- preserves _ (logger_log _ _) => apply type_frame_logger
      end
    | solve [auto with frame nocore] ].
Qed.

(** After the first line a line keeps the file type. *)
Lemma type_frame_process_line d ext lc line :
  firstLine lc = false ->
  preserves type_frame (process_line d ext lc line).
Proof.
  intros Hfirst. unfold process_line. cbv zeta. rewrite Hfirst.
  type_frame_unfold.
  destruct (splitstr_arr_of line) as [| t0 rest];
    [apply (preserves_ret _ type_frame_refl) |].
  apply (preserves_bind _ type_frame_trans); [apply type_frame_logger |].
  intros _. destruct (str_in t0 _); [type_frame_tac |].
  apply type_frame_dispatch.
Qed.

Lemma config_frame_setType ext line : preserves config_frame (setType ext line).
Proof.
  unfold setType. type_frame_unfold. cbv zeta.
  apply (preserves_bind _ config_frame_trans).
  { apply (preserves_weaken type_frame); [exact type_frame_config |].
    apply type_frame_logger. }
  intros _.
  repeat first
    [ progress frame_steps config_frame_refl config_frame_trans
    | match goal with
      | |- preserves _ (modify _) =>
          apply preserves_modify; intros ?; unfold config_frame; cbn; auto 10
      end ].
Qed.

Lemma config_frame_process_line d ext lc line :
  preserves config_frame (process_line d ext lc line).
Proof.
  destruct (firstLine lc) eqn:Hfirst.
  - unfold process_line. cbv zeta. rewrite Hfirst. type_frame_unfold.
    destruct (splitstr_arr_of line) as [| t0 rest];
      [apply (preserves_ret _ config_frame_refl) |].
    apply (preserves_bind _ config_frame_trans).
    { apply (preserves_weaken type_frame); [exact type_frame_config |].
      apply type_frame_logger. }
    intros _.
    apply (preserves_bind _ config_frame_trans); [apply config_frame_setType |].
    intros ok. destruct (negb ok).
    + apply (preserves_bind _ config_frame_trans).
      { apply (preserves_weaken type_frame); [exact type_frame_config |].
        apply type_frame_logger. }
      intros _. apply (preserves_ret _ config_frame_refl).
    + apply (preserves_ret _ config_frame_refl).
  - apply (preserves_weaken type_frame); [exact type_frame_config |].
    apply type_frame_process_line. exact Hfirst.
Qed.

Lemma config_frame_process_lines d ext lines : forall lc,
  preserves config_frame (process_lines d ext lc lines).
Proof.
  induction lines as [| line rest IH]; intros lc; cbn [process_lines].
  - apply (preserves_ret _ config_frame_refl).
  - apply (preserves_bind _ config_frame_trans);
      [apply config_frame_process_line |].
    intros [lc' | b]; [apply IH | apply (preserves_ret _ config_frame_refl)].
Qed.

(** *** What a line returns *)

Lemma returns_ret {A} (Q : A -> Prop) a : Q a -> returns Q (ret a).
Proof. intros H s a' s' E. inversion E; subst. exact H. Qed.

Lemma returns_raise {A} (Q : A -> Prop) e : returns Q (raise e).
Proof. intros s a s' E. discriminate E. Qed.

Lemma returns_sys_exit {A} (Q : A -> Prop) c : returns Q (sys_exit c).
Proof. intros s a s' E. discriminate E. Qed.

Lemma returns_bind {A B} (Q : B -> Prop) (m : M A) (k : A -> M B) :
  (forall a, returns Q (k a)) -> returns Q (bind m k).
Proof.
  intros Hk s b s' E. unfold bind in E.
  destruct (m s) as [a s1 | e s1 | c s1]; try discriminate E.
  exact (Hk a s1 b s' E).
Qed.

Lemma returns_bind_val {A B} (P : A -> Prop) (Q : B -> Prop)
  (m : M A) (k : A -> M B) :
  returns P m -> (forall a, P a -> returns Q (k a)) -> returns Q (bind m k).
Proof.
  intros Hm Hk s b s' E. unfold bind in E.
  destruct (m s) as [a s1 | e s1 | c s1] eqn:Em; try discriminate E.
  exact (Hk a (Hm s a s1 Em) s1 b s' E).
Qed.

Lemma returns_try {A} (Q : A -> Prop) (m : M A) es h :
  returns Q m -> (forall e, returns Q (h e)) -> returns Q (try_except m es h).
Proof.
  intros Hm Hh s a s' E. unfold try_except in E.
  destruct (m s) as [a1 s1 | e s1 | c s1] eqn:Em.
  - inversion E; subst. exact (Hm s a s' Em).
  - destruct (existsb (exn_eqb e) es); [exact (Hh e s1 a s' E) | discriminate E].
  - discriminate E.
Qed.

Ltac returns_steps :=
  cbv zeta;
  repeat match goal with
    | |- returns _ (ret _) => apply returns_ret
    | |- returns _ (raise _) => apply returns_raise
    | |- returns _ (sys_exit _) => apply returns_sys_exit
    | |- returns _ (bind _ _) => apply returns_bind; intros ?
    | |- returns _ (try_except _ _ _) => apply returns_try; [| intros ?]
    | |- returns _ (if ?c then _ else _) => destruct c
    | |- returns _ (match ?x with _ => _ end) => destruct x
    end.

Ltac returns_locals := returns_steps; reflexivity.

Lemma returns_do_atom lc t0 line arr :
  returns (fun lc' => firstLine lc' = firstLine lc) (do_atom lc t0 line arr).
Proof. unfold do_atom. returns_locals. Qed.

Lemma returns_do_vrtx lc t0 arr :
  returns (fun lc' => firstLine lc' = firstLine lc) (do_vrtx lc t0 arr).
Proof. unfold do_vrtx. returns_locals. Qed.

Lemma returns_do_trgl lc arr :
  returns (fun lc' => firstLine lc' = firstLine lc) (do_trgl lc arr).
Proof. unfold do_trgl. returns_locals. Qed.

Lemma returns_do_seg lc arr :
  returns (fun lc' => firstLine lc' = firstLine lc) (do_seg lc arr).
Proof. unfold do_seg. returns_locals. Qed.

Lemma returns_do_property_class_header lc arr :
  returns (fun lc' => firstLine lc' = firstLine lc)
    (do_property_class_header lc arr).
Proof.
  unfold do_property_class_header. cbv zeta.
  apply returns_bind; intros idx. apply returns_bind; intros t2.
  eapply (returns_bind_val (fun lc' => firstLine lc' = firstLine lc)).
  - returns_locals.
  - intros lc' E. returns_steps. exact E.
Qed.

Lemma returns_do_in_prop_class_header lc t0 line :
  returns (fun lc' => firstLine lc' = firstLine lc)
    (do_in_prop_class_header lc t0 line).
Proof. unfold do_in_prop_class_header. returns_locals. Qed.

Lemma returns_do_in_local_prop_class_header lc t0 line :
  returns (fun lc' => firstLine lc' = firstLine lc)
    (do_in_local_prop_class_header lc t0 line).
Proof. unfold do_in_local_prop_class_header. returns_locals. Qed.

Ltac returns_ctl H :=
  first
    [ apply returns_ret; exact H
    | apply returns_bind; intros ?; apply returns_ret; exact H
    | match goal with
      | |- returns _ (bind ?m _) =>
          apply (returns_bind_val (fun lc' => firstLine lc' = false) _ m);
          [ intros s0 a0 s0' E0; rewrite <- H; revert s0 a0 s0' E0;
            first [ exact (returns_do_atom _ _ _ _)
                  | exact (returns_do_vrtx _ _ _)
                  | exact (returns_do_trgl _ _)
                  | exact (returns_do_seg _ _)
                  | exact (returns_do_property_class_header _ _)
                  | exact (returns_do_in_prop_class_header _ _ _)
                  | exact (returns_do_in_local_prop_class_header _ _ _) ]
          | intros ? E; apply returns_ret; exact E ]
      end ].

Lemma returns_keyword_chain d lc t0 line arr raw :
  firstLine lc = false ->
  returns past_first_line (keyword_chain d lc t0 line arr raw).
Proof.
  intros H. unfold keyword_chain. cbv zeta.
  repeat match goal with
         | |- returns _ (if ?c then _ else _) => destruct c
         end; returns_ctl H.
Qed.

Lemma returns_context_chain d lc t0 line arr raw :
  firstLine lc = false ->
  returns past_first_line (context_chain d lc t0 line arr raw).
Proof.
  intros H. unfold context_chain. cbv zeta.
  repeat match goal with
         | |- returns _ (if ?c then _ else _) => destruct c
         end;
    first [ apply returns_keyword_chain; exact H | returns_ctl H ].
Qed.

Lemma returns_dispatch d lc t0 line arr raw :
  firstLine lc = false ->
  returns past_first_line (dispatch d lc t0 line arr raw).
Proof.
  intros H. unfold dispatch, do_coord_name. cbv zeta.
  repeat match goal with
         | |- returns _ (if ?c then _ else _) => destruct c
         end;
    try (returns_ctl H).
  - returns_steps; first [exact H | exact I].
  - apply returns_bind; intros zp. destruct zp.
    + returns_steps. exact H.
    + apply returns_context_chain; exact H.
Qed.

Lemma returns_process_line d ext lc line :
  firstLine lc = false ->
  returns past_first_line (process_line d ext lc line).
Proof.
  intros H. unfold process_line. cbv zeta. rewrite H.
  destruct (splitstr_arr_of line) as [| t0 rest];
    [apply returns_ret; exact H |].
  apply returns_bind; intros _.
  destruct (str_in t0 _); [returns_ctl H | apply returns_dispatch; exact H].
Qed.

Lemma type_frame_process_lines d ext lines : forall lc,
  firstLine lc = false ->
  preserves type_frame (process_lines d ext lc lines).
Proof.
  induction lines as [| line rest IH]; intros lc H; cbn [process_lines].
  - apply (preserves_ret _ type_frame_refl).
  - intros s.
    destruct (type_frame_process_line d ext lc line H s) as [Hr He].
    pose proof (returns_process_line d ext lc line H s) as Hv.
    unfold bind.
    destruct (process_line d ext lc line s) as [c s1 | e s1 | c s1];
      cbn [final] in *; [| split; trivial | split; trivial].
    specialize (Hv c s1 eq_refl).
    destruct c as [lc' | b]; cbn [past_first_line] in Hv.
    + destruct (IH lc' Hv s1) as [Hr' He'].
      split; [eapply type_frame_trans; eassumption | exact He'].
    + cbn. split; [exact Hr | exact I].
Qed.

(** *** The statistics and the binary files *)

Lemma type_frame_calc_local_stats : preserves type_frame calc_local_stats.
Proof.
  unfold calc_local_stats. apply type_frame_for_local_props.
  intros acc p. unfold calc_stats. type_frame_tac.
Qed.

Lemma type_frame_prop_at i : preserves type_frame (prop_at i).
Proof. unfold prop_at. type_frame_tac. Qed.

Lemma type_frame_update_prop_at i f : preserves type_frame (update_prop_at i f).
Proof.
  unfold update_prop_at. apply preserves_modify. intros s.
  destruct (prop_dict s !! i) as [[k p] |]; [| apply type_frame_refl].
  unfold type_frame, config_frame. cbn. auto 12.
Qed.

Lemma type_frame_need {A} (o : option A) : preserves type_frame (need o).
Proof. unfold need. apply type_frame_or_raise. Qed.

Lemma type_frame_getsize fs p : preserves type_frame (getsize fs p).
Proof. unfold getsize. type_frame_tac. Qed.

Lemma type_frame_item_Z {A} (l : list A) i : preserves type_frame (item_Z l i).
Proof. unfold item_Z. type_frame_tac. Qed.
#[local] Hint Resolve type_frame_prop_at type_frame_update_prop_at
  type_frame_need type_frame_getsize type_frame_item_Z : frame.

Lemma type_frame_read_voxel_cell i f_arr x y z fl_idx :
  preserves type_frame (read_voxel_cell i f_arr x y z fl_idx).
Proof. unfold read_voxel_cell. type_frame_tac. Qed.
#[local] Hint Resolve type_frame_read_voxel_cell : frame.

Lemma type_frame_read_voxel_prop fs i :
  preserves type_frame (read_voxel_prop fs i).
Proof.
  unfold read_voxel_prop, numpy_zeros, make_numpy_dtype, numpy_fromfile.
  type_frame_unfold. type_frame_tac.
Qed.
#[local] Hint Resolve type_frame_read_voxel_prop : frame.

Lemma type_frame_read_flags_cell f_arr x y z f_idx :
  preserves type_frame (read_flags_cell f_arr x y z f_idx).
Proof. unfold read_flags_cell, bit_mask_of. type_frame_tac. Qed.
#[local] Hint Resolve type_frame_read_flags_cell : frame.

Lemma type_frame_read_flags fs : preserves type_frame (read_flags fs).
Proof.
  unfold read_flags, numpy_zeros, numpy_fromfile_bytes.
  type_frame_unfold. type_frame_tac.
Qed.

Lemma type_frame_read_voxel_files fs : preserves type_frame (read_voxel_files fs).
Proof.
  unfold read_voxel_files. type_frame_unfold.
  repeat first
    [ apply type_frame_read_flags
    | progress frame_steps type_frame_refl type_frame_trans
    | match goal with
      | |- preserves _ (logger_log _ _) => apply type_frame_logger
      end
    | solve [auto with frame nocore] ].
Qed.

Lemma config_frame_process_gocad fs d file lines :
  preserves config_frame (process_gocad fs d file lines).
Proof.
  unfold process_gocad. type_frame_unfold.
  destruct (splitext file) as [fileName fileExt].
  apply (preserves_bind _ config_frame_trans).
  { apply (preserves_weaken type_frame); [exact type_frame_config |].
    apply type_frame_logger. }
  intros _.
  apply (preserves_bind _ config_frame_trans).
  { apply preserves_modify. intros s. unfold config_frame. cbn. auto 10. }
  intros _.
  apply (preserves_bind _ config_frame_trans);
    [apply config_frame_process_lines |].
  intros [lc | b]; [| apply (preserves_ret _ config_frame_refl)].
  apply (preserves_weaken type_frame); [exact type_frame_config |].
  repeat first
    [ apply type_frame_calc_local_stats
    | apply type_frame_read_voxel_files
    | progress frame_steps type_frame_refl type_frame_trans
    | match goal with
      | |- preserves _ (logger_log _ _) => apply type_frame_logger
      end ].
Qed.

(** X1.  Whatever the file and the file system, [process_gocad] leaves the
    settings the vessel was created with ([STOP_ON_EXC], the log level,
    [nondefault_coords], [base_xyz], [group_name]) as they were, also
    when it raises or exits; and when it ends the process, the exit
    status is 1. *)
Theorem process_gocad_keeps_settings fs src_dir filename_str file_lines s :
  let r := process_gocad fs src_dir filename_str file_lines s in
  STOP_ON_EXC (final r) = STOP_ON_EXC s /\
  log_level (final r) = log_level s /\
  nondefault_coords (final r) = nondefault_coords s /\
  base_xyz (final r) = base_xyz s /\
  group_name (final r) = group_name s /\
  forall code s', r = Exited code s' -> code = 1.
Proof.
  cbv zeta.
  destruct (config_frame_process_gocad fs src_dir filename_str file_lines s)
    as [(H1 & H2 & H3 & H4 & H5) He].
  repeat split; try assumption.
  intros code s' E. rewrite E in He. exact He.
Qed.

(** X2.  Only the first non-blank line decides the type of the file: once
    it is past, no line of the text changes any of the four type flags,
    whatever the line holds and however the loop ends. *)
Theorem type_flags_fixed_after_first_line src_dir fileExt lc file_lines s :
  firstLine lc = false ->
  let s' := final (process_lines src_dir fileExt lc file_lines s) in
  is_ts s' = is_ts s /\ is_vs s' = is_vs s /\
  is_pl s' = is_pl s /\ is_vo s' = is_vo s.
Proof.
  intros H. cbv zeta.
  destruct (type_frame_process_lines src_dir fileExt file_lines lc H s)
    as [(_ & H1 & H2 & H3 & H4) _].
  auto.
Qed.

Lemma type_flags_fixed_after_first_line_witness :
  let lc := set_firstLine false init_locals in
  let lines := ["GOCAD VOXET 1"; "HEADER {"; "name: a/b"; "}"; "VRTX 1 0 0 0"] in
  let s' := final (process_lines "" ".ts" lc lines (set_is_ts true lenient_vessel)) in
  is_ts s' = true /\ is_vs s' = false /\ is_pl s' = false /\ is_vo s' = false.
Proof.
  exact (type_flags_fixed_after_first_line "" ".ts"
           (set_firstLine false init_locals)
           ["GOCAD VOXET 1"; "HEADER {"; "name: a/b"; "}"; "VRTX 1 0 0 0"]
           (set_is_ts true lenient_vessel) eq_refl).
Defined.

(** ** The type of the file *)

Lemma setType_run fileExt firstLineStr s :
  setType fileExt firstLineStr s =
  Ok (accepts fileExt firstLineStr)
    (let s0 := logged DEBUG "setType(%s,%s)" s in
     match signature_type firstLineStr with
     | Some k => if accepts fileExt firstLineStr then set_type k s0 else s0
     | None => s0
     end).
Proof.
  unfold setType, accepts, signature_type, extension_of. msimp. cbv zeta.
  generalize (logged DEBUG "setType(%s,%s)" s) as s0.
  generalize (upper (lstrip_chars "." fileExt)) as E. intros E s0.
  destruct (String.eqb_spec E "GP") as [-> | HGP].
  - destruct (String.eqb_spec firstLineStr "GOCAD TSURF 1") as [-> | H1];
      [reflexivity |].
    destruct (String.eqb_spec firstLineStr "GOCAD VSET 1") as [-> | H2];
      [reflexivity |].
    destruct (String.eqb_spec firstLineStr "GOCAD PLINE 1") as [-> | H3];
      [reflexivity |].
    destruct (String.eqb_spec firstLineStr "GOCAD VOXET 1") as [-> | H4];
      [reflexivity |].
    apply String.eqb_neq in H1, H2, H3, H4.
    cbn [find_member GOCAD_HEADERS str_in existsb negb andb orb].
    rewrite H1, H2, H3, H4.
    destruct (String.eqb firstLineStr "GOCAD HETEROGENEOUSGROUP 1");
      destruct (String.eqb firstLineStr "GOCAD HOMOGENEOUSGROUP 1");
      reflexivity.
  - destruct (String.eqb_spec E "TS") as [-> | HTS].
    { destruct (String.eqb_spec firstLineStr "GOCAD TSURF 1") as [-> | H1];
        [reflexivity |].
      apply String.eqb_neq in H1.
      cbn. rewrite H1.
      repeat match goal with
             | |- context [String.eqb firstLineStr ?x] =>
                 destruct (String.eqb firstLineStr x)
             end; reflexivity. }
    destruct (String.eqb_spec E "VS") as [-> | HVS].
    { destruct (String.eqb_spec firstLineStr "GOCAD VSET 1") as [-> | H1];
        [reflexivity |].
      apply String.eqb_neq in H1.
      cbn. rewrite H1.
      repeat match goal with
             | |- context [String.eqb firstLineStr ?x] =>
                 destruct (String.eqb firstLineStr x)
             end; reflexivity. }
    destruct (String.eqb_spec E "PL") as [-> | HPL].
    { destruct (String.eqb_spec firstLineStr "GOCAD PLINE 1") as [-> | H1];
        [reflexivity |].
      apply String.eqb_neq in H1.
      cbn. rewrite H1.
      repeat match goal with
             | |- context [String.eqb firstLineStr ?x] =>
                 destruct (String.eqb firstLineStr x)
             end; reflexivity. }
    destruct (String.eqb_spec E "VO") as [-> | HVO].
    { destruct (String.eqb_spec firstLineStr "GOCAD VOXET 1") as [-> | H1];
        [reflexivity |].
      apply String.eqb_neq in H1.
      cbn. rewrite H1.
      repeat match goal with
             | |- context [String.eqb firstLineStr ?x] =>
                 destruct (String.eqb firstLineStr x)
             end; reflexivity. }
    cbn [andb orb].
    apply String.eqb_neq in HTS, HVS, HPL, HVO.
    destruct (dict_mem String.eqb GOCAD_HEADERS E);
      repeat match goal with
             | |- context [String.eqb firstLineStr ?x] =>
                 destruct (String.eqb firstLineStr x)
             end; rewrite ?HTS, ?HVS, ?HPL, ?HVO; reflexivity.
Qed.

Lemma logged_is_ts l m s : is_ts (logged l m s) = is_ts s.
Proof. logged_field. Qed.
Lemma logged_is_vs l m s : is_vs (logged l m s) = is_vs s.
Proof. logged_field. Qed.
Lemma logged_is_pl l m s : is_pl (logged l m s) = is_pl s.
Proof. logged_field. Qed.
Lemma logged_is_vo l m s : is_vo (logged l m s) = is_vo s.
Proof. logged_field. Qed.

(** X3.  [__setType] always returns; it returns [True] exactly when the
    first line is the signature of one of the four vessel types and the
    extension names that type or a group file ([.gp]); it then sets the
    flag of that type and no other.  The header line of a group file
    itself is no such signature, so it is turned down. *)
Theorem setType_accepts_matching_signature fileExt firstLineStr s :
  exists s',
    setType fileExt firstLineStr s = Ok (accepts fileExt firstLineStr) s' /\
    is_ts s' = (is_ts s ||
                accepts fileExt firstLineStr &&
                String.eqb firstLineStr "GOCAD TSURF 1") /\
    is_vs s' = (is_vs s ||
                accepts fileExt firstLineStr &&
                String.eqb firstLineStr "GOCAD VSET 1") /\
    is_pl s' = (is_pl s ||
                accepts fileExt firstLineStr &&
                String.eqb firstLineStr "GOCAD PLINE 1") /\
    is_vo s' = (is_vo s ||
                accepts fileExt firstLineStr &&
                String.eqb firstLineStr "GOCAD VOXET 1").
Proof.
  eexists. split; [apply setType_run |]. cbv zeta.
  generalize (logged_is_ts DEBUG "setType(%s,%s)" s)
             (logged_is_vs DEBUG "setType(%s,%s)" s)
             (logged_is_pl DEBUG "setType(%s,%s)" s)
             (logged_is_vo DEBUG "setType(%s,%s)" s).
  generalize (logged DEBUG "setType(%s,%s)" s) as s0.
  intros s0 H1 H2 H3 H4.
  unfold accepts, signature_type.
  destruct (String.eqb_spec firstLineStr "GOCAD TSURF 1") as [-> | N1].
  { cbn. destruct (_ || _); cbn; rewrite ?H1, ?H2, ?H3, ?H4, ?orb_false_r,
      ?orb_true_r; auto. }
  destruct (String.eqb_spec firstLineStr "GOCAD VSET 1") as [-> | N2].
  { cbn. destruct (_ || _); cbn; rewrite ?H1, ?H2, ?H3, ?H4, ?orb_false_r,
      ?orb_true_r; auto. }
  destruct (String.eqb_spec firstLineStr "GOCAD PLINE 1") as [-> | N3].
  { cbn. destruct (_ || _); cbn; rewrite ?H1, ?H2, ?H3, ?H4, ?orb_false_r,
      ?orb_true_r; auto. }
  destruct (String.eqb_spec firstLineStr "GOCAD VOXET 1") as [-> | N4].
  { cbn. destruct (_ || _); cbn; rewrite ?H1, ?H2, ?H3, ?H4, ?orb_false_r,
      ?orb_true_r; auto. }
  cbn. rewrite H1, H2, H3, H4, !orb_false_r. auto.
Qed.

(** *** Blank lines *)

Lemma is_space_upper c : is_space c = true -> upper_char c = c.
Proof.
  destruct c as [[] [] [] [] [] [] [] []]; intros H; try reflexivity;
    discriminate H.
Qed.

Lemma is_space_not_quote c : is_space c = true -> Ascii.eqb c dquote = false.
Proof.
  destruct c as [[] [] [] [] [] [] [] []]; intros H; try reflexivity;
    discriminate H.
Qed.

Lemma is_blank_rstrip p s : is_blank s = true -> is_blank (rstrip_by p s) = true.
Proof.
  unfold is_blank. induction s as [| c s IH]; cbn; [auto |].
  intros H. apply andb_true_iff in H as [Hc Hs]. specialize (IH Hs).
  destruct (rstrip_by p s) as [| d r].
  - destruct (p c); cbn; [reflexivity | now rewrite Hc].
  - cbn in *. now rewrite Hc, IH.
Qed.

Lemma is_blank_upper s : is_blank s = true -> upper s = s.
Proof.
  unfold is_blank. induction s as [| c s IH]; cbn; [auto |].
  intros H. apply andb_true_iff in H as [Hc Hs].
  now rewrite (is_space_upper c Hc), (IH Hs).
Qed.

Lemma is_blank_count s : is_blank s = true -> count dquote s = 0%nat.
Proof.
  unfold is_blank. induction s as [| c s IH]; cbn; [auto |].
  intros H. apply andb_true_iff in H as [Hc Hs].
  now rewrite (is_space_not_quote c Hc), (IH Hs).
Qed.

Lemma is_blank_split s : is_blank s = true -> split s = [].
Proof.
  unfold is_blank, split. induction s as [| c s IH]; cbn; [auto |].
  intros H. apply andb_true_iff in H as [Hc Hs].
  rewrite Hc. exact (IH Hs).
Qed.

Lemma blank_line_tokens line :
  is_blank line = true -> splitstr_arr_of line = [].
Proof.
  intros H. unfold splitstr_arr_of, line_str_of, rstrip_chars.
  pose proof (is_blank_rstrip (char_in line_end_chars) line H) as Hr.
  rewrite (is_blank_upper _ Hr), (is_blank_count _ Hr). cbn [join_quoted].
  apply is_blank_split. exact Hr.
Qed.

Lemma process_lines_blank d ext lc blanks rest s :
  forallb is_blank blanks = true ->
  process_lines d ext lc (blanks ++ rest)%list s = process_lines d ext lc rest s.
Proof.
  induction blanks as [| b blanks IH]; cbn [forallb app]; [reflexivity |].
  intros H. apply andb_true_iff in H as [Hb Hbs].
  cbn [process_lines]. unfold process_line at 1.
  rewrite (blank_line_tokens b Hb). cbv zeta. msimp.
  apply IH. exact Hbs.
Qed.

Ltac logged_state s :=
  unfold logged, logger_log, bind, get, emit, modify, ret; cbn;
  repeat match goal with
         | |- context [log_level s <=? ?l] => destruct (log_level s <=? l); cbn
         end.

(** X4.  When the first non-blank line is not the signature the extension
    asks for, [process_gocad] returns [False] at once: the lines after
    it are not looked at, no file is read, and apart from the log and
    the name taken from the file name the vessel is as it was. *)
Theorem unrecognised_first_line_is_turned_down
  fs src_dir filename_str blanks line rest s :
  forallb is_blank blanks = true ->
  splitstr_arr_of line <> [] ->
  accepts (snd (splitext filename_str)) (line_str_of line) = false ->
  exists s',
    process_gocad fs src_dir filename_str (blanks ++ line :: rest)%list s =
      Ok false s' /\
    set_log (log s) s' =
      set_np_filename (basename (fst (splitext filename_str))) s.
Proof.
  intros Hblank Htok Hacc. unfold process_gocad.
  destruct (splitext filename_str) as [fileName fileExt]. cbn [fst snd] in *.
  msimp. rewrite process_lines_blank by exact Hblank.
  cbn [process_lines]. unfold process_line.
  destruct (splitstr_arr_of line) as [| t0 toks]; [contradiction |].
  cbv zeta. msimp. cbn [firstLine init_locals]. msimp.
  rewrite setType_run, Hacc. cbv zeta. cbn [negb]. msimp.
  eexists. split; [reflexivity |].
  destruct (signature_type (line_str_of line)); logged_state s; reflexivity.
Qed.

Lemma unrecognised_first_line_is_turned_down_witness :
  exists s',
    process_gocad no_files "" "faults.ts"
      ["   "; ""; "GOCAD VSET 1"; "VRTX 1 0 0 0"] lenient_vessel =
      Ok false s' /\
    set_log (log lenient_vessel) s' = set_np_filename "faults" lenient_vessel.
Proof.
  apply (unrecognised_first_line_is_turned_down no_files "" "faults.ts"
           ["   "; ""] "GOCAD VSET 1" ["VRTX 1 0 0 0"] lenient_vessel);
    [reflexivity | discriminate | reflexivity].
Defined.

Lemma calc_local_stats_none s : local_props s = [] -> calc_local_stats s = Ok tt s.
Proof.
  intros H. unfold calc_local_stats, for_local_props. msimp. rewrite H.
  reflexivity.
Qed.

Lemma read_voxel_files_idle fs s :
  is_vo s = false \/ prop_dict s = [] ->
  read_voxel_files fs s = Ok true (logged DEBUG "self.flags_dict= %s" s).
Proof.
  intros H. unfold read_voxel_files. msimp.
  replace (is_vo s && (0 <? length (prop_dict s))%nat) with false.
  - msimp. reflexivity.
  - destruct H as [H | H]; rewrite H; [reflexivity |].
    cbn. now rewrite andb_false_r.
Qed.

(** X5.  A file without a non-blank line is accepted: when the vessel has
    no point properties and no binary property to read, [process_gocad]
    returns [True] although no type was recognised, and apart from the
    log and the name taken from the file name the vessel is as it
    was. *)
Theorem blank_file_is_accepted fs src_dir filename_str file_lines s :
  forallb is_blank file_lines = true ->
  local_props s = [] ->
  is_vo s = false \/ prop_dict s = [] ->
  exists s',
    process_gocad fs src_dir filename_str file_lines s = Ok true s' /\
    set_log (log s) s' =
      set_np_filename (basename (fst (splitext filename_str))) s.
Proof.
  intros Hblank Hlp Hvo. unfold process_gocad.
  destruct (splitext filename_str) as [fileName fileExt]. cbn [fst snd] in *.
  msimp. rewrite <- (app_nil_r file_lines).
  rewrite process_lines_blank by exact Hblank.
  cbn [process_lines]. msimp.
  rewrite calc_local_stats_none by (logged_state s; exact Hlp).
  msimp. rewrite read_voxel_files_idle.
  - eexists. split; [reflexivity |]. logged_state s; reflexivity.
  - destruct Hvo as [H | H]; [left | right]; logged_state s; exact H.
Qed.

Lemma blank_file_is_accepted_witness :
  exists s',
    process_gocad no_files "" "empty.ts" [""; "  "] strict_vessel = Ok true s' /\
    set_log (log strict_vessel) s' = set_np_filename "empty" strict_vessel.
Proof.
  apply (blank_file_is_accepted no_files "" "empty.ts" [""; "  "] strict_vessel);
    [reflexivity | reflexivity | left; reflexivity].
Defined.

(** ** Lines of a voxet's property metadata *)

Lemma process_line_body src_dir fileExt lc line s t0 rest :
  in_body lc ->
  splitstr_arr_of line = t0 :: rest ->
  str_in t0 context_keywords = false ->
  process_line src_dir fileExt lc line s =
  keyword_chain src_dir lc t0 (line_str_of line) (t0 :: rest)
    (splitstr_arr_raw_of line) (logged DEBUG "splitstr_arr = %s" s).
Proof.
  intros (H1 & H2 & H3 & H4). now apply process_line_keyword.
Qed.

(** X6.  In the body of the file a line that holds nothing but one of the
    keywords read without a [try] raises an [IndexError] that nothing
    catches, whatever [STOP_ON_EXC] and the log level are: the loop does
    not skip a truncated line. *)
Theorem truncated_line_raises_IndexError src_dir fileExt lc line t0 s :
  in_body lc ->
  In t0 unguarded_keywords ->
  splitstr_arr_of line = [t0] ->
  process_line src_dir fileExt lc line s =
  Raised IndexError (logged DEBUG "splitstr_arr = %s" s).
Proof.
  intros Hbody Hin Htok.
  unfold unguarded_keywords in Hin. cbn [In] in Hin.
  repeat (destruct Hin as [<- | Hin];
          [rewrite (process_line_body _ _ _ _ _ _ _ Hbody Htok eq_refl);
           first [ reflexivity
                 | unfold keyword_chain, do_prop_file; cbn; msimp;
                   destruct (nth_error _ _); reflexivity ] |]).
  contradiction.
Qed.

Lemma truncated_line_raises_IndexError_witness :
  process_line "" ".vo" (set_firstLine false init_locals) "AXIS_N" lenient_vessel =
  Raised IndexError (logged DEBUG "splitstr_arr = %s" lenient_vessel).
Proof.
  apply (truncated_line_raises_IndexError "" ".vo"
           (set_firstLine false init_locals) "AXIS_N" "AXIS_N" lenient_vessel).
  - repeat split.
  - unfold unguarded_keywords. cbn [In]. auto 20.
  - reflexivity.
Defined.

Lemma set_log_same s : set_log (log s) s = s.
Proof. now destruct s. Qed.

Lemma set_log_over_logged v l m s : set_log v (logged l m s) = set_log v s.
Proof.
  unfold logged, logger_log, bind, get, emit, modify, ret.
  destruct (log_level s <=? l); reflexivity.
Qed.

Lemma set_log_logged l m s : set_log (log s) (logged l m s) = s.
Proof. rewrite set_log_over_logged. apply set_log_same. Qed.

Lemma set_log_logged2 l m l' m' s :
  set_log (log s) (logged l m (logged l' m' s)) = s.
Proof. rewrite !set_log_over_logged. apply set_log_same. Qed.

(** X7.  An encoding of a binary property the reader does not take ends
    the process with exit status 1, whatever [STOP_ON_EXC] and the log
    level are: a [PROP_ETYPE] other than [IEEE], a [PROP_EFORMAT] other
    than [RAW], a [PROP_STORAGE_TYPE] other than [OCTET] and [SHORT], a
    [PROP_OFFSET] other than 0.  Apart from the log the vessel is as it
    was. *)
Theorem unsupported_encoding_exits src_dir fileExt lc line t0 t1 t2 rest s :
  in_body lc ->
  splitstr_arr_of line = t0 :: t1 :: t2 :: rest ->
  unsupported_encoding t0 t2 = true ->
  exists s',
    process_line src_dir fileExt lc line s = Exited 1 s' /\
    set_log (log s) s' = s.
Proof.
  intros Hbody Htok Hbad. unfold unsupported_encoding in Hbad.
  destruct (String.eqb_spec t0 "PROP_ETYPE") as [-> | N1].
  { rewrite (process_line_body _ _ _ _ _ _ _ Hbody Htok eq_refl).
    cbn in Hbad. rewrite ?orb_false_r in Hbad.
    unfold keyword_chain. cbn [String.eqb Ascii.eqb Bool.eqb orb andb].
    unfold do_prop_etype. msimp. cbn [nth_error]. rewrite Hbad. msimp.
    eexists. split; [reflexivity | apply set_log_logged2]. }
  destruct (String.eqb_spec t0 "PROP_EFORMAT") as [-> | N2].
  { rewrite (process_line_body _ _ _ _ _ _ _ Hbody Htok eq_refl).
    cbn in Hbad. rewrite ?orb_false_r in Hbad.
    unfold keyword_chain. cbn [String.eqb Ascii.eqb Bool.eqb orb andb].
    unfold do_prop_eformat. msimp. cbn [nth_error]. rewrite Hbad. msimp.
    eexists. split; [reflexivity | apply set_log_logged2]. }
  destruct (String.eqb_spec t0 "PROP_STORAGE_TYPE") as [-> | N3].
  { rewrite (process_line_body _ _ _ _ _ _ _ Hbody Htok eq_refl).
    cbn in Hbad. rewrite ?orb_false_r in Hbad.
    apply andb_true_iff in Hbad as [H1 H2].
    apply negb_true_iff in H1, H2.
    unfold keyword_chain. cbn [String.eqb Ascii.eqb Bool.eqb orb andb].
    unfold do_prop_storage_type. msimp. cbn [nth_error]. rewrite H1, H2. msimp.
    eexists. split; [reflexivity | apply set_log_logged2]. }
  destruct (String.eqb_spec t0 "PROP_OFFSET") as [-> | N4].
  { rewrite (process_line_body _ _ _ _ _ _ _ Hbody Htok eq_refl).
    cbn in Hbad.
    unfold keyword_chain. cbn [String.eqb Ascii.eqb Bool.eqb orb andb].
    unfold do_prop_offset. msimp. cbn [nth_error].
    destruct (int t2) as [n |]; [| discriminate Hbad].
    rewrite Hbad. msimp.
    eexists. split; [reflexivity | apply set_log_logged2]. }
  discriminate Hbad.
Qed.

Lemma unsupported_encoding_exits_witness :
  exists s',
    process_line "" ".vo" (set_firstLine false init_locals)
      "PROP_ETYPE 1 IBM" lenient_vessel = Exited 1 s' /\
    set_log (log lenient_vessel) s' = lenient_vessel.
Proof.
  apply (unsupported_encoding_exits "" ".vo" (set_firstLine false init_locals)
           "PROP_ETYPE 1 IBM" "PROP_ETYPE" "1" "IBM" [] lenient_vessel).
  - repeat split.
  - reflexivity.
  - reflexivity.
Defined.

(** *** Dictionaries *)

Section DictFacts.
Context {V : Type}.

Lemma dict_get_set_same (d : list (string * V)) k v :
  dict_get String.eqb (dict_set String.eqb d k v) k = Some v.
Proof.
  induction d as [| [k' v'] d IH]; cbn.
  - now rewrite String.eqb_refl.
  - destruct (String.eqb k' k) eqn:E; cbn; rewrite E; [reflexivity | exact IH].
Qed.

Lemma dict_get_set_other (d : list (string * V)) k v k0 :
  k0 <> k ->
  dict_get String.eqb (dict_set String.eqb d k v) k0 = dict_get String.eqb d k0.
Proof.
  intros N. induction d as [| [k' v'] d IH]; cbn.
  - destruct (String.eqb_spec k k0); [congruence | reflexivity].
  - destruct (String.eqb_spec k' k) as [-> | N']; cbn.
    + destruct (String.eqb_spec k k0); [congruence | reflexivity].
    + destruct (String.eqb k' k0); [reflexivity | exact IH].
Qed.

Lemma dict_set_length_present (d : list (string * V)) k v p :
  dict_get String.eqb d k = Some p ->
  length (dict_set String.eqb d k v) = length d.
Proof.
  induction d as [| [k' v'] d IH]; cbn; [discriminate |].
  destruct (String.eqb k' k); cbn; [reflexivity |].
  intros H. now rewrite (IH H).
Qed.
End DictFacts.

Lemma update_prop_run key f p s :
  dict_get String.eqb (prop_dict s) key = Some p ->
  update_prop key f s =
  Ok tt (set_prop_dict (dict_set String.eqb (prop_dict s) key (f p)) s).
Proof. intros H. unfold update_prop, get_prop. msimp. rewrite H. reflexivity. Qed.

Lemma update_prop_missing key f s :
  dict_get String.eqb (prop_dict s) key = None ->
  update_prop key f s = Raised KeyError s.
Proof. intros H. unfold update_prop, get_prop. msimp. rewrite H. reflexivity. Qed.

(** How the three lines reach [update_prop] *)
Lemma property_update_run src_dir fileExt lc line t0 t1 t2 rest f s :
  in_body lc ->
  splitstr_arr_of line = t0 :: t1 :: t2 :: rest ->
  property_update t0 t2 = Some f ->
  process_line src_dir fileExt lc line s =
  match update_prop t1 f (logged DEBUG "splitstr_arr = %s" s) with
  | Ok _ s' =>
      Ok (Continue lc)
        (if String.eqb t0 "PROP_ESIZE"
         then logged DEBUG "self.prop_dict[%s].data_sz = %d" s'
         else if String.eqb t0 "PROP_SIGNED"
         then logged DEBUG "self.prop_dict[%s].signed_int = %s" s'
         else logged DEBUG "self.prop_dict[%s].data_type = %s" s')
  | Raised e s' => Raised e s'
  | Exited c s' => Exited c s'
  end.
Proof.
  intros Hbody Htok Hup. unfold property_update in Hup.
  destruct (String.eqb_spec t0 "PROP_ESIZE") as [-> | N1].
  { rewrite (process_line_body _ _ _ _ _ _ _ Hbody Htok eq_refl).
    unfold keyword_chain. cbn [String.eqb Ascii.eqb Bool.eqb orb andb].
    unfold do_prop_esize. msimp. cbn [nth_error].
    destruct (int t2) as [n |]; [| discriminate Hup].
    injection Hup as <-.
    destruct (update_prop t1 (set_data_sz n) _) as [[] s1 | e s1 | c s1] eqn:E;
      [msimp; reflexivity | | reflexivity].
    unfold update_prop, get_prop in E. revert E. msimp.
    destruct (dict_get String.eqb _ t1); intros E; inversion E; reflexivity. }
  destruct (String.eqb_spec t0 "PROP_SIGNED") as [-> | N2].
  { rewrite (process_line_body _ _ _ _ _ _ _ Hbody Htok eq_refl).
    unfold keyword_chain. cbn [String.eqb Ascii.eqb Bool.eqb orb andb].
    unfold do_prop_signed. msimp. cbn [nth_error].
    injection Hup as <-.
    destruct (update_prop t1 _ _) as [[] s1 | e s1 | c s1];
      msimp; reflexivity. }
  destruct (String.eqb_spec t0 "PROP_STORAGE_TYPE") as [-> | N3];
    [| discriminate Hup].
  rewrite (process_line_body _ _ _ _ _ _ _ Hbody Htok eq_refl).
  unfold keyword_chain. cbn [String.eqb Ascii.eqb Bool.eqb orb andb].
  unfold do_prop_storage_type. msimp. cbn [nth_error].
  destruct (String.eqb t2 "OCTET").
  { injection Hup as <-. msimp.
    destruct (update_prop t1 _ _) as [[] s1 | e s1 | c s1];
      msimp; reflexivity. }
  destruct (String.eqb t2 "SHORT"); [| discriminate Hup].
  injection Hup as <-. msimp.
  destruct (update_prop t1 _ _) as [[] s1 | e s1 | c s1];
    msimp; reflexivity.
Qed.

(** X8.  A [PROP_ESIZE], [PROP_SIGNED] or [PROP_STORAGE_TYPE] line that
    names a property class no [PROPERTY_CLASS_HEADER] has registered
    raises a [KeyError] that nothing catches (the [try] around
    [PROP_ESIZE] only catches [IndexError] and [ValueError]); the vessel
    is left with one more debug record at most. *)
Theorem property_line_of_unknown_class_raises_KeyError
  src_dir fileExt lc line t0 t1 t2 rest f s :
  in_body lc ->
  splitstr_arr_of line = t0 :: t1 :: t2 :: rest ->
  property_update t0 t2 = Some f ->
  dict_get String.eqb (prop_dict s) t1 = None ->
  process_line src_dir fileExt lc line s =
  Raised KeyError (logged DEBUG "splitstr_arr = %s" s).
Proof.
  intros Hbody Htok Hup Hnone.
  rewrite (property_update_run _ _ _ _ _ _ _ _ _ _ Hbody Htok Hup).
  rewrite update_prop_missing; [reflexivity |].
  now rewrite logged_prop_dict.
Qed.

Lemma property_line_of_unknown_class_raises_KeyError_witness :
  process_line "" ".vo" (set_firstLine false init_locals) "PROP_ESIZE 1 4"
    lenient_vessel =
  Raised KeyError (logged DEBUG "splitstr_arr = %s" lenient_vessel).
Proof.
  apply (property_line_of_unknown_class_raises_KeyError "" ".vo"
           (set_firstLine false init_locals) "PROP_ESIZE 1 4"
           "PROP_ESIZE" "1" "4" [] (set_data_sz 4) lenient_vessel).
  - repeat split.
  - reflexivity.
  - reflexivity.
  - reflexivity.
Defined.

(** X9.  A [PROP_ESIZE], [PROP_SIGNED] or [PROP_STORAGE_TYPE] line that
    names a registered property class writes its value to that class and
    to no other: the class is found changed under its index, every
    other index holds what it held, and the loop goes on. *)
Theorem property_line_writes_its_class
  src_dir fileExt lc line t0 t1 t2 rest f p s :
  in_body lc ->
  splitstr_arr_of line = t0 :: t1 :: t2 :: rest ->
  property_update t0 t2 = Some f ->
  dict_get String.eqb (prop_dict s) t1 = Some p ->
  exists s',
    process_line src_dir fileExt lc line s = Ok (Continue lc) s' /\
    dict_get String.eqb (prop_dict s') t1 = Some (f p) /\
    (forall k, k <> t1 ->
       dict_get String.eqb (prop_dict s') k = dict_get String.eqb (prop_dict s) k)
    /\ length (prop_dict s') = length (prop_dict s).
Proof.
  intros Hbody Htok Hup Hsome.
  rewrite (property_update_run _ _ _ _ _ _ _ _ _ _ Hbody Htok Hup).
  rewrite (update_prop_run t1 f p) by now rewrite logged_prop_dict.
  eexists. split; [reflexivity |].
  assert (Hpd : forall l m l' m' d,
    prop_dict (logged l m (set_prop_dict d (logged l' m' s))) = d).
  { intros. rewrite logged_prop_dict. reflexivity. }
  assert (Hfin : forall d,
    prop_dict
      (if String.eqb t0 "PROP_ESIZE"
       then logged DEBUG "self.prop_dict[%s].data_sz = %d"
              (set_prop_dict d (logged DEBUG "splitstr_arr = %s" s))
       else if String.eqb t0 "PROP_SIGNED"
       then logged DEBUG "self.prop_dict[%s].signed_int = %s"
              (set_prop_dict d (logged DEBUG "splitstr_arr = %s" s))
       else logged DEBUG "self.prop_dict[%s].data_type = %s"
              (set_prop_dict d (logged DEBUG "splitstr_arr = %s" s))) = d).
  { intros d. destruct (String.eqb t0 "PROP_ESIZE");
      [| destruct (String.eqb t0 "PROP_SIGNED")]; apply Hpd. }
  rewrite Hfin, logged_prop_dict.
  split; [apply dict_get_set_same |].
  split; [intros k Hk; now apply dict_get_set_other |].
  eapply dict_set_length_present. exact Hsome.
Qed.

Lemma property_line_writes_its_class_witness :
  exists s',
    process_line "" ".vo" (set_firstLine false init_locals)
      "PROP_STORAGE_TYPE 1 Short" one_cell_voxet = Ok (Continue (set_firstLine false init_locals)) s' /\
    dict_get String.eqb (prop_dict s') "1" =
      Some (set_data_type "h"
              (set_data_type "b" (set_file_name "p.bin"
                                    (set_data_sz 1 (new_PROPS "P"))))) /\
    (forall k, k <> "1" ->
       dict_get String.eqb (prop_dict s') k =
       dict_get String.eqb (prop_dict one_cell_voxet) k) /\
    length (prop_dict s') = length (prop_dict one_cell_voxet).
Proof.
  apply (property_line_writes_its_class "" ".vo"
           (set_firstLine false init_locals) "PROP_STORAGE_TYPE 1 Short"
           "PROP_STORAGE_TYPE" "1" "SHORT" [] (set_data_type "h")
           (set_data_type "b" (set_file_name "p.bin"
                                 (set_data_sz 1 (new_PROPS "P"))))
           one_cell_voxet).
  - repeat split.
  - reflexivity.
  - reflexivity.
  - reflexivity.
Defined.

(** ** Coordinates and vertices *)

Lemma parse_float_value tok v s :
  coordinate_value tok = Some v ->
  parse_float (PyStr tok) None s = Ok (true, v) (logged DEBUG "fp_str = %s" s).
Proof.
  unfold coordinate_value, parse_float. intros H. msimp. cbn [pyval_in].
  destruct (str_in tok ["1.#INF"; "INF"]);
    [now injection H as <- |].
  destruct (str_in tok ["-1.#INF"; "-INF"]);
    [now injection H as <- |].
  msimp. rewrite H. reflexivity.
Qed.

Lemma logged_xyz_mult l m s : xyz_mult (logged l m s) = xyz_mult s.
Proof. logged_field. Qed.
Lemma logged_xyz_unit l m s : xyz_unit (logged l m s) = xyz_unit s.
Proof. logged_field. Qed.
Lemma logged_invert_zaxis l m s : invert_zaxis (logged l m s) = invert_zaxis s.
Proof. logged_field. Qed.
Lemma logged_nondefault_coords l m s :
  nondefault_coords (logged l m s) = nondefault_coords s.
Proof. logged_field. Qed.
Lemma logged_coord_sys_name l m s :
  coord_sys_name (logged l m s) = coord_sys_name s.
Proof. logged_field. Qed.
Lemma logged_usesDefaultCoords l m s :
  usesDefaultCoords (logged l m s) = usesDefaultCoords s.
Proof. logged_field. Qed.

Lemma logged_set_log l m s : exists v, logged l m s = set_log v s.
Proof.
  unfold logged, logger_log, bind, get, emit, modify, ret.
  destruct (log_level s <=? l); cbn [final].
  - eexists; reflexivity.
  - exists (log s). now destruct s.
Qed.

(** Replace the innermost [logged] vessel by [set_log] of the vessel *)
Ltac logged_as_set_log :=
  repeat match goal with
         | |- context [logged ?l ?m ?x] =>
             lazymatch x with
             | context [logged _ _ _] => fail
             | _ =>
                 let v := fresh "v" in
                 let E := fresh "E" in
                 destruct (logged_set_log l m x) as [v E]; rewrite !E; clear E
             end
         end.

(** The three floats of a line, scaled: [__parse_XYZ] with
    [is_float = True] and [convert = True] *)
Lemma parse_XYZ_float_run tx ty tz x y z mx my mz do_minmax s :
  coordinate_value tx = Some x ->
  coordinate_value ty = Some y ->
  coordinate_value tz = Some z ->
  xyz_mult s = (mx, my, mz) ->
  exists l b,
    parse_XYZ_float tx ty tz do_minmax true s =
      Ok (Some (fmul x mx, fmul y my, fmul z mz)) (set_bbox b (set_log l s)) /\
    (do_minmax = false -> b = bbox s).
Proof.
  intros Hx Hy Hz Hm. unfold parse_XYZ_float. msimp.
  rewrite (parse_float_value tx x) by exact Hx. msimp.
  rewrite (parse_float_value ty y) by exact Hy. msimp.
  rewrite (parse_float_value tz z) by exact Hz. msimp.
  cbn [negb orb]. rewrite !logged_xyz_mult, Hm.
  logged_as_set_log.
  destruct do_minmax.
  - unfold _calc_minmax. msimp. eexists _, _. split; [reflexivity |].
    discriminate.
  - msimp. exists v1, (bbox s). split; reflexivity.
Qed.

(** X10.  A vertex line whose number and three coordinates convert adds
    one vertex under that number: each coordinate is multiplied by the
    multiplier of its axis, and the third one changes sign when the
    coordinate system counts depth positive ([invert_zaxis]).  The
    number becomes the current sequence number. *)
Theorem vertex_line_scales_and_inverts
  src_dir fileExt lc line tn tx ty tz rest n x y z mx my mz s :
  in_body lc ->
  splitstr_arr_of line = "VRTX" :: tn :: tx :: ty :: tz :: rest ->
  int tn = Some n ->
  coordinate_value tx = Some x ->
  coordinate_value ty = Some y ->
  coordinate_value tz = Some z ->
  xyz_mult s = (mx, my, mz) ->
  exists lc' s',
    process_line src_dir fileExt lc line s = Ok (Continue lc') s' /\
    seq_no lc' = n /\
    _vrtx_arr s' =
      (_vrtx_arr s ++
       [{| vrtx_n := n;
           vrtx_xyz := (fmul x mx, fmul y my,
                        if invert_zaxis s then fneg (fmul z mz)
                        else fmul z mz) |}])%list.
Proof.
  intros Hbody Htok Hn Hx Hy Hz Hm.
  rewrite (process_line_body _ _ _ _ _ _ _ Hbody Htok eq_refl).
  unfold keyword_chain. cbn [String.eqb Ascii.eqb Bool.eqb orb andb].
  unfold do_vrtx. msimp. cbn [nth_error]. rewrite Hn. msimp.
  destruct (parse_XYZ_float_run tx ty tz x y z mx my mz true
              (logged DEBUG "splitstr_arr = %s" s) Hx Hy Hz) as (l & b & E & _).
  { now rewrite logged_xyz_mult. }
  rewrite E. msimp. cbn [String.eqb Ascii.eqb Bool.eqb]. msimp.
  eexists _, _. split; [reflexivity |]. split; [reflexivity |].
  logged_as_set_log. cbn. reflexivity.
Qed.

Lemma vertex_line_scales_and_inverts_witness :
  exists lc' s',
    process_line "" ".ts" (set_firstLine false init_locals) "VRTX 7 1 2 3"
      (set_invert_zaxis true
         (set_xyz_mult (float_of_Z 1000, one, one) lenient_vessel)) =
      Ok (Continue lc') s' /\
    seq_no lc' = 7 /\
    _vrtx_arr s' =
      [{| vrtx_n := 7;
          vrtx_xyz := (fmul (float_of_Z 1) (float_of_Z 1000),
                       fmul (float_of_Z 2) one,
                       fneg (fmul (float_of_Z 3) one)) |}].
Proof.
  apply (vertex_line_scales_and_inverts "" ".ts"
           (set_firstLine false init_locals) "VRTX 7 1 2 3"
           "7" "1" "2" "3" [] 7 (float_of_Z 1) (float_of_Z 2) (float_of_Z 3)
           (float_of_Z 1000) one one
           (set_invert_zaxis true
              (set_xyz_mult (float_of_Z 1000, one, one) lenient_vessel)));
    try reflexivity.
  repeat split.
Defined.

(** X11.  Inside the coordinate-system block a [NAME] other than
    [DEFAULT] ends the parse when the vessel was not created for
    non-default coordinates: the loop returns [False] without looking at
    the lines that follow, having recorded the name and that the file
    does not use the default coordinates.  The geometry read so far
    stays. *)
Theorem nondefault_coordinates_end_the_parse
  src_dir fileExt lc line name rest more s :
  firstLine lc = false ->
  inCoord lc = true ->
  splitstr_arr_of line = "NAME" :: name :: rest ->
  name <> "DEFAULT" ->
  nondefault_coords s = false ->
  exists s',
    process_lines src_dir fileExt lc (line :: more) s = Ok (Return false) s' /\
    coord_sys_name s' = name /\
    usesDefaultCoords s' = false /\
    _vrtx_arr s' = _vrtx_arr s /\ _trgl_arr s' = _trgl_arr s /\
    _seg_arr s' = _seg_arr s /\ _atom_arr s' = _atom_arr s.
Proof.
  intros Hfirst Hcoord Htok Hname Hnd.
  cbn [process_lines]. unfold process_line. rewrite Htok. cbv zeta.
  msimp. rewrite Hfirst. cbn [str_in existsb String.eqb Ascii.eqb Bool.eqb orb].
  unfold dispatch. cbn [String.eqb Ascii.eqb Bool.eqb]. rewrite Hcoord.
  cbn [andb]. unfold do_coord_name. msimp. cbn [nth_error].
  apply String.eqb_neq in Hname. rewrite Hname. cbn [negb]. msimp.
  rewrite logged_nondefault_coords. cbn [nondefault_coords set_usesDefaultCoords
    set_coord_sys_name]. rewrite logged_nondefault_coords, Hnd. cbn [negb].
  msimp. eexists. split; [reflexivity |].
  logged_as_set_log. cbn. auto 10.
Qed.

Lemma nondefault_coordinates_end_the_parse_witness :
  exists s',
    process_lines "" ".ts" (set_inCoord true (set_firstLine false init_locals))
      ["NAME Local"; "VRTX 1 0 0 0"] lenient_vessel = Ok (Return false) s' /\
    coord_sys_name s' = "LOCAL" /\
    usesDefaultCoords s' = false /\
    _vrtx_arr s' = [] /\ _trgl_arr s' = [] /\ _seg_arr s' = [] /\
    _atom_arr s' = [].
Proof.
  apply (nondefault_coordinates_end_the_parse "" ".ts"
           (set_inCoord true (set_firstLine false init_locals))
           "NAME Local" "LOCAL" [] ["VRTX 1 0 0 0"] lenient_vessel);
    try reflexivity.
  discriminate.
Defined.

(** *** Axis units *)

Lemma axis_unit_step arr idx t (rest : list nat) s :
  nth_error arr (idx + 1) = Some t ->
  for_each (idx :: rest) (fun idx =>
    let* t := item arr (idx + 1) in
    let unit_str :=
      strip_chars "'" (strip_chars " " (strip_by (Ascii.eqb dquote) t)) in
    if String.eqb unit_str "KM" then
      modify (fun s => set_xyz_mult (set3 idx (float_of_Z 1000) (xyz_mult s)) s)
    else if negb (str_in unit_str ["M"; "UNITLESS"; "NUMBER"; "MS"]) then
      logger_warning "WARNING - nonstandard units in 'AXIS_UNIT' "
    else
      modify (fun s => set_xyz_unit (set3 idx (Some unit_str) (xyz_unit s)) s)) s
  =
  for_each rest (fun idx =>
    let* t := item arr (idx + 1) in
    let unit_str :=
      strip_chars "'" (strip_chars " " (strip_by (Ascii.eqb dquote) t)) in
    if String.eqb unit_str "KM" then
      modify (fun s => set_xyz_mult (set3 idx (float_of_Z 1000) (xyz_mult s)) s)
    else if negb (str_in unit_str ["M"; "UNITLESS"; "NUMBER"; "MS"]) then
      logger_warning "WARNING - nonstandard units in 'AXIS_UNIT' "
    else
      modify (fun s => set_xyz_unit (set3 idx (Some unit_str) (xyz_unit s)) s))
    (if String.eqb (unit_of t) "KM"
     then set_xyz_mult (set3 idx (float_of_Z 1000) (xyz_mult s)) s
     else if str_in (unit_of t) ["M"; "UNITLESS"; "NUMBER"; "MS"]
     then set_xyz_unit (set3 idx (Some (unit_of t)) (xyz_unit s)) s
     else logged WARNING "WARNING - nonstandard units in 'AXIS_UNIT' " s).
Proof.
  intros Ht. cbn [for_each]. msimp. rewrite Ht. cbv zeta. fold (unit_of t).
  destruct (String.eqb (unit_of t) "KM"); [reflexivity |].
  destruct (str_in (unit_of t) _); cbn [negb]; msimp; reflexivity.
Qed.

(** X12.  An [AXIS_UNIT] line treats its three units one by one: the
    multiplier of an axis becomes 1000 when its unit is [KM] and stays
    otherwise; the unit name of an axis is recorded when it is one of
    [M], [UNITLESS], [NUMBER], [MS] and stays otherwise (any other unit
    only earns a warning, it is not converted). *)
Theorem axis_unit_line_sets_multipliers
  src_dir fileExt lc line u0 u1 u2 rest m0 m1 m2 n0 n1 n2 s :
  in_body lc ->
  splitstr_arr_of line = "AXIS_UNIT" :: u0 :: u1 :: u2 :: rest ->
  xyz_mult s = (m0, m1, m2) ->
  xyz_unit s = (n0, n1, n2) ->
  exists s',
    process_line src_dir fileExt lc line s = Ok (Continue lc) s' /\
    xyz_mult s' = (unit_mult u0 m0, unit_mult u1 m1, unit_mult u2 m2) /\
    xyz_unit s' = (unit_name u0 n0, unit_name u1 n1, unit_name u2 n2).
Proof.
  intros Hbody Htok Hm Hn.
  rewrite (process_line_body _ _ _ _ _ _ _ Hbody Htok eq_refl).
  unfold keyword_chain. cbn [String.eqb Ascii.eqb Bool.eqb orb andb].
  unfold do_axis_unit.
  unfold bind at 1.
  rewrite (axis_unit_step _ 0 u0) by reflexivity.
  rewrite (axis_unit_step _ 1 u1) by reflexivity.
  rewrite (axis_unit_step _ 2 u2) by reflexivity.
  cbn [for_each]. msimp.
  eexists. split; [reflexivity |].
  unfold unit_mult, unit_name.
  assert (Hkm : forall u, String.eqb u "KM" = true ->
            str_in u ["M"; "UNITLESS"; "NUMBER"; "MS"] = false).
  { intros u Hu. apply String.eqb_eq in Hu. now subst u. }
  destruct (String.eqb (unit_of u0) "KM") eqn:K0;
    [rewrite (Hkm _ K0) | destruct (str_in (unit_of u0) _)];
    (destruct (String.eqb (unit_of u1) "KM") eqn:K1;
     [rewrite (Hkm _ K1) | destruct (str_in (unit_of u1) _)]);
    (destruct (String.eqb (unit_of u2) "KM") eqn:K2;
     [rewrite (Hkm _ K2) | destruct (str_in (unit_of u2) _)]);
    cbn; rewrite ?logged_xyz_mult, ?logged_xyz_unit; cbn;
    rewrite ?logged_xyz_mult, ?logged_xyz_unit; cbn;
    rewrite ?logged_xyz_mult, ?logged_xyz_unit, ?Hm, ?Hn; cbn;
    rewrite ?Hm, ?Hn; split; reflexivity.
Qed.

Lemma axis_unit_line_sets_multipliers_witness :
  exists s',
    process_line "" ".vo" (set_firstLine false init_locals)
      "AXIS_UNIT  km  m  ft" lenient_vessel =
      Ok (Continue (set_firstLine false init_locals)) s' /\
    xyz_mult s' = (float_of_Z 1000, one, one) /\
    xyz_unit s' = (None, Some "M", None).
Proof.
  apply (axis_unit_line_sets_multipliers "" ".vo"
           (set_firstLine false init_locals) "AXIS_UNIT  km  m  ft"
           "KM" "M" "FT" [] one one one None None None lenient_vessel);
    try reflexivity.
  repeat split.
Defined.

(** ** Declaring properties *)

Lemma str_in_eqb_comm x seen : str_in x seen = existsb (fun k => String.eqb k x) seen.
Proof.
  unfold str_in. induction seen as [| k seen IH]; cbn; [reflexivity |].
  now rewrite IH, String.eqb_sym.
Qed.

Lemma dict_set_declared ks k :
  dict_set String.eqb (map declared ks) k (new_PROPS k) =
  if str_in k ks then map declared ks else map declared (ks ++ [k]).
Proof.
  induction ks as [| k' ks IH]; cbn; [reflexivity |].
  change (existsb (String.eqb k) ks) with (str_in k ks).
  rewrite (String.eqb_sym k k').
  destruct (String.eqb_spec k' k) as [-> | N]; cbn; [reflexivity |].
  rewrite IH. destruct (str_in k ks); reflexivity.
Qed.

Lemma declare_loop names : forall seen ks s,
  (forall k, str_in k seen = str_in k ks) ->
  local_props s = map declared ks ->
  exists s',
    for_each names (fun class_name =>
      modify (fun s =>
        set_local_props
          (dict_set String.eqb (local_props s) class_name
             (new_PROPS class_name)) s)) s = Ok tt s' /\
    local_props s' = map declared (ks ++ keep_first seen names) /\
    forall v, set_local_props v s' = set_local_props v s.
Proof.
  induction names as [| x names IH]; intros seen ks s Hseen Hs;
    cbn [for_each keep_first].
  - exists s. rewrite app_nil_r. auto.
  - msimp. rewrite Hs, dict_set_declared, Hseen.
    destruct (str_in x ks) eqn:Hx.
    + destruct (IH seen ks (set_local_props (map declared ks) s) Hseen eq_refl)
        as (s' & E & Hl & Hf).
      exists s'. split; [exact E |]. split; [exact Hl |].
      intros v. rewrite Hf. reflexivity.
    + destruct (IH (x :: seen) (ks ++ [x])%list
                  (set_local_props (map declared (ks ++ [x])) s))
        as (s' & E & Hl & Hf).
      * intros k. unfold str_in in *. rewrite existsb_app. cbn [existsb].
        rewrite Hseen, orb_false_r. apply orb_comm.
      * reflexivity.
      * exists s'. split; [exact E |]. split.
        -- rewrite Hl, <- app_assoc. reflexivity.
        -- intros v. rewrite Hf. reflexivity.
Qed.

(** X13.  A [PROPERTIES] or [PROPERTY_CLASSES] line declares the point
    properties only when none is declared yet: then the vessel holds one
    fresh property per name, in the order of the names, a repeated name
    counting once (at its first place); when properties are declared
    already, the line changes none of them. *)
Theorem properties_line_declares_once src_dir fileExt lc line t0 names s :
  in_body lc ->
  t0 = "PROPERTIES" \/ t0 = "PROPERTY_CLASSES" ->
  splitstr_arr_of line = t0 :: names ->
  exists s',
    process_line src_dir fileExt lc line s = Ok (Continue lc) s' /\
    local_props s' =
      match local_props s with
      | [] => map declared (keep_first [] names)
      | _ => local_props s
      end.
Proof.
  intros Hbody Ht0 Htok.
  assert (E : process_line src_dir fileExt lc line s =
              bind (do_properties (t0 :: names)
                      (if String.eqb t0 "PROPERTIES"
                       then " properties list = %s"
                       else " property classes = %s"))
                (fun _ => ret (Continue lc))
                (logged DEBUG "splitstr_arr = %s" s)).
  { destruct Ht0 as [-> | ->];
      rewrite (process_line_body _ _ _ _ _ _ _ Hbody Htok eq_refl);
      reflexivity. }
  rewrite E. clear E. unfold do_properties. msimp. cbn [tl].
  rewrite logged_local_props.
  destruct (local_props s) as [| kp d] eqn:Hlp.
  - cbn [length Nat.eqb].
    destruct (declare_loop names [] [] (logged DEBUG "splitstr_arr = %s" s))
      as (s' & E & Hl & _).
    + reflexivity.
    + now rewrite logged_local_props.
    + cbv beta iota delta [modify ret] in E. rewrite E. msimp.
      eexists. split; [reflexivity |].
      rewrite logged_local_props. exact Hl.
  - cbn [length Nat.eqb]. msimp. eexists. split; [reflexivity |].
    now rewrite !logged_local_props.
Qed.

Lemma properties_line_declares_once_witness :
  exists s',
    process_line "" ".vs" (set_firstLine false init_locals)
      "PROPERTIES depth grade depth" lenient_vessel =
      Ok (Continue (set_firstLine false init_locals)) s' /\
    local_props s' = [declared "DEPTH"; declared "GRADE"].
Proof.
  apply (properties_line_declares_once "" ".vs"
           (set_firstLine false init_locals) "PROPERTIES depth grade depth"
           "PROPERTIES" ["DEPTH"; "GRADE"; "DEPTH"] lenient_vessel).
  - repeat split.
  - left; reflexivity.
  - reflexivity.
Defined.

Lemma dict_set_absent {V} (d : list (string * V)) k v :
  dict_get String.eqb d k = None ->
  dict_set String.eqb d k v = (d ++ [(k, v)])%list.
Proof.
  induction d as [| [k' v'] d IH]; cbn; [reflexivity |].
  destruct (String.eqb k' k); [discriminate |].
  intros H. now rewrite (IH H).
Qed.

(** X14.  A [PROPERTY_CLASS_HEADER] line of a binary property (index,
    class name, brace) registers the class only once: an index not seen
    before gets a fresh property object at the end of the dictionary; an
    index that is registered keeps its object and what the [PROP_] lines
    wrote to it, whatever class name the line gives.  The loop is then
    inside that class header. *)
Theorem class_header_registers_once src_dir fileExt lc line idx name rest s :
  firstLine lc = false ->
  splitstr_arr_of line = "PROPERTY_CLASS_HEADER" :: idx :: name :: "{" :: rest ->
  name <> "{" ->
  exists s',
    process_line src_dir fileExt lc line s =
      Ok (Continue (set_inPropClassHeader true (set_propClassIndex idx lc))) s' /\
    prop_dict s' =
      match dict_get String.eqb (prop_dict s) idx with
      | Some _ => prop_dict s
      | None => (prop_dict s ++ [(idx, new_PROPS name)])%list
      end.
Proof.
  intros Hfirst Htok Hname.
  unfold process_line. rewrite Htok. cbv zeta. msimp. rewrite Hfirst.
  cbn [str_in existsb String.eqb Ascii.eqb Bool.eqb orb].
  unfold dispatch. cbn [String.eqb Ascii.eqb Bool.eqb].
  rewrite !andb_false_r. msimp.
  unfold context_chain. cbn [String.eqb Ascii.eqb Bool.eqb]. msimp.
  unfold do_property_class_header. msimp. cbn [nth_error].
  apply String.eqb_neq in Hname. rewrite Hname.
  cbn [String.eqb Ascii.eqb Bool.eqb]. msimp.
  eexists. split; [reflexivity |].
  rewrite logged_prop_dict. unfold dict_mem. rewrite logged_prop_dict.
  destruct (dict_get String.eqb (prop_dict s) idx) as [p |] eqn:E.
  - apply logged_prop_dict.
  - cbn [prop_dict set_prop_dict]. now apply dict_set_absent.
Qed.

Lemma class_header_registers_once_witness :
  exists s',
    process_line "" ".vo" (set_firstLine false init_locals)
      "PROPERTY_CLASS_HEADER 1 other {" one_cell_voxet =
      Ok (Continue (set_inPropClassHeader true
                      (set_propClassIndex "1" (set_firstLine false init_locals))))
        s' /\
    prop_dict s' = prop_dict one_cell_voxet.
Proof.
  apply (class_header_registers_once "" ".vo" (set_firstLine false init_locals)
           "PROPERTY_CLASS_HEADER 1 other {" "1" "OTHER" [] one_cell_voxet);
    [reflexivity | reflexivity | discriminate].
Defined.

(** *** Sizes by position *)

Lemma loop_local_props_step {A} k p todo i (acc : A) body s p' acc' :
  body acc p s = Ok (p', acc') s ->
  loop_local_props ((k, p) :: todo) i acc body s =
  loop_local_props todo (S i) acc' body
    (set_local_props (<[i := (k, p')]> (local_props s)) s).
Proof.
  intros H. cbn [loop_local_props]. unfold bind. rewrite H. reflexivity.
Qed.

Lemma esizes_loop arr : forall todo done pre toks extra sizes s,
  arr = (pre ++ toks ++ extra)%list ->
  Forall2 (fun t n => int t = Some n) toks sizes ->
  length toks = length todo ->
  local_props s = (done ++ todo)%list ->
  exists idx',
    loop_local_props todo (length done) (length pre) (fun idx prop_obj =>
      let* prop_obj :=
        try_except
          (let* t := item arr idx in
           let* n := py_int t in
           ret (set_data_sz n prop_obj))
          [ValueError; IndexError; OverflowError]
          (fun exc => handle_exc exc ;; ret prop_obj) in
      ret (prop_obj, S idx)) s =
    Ok idx' (set_local_props (done ++ with_sizes todo sizes) s).
Proof.
  match goal with
  | |- context [loop_local_props _ _ _ ?b] => set (body := b)
  end.
  induction todo as [| [k p] todo IH];
    intros done pre toks extra sizes s Harr Hint Hlen Hlp.
  - cbn [loop_local_props with_sizes]. eexists. unfold ret. f_equal.
    rewrite <- Hlp. now destruct s.
  - destruct Hint as [| t n toks sizes Htn Hint]; [discriminate Hlen |].
    cbn [length] in Hlen. injection Hlen as Hlen.
    assert (Hitem : nth_error arr (length pre) = Some t).
    { rewrite Harr. rewrite nth_error_app2 by lia.
      now rewrite Nat.sub_diag. }
    assert (Hbody : body (length pre) p s =
                    Ok (set_data_sz n p, S (length pre)) s).
    { unfold body. msimp. rewrite Hitem, Htn. reflexivity. }
    rewrite (loop_local_props_step _ _ _ _ _ _ _ _ _ Hbody).
    rewrite Hlp.
    rewrite insert_app_r_alt by lia. rewrite Nat.sub_diag.
    cbn [insert list_insert with_sizes].
    destruct (IH (done ++ [(k, set_data_sz n p)])%list (pre ++ [t])%list
                toks extra sizes
                (set_local_props (done ++ (k, set_data_sz n p) :: todo) s))
      as (idx' & E).
    + rewrite Harr, <- !app_assoc. reflexivity.
    + exact Hint.
    + exact Hlen.
    + cbn [local_props set_local_props]. now rewrite <- app_assoc.
    + rewrite !length_app in E. cbn [length] in E.
      rewrite !Nat.add_1_r in E.
      rewrite E. eexists. f_equal.
      rewrite <- app_assoc. reflexivity.
Qed.

(** X15.  An [ESIZES] line gives its integers to the point properties by
    position: the first integer is the size of the first declared
    property, and so on; tokens beyond the last property are not
    read. *)
Theorem esizes_line_sets_sizes_by_position
  src_dir fileExt lc line toks extra sizes s :
  in_body lc ->
  splitstr_arr_of line = ("ESIZES" :: toks ++ extra)%list ->
  Forall2 (fun t n => int t = Some n) toks sizes ->
  length toks = length (local_props s) ->
  exists s',
    process_line src_dir fileExt lc line s = Ok (Continue lc) s' /\
    local_props s' = with_sizes (local_props s) sizes.
Proof.
  intros Hbody Htok Hint Hlen.
  rewrite (process_line_body _ _ _ _ _ _ _ Hbody Htok eq_refl).
  unfold keyword_chain. cbn [String.eqb Ascii.eqb Bool.eqb orb andb].
  unfold do_esizes, for_local_props, logger_debug.
  destruct (esizes_loop ("ESIZES" :: toks ++ extra)
              (local_props s) [] ["ESIZES"] toks extra sizes
              (logged DEBUG "splitstr_arr = %s" s))
    as (idx' & E); try reflexivity; try assumption.
  { now rewrite logged_local_props. }
  cbn [length app] in E.
  match goal with
  | |- context [loop_local_props _ _ _ ?b] => set (body := b) in *
  end.
  unfold bind, get. rewrite logged_local_props, E.
  rewrite logger_log_run. eexists. split; [reflexivity |].
  now rewrite logged_local_props.
Qed.

Lemma esizes_line_sets_sizes_by_position_witness :
  exists s',
    process_line "" ".vs" (set_firstLine false init_locals) "ESIZES 1 3 1"
      (set_local_props [declared "A"; declared "B"] lenient_vessel) =
      Ok (Continue (set_firstLine false init_locals)) s' /\
    local_props s' =
      [("A", set_data_sz 1 (new_PROPS "A")); ("B", set_data_sz 3 (new_PROPS "B"))].
Proof.
  apply (esizes_line_sets_sizes_by_position "" ".vs"
           (set_firstLine false init_locals) "ESIZES 1 3 1"
           ["1"; "3"] ["1"] [1; 3]
           (set_local_props [declared "A"; declared "B"] lenient_vessel)).
  - repeat split.
  - reflexivity.
  - repeat constructor.
  - reflexivity.
Defined.

(** ** The scanners of numbers *)

(** X16.  A token that is no infinity spelling and that [float()] refuses
    never makes [__parse_float] raise: with [STOP_ON_EXC] off and the
    log level not at DEBUG it answers [(False, 0.0)] whatever the
    no-data marker is, the vessel gaining at most a debug record;
    otherwise the process exits with status 1.  [__parse_int] does the
    same with a token [int()] refuses, answering [(False, None)]. *)
Theorem scanners_reject_malformed_tokens tok null_val s :
  (str_in tok infinity_tokens = false -> float_of_string tok = None ->
   if (log_level s =? DEBUG) || STOP_ON_EXC s
   then exists s', parse_float (PyStr tok) null_val s = Exited 1 s'
   else parse_float (PyStr tok) null_val s =
        Ok (false, zero) (logged DEBUG "fp_str = %s" s)) /\
  (int tok = None ->
   if (log_level s =? DEBUG) || STOP_ON_EXC s
   then exists s', parse_int tok s = Exited 1 s'
   else parse_int tok s = Ok None s).
Proof.
  split.
  - intros Hinf Hf. apply not_infinity_token in Hinf as [H1 H2].
    unfold parse_float. msimp. rewrite H1, H2. msimp. rewrite Hf.
    cbn [existsb exn_eqb orb].
    rewrite <- (logged_STOP_ON_EXC DEBUG "fp_str = %s" s).
    rewrite <- (logged_log_level DEBUG "fp_str = %s" s).
    generalize (logged DEBUG "fp_str = %s" s) as s0. intros s0.
    destruct ((log_level s0 =? DEBUG) || STOP_ON_EXC s0) eqn:E.
    + destruct (handle_exc_fatal ValueError s0) as (s' & Hs' & _).
      { apply orb_true_iff in E as [E | E]; [right | left]; [lia | exact E]. }
      rewrite Hs'. eexists. reflexivity.
    + apply orb_false_iff in E as [E1 E2].
      rewrite handle_exc_quiet by (try exact E2; lia). reflexivity.
  - intros Hi. unfold parse_int. msimp. rewrite Hi.
    cbn [existsb exn_eqb orb].
    destruct ((log_level s =? DEBUG) || STOP_ON_EXC s) eqn:E.
    + destruct (handle_exc_fatal ValueError s) as (s' & Hs' & _).
      { apply orb_true_iff in E as [E | E]; [right | left]; [lia | exact E]. }
      rewrite Hs'. eexists. reflexivity.
    + apply orb_false_iff in E as [E1 E2].
      rewrite handle_exc_quiet by (try exact E2; lia). reflexivity.
Qed.

Lemma scanners_reject_malformed_tokens_witness :
  parse_float (PyStr "1,5") (Some zero) lenient_vessel =
    Ok (false, zero) (logged DEBUG "fp_str = %s" lenient_vessel) /\
  exists s', parse_int "1.0" strict_vessel = Exited 1 s'.
Proof.
  split.
  - exact (proj1 (scanners_reject_malformed_tokens "1,5" (Some zero)
                    lenient_vessel) eq_refl eq_refl).
  - exact (proj2 (scanners_reject_malformed_tokens "1.0" None strict_vessel)
             eq_refl).
Defined.

(** ** The vertex dictionary *)

Lemma number_vertices_nth vs : forall idx d i v,
  NoDup (map vrtx_n vs) ->
  nth_error vs i = Some v ->
  number_vertices vs idx d !! vrtx_n v = Some (idx + i)%nat.
Proof.
  induction vs as [| w vs IH]; intros idx d i v Hnd Hi;
    [destruct i; discriminate |].
  cbn [map] in Hnd. inversion Hnd as [| n l Hnotin Hnd']; subst.
  cbn [number_vertices]. destruct i as [| i]; cbn [nth_error] in Hi.
  - injection Hi as ->. rewrite number_vertices_other.
    + rewrite lookup_insert_eq. f_equal. lia.
    + intros u Hu E. apply Hnotin. apply list_elem_of_In.
      rewrite <- E. now apply in_map.
  - rewrite (IH (S idx) _ i v Hnd' Hi). f_equal. lia.
Qed.

Lemma first_vertex_nth vs : forall idx i v,
  NoDup (map vrtx_n vs) ->
  nth_error vs i = Some v ->
  first_vertex vs (vrtx_n v) idx = Some (idx + i)%nat.
Proof.
  induction vs as [| w vs IH]; intros idx i v Hnd Hi;
    [destruct i; discriminate |].
  cbn [map] in Hnd. inversion Hnd as [| n l Hnotin Hnd']; subst.
  cbn [first_vertex]. destruct i as [| i]; cbn [nth_error] in Hi.
  - injection Hi as ->. rewrite Z.eqb_refl. f_equal. lia.
  - destruct (Z.eqb_spec (vrtx_n w) (vrtx_n v)) as [E | _].
    + exfalso. apply Hnotin. apply list_elem_of_In. rewrite E. apply in_map.
      eapply nth_error_In. exact Hi.
    + rewrite (IH (S idx) i v Hnd' Hi). f_equal. lia.
Qed.

Lemma atoms_fold_other vs atoms : forall (d : gmap Z nat) key,
  (forall a, In a atoms -> atom_n a <> key) ->
  fold_left
    (fun d atom =>
       match first_vertex vs (atom_v atom) 1 with
       | Some idx => <[atom_n atom := idx]> d
       | None => d
       end) atoms d !! key = d !! key.
Proof.
  induction atoms as [| a atoms IH]; intros d key H; [reflexivity |].
  cbn [fold_left]. rewrite IH by (intros u Hu; apply H; now right).
  destruct (first_vertex vs (atom_v a) 1); [| reflexivity].
  apply lookup_insert_ne. apply H. now left.
Qed.

Lemma atoms_fold_in vs atoms : forall (d : gmap Z nat) a idx,
  NoDup (map atom_n atoms) ->
  In a atoms ->
  first_vertex vs (atom_v a) 1 = Some idx ->
  fold_left
    (fun d atom =>
       match first_vertex vs (atom_v atom) 1 with
       | Some idx => <[atom_n atom := idx]> d
       | None => d
       end) atoms d !! atom_n a = Some idx.
Proof.
  induction atoms as [| b atoms IH]; intros d a idx Hnd Hin Hf; [destruct Hin |].
  cbn [map] in Hnd. inversion Hnd as [| n l Hnotin Hnd']; subst.
  cbn [fold_left]. destruct Hin as [-> | Hin].
  - rewrite atoms_fold_other.
    + rewrite Hf. apply lookup_insert_eq.
    + intros u Hu E. apply Hnotin. apply list_elem_of_In.
      rewrite <- E. now apply in_map.
  - now apply IH.
Qed.

(** X17.  When the sequence numbers of the vertices and of the atoms are
    all different, [make_vertex_dict] maps the number of every vertex to
    its place in the vertex list counted from one, and the number of
    every atom to the place, counted from one, of the vertex the atom
    stands for. *)
Theorem make_vertex_dict_counts_from_one s :
  NoDup (map vrtx_n (_vrtx_arr s) ++ map atom_n (_atom_arr s)) ->
  (forall i v,
     nth_error (_vrtx_arr s) i = Some v ->
     make_vertex_dict s !! vrtx_n v = Some (S i)) /\
  (forall a i v,
     In a (_atom_arr s) ->
     nth_error (_vrtx_arr s) i = Some v ->
     atom_v a = vrtx_n v ->
     make_vertex_dict s !! atom_n a = Some (S i)).
Proof.
  intros Hnd. apply NoDup_app in Hnd as (Hv & Hdisj & Ha).
  unfold make_vertex_dict. split.
  - intros i v Hi. rewrite atoms_fold_other.
    + now rewrite (number_vertices_nth _ 1 ∅ i v Hv Hi).
    + intros a Hin E. apply (Hdisj (vrtx_n v)).
      * apply list_elem_of_In. apply in_map. eapply nth_error_In. exact Hi.
      * apply list_elem_of_In. rewrite <- E. now apply in_map.
  - intros a i v Hin Hi E. apply atoms_fold_in; [exact Ha | exact Hin |].
    rewrite E. now rewrite (first_vertex_nth _ 1 i v Hv Hi).
Qed.

Lemma make_vertex_dict_counts_from_one_witness :
  let s := set_atom_arr [{| atom_n := 3; atom_v := 20 |}]
             (set_vrtx_arr [{| vrtx_n := 10; vrtx_xyz := (zero, zero, zero) |};
                            {| vrtx_n := 20; vrtx_xyz := (one, one, one) |}]
                lenient_vessel) in
  make_vertex_dict s !! 20 = Some 2%nat /\ make_vertex_dict s !! 3 = Some 2%nat.
Proof.
  intros s.
  assert (Hnd : NoDup (map vrtx_n (_vrtx_arr s) ++ map atom_n (_atom_arr s))).
  { repeat constructor; rewrite list_elem_of_In; cbn; intuition lia. }
  split.
  - exact (proj1 (make_vertex_dict_counts_from_one s Hnd) 1%nat
             {| vrtx_n := 20; vrtx_xyz := (one, one, one) |} eq_refl).
  - exact (proj2 (make_vertex_dict_counts_from_one s Hnd)
             {| atom_n := 3; atom_v := 20 |} 1%nat
             {| vrtx_n := 20; vrtx_xyz := (one, one, one) |}
             (or_introl eq_refl) eq_refl eq_refl).
Defined.

(** ** Triangles and vertices with properties *)

(** X18.  A [TRGL] line whose three tokens are integers appends one
    triangle of these three vertex numbers, without asking whether such
    vertices exist; the triangle is numbered by its first vertex number,
    which also becomes the current sequence number. *)
Theorem triangle_line_is_numbered_by_first_vertex
  src_dir fileExt lc line ta tb tc rest a b c s :
  in_body lc ->
  splitstr_arr_of line = "TRGL" :: ta :: tb :: tc :: rest ->
  int ta = Some a -> int tb = Some b -> int tc = Some c ->
  exists lc' s',
    process_line src_dir fileExt lc line s = Ok (Continue lc') s' /\
    seq_no lc' = a /\
    _trgl_arr s' =
      (_trgl_arr s ++ [{| trgl_n := a; trgl_abc := (a, b, c) |}])%list /\
    _vrtx_arr s' = _vrtx_arr s.
Proof.
  intros Hbody Htok Ha Hb Hc.
  rewrite (process_line_body _ _ _ _ _ _ _ Hbody Htok eq_refl).
  unfold keyword_chain. cbn [String.eqb Ascii.eqb Bool.eqb orb andb].
  unfold do_trgl, parse_XYZ_int. msimp. cbn [nth_error].
  repeat (rewrite ?Ha, ?Hb, ?Hc; msimp).
  eexists _, _. split; [reflexivity |].
  logged_as_set_log. cbn. auto.
Qed.

Lemma triangle_line_is_numbered_by_first_vertex_witness :
  exists lc' s',
    process_line "" ".ts" (set_firstLine false init_locals) "TRGL 4 5 6"
      lenient_vessel = Ok (Continue lc') s' /\
    seq_no lc' = 4 /\
    _trgl_arr s' = [{| trgl_n := 4; trgl_abc := (4, 5, 6) |}] /\
    _vrtx_arr s' = [].
Proof.
  apply (triangle_line_is_numbered_by_first_vertex "" ".ts"
           (set_firstLine false init_locals) "TRGL 4 5 6" "4" "5" "6" []
           4 5 6 lenient_vessel); try reflexivity.
  repeat split.
Defined.

(** X19.  A [PVRTX] line that ends after its coordinates, on a vessel
    whose first point property has size 1 or 3, raises an [IndexError]
    that nothing catches, whatever [STOP_ON_EXC] is: the property columns
    of a vertex are read outside any [try].  By then the vertex itself
    is in the vertex list. *)
Theorem pvrtx_without_property_columns_raises
  src_dir fileExt lc line tn tx ty tz n x y z mx my mz k p props s :
  in_body lc ->
  splitstr_arr_of line = ["PVRTX"; tn; tx; ty; tz] ->
  int tn = Some n ->
  coordinate_value tx = Some x ->
  coordinate_value ty = Some y ->
  coordinate_value tz = Some z ->
  xyz_mult s = (mx, my, mz) ->
  local_props s = (k, p) :: props ->
  data_sz p = 1 \/ data_sz p = 3 ->
  exists s',
    process_line src_dir fileExt lc line s = Raised IndexError s' /\
    _vrtx_arr s' =
      (_vrtx_arr s ++
       [{| vrtx_n := n;
           vrtx_xyz := (fmul x mx, fmul y my,
                        if invert_zaxis s then fneg (fmul z mz)
                        else fmul z mz) |}])%list.
Proof.
  intros Hbody Htok Hn Hx Hy Hz Hm Hlp Hsz.
  rewrite (process_line_body _ _ _ _ _ _ _ Hbody Htok eq_refl).
  unfold keyword_chain. cbn [String.eqb Ascii.eqb Bool.eqb orb andb].
  unfold do_vrtx. msimp. cbn [nth_error]. rewrite Hn. msimp.
  destruct (parse_XYZ_float_run tx ty tz x y z mx my mz true
              (logged DEBUG "splitstr_arr = %s" s) Hx Hy Hz) as (l & b & E & _).
  { now rewrite logged_xyz_mult. }
  rewrite E. msimp. cbn [String.eqb Ascii.eqb Bool.eqb].
  unfold parse_props, for_local_props. msimp.
  logged_as_set_log. cbn [local_props set_vrtx_arr set_bbox set_log].
  rewrite Hlp. cbn [loop_local_props].
  unfold parse_props_body, prop_token. msimp. cbn [nth_error].
  destruct Hsz as [-> | ->]; cbn [Z.eqb Pos.eqb]; msimp;
    (eexists; split; [reflexivity |]); cbn; reflexivity.
Qed.

Lemma pvrtx_without_property_columns_raises_witness :
  exists s',
    process_line "" ".vs" (set_firstLine false init_locals) "PVRTX 1 0 0 0"
      (set_local_props [("A", set_data_sz 1 (new_PROPS "A"))] lenient_vessel) =
      Raised IndexError s' /\
    _vrtx_arr s' =
      [{| vrtx_n := 1;
          vrtx_xyz := (fmul zero one, fmul zero one, fmul zero one) |}].
Proof.
  apply (pvrtx_without_property_columns_raises "" ".vs"
           (set_firstLine false init_locals) "PVRTX 1 0 0 0" "1" "0" "0" "0"
           1 zero zero zero one one one "A" (set_data_sz 1 (new_PROPS "A")) []
           (set_local_props [("A", set_data_sz 1 (new_PROPS "A"))]
              lenient_vessel)); try reflexivity.
  - repeat split.
  - left; reflexivity.
Defined.

(** X20.  A vertex or atom with properties needs the sizes of an [ESIZES]
    line: a [PVRTX] line whose coordinates convert, on a vessel whose
    first point property has a size other than 1 and 3 (a property
    starts with size 0), ends the process with exit status 1 whatever
    [STOP_ON_EXC] is, after the vertex has gone into the vertex list. *)
Theorem pvrtx_needs_property_sizes
  src_dir fileExt lc line tn tx ty tz rest n x y z mx my mz k p props s :
  in_body lc ->
  splitstr_arr_of line = "PVRTX" :: tn :: tx :: ty :: tz :: rest ->
  int tn = Some n ->
  coordinate_value tx = Some x ->
  coordinate_value ty = Some y ->
  coordinate_value tz = Some z ->
  xyz_mult s = (mx, my, mz) ->
  local_props s = (k, p) :: props ->
  data_sz p <> 1 -> data_sz p <> 3 ->
  exists s',
    process_line src_dir fileExt lc line s = Exited 1 s' /\
    length (_vrtx_arr s') = S (length (_vrtx_arr s)) /\
    local_props s' = local_props s.
Proof.
  intros Hbody Htok Hn Hx Hy Hz Hm Hlp H1 H3.
  rewrite (process_line_body _ _ _ _ _ _ _ Hbody Htok eq_refl).
  unfold keyword_chain. cbn [String.eqb Ascii.eqb Bool.eqb orb andb].
  unfold do_vrtx. msimp. cbn [nth_error]. rewrite Hn. msimp.
  destruct (parse_XYZ_float_run tx ty tz x y z mx my mz true
              (logged DEBUG "splitstr_arr = %s" s) Hx Hy Hz) as (l & b & E & _).
  { now rewrite logged_xyz_mult. }
  rewrite E. msimp. cbn [String.eqb Ascii.eqb Bool.eqb].
  unfold parse_props, for_local_props. msimp.
  logged_as_set_log. cbn [local_props set_vrtx_arr set_bbox set_log].
  rewrite Hlp. cbn [loop_local_props].
  unfold parse_props_body. apply Z.eqb_neq in H1, H3. rewrite H1, H3. msimp.
  eexists. split; [reflexivity |].
  logged_as_set_log. cbn. rewrite length_app. cbn. split; [lia | exact Hlp].
Qed.

Lemma pvrtx_needs_property_sizes_witness :
  exists s',
    process_line "" ".vs" (set_firstLine false init_locals) "PVRTX 1 0 0 0 7.5"
      (set_local_props [declared "A"] lenient_vessel) = Exited 1 s' /\
    length (_vrtx_arr s') = 1%nat /\
    local_props s' = [declared "A"].
Proof.
  apply (pvrtx_needs_property_sizes "" ".vs"
           (set_firstLine false init_locals) "PVRTX 1 0 0 0 7.5"
           "1" "0" "0" "0" ["7.5"]
           1 zero zero zero one one one "A" (new_PROPS "A") []
           (set_local_props [declared "A"] lenient_vessel)); try reflexivity.
  - repeat split.
  - discriminate.
  - discriminate.
Defined.

(** ** Minimum and maximum of the point properties *)

Lemma fltb_rank x y :
  is_nan x = false -> is_nan y = false ->
  (fltb x y = true <-> rank_lt (float_rank x) (float_rank y)).
Proof.
  unfold fltb, SFltb, rank_lt.
  destruct x as [sx | sx | | sx mx ex]; destruct y as [sy | sy | | sy my ey];
    try discriminate; intros _ _; cbn [SFcompare float_rank];
    try (destruct sx); try (destruct sy);
    try (split; [discriminate | lia]);
    try (split; [intros _; lia | reflexivity]).
  - change (PosDef.Pos.compare_cont Eq mx my) with (Pos.compare mx my).
    destruct (Z.compare_spec ex ey) as [-> | H | H];
      [destruct (Pos.compare_spec mx my) as [-> | H | H] | |]; cbn [CompOpp];
      split; try discriminate; try lia; try reflexivity.
  - change (PosDef.Pos.compare_cont Eq mx my) with (Pos.compare mx my).
    destruct (Z.compare_spec ex ey) as [-> | H | H];
      [destruct (Pos.compare_spec mx my) as [-> | H | H] | |];
      split; try discriminate; try lia; try reflexivity.
Qed.

(** Among floats that are no NaN, [y < m] and not [z < m] leave no room
    for [z < y]; and [m < y] and not [m < z] none for [y < z]. *)
Lemma fltb_below x y z :
  is_nan x = false -> is_nan y = false -> is_nan z = false ->
  fltb y x = true -> fltb z x = false -> fltb z y = false.
Proof.
  intros Nx Ny Nz Hyx Hzx.
  destruct (fltb z y) eqn:Hzy; [| reflexivity].
  apply (fltb_rank y x Ny Nx) in Hyx. apply (fltb_rank z y Nz Ny) in Hzy.
  assert (Hn : ~ rank_lt (float_rank z) (float_rank x)).
  { intros H. apply (fltb_rank z x Nz Nx) in H. congruence. }
  exfalso. apply Hn. unfold rank_lt in *.
  destruct (float_rank x) as [[x1 x2] x3], (float_rank y) as [[y1 y2] y3],
    (float_rank z) as [[z1 z2] z3]. lia.
Qed.

Lemma fltb_above x y z :
  is_nan x = false -> is_nan y = false -> is_nan z = false ->
  fltb x y = true -> fltb x z = false -> fltb y z = false.
Proof.
  intros Nx Ny Nz Hxy Hxz.
  destruct (fltb y z) eqn:Hyz; [| reflexivity].
  apply (fltb_rank x y Nx Ny) in Hxy. apply (fltb_rank y z Ny Nz) in Hyz.
  assert (Hn : ~ rank_lt (float_rank x) (float_rank z)).
  { intros H. apply (fltb_rank x z Nx Nz) in H. congruence. }
  exfalso. apply Hn. unfold rank_lt in *.
  destruct (float_rank x) as [[x1 x2] x3], (float_rank y) as [[y1 y2] y3],
    (float_rank z) as [[z1 z2] z3]. lia.
Qed.

Lemma fltb_irrefl x : fltb x x = false.
Proof.
  destruct (is_nan x) eqn:N; [now destruct x |].
  destruct (fltb x x) eqn:H; [| reflexivity].
  apply (fltb_rank x x N N) in H. unfold rank_lt in H.
  destruct (float_rank x) as [[x1 x2] x3]. lia.
Qed.

Lemma fmin_list_least l : forall x,
  is_nan x = false ->
  Forall (fun y => is_nan y = false) l ->
  is_nan (fmin_list x l) = false /\
  forall y, In y (x :: l) -> fltb y (fmin_list x l) = false.
Proof.
  unfold fmin_list.
  assert (G : forall l m seen,
    is_nan m = false ->
    Forall (fun y => is_nan y = false) l ->
    Forall (fun y => is_nan y = false) seen ->
    (forall y, In y seen -> fltb y m = false) ->
    is_nan (fold_left (fun m y => if fltb y m then y else m) l m) = false /\
    forall y, In y (seen ++ l) ->
      fltb y (fold_left (fun m y => if fltb y m then y else m) l m) = false).
  { clear. induction l as [| z l IH]; intros m seen Nm Nl Nseen Hseen.
    - cbn [fold_left]. rewrite app_nil_r. auto.
    - cbn [fold_left].
      apply Forall_cons_1 in Nl as [Nz Nl].
      assert (E : (seen ++ z :: l = (seen ++ [z]) ++ l)%list)
        by now rewrite <- app_assoc.
      rewrite E.
      destruct (fltb z m) eqn:Hzm.
      + apply IH; try assumption.
        * apply Forall_app. split; [exact Nseen | now constructor].
        * intros y Hy. apply in_app_or in Hy as [Hy | [<- | []]].
          -- apply (fltb_below m z y); try assumption.
             ++ rewrite Forall_forall in Nseen. apply Nseen.
                now apply list_elem_of_In.
             ++ now apply Hseen.
          -- apply fltb_irrefl.
      + apply IH; try assumption.
        * apply Forall_app. split; [exact Nseen | now constructor].
        * intros y Hy. apply in_app_or in Hy as [Hy | [<- | []]];
            [now apply Hseen | exact Hzm]. }
  intros x Nx Nl.
  destruct (G l x [x] Nx Nl) as [H1 H2].
  - now constructor.
  - intros y [<- | []]. apply fltb_irrefl.
  - split; [exact H1 | exact H2].
Qed.

Lemma fmax_list_greatest l : forall x,
  is_nan x = false ->
  Forall (fun y => is_nan y = false) l ->
  is_nan (fmax_list x l) = false /\
  forall y, In y (x :: l) -> fltb (fmax_list x l) y = false.
Proof.
  unfold fmax_list.
  assert (G : forall l m seen,
    is_nan m = false ->
    Forall (fun y => is_nan y = false) l ->
    Forall (fun y => is_nan y = false) seen ->
    (forall y, In y seen -> fltb m y = false) ->
    is_nan (fold_left (fun m y => if fltb m y then y else m) l m) = false /\
    forall y, In y (seen ++ l) ->
      fltb (fold_left (fun m y => if fltb m y then y else m) l m) y = false).
  { clear. induction l as [| z l IH]; intros m seen Nm Nl Nseen Hseen.
    - cbn [fold_left]. rewrite app_nil_r. auto.
    - cbn [fold_left].
      apply Forall_cons_1 in Nl as [Nz Nl].
      assert (E : (seen ++ z :: l = (seen ++ [z]) ++ l)%list)
        by now rewrite <- app_assoc.
      rewrite E.
      destruct (fltb m z) eqn:Hmz.
      + apply IH; try assumption.
        * apply Forall_app. split; [exact Nseen | now constructor].
        * intros y Hy. apply in_app_or in Hy as [Hy | [<- | []]].
          -- apply (fltb_above m z y); try assumption.
             ++ rewrite Forall_forall in Nseen. apply Nseen.
                now apply list_elem_of_In.
             ++ now apply Hseen.
          -- apply fltb_irrefl.
      + apply IH; try assumption.
        * apply Forall_app. split; [exact Nseen | now constructor].
        * intros y Hy. apply in_app_or in Hy as [Hy | [<- | []]];
            [now apply Hseen | exact Hmz]. }
  intros x Nx Nl.
  destruct (G l x [x] Nx Nl) as [H1 H2].
  - now constructor.
  - intros y [<- | []]. apply fltb_irrefl.
  - split; [exact H1 | exact H2].
Qed.

(** X21.  The statistics of a point property: with no value stored they
    are the sentinels (minimum the largest float, maximum its negation);
    otherwise, when none of the values (the first component of a vector
    value) is a NaN, the minimum and the maximum are values of the
    property, no value is below the minimum and none is above the
    maximum. *)
Theorem point_statistics_bound_the_values prop_obj d s :
  data prop_obj = PointData d ->
  Forall (fun v => is_nan (first_val v) = false) (dict_values d) ->
  exists st,
    calc_stats prop_obj s = Ok (set_data_stats (Some st) prop_obj) s /\
    match d with
    | [] => st = {| st_min := float_max; st_max := fneg float_max |}
    | _ =>
        In (st_min st) (map first_val (dict_values d)) /\
        In (st_max st) (map first_val (dict_values d)) /\
        forall v, In v (dict_values d) ->
          fltb (first_val v) (st_min st) = false /\
          fltb (st_max st) (first_val v) = false
    end.
Proof.
  intros Hd Hnan. unfold calc_stats. rewrite Hd.
  eexists. split; [reflexivity |].
  destruct d as [| [c v0] d]; [reflexivity |].
  cbn [dict_values map snd st_min st_max] in *.
  apply Forall_cons_1 in Hnan as [N0 Nl].
  assert (Nl' : Forall (fun y => is_nan y = false) (map first_val (map snd d))).
  { apply Forall_forall. intros y Hy. apply list_elem_of_In in Hy.
    apply in_map_iff in Hy as (v & <- & Hv).
    rewrite Forall_forall in Nl. apply Nl. now apply list_elem_of_In. }
  destruct (fmin_list_least _ _ N0 Nl') as [_ Hmin].
  destruct (fmax_list_greatest _ _ N0 Nl') as [_ Hmax].
  split; [apply fmin_list_In |]. split; [apply fmax_list_In |].
  intros v Hv.
  assert (Hin : In (first_val v) (first_val v0 :: map first_val (map snd d))).
  { destruct Hv as [<- | Hv]; [now left | right; now apply in_map]. }
  split; [now apply Hmin | now apply Hmax].
Qed.

Lemma point_statistics_bound_the_values_witness :
  let d := [((zero, zero, zero), Scalar (float_of_Z 3));
            ((one, zero, zero), Vector3 (float_of_Z (-2)) one one)] in
  let p := set_data (PointData d) (new_PROPS "A") in
  exists st,
    calc_stats p lenient_vessel = Ok (set_data_stats (Some st) p) lenient_vessel /\
    In (st_min st) [float_of_Z 3; float_of_Z (-2)] /\
    In (st_max st) [float_of_Z 3; float_of_Z (-2)] /\
    forall v, In v (dict_values d) ->
      fltb (first_val v) (st_min st) = false /\
      fltb (st_max st) (first_val v) = false.
Proof.
  intros d p.
  apply (point_statistics_bound_the_values p d lenient_vessel eq_refl).
  repeat constructor.
Defined.

(** ** Tokenising: quotes go in pairs *)

Lemma upper_char_quote c :
  Ascii.eqb (upper_char c) dquote = Ascii.eqb c dquote.
Proof. destruct c as [[] [] [] [] [] [] [] []]; reflexivity. Qed.

Lemma count_upper s : count dquote (upper s) = count dquote s.
Proof.
  induction s as [| c s IH]; [reflexivity |].
  cbn [upper count]. now rewrite upper_char_quote, IH.
Qed.

Lemma join_quoted_parity fuel : forall s,
  (count dquote s <= fuel)%nat ->
  count dquote (join_quoted fuel s) = (count dquote s mod 2)%nat.
Proof.
  induction fuel as [| fuel IH]; intros s Hs; cbn [join_quoted].
  - replace (count dquote s) with 0%nat by lia. reflexivity.
  - destruct (2 <=? count dquote s)%nat eqn:E;
      [apply Nat.leb_le in E
      | apply Nat.leb_gt in E; symmetry; apply Nat.mod_small; exact E].
    destruct (count_partition dquote s) as [Hb0 Hs2].
    destruct (partition dquote s) as [[before0 f] before2].
    cbn [fst snd] in *.
    destruct f; [| lia].
    destruct (count_partition dquote before2) as [Ha0 Hb2].
    destruct (partition dquote before2) as [[after0 f'] after2].
    cbn [fst snd] in *.
    destruct f'; [| lia].
    rewrite IH.
    + rewrite !count_append.
      rewrite count_replace by reflexivity.
      unfold strip_chars, strip_by.
      rewrite count_rstrip, count_lstrip by reflexivity.
      change (count dquote " ") with 0%nat.
      rewrite Hs2, Hb2, Hb0, Ha0. cbn [Nat.add].
      replace (S (S (count dquote after2)))
        with (count dquote after2 + 1 * 2)%nat by lia.
      now rewrite Nat.Div0.mod_add.
    + rewrite !count_append.
      rewrite count_replace by reflexivity.
      unfold strip_chars, strip_by.
      rewrite count_rstrip, count_lstrip by reflexivity.
      change (count dquote " ") with 0%nat. lia.
Qed.

(** X22.  The loop over double-quoted substrings ends, and it takes the
    double quotes away in pairs: the line it leaves for the tokens
    holds one double quote when the raw line holds an odd number of
    them, and none otherwise. *)
Theorem quotes_are_removed_in_pairs line :
  count dquote (line_str_of line) = (count dquote line mod 2)%nat.
Proof.
  unfold line_str_of. rewrite join_quoted_parity by lia.
  rewrite count_upper. unfold rstrip_chars.
  now rewrite count_rstrip by reflexivity.
Qed.

Lemma partition_at_separator c a b :
  count c a = 0%nat ->
  partition c (String.append a (String c b)) = (a, true, b).
Proof.
  induction a as [| d a IH]; intros H.
  - change (String.append EmptyString (String c b)) with (String c b).
    cbn [partition]. now rewrite Ascii.eqb_refl.
  - rewrite string_append_cons. cbn [partition]. cbn [count] in H.
    destruct (Ascii.eqb d c); [discriminate |]. now rewrite (IH H).
Qed.

Lemma upper_append a b :
  upper (String.append a b) = String.append (upper a) (upper b).
Proof.
  induction a as [| d a IH]; [reflexivity |].
  rewrite string_append_cons. cbn [upper].
  now rewrite IH, string_append_cons.
Qed.

Lemma rstrip_by_keeps p a q b :
  p q = false ->
  rstrip_by p (String.append a (String q b)) =
  String.append a (String q (rstrip_by p b)).
Proof.
  intros Hq. induction a as [| d a IH].
  - change (String.append EmptyString (String q b)) with (String q b).
    change (String.append EmptyString (String q (rstrip_by p b)))
      with (String q (rstrip_by p b)).
    cbn [rstrip_by]. destruct (rstrip_by p b); [| reflexivity].
    now rewrite Hq.
  - rewrite !string_append_cons. cbn [rstrip_by]. rewrite IH.
    destruct a; reflexivity.
Qed.

Lemma count_cons_same c s : count c (String c s) = S (count c s).
Proof. cbn [count]. now rewrite Ascii.eqb_refl. Qed.

(** X23.  A line with one double-quoted phrase: the loop puts a blank in
    the place of each of the two quotes and, between them, the phrase
    without the blanks around it and with an underscore for every blank
    inside it, all in upper case; the text after the phrase loses its
    trailing blanks and line ends. *)
Theorem quoted_phrase_is_joined before phrase after :
  count dquote before = 0%nat ->
  count dquote phrase = 0%nat ->
  (count dquote after < 2)%nat ->
  line_str_of
    (String.append before
       (String dquote (String.append phrase (String dquote after)))) =
  String.append (upper before)
    (String.append " "
       (String.append (replace " " "_" (strip_chars " " (upper phrase)))
          (String.append " " (upper (rstrip_chars line_end_chars after))))).
Proof.
  intros Hb Hp Ha. unfold line_str_of, rstrip_chars.
  rewrite rstrip_by_keeps by reflexivity.
  rewrite rstrip_by_keeps by reflexivity.
  rewrite upper_append. cbn [upper]. rewrite upper_append. cbn [upper].
  change (upper_char dquote) with dquote.
  set (B := upper before). set (P := upper phrase).
  set (A := upper (rstrip_by (char_in line_end_chars) after)).
  assert (HB : count dquote B = 0%nat) by (unfold B; now rewrite count_upper).
  assert (HP : count dquote P = 0%nat) by (unfold P; now rewrite count_upper).
  assert (HA : (count dquote A < 2)%nat).
  { unfold A. rewrite count_upper, count_rstrip by reflexivity. exact Ha. }
  assert (Hc : count dquote
                 (String.append B (String dquote (String.append P (String dquote A))))
               = S (S (count dquote A))).
  { rewrite count_append, count_cons_same, count_append, count_cons_same. lia. }
  rewrite Hc. cbn [join_quoted]. rewrite Hc.
  replace (2 <=? S (S (count dquote A)))%nat with true
    by (symmetry; apply Nat.leb_le; lia).
  rewrite (partition_at_separator dquote B _ HB).
  rewrite (partition_at_separator dquote P _ HP).
  set (R := String.append B _).
  assert (HR : count dquote R = count dquote A).
  { unfold R. rewrite !count_append.
    rewrite count_replace by reflexivity.
    unfold strip_chars, strip_by.
    rewrite count_rstrip, count_lstrip by reflexivity.
    change (count dquote " ") with 0%nat. lia. }
  cbn [join_quoted]. rewrite HR.
  replace (2 <=? count dquote A)%nat with false
    by (symmetry; apply Nat.leb_gt; lia).
  reflexivity.
Qed.

Lemma quoted_phrase_is_joined_witness :
  line_str_of
    (String.append "name: "
       (String dquote (String.append "Top of  Basement" (String dquote " x ")))) =
  "NAME:  TOP_OF__BASEMENT  X".
Proof.
  apply (quoted_phrase_is_joined "name: " "Top of  Basement" " x ");
    [reflexivity | reflexivity | cbn; lia].
Defined.

(** ** The header block *)

Lemma process_line_in_header src_dir fileExt lc line s t0 rest :
  in_header lc ->
  splitstr_arr_of line = t0 :: rest ->
  str_in t0 context_keywords = false ->
  t0 <> "}" ->
  process_line src_dir fileExt lc line s =
  bind (do_header (line_str_of line)) (fun _ => ret (Continue lc))
       (logged DEBUG "splitstr_arr = %s" s).
Proof.
  intros (Hfirst & Hhdr & Hpc & Hlpc) Hsplit Hkw Hbrace.
  unfold context_keywords, str_in in Hkw. cbn [existsb] in Hkw.
  repeat (apply orb_false_iff in Hkw as [? Hkw]).
  apply String.eqb_neq in Hbrace.
  unfold process_line. rewrite Hsplit. msimp. rewrite Hfirst.
  unfold dispatch, context_chain, str_in. cbn [existsb].
  repeat match goal with
         | H : String.eqb t0 _ = false |- _ => rewrite !H; clear H
         end.
  cbn [orb]. rewrite !andb_false_r. msimp.
  rewrite Hhdr, Hpc, Hlpc. reflexivity.
Qed.

Lemma count_replace_gone a b s :
  Ascii.eqb b a = false -> count a (replace a b s) = 0%nat.
Proof.
  intros H. induction s as [| d s IH]; [reflexivity |].
  cbn [replace count]. rewrite IH.
  destruct (Ascii.eqb d a) eqn:E; [now rewrite H | now rewrite E].
Qed.

Lemma logged_header_name l m s : header_name (logged l m s) = header_name s.
Proof. logged_field. Qed.

Lemma colour_try_run v c s :
  colour_value v = Some c -> colour_try v s = Ok tt (set_rgba_tup c s).
Proof.
  unfold colour_value, colour_try, hex_channel. intros H. msimp.
  destruct (String.get 0 v) as [c0 |]; [| discriminate H].
  destruct (Ascii.eqb c0 "#"); cbn [negb].
  - destruct (int16 (slice 1 3 v)) as [r |]; [| discriminate H].
    destruct (int16 (slice 3 5 v)) as [g |]; [| discriminate H].
    destruct (int16 (slice 5 7 v)) as [b |]; [| discriminate H].
    injection H as <-. reflexivity.
  - destruct (split_on " " v) as [| t1 [| t2 [| t3 [| t4 [| t5 l]]]]];
      cbn [map length Nat.eqb nth_error] in *; try discriminate H.
    + destruct (float_of_string t1); discriminate H.
    + destruct (float_of_string t1), (float_of_string t2); discriminate H.
    + destruct (float_of_string t1) as [r |]; [| discriminate H].
      destruct (float_of_string t2) as [g |]; [| discriminate H].
      destruct (float_of_string t3) as [b |]; [| discriminate H].
      injection H as <-. reflexivity.
    + destruct (float_of_string t1) as [r |]; [| discriminate H].
      destruct (float_of_string t2) as [g |]; [| discriminate H].
      destruct (float_of_string t3) as [b |]; [| discriminate H].
      destruct (float_of_string t4) as [a |]; [| discriminate H].
      injection H as <-. reflexivity.
    + destruct (float_of_string t1) as [r |]; [| discriminate H].
      destruct (float_of_string t2) as [g |]; [| discriminate H].
      destruct (float_of_string t3) as [b |]; [| discriminate H].
      destruct (float_of_string t4) as [a |]; discriminate H.
Qed.

(** X24.  In the header a [*SOLID*COLOR] or [*ATOMS*COLOR] line with a
    well-formed value sets the colour of the vessel to the colour the
    value stands for -- three floats with alpha 1, four floats, or three
    hexadecimal pairs divided by 255 with alpha 1 -- and the loop goes
    on, whatever [STOP_ON_EXC] is: the exception handler is not
    reached. *)
Theorem header_colour_is_read src_dir fileExt lc line t0 rest c s :
  in_header lc ->
  splitstr_arr_of line = t0 :: rest ->
  str_in t0 context_keywords = false -> t0 <> "}" ->
  is_colour_key (header_key (line_str_of line)) = true ->
  colour_value (header_value (line_str_of line)) = Some c ->
  exists s',
    process_line src_dir fileExt lc line s = Ok (Continue lc) s' /\
    rgba_tup s' = c /\ header_name s' = header_name s.
Proof.
  intros Hhdr Htok Hkw Hbrace Hkey Hcol.
  rewrite (process_line_in_header _ _ _ _ _ _ _ Hhdr Htok Hkw Hbrace).
  unfold header_key, header_value in *.
  unfold do_header.
  destruct (partition ":" (line_str_of line)) as [[name_str sep] value_str].
  cbn [fst snd] in *. cbv zeta. msimp. rewrite Hkey.
  unfold parse_colour. msimp.
  rewrite (colour_try_run _ c _ Hcol). msimp.
  rewrite (colour_key_not_name _ Hkey). msimp.
  eexists. split; [reflexivity |].
  rewrite logged_rgba_tup, logged_header_name. cbn.
  rewrite !logged_header_name. auto.
Qed.

Lemma header_colour_is_read_witness :
  exists s',
    process_line "" ".ts"
      (set_inHeader true (set_firstLine false init_locals))
      "*solid*color: #ff0000" strict_vessel =
      Ok (Continue (set_inHeader true (set_firstLine false init_locals))) s' /\
    rgba_tup s' = (fdiv (float_of_Z 255) (float_of_Z 255),
                   fdiv (float_of_Z 0) (float_of_Z 255),
                   fdiv (float_of_Z 0) (float_of_Z 255), one) /\
    header_name s' = "".
Proof.
  apply (header_colour_is_read "" ".ts"
           (set_inHeader true (set_firstLine false init_locals))
           "*solid*color: #ff0000" "*SOLID*COLOR:" ["#FF0000"] _ strict_vessel);
    try reflexivity.
  - repeat split.
  - discriminate.
Defined.

(** X25.  In the header a [NAME] line sets the name of the vessel to the
    value with a hyphen in the place of every slash: the name holds no
    slash.  The colour stays. *)
Theorem header_name_has_no_slash src_dir fileExt lc line t0 rest s :
  in_header lc ->
  splitstr_arr_of line = t0 :: rest ->
  str_in t0 context_keywords = false -> t0 <> "}" ->
  header_key (line_str_of line) = "NAME" ->
  exists s',
    process_line src_dir fileExt lc line s = Ok (Continue lc) s' /\
    header_name s' = replace "/" "-" (header_value (line_str_of line)) /\
    count "/" (header_name s') = 0%nat /\
    rgba_tup s' = rgba_tup s.
Proof.
  intros Hhdr Htok Hkw Hbrace Hkey.
  rewrite (process_line_in_header _ _ _ _ _ _ _ Hhdr Htok Hkw Hbrace).
  unfold header_key, header_value in *.
  unfold do_header.
  destruct (partition ":" (line_str_of line)) as [[name_str sep] value_str].
  cbn [fst snd] in *. cbv zeta. msimp. rewrite Hkey.
  cbn [is_colour_key String.eqb Ascii.eqb Bool.eqb orb]. msimp.
  eexists. split; [reflexivity |].
  rewrite logged_header_name, logged_rgba_tup. cbn.
  rewrite !logged_rgba_tup.
  split; [reflexivity |]. split; [| reflexivity].
  now apply count_replace_gone.
Qed.

Lemma header_name_has_no_slash_witness :
  exists s',
    process_line "" ".ts"
      (set_inHeader true (set_firstLine false init_locals))
      "name: North/South fault" strict_vessel =
      Ok (Continue (set_inHeader true (set_firstLine false init_locals))) s' /\
    header_name s' = "NORTH-SOUTH FAULT" /\
    count "/" (header_name s') = 0%nat /\
    rgba_tup s' = white.
Proof.
  apply (header_name_has_no_slash "" ".ts"
           (set_inHeader true (set_firstLine false init_locals))
           "name: North/South fault" "NAME:" ["NORTH/SOUTH"; "FAULT"]
           strict_vessel); try reflexivity.
  - repeat split.
  - discriminate.
Defined.

(** ** The layout of a voxet *)

Lemma parse_XYZ_float_raw tx ty tz x y z s :
  coordinate_value tx = Some x ->
  coordinate_value ty = Some y ->
  coordinate_value tz = Some z ->
  exists l,
    parse_XYZ_float tx ty tz false false s = Ok (Some (x, y, z)) (set_log l s).
Proof.
  intros Hx Hy Hz. unfold parse_XYZ_float. msimp.
  rewrite (parse_float_value tx x) by exact Hx. msimp.
  rewrite (parse_float_value ty y) by exact Hy. msimp.
  rewrite (parse_float_value tz z) by exact Hz. msimp.
  cbn [negb orb].
  destruct (xyz_mult _) as [[mx my] mz]. msimp.
  logged_as_set_log. eexists. reflexivity.
Qed.

(** X26.  Of the lines that give a voxet its axes, only [AXIS_O] is
    converted to metres: its three floats are multiplied by the
    multipliers of the axes before they are stored, whereas [AXIS_U],
    [AXIS_V], [AXIS_W], [AXIS_MIN] and [AXIS_MAX] store their floats as
    they are written.  None of them touches the bounding box. *)
Theorem only_the_origin_is_scaled
  src_dir fileExt lc line t0 tx ty tz rest x y z mx my mz s :
  in_body lc ->
  In t0 axis_keywords ->
  splitstr_arr_of line = t0 :: tx :: ty :: tz :: rest ->
  coordinate_value tx = Some x ->
  coordinate_value ty = Some y ->
  coordinate_value tz = Some z ->
  xyz_mult s = (mx, my, mz) ->
  exists s',
    process_line src_dir fileExt lc line s = Ok (Continue lc) s' /\
    axis_field t0 s' =
      Some (if String.eqb t0 "AXIS_O" then (fmul x mx, fmul y my, fmul z mz)
            else (x, y, z)) /\
    bbox s' = bbox s.
Proof.
  intros Hbody Hin Htok Hx Hy Hz Hm.
  unfold axis_keywords in Hin. cbn [In] in Hin.
  destruct Hin as [<- | Hin].
  { rewrite (process_line_body _ _ _ _ _ _ _ Hbody Htok eq_refl).
    unfold keyword_chain. cbn [String.eqb Ascii.eqb Bool.eqb orb andb].
    unfold do_axis_float. msimp. cbn [nth_error].
    destruct (parse_XYZ_float_run tx ty tz x y z mx my mz false
                (logged DEBUG "splitstr_arr = %s" s) Hx Hy Hz)
      as (l & b & E & Hb).
    { now rewrite logged_xyz_mult. }
    rewrite E, (Hb eq_refl). msimp. eexists. split; [reflexivity |].
    unfold axis_field. cbn [String.eqb Ascii.eqb Bool.eqb].
    logged_as_set_log. split; reflexivity. }
  repeat (destruct Hin as [<- | Hin];
    [ rewrite (process_line_body _ _ _ _ _ _ _ Hbody Htok eq_refl);
      unfold keyword_chain; cbn [String.eqb Ascii.eqb Bool.eqb orb andb];
      unfold do_axis_float; msimp; cbn [nth_error];
      destruct (parse_XYZ_float_raw tx ty tz x y z
                  (logged DEBUG "splitstr_arr = %s" s) Hx Hy Hz) as (l & E);
      rewrite E; msimp; eexists; (split; [reflexivity |]);
      unfold axis_field; cbn [String.eqb Ascii.eqb Bool.eqb];
      logged_as_set_log; split; reflexivity
    | ]).
  contradiction.
Qed.

Lemma only_the_origin_is_scaled_witness :
  exists s',
    process_line "" ".vo" (set_firstLine false init_locals) "AXIS_U 2 0 0"
      (set_xyz_mult (float_of_Z 1000, one, one) lenient_vessel) =
      Ok (Continue (set_firstLine false init_locals)) s' /\
    axis_u s' = Some (float_of_Z 2, zero, zero) /\
    bbox s' = None.
Proof.
  apply (only_the_origin_is_scaled "" ".vo" (set_firstLine false init_locals)
           "AXIS_U 2 0 0" "AXIS_U" "2" "0" "0" [] (float_of_Z 2) zero zero
           (float_of_Z 1000) one one
           (set_xyz_mult (float_of_Z 1000, one, one) lenient_vessel));
    try reflexivity.
  - repeat split.
  - unfold axis_keywords. cbn [In]. auto.
Defined.

(** X27.  A [PROP_FILE] line gives the property class it names (looked
    up under the upper-cased index) the path of its binary file: the
    directory of the source file joined with the third word of the line
    as it is written, not with its upper-cased token. *)
Theorem binary_file_name_keeps_its_case
  src_dir fileExt lc line idx rest r0 r1 r2 raw_rest p s :
  in_body lc ->
  splitstr_arr_of line = "PROP_FILE" :: idx :: rest ->
  splitstr_arr_raw_of line = r0 :: r1 :: r2 :: raw_rest ->
  dict_get String.eqb (prop_dict s) idx = Some p ->
  exists s',
    process_line src_dir fileExt lc line s = Ok (Continue lc) s' /\
    dict_get String.eqb (prop_dict s') idx =
      Some (set_file_name (path_join src_dir r2) p) /\
    forall k, k <> idx ->
      dict_get String.eqb (prop_dict s') k = dict_get String.eqb (prop_dict s) k.
Proof.
  intros Hbody Htok Hraw Hp.
  rewrite (process_line_body _ _ _ _ _ _ _ Hbody Htok eq_refl).
  unfold keyword_chain. cbn [String.eqb Ascii.eqb Bool.eqb orb andb].
  unfold do_prop_file. rewrite Hraw. unfold bind at 1 2. unfold item at 1.
  unfold or_raise, index. cbn [nth_error]. unfold ret at 1.
  unfold bind at 1. unfold item at 1. unfold or_raise, index. cbn [nth_error].
  unfold ret at 1. unfold bind at 1.
  rewrite (update_prop_run idx _ p) by now rewrite logged_prop_dict.
  msimp. eexists. split; [reflexivity |].
  rewrite !logged_prop_dict. cbn [prop_dict set_prop_dict].
  split; [apply dict_get_set_same |].
  intros k Hk. now apply dict_get_set_other.
Qed.

Lemma binary_file_name_keeps_its_case_witness :
  exists s',
    process_line "data" ".vo" (set_firstLine false init_locals)
      "PROP_FILE 1 Rock_Density@@" one_cell_voxet =
      Ok (Continue (set_firstLine false init_locals)) s' /\
    dict_get String.eqb (prop_dict s') "1" =
      Some (set_file_name "data/Rock_Density@@"
              (set_data_type "b" (set_file_name "p.bin"
                                    (set_data_sz 1 (new_PROPS "P"))))) /\
    forall k, k <> "1" ->
      dict_get String.eqb (prop_dict s') k =
      dict_get String.eqb (prop_dict one_cell_voxet) k.
Proof.
  apply (binary_file_name_keeps_its_case "data" ".vo"
           (set_firstLine false init_locals) "PROP_FILE 1 Rock_Density@@"
           "1" ["ROCK_DENSITY@@"] "PROP_FILE" "1" "Rock_Density@@" []
           (set_data_type "b" (set_file_name "p.bin"
                                 (set_data_sz 1 (new_PROPS "P"))))
           one_cell_voxet); try reflexivity.
  repeat split.
Defined.

(** ** Colour tables of property classes *)

Lemma reads_table_length lut_arr entries :
  reads_table lut_arr entries -> length lut_arr = (4 * length entries)%nat.
Proof.
  revert lut_arr. induction entries as [| [k [[r g] b]] entries IH];
    intros lut_arr H.
  - destruct lut_arr; [reflexivity | destruct H].
  - destruct lut_arr as [| tk [| tr [| tg [| tb rest]]]];
      try (now destruct H).
    destruct H as (_ & _ & _ & _ & Hrest). cbn [length].
    rewrite (IH rest Hrest). lia.
Qed.

Lemma colour_loop_run lut_arr : forall entries pre rest p s,
  lut_arr = (pre ++ rest)%list ->
  reads_table rest entries ->
  exists l,
    colour_loop (length entries) lut_arr (length pre) p s =
    Ok (set_colour_map (with_entries entries (colour_map p)) p) (set_log l s).
Proof.
  induction entries as [| [k [[r g] b]] entries IH]; intros pre rest p s Hl Hr.
  - cbn [colour_loop length with_entries fold_left]. exists (log s).
    unfold ret. f_equal; [now destruct p | now destruct s].
  - destruct rest as [| tk [| tr [| tg [| tb rest]]]];
      try (now destruct Hr).
    destruct Hr as (Hk & Hr & Hg & Hb & Hrest).
    cbn [length colour_loop].
    assert (Hn : forall j t,
              nth_error (tk :: tr :: tg :: tb :: rest) j = Some t ->
              nth_error lut_arr (length pre + j) = Some t).
    { intros j t Hj. rewrite Hl, nth_error_app2 by lia.
      replace (length pre + j - length pre)%nat with j by lia. exact Hj. }
    assert (Hentry : colour_entry lut_arr (length pre) p s =
                     Ok (set_colour_map (<[k := (r, g, b)]> (colour_map p)) p)
                        (logged DEBUG "prop_obj.colour_map = %s" s)).
    { unfold colour_entry. msimp.
      rewrite (Hn 1%nat tr eq_refl), Hr.
      rewrite (Hn 2%nat tg eq_refl), Hg.
      rewrite (Hn 3%nat tb eq_refl), Hb.
      pose proof (Hn 0%nat tk eq_refl) as Hn0. rewrite Nat.add_0_r in Hn0.
      rewrite Hn0, Hk. msimp. reflexivity. }
    unfold bind. rewrite Hentry.
    destruct (IH (pre ++ [tk; tr; tg; tb])%list rest
                (set_colour_map (<[k := (r, g, b)]> (colour_map p)) p)
                (logged DEBUG "prop_obj.colour_map = %s" s)) as (l & E).
    + rewrite Hl, <- app_assoc. reflexivity.
    + exact Hrest.
    + rewrite length_app in E. cbn [length] in E. rewrite E.
      destruct (logged_set_log DEBUG "prop_obj.colour_map = %s" s) as (v & Ev).
      rewrite Ev. exists l. reflexivity.
Qed.

(** X28.  The colour table of a property class: a header line under the
    key of the table of the class's colour map, whose value spells out
    the entries four fields at a time (index, red, green, blue), puts
    every entry into the colour map of the class, a later entry
    replacing an earlier one of the same index; nothing else of the
    class changes and nothing but the log of the vessel. *)
Theorem colour_table_is_read prop_obj line_str entries s :
  header_key line_str =
    String.append "*COLORMAP*"
      (String.append (colourmap_name prop_obj) "*COLORS") ->
  str_in (header_key line_str) header_scalars = false ->
  reads_table (split_on " " (header_value line_str)) entries ->
  exists l,
    parse_property_header prop_obj line_str s =
    Ok (set_colour_map (with_entries entries (colour_map prop_obj)) prop_obj)
       (set_log l s).
Proof.
  unfold header_key, header_value, header_scalars, str_in.
  intros Hkey Hsc Htab. cbn [existsb] in Hsc.
  repeat (apply orb_false_iff in Hsc as [? Hsc]).
  unfold parse_property_header.
  destruct (partition ":" line_str) as [[name_str sep] value_str].
  cbn [fst snd] in *. cbv zeta.
  repeat match goal with
         | H : String.eqb (strip name_str) _ = false |- _ => rewrite H; clear H
         end.
  rewrite Hkey, String.eqb_refl.
  rewrite (reads_table_length _ _ Htab).
  replace ((4 * length entries + 3) / 4)%nat with (length entries).
  - exact (colour_loop_run _ entries [] _ prop_obj s eq_refl Htab).
  - apply Nat.div_unique with (r := 3%nat); lia.
Qed.

Lemma colour_table_is_read_witness :
  let p := set_colourmap_name "RAINBOW" (new_PROPS "P") in
  exists l,
    parse_property_header p "*COLORMAP*RAINBOW*COLORS: 0 1 0 0 1 0 0 1"
      lenient_vessel =
    Ok (set_colour_map
          (<[1 := (zero, zero, one)]> (<[0 := (one, zero, zero)]> ∅)) p)
       (set_log l lenient_vessel).
Proof.
  intros p.
  apply (colour_table_is_read p "*COLORMAP*RAINBOW*COLORS: 0 1 0 0 1 0 0 1"
           [(0, (one, zero, zero)); (1, (zero, zero, one))] lenient_vessel).
  - reflexivity.
  - reflexivity.
  - cbn. repeat split; reflexivity.
Defined.

(** ** Reading the cells of a voxet *)

Lemma lookup_nth_error {A} (l : list A) i : l !! i = nth_error l i.
Proof.
  revert i. induction l as [| x l IH]; intros [| i]; cbn; auto.
Qed.

Lemma lookup_repeat {A} (x : A) n i : (i < n)%nat -> repeat x n !! i = Some x.
Proof.
  revert i. induction n as [| n IH]; intros i H; [lia |].
  destruct i as [| i]; cbn; [reflexivity |]. apply IH. lia.
Qed.

Lemma parse_float_num v marker s :
  parse_float (PyNum v) marker s =
  Ok match marker with
     | Some nv => if feqb v nv then (false, nv) else (true, v)
     | None => (true, v)
     end (logged DEBUG "fp_str = %s" s).
Proof.
  unfold parse_float. msimp. cbn [pyval_in]. msimp.
  destruct marker as [nv |]; [destruct (feqb v nv) |]; reflexivity.
Qed.

Lemma update_prop_at_run i f k q s :
  prop_dict s !! i = Some (k, q) ->
  update_prop_at i f s =
  Ok tt (set_prop_dict (<[i := (k, f q)]> (prop_dict s)) s).
Proof. intros H. unfold update_prop_at, modify. now rewrite H. Qed.

(** The two ways of counting a cell tell the cells apart. *)
Lemma mixed_radix_inj (n a b a' b' : nat) :
  (b < n)%nat -> (b' < n)%nat ->
  (a * n + b = a' * n + b')%nat -> a = a' /\ b = b'.
Proof.
  intros Hb Hb' E.
  assert (Ha : a = ((a * n + b) / n)%nat)
    by (apply (Nat.div_unique _ n a b); lia).
  assert (Ha' : a' = ((a' * n + b') / n)%nat)
    by (apply (Nat.div_unique _ n a' b'); lia).
  assert (Eq : a = a') by (rewrite Ha, Ha', E; reflexivity).
  subst a'. split; [reflexivity | lia].
Qed.

Lemma cell_index_inj NY NZ a b c a' b' c' :
  (b < NY)%nat -> (c < NZ)%nat -> (b' < NY)%nat -> (c' < NZ)%nat ->
  ((a * NY + b) * NZ + c = (a' * NY + b') * NZ + c')%nat ->
  a = a' /\ b = b' /\ c = c'.
Proof.
  intros Hb Hc Hb' Hc' E.
  destruct (mixed_radix_inj NZ _ _ _ _ Hc Hc' E) as [E1 E2].
  destruct (mixed_radix_inj NY _ _ _ _ Hb Hb' E1) as [E3 E4]. auto.
Qed.

Lemma cell_index_bound NX NY NZ a b c :
  (a < NX)%nat -> (b < NY)%nat -> (c < NZ)%nat ->
  ((a * NY + b) * NZ + c < NX * NY * NZ)%nat.
Proof.
  intros Ha Hb Hc.
  assert (H1 : (a * NY + b + 1 <= NX * NY)%nat) by nia.
  assert (H2 : ((a * NY + b + 1) * NZ <= NX * NY * NZ)%nat)
    by (apply Nat.mul_le_mono_r; exact H1).
  lia.
Qed.

Lemma logged_vol_dims l m s : vol_dims (logged l m s) = vol_dims s.
Proof. logged_field. Qed.
Lemma logged_axis_origin l m s : axis_origin (logged l m s) = axis_origin s.
Proof. logged_field. Qed.
Lemma logged_axis_u l m s : axis_u (logged l m s) = axis_u s.
Proof. logged_field. Qed.
Lemma logged_axis_v l m s : axis_v (logged l m s) = axis_v s.
Proof. logged_field. Qed.
Lemma logged_axis_w l m s : axis_w (logged l m s) = axis_w s.
Proof. logged_field. Qed.

Lemma voxel_filled_logged i k NX NY NZ marker f_arr t l m s :
  voxel_filled i k NX NY NZ marker f_arr t s ->
  voxel_filled i k NX NY NZ marker f_arr t (logged l m s).
Proof.
  intros (q & cells & H). exists q, cells.
  now rewrite logged_prop_dict, logged_vol_dims, logged_axis_origin,
    logged_axis_u, logged_axis_v, logged_axis_w.
Qed.

Section Cells.
Variables (NX NY NZ : nat) (marker : option float) (f_arr : list float).
Variables (a b c : nat).
Hypotheses (Ha : (a < NX)%nat) (Hb : (b < NY)%nat) (Hc : (c < NZ)%nat).

Let t := ((c * NY + b) * NX + a)%nat.
Let v := nth t f_arr zero.

Lemma position_inj a' b' c' :
  (a' < NX)%nat -> (b' < NY)%nat -> (c' < NZ)%nat ->
  ((c' * NY + b') * NX + a')%nat = t -> a' = a /\ b' = b /\ c' = c.
Proof.
  intros Ha' Hb' Hc' E.
  destruct (cell_index_inj NY NX c' b' a' c b a Hb' Ha' Hb Ha E)
    as (E1 & E2 & E3). auto.
Qed.

Lemma cells_filled_skip cells :
  kept marker v = zero ->
  cells_filled NX NY NZ marker f_arr t cells ->
  cells_filled NX NY NZ marker f_arr (S t) cells.
Proof.
  intros Hk [Hlen Hcells]. split; [exact Hlen |].
  intros a' b' c' Ha' Hb' Hc'. rewrite (Hcells a' b' c' Ha' Hb' Hc').
  destruct (Nat.ltb_spec ((c' * NY + b') * NX + a')%nat t) as [L | L].
  - replace ((c' * NY + b') * NX + a' <? S t)%nat with true
      by (symmetry; apply Nat.ltb_lt; lia). reflexivity.
  - destruct (Nat.ltb_spec ((c' * NY + b') * NX + a')%nat (S t)) as [L' | L'];
      [| reflexivity].
    assert (E : ((c' * NY + b') * NX + a')%nat = t) by lia.
    rewrite E. fold v. now rewrite Hk.
Qed.

Lemma cells_filled_store cells :
  kept marker v = v ->
  cells_filled NX NY NZ marker f_arr t cells ->
  cells_filled NX NY NZ marker f_arr (S t)
    (<[((a * NY + b) * NZ + c)%nat := v]> cells).
Proof.
  intros Hk [Hlen Hcells]. split; [now rewrite length_insert |].
  intros a' b' c' Ha' Hb' Hc'.
  destruct (Nat.eq_dec ((a' * NY + b') * NZ + c')%nat ((a * NY + b) * NZ + c)%nat)
    as [E | N].
  - destruct (cell_index_inj NY NZ a' b' c' a b c Hb' Hc' Hb Hc E)
      as (-> & -> & ->).
    rewrite list_lookup_insert_eq
      by (rewrite Hlen; now apply cell_index_bound).
    fold t. replace (t <? S t)%nat with true
      by (symmetry; apply Nat.ltb_lt; lia).
    fold v. now rewrite Hk.
  - rewrite list_lookup_insert_ne by (intros E; apply N; now rewrite E).
    rewrite (Hcells a' b' c' Ha' Hb' Hc').
    destruct (Nat.ltb_spec ((c' * NY + b') * NX + a')%nat t) as [L | L].
    + replace ((c' * NY + b') * NX + a' <? S t)%nat with true
        by (symmetry; apply Nat.ltb_lt; lia). reflexivity.
    + destruct (Nat.ltb_spec ((c' * NY + b') * NX + a')%nat (S t)) as [L' | L'];
        [| reflexivity].
      assert (E : ((c' * NY + b') * NX + a')%nat = t) by lia.
      destruct (position_inj a' b' c' Ha' Hb' Hc' E) as (-> & -> & ->).
      exfalso. now apply N.
Qed.

Lemma cell_index_of_Z :
  Z.to_nat ((Z.of_nat a * Z.of_nat NY + Z.of_nat b) * Z.of_nat NZ + Z.of_nat c)
  = ((a * NY + b) * NZ + c)%nat.
Proof.
  rewrite <- !Nat2Z.inj_mul, <- !Nat2Z.inj_add, <- !Nat2Z.inj_mul,
    <- !Nat2Z.inj_add. apply Nat2Z.id.
Qed.

(** One cell: the item at place [t] of the file goes to the cell whose
    turn it is. *)
Lemma read_voxel_cell_step i k s :
  (t < length f_arr)%nat ->
  voxel_filled i k NX NY NZ marker f_arr t s ->
  exists s',
    read_voxel_cell i f_arr (Z.of_nat a) (Z.of_nat b) (Z.of_nat c) t s =
      Ok (S t) s' /\
    voxel_filled i k NX NY NZ marker f_arr (S t) s'.
Proof.
  intros Ht Hinv.
  apply (voxel_filled_logged _ _ _ _ _ _ _ _ DEBUG "fp_str = %s") in Hinv.
  unfold read_voxel_cell. msimp.
  destruct Hinv
    as (q & cells & Hq & Hdata & Hst & Hm & Hvd & Ho & Hu & Hv & Hw & Hcells).
  pose proof Hq as Hq0. rewrite logged_prop_dict in Hq0.
  rewrite (prop_at_run i s k q Hq0).
  rewrite (nth_error_nth' f_arr zero Ht). fold v.
  rewrite parse_float_num, Hm.
  generalize dependent (logged DEBUG "fp_str = %s" s).
  intros s0 Hq Hvd Ho Hu Hv Hw.
  assert (Hkept : kept marker v = v ->
    exists s',
      bind (update_prop_at i (fun p =>
              match data p with
              | VoxelData nx ny nz cells =>
                  set_data
                    (VoxelData nx ny nz
                       (<[Z.to_nat ((Z.of_nat a * ny + Z.of_nat b) * nz
                                    + Z.of_nat c) := v]> cells)) p
              | PointData _ => p
              end))
        (fun _ =>
         bind (update_prop_at i (fun p =>
                 match data_stats p with
                 | Some st =>
                     let st := if fltb (st_max st) v
                               then {| st_min := st_min st; st_max := v |}
                               else st in
                     let st := if fltb v (st_min st)
                               then {| st_min := v; st_max := st_max st |}
                               else st in
                     set_data_stats (Some st) p
                 | None => p
                 end))
           (fun _ =>
            let* s := get in
            let* '(ox, oy, oz) := need (axis_origin s) in
            let* '(nx, ny, nz) := need (vol_dims s) in
            let* '(ux, _, _) := need (axis_u s) in
            let* '(_, vy, _) := need (axis_v s) in
            let* '(_, _, wz) := need (axis_w s) in
            _calc_minmax
              (fadd ox (fmul (fdiv (float_of_Z (Z.of_nat a)) (float_of_Z nx)) ux))
              (fadd oy (fmul (fdiv (float_of_Z (Z.of_nat b)) (float_of_Z ny)) vy))
              (fadd oz (fmul (fdiv (float_of_Z (Z.of_nat c)) (float_of_Z nz)) wz)) ;;
            ret (S t))) s0 = Ok (S t) s' /\
      voxel_filled i k NX NY NZ marker f_arr (S t) s').
  { intros Hk. unfold bind at 1.
    rewrite (update_prop_at_run i _ k q s0 Hq). rewrite Hdata.
    rewrite cell_index_of_Z.
    unfold bind at 1.
    erewrite (update_prop_at_run i _ k).
    2:{ cbn [prop_dict set_prop_dict]. apply list_lookup_insert_eq.
        eapply lookup_lt_Some. exact Hq. }
    cbn [prop_dict set_prop_dict data_stats set_data].
    destruct (data_stats q) as [st |] eqn:Est; [| now contradiction Hst].
    msimp. cbn [axis_origin axis_u axis_v axis_w vol_dims set_prop_dict].
    destruct (axis_origin s0) as [[[ox oy] oz] |] eqn:Eo;
      [| now contradiction Ho].
    destruct (axis_u s0) as [[[ux uy] uz] |] eqn:Eu; [| now contradiction Hu].
    destruct (axis_v s0) as [[[vx vy] vz] |] eqn:Ev; [| now contradiction Hv].
    destruct (axis_w s0) as [[[wx wy] wz] |] eqn:Ew; [| now contradiction Hw].
    rewrite Hvd. unfold _calc_minmax. msimp.
    eexists. split; [reflexivity |].
    eexists _, _.
    cbn [prop_dict set_bbox set_prop_dict vol_dims axis_origin axis_u axis_v
         axis_w].
    split.
    { rewrite list_insert_insert_eq. apply list_lookup_insert_eq.
      eapply lookup_lt_Some. exact Hq. }
    cbn [data data_stats no_data_marker set_data_stats set_data].
    split; [reflexivity |]. split; [discriminate |].
    split; [exact Hm |]. split; [exact Hvd |].
    rewrite Eo, Eu, Ev, Ew.
    repeat (split; [discriminate |]).
    apply cells_filled_store; assumption. }
  assert (Hcases :
    (exists nv,
       match marker with
       | Some nv => if feqb v nv then (false, nv) else (true, v)
       | None => (true, v)
       end = (false, nv) /\ kept marker v = zero) \/
    (match marker with
     | Some nv => if feqb v nv then (false, nv) else (true, v)
     | None => (true, v)
     end = (true, v) /\ kept marker v = v)).
  { unfold kept. clear. destruct marker as [nv |];
      [destruct (feqb v nv) eqn:Ef |]; eauto. }
  destruct Hcases as [(nv & Epair & Hk) | [Epair Hk]].
  - rewrite Epair. cbn [negb]. msimp. eexists. split; [reflexivity |].
    exists q, cells. repeat (split; [assumption |]).
    apply cells_filled_skip; [exact Hk | exact Hcells].
  - rewrite Epair. cbn [negb]. apply Hkept. exact Hk.
Qed.

End Cells.

Section Loops.
Variables (NX NY NZ : nat) (marker : option float) (f_arr : list float).
Variables (i : nat) (k : string).

Lemma for_fold_cons {A X} (x : X) (xs : list X) (acc acc' : A)
  (body : A -> X -> M A) s s' :
  body acc x s = Ok acc' s' ->
  for_fold (x :: xs) acc body s = for_fold xs acc' body s'.
Proof. intros H. cbn [for_fold]. unfold bind. now rewrite H. Qed.

(** The loop over [x] *)
Lemma read_voxel_row b c (Hb : (b < NY)%nat) (Hc : (c < NZ)%nat) :
  forall len a0 s,
  (a0 + len <= NX)%nat ->
  ((c * NY + b) * NX + a0 + len <= length f_arr)%nat ->
  voxel_filled i k NX NY NZ marker f_arr ((c * NY + b) * NX + a0) s ->
  exists s',
    for_fold (map Z.of_nat (seq a0 len)) ((c * NY + b) * NX + a0)%nat
      (fun fl_idx x =>
         read_voxel_cell i f_arr x (Z.of_nat b) (Z.of_nat c) fl_idx) s =
      Ok ((c * NY + b) * NX + a0 + len)%nat s' /\
    voxel_filled i k NX NY NZ marker f_arr ((c * NY + b) * NX + a0 + len) s'.
Proof.
  induction len as [| len IH]; intros a0 s Ha Hlen Hinv.
  - cbn [seq map for_fold]. exists s. rewrite Nat.add_0_r. auto.
  - cbn [seq map].
    destruct (read_voxel_cell_step NX NY NZ marker f_arr a0 b c
                ltac:(lia) Hb Hc i k s ltac:(lia) Hinv) as (s1 & E & Hinv1).
    rewrite (for_fold_cons _ _ _ _ _ _ _ E).
    replace (S ((c * NY + b) * NX + a0)) with ((c * NY + b) * NX + S a0)%nat
      in * by lia.
    destruct (IH (S a0) s1 ltac:(lia) ltac:(lia) Hinv1) as (s2 & E2 & Hinv2).
    exists s2.
    replace ((c * NY + b) * NX + a0 + S len)%nat
      with ((c * NY + b) * NX + S a0 + len)%nat by lia.
    auto.
Qed.

(** The loop over [y] *)
Lemma read_voxel_plane c (Hc : (c < NZ)%nat) :
  forall len b0 s,
  (b0 + len <= NY)%nat ->
  ((c * NY + b0 + len) * NX <= length f_arr)%nat ->
  voxel_filled i k NX NY NZ marker f_arr ((c * NY + b0) * NX) s ->
  exists s',
    for_fold (map Z.of_nat (seq b0 len)) ((c * NY + b0) * NX)%nat
      (fun fl_idx y =>
         for_fold (map Z.of_nat (seq 0 NX)) fl_idx (fun fl_idx x =>
           read_voxel_cell i f_arr x y (Z.of_nat c) fl_idx)) s =
      Ok ((c * NY + b0 + len) * NX)%nat s' /\
    voxel_filled i k NX NY NZ marker f_arr ((c * NY + b0 + len) * NX) s'.
Proof.
  induction len as [| len IH]; intros b0 s Hb Hlen Hinv.
  - cbn [seq map for_fold]. exists s. rewrite Nat.add_0_r. auto.
  - cbn [seq map].
    destruct (read_voxel_row b0 c ltac:(lia) Hc NX 0%nat s) as (s1 & E & Hinv1).
    + lia.
    + nia.
    + now rewrite Nat.add_0_r.
    + rewrite Nat.add_0_r in E, Hinv1.
      cbn [for_fold]. unfold bind at 1. rewrite E.
      replace ((c * NY + b0) * NX + NX)%nat
        with ((c * NY + S b0) * NX)%nat in * by lia.
      destruct (IH (S b0) s1 ltac:(lia)) as (s2 & E2 & Hinv2).
      * replace (c * NY + S b0 + len)%nat with (c * NY + b0 + S len)%nat
          by lia. exact Hlen.
      * exact Hinv1.
      * exists s2.
        replace (c * NY + b0 + S len)%nat with (c * NY + S b0 + len)%nat
          by lia.
        auto.
Qed.

(** The loop over [z] *)
Lemma read_voxel_volume :
  forall len c0 s,
  (c0 + len <= NZ)%nat ->
  ((c0 + len) * NY * NX <= length f_arr)%nat ->
  voxel_filled i k NX NY NZ marker f_arr (c0 * NY * NX) s ->
  exists s',
    for_fold (map Z.of_nat (seq c0 len)) (c0 * NY * NX)%nat
      (fun fl_idx z =>
         for_fold (map Z.of_nat (seq 0 NY)) fl_idx (fun fl_idx y =>
           for_fold (map Z.of_nat (seq 0 NX)) fl_idx (fun fl_idx x =>
             read_voxel_cell i f_arr x y z fl_idx))) s =
      Ok ((c0 + len) * NY * NX)%nat s' /\
    voxel_filled i k NX NY NZ marker f_arr ((c0 + len) * NY * NX) s'.
Proof.
  induction len as [| len IH]; intros c0 s Hc Hlen Hinv.
  - cbn [seq map for_fold]. exists s. rewrite Nat.add_0_r. auto.
  - cbn [seq map].
    destruct (read_voxel_plane c0 ltac:(lia) NY 0%nat s) as (s1 & E & Hinv1).
    + lia.
    + nia.
    + now rewrite Nat.add_0_r.
    + rewrite Nat.add_0_r in E, Hinv1.
      cbn [for_fold]. unfold bind at 1. rewrite E.
      replace ((c0 * NY + NY) * NX)%nat with (S c0 * NY * NX)%nat in *
        by lia.
      destruct (IH (S c0) s1 ltac:(lia)) as (s2 & E2 & Hinv2).
      * replace (S c0 + len)%nat with (c0 + S len)%nat by lia. exact Hlen.
      * exact Hinv1.
      * exists s2.
        replace (c0 + S len)%nat with (S c0 + len)%nat by lia.
        auto.
Qed.

End Loops.

Lemma chunks_length {A} size : (0 < size)%nat ->
  forall fuel (l : list A), (length l <= fuel)%nat ->
  length (chunks fuel size l) = (length l / size)%nat.
Proof.
  intros Hsize. induction fuel as [| fuel IH]; intros l Hl; cbn [chunks].
  - destruct l; [| cbn in Hl; lia]. cbn. now rewrite Nat.Div0.div_0_l.
  - destruct (Nat.leb_spec size (length l)) as [L | L].
    + replace (0 <? size)%nat with true by (symmetry; apply Nat.ltb_lt; lia).
      cbn [andb length]. rewrite IH by (rewrite length_skipn; lia).
      rewrite length_skipn.
      replace (length l) with ((length l - size) + 1 * size)%nat at 2 by lia.
      rewrite Nat.div_add by lia. lia.
    + cbn [andb length]. symmetry. now apply Nat.div_small.
Qed.

Lemma cells_filled_start NX NY NZ marker f_arr :
  cells_filled NX NY NZ marker f_arr 0 (repeat zero (NX * NY * NZ)).
Proof.
  split; [apply repeat_length |].
  intros a b c Ha Hb Hc. cbn [Nat.ltb Nat.leb].
  apply lookup_repeat. now apply cell_index_bound.
Qed.

(** X29.  Reading the binary file of a property whose size fits the
    volume, for a shape [numpy.zeros] makes an array for and the item
    type [make_numpy_dtype] gives -- an integer of one or two bytes or a
    float of 2, 4, 8 or 16 bytes -- when the size of the property is the
    size of that type: the file is read item by item with x running
    fastest, then y, then z, and the item at place
    [(z * ny + y) * nx + x] of the file becomes the value of the cell
    [(x, y, z)] of the property's array -- unless it equals the no-data
    marker of the property, in which case the cell keeps the zero it
    started with. *)
Theorem voxel_file_fills_cells_by_position
  fs i k p NX NY NZ content dt s :
  prop_dict s !! i = Some (k, p) ->
  fs (file_name p) = Some content ->
  vol_dims s = Some (Z.of_nat NX, Z.of_nat NY, Z.of_nat NZ) ->
  zeros_shape_ok (Z.of_nat NX) (Z.of_nat NY) (Z.of_nat NZ) = true ->
  Z.of_nat (length content) =
    data_sz p * Z.of_nat NX * Z.of_nat NY * Z.of_nat NZ ->
  (forall s0, make_numpy_dtype p s0 = Ok dt s0) ->
  Z.of_nat (itemsize dt) = data_sz p -> (0 < itemsize dt)%nat ->
  axis_origin s <> None -> axis_u s <> None ->
  axis_v s <> None -> axis_w s <> None ->
  exists s' p' cells,
    read_voxel_prop fs i s = Ok tt s' /\
    prop_dict s' !! i = Some (k, p') /\
    data p' = VoxelData (Z.of_nat NX) (Z.of_nat NY) (Z.of_nat NZ) cells /\
    forall a b c, (a < NX)%nat -> (b < NY)%nat -> (c < NZ)%nat ->
      exists bytes,
        chunks (length content) (itemsize dt) content
          !! ((c * NY + b) * NX + a)%nat = Some bytes /\
        cells !! ((a * NY + b) * NZ + c)%nat =
          Some (kept (no_data_marker p) (decode_item dt bytes)).
Proof.
  intros Hp Hfs Hvd Hshape Hsize Hdt Hitem Hpos Ho Hu Hv Hw.
  set (items := chunks (length content) (itemsize dt) content).
  set (f_arr := map (decode_item dt) items).
  assert (Hitems : length items = (NX * NY * NZ)%nat).
  { unfold items. rewrite chunks_length by (try exact Hpos; lia).
    assert (E : length content = (NX * NY * NZ * itemsize dt)%nat).
    { apply Nat2Z.inj. rewrite Hsize, <- Hitem.
      rewrite !Nat2Z.inj_mul. lia. }
    rewrite E. now rewrite Nat.div_mul by lia. }
  assert (Hf : length f_arr = (NX * NY * NZ)%nat)
    by (unfold f_arr; now rewrite length_map).
  assert (Hnovo : needs_vo fs (file_name p) = false).
  { unfold needs_vo, isfile. now rewrite Hfs. }
  assert (Hi : (i < length (prop_dict s))%nat)
    by (eapply lookup_lt_Some; exact Hp).
  unfold read_voxel_prop.
  unfold bind at 1. unfold bind at 1. rewrite (prop_at_run i s k p Hp).
  rewrite Hnovo. unfold ret at 1.
  unfold try_except.
  unfold bind at 1. rewrite (prop_at_run i s k p Hp).
  unfold bind at 1. unfold getsize. rewrite Hfs. unfold ret at 1.
  unfold bind at 1. unfold bind at 1. unfold get at 1. unfold need, or_raise.
  rewrite Hvd. unfold ret at 1.
  rewrite Hsize, Z.eqb_refl. cbn [negb].
  unfold bind at 1. unfold numpy_zeros. rewrite Hshape.
  unfold ret at 1.
  replace (Z.to_nat (Z.of_nat NX * Z.of_nat NY * Z.of_nat NZ))
    with (NX * NY * NZ)%nat
    by (rewrite <- !Nat2Z.inj_mul; now rewrite Nat2Z.id).
  unfold bind at 1. rewrite (update_prop_at_run i _ k p s Hp).
  unfold bind at 1. rewrite Hdt.
  unfold bind at 1. unfold logger_info. rewrite logger_log_run.
  unfold bind at 1. unfold numpy_fromfile. rewrite Hfs. unfold ret at 1.
  fold items. fold f_arr.
  set (s1 := logged INFO "Reading binary file: %s" _).
  assert (Hp1 : prop_dict s1 !! i =
                Some (k, set_data
                           (VoxelData (Z.of_nat NX) (Z.of_nat NY) (Z.of_nat NZ)
                              (repeat zero (NX * NY * NZ))) p)).
  { unfold s1. rewrite logged_prop_dict. cbn [prop_dict set_prop_dict].
    now apply list_lookup_insert_eq. }
  unfold bind at 1. rewrite (update_prop_at_run i _ k _ s1 Hp1).
  set (s2 := set_prop_dict _ s1).
  assert (Hstart : voxel_filled i k NX NY NZ (no_data_marker p) f_arr
                     (0 * NY * NX) s2).
  { eexists _, _. unfold s2. cbn [prop_dict set_prop_dict].
    split.
    { apply list_lookup_insert_eq. unfold s1. rewrite logged_prop_dict.
      cbn [prop_dict set_prop_dict]. now rewrite length_insert. }
    cbn [data data_stats no_data_marker set_data_stats set_data vol_dims
         axis_origin axis_u axis_v axis_w set_prop_dict].
    unfold s1.
    rewrite logged_vol_dims, logged_axis_origin, logged_axis_u, logged_axis_v,
      logged_axis_w.
    cbn [vol_dims axis_origin axis_u axis_v axis_w set_prop_dict].
    split; [reflexivity |]. split; [discriminate |]. split; [reflexivity |].
    repeat (split; [assumption |]).
    apply cells_filled_start. }
  destruct (read_voxel_volume NX NY NZ (no_data_marker p) f_arr i k NZ 0%nat s2)
    as (s3 & E & Hend); [lia | rewrite Hf; lia | exact Hstart |].
  unfold range. rewrite !Nat2Z.id.
  unfold bind at 1. cbn [Nat.mul] in E. rewrite E. unfold ret.
  destruct Hend as (q & cells & Hq & Hdata & _ & _ & _ & _ & _ & _ & _ & Hlen & Hcells).
  exists s3, q, cells. split; [reflexivity |]. split; [exact Hq |].
  split; [exact Hdata |].
  intros a b c Ha Hb Hc.
  assert (Hlt : ((c * NY + b) * NX + a < NX * NY * NZ)%nat).
  { pose proof (cell_index_bound NZ NY NX c b a Hc Hb Ha). lia. }
  destruct (lookup_lt_is_Some_2 items ((c * NY + b) * NX + a)%nat) as [bytes Hb0];
    [rewrite Hitems; exact Hlt |].
  exists bytes. split; [exact Hb0 |].
  rewrite (Hcells a b c Ha Hb Hc).
  replace ((c * NY + b) * NX + a <? (0 + NZ) * NY * NX)%nat with true
    by (symmetry; apply Nat.ltb_lt; lia).
  f_equal. f_equal. unfold f_arr.
  apply (nth_lookup_Some _ _ zero). rewrite list_lookup_fmap, Hb0. reflexivity.
Qed.

(** The theorem on the voxet of two by one by three cells: the six
    items of the file, in its order 257, 514, 771, 1028, 1029, 1542, fill
    the array in the order of its cells, and the fifth, the no-data
    marker, leaves a zero.  And on the voxet of two floats of 16 bytes:
    the cells are 1.5 and -2. *)
Lemma voxel_file_fills_cells_by_position_witness :
  (exists s' p' cells,
     read_voxel_prop six_cell_files 0 six_cell_voxet = Ok tt s' /\
     prop_dict s' !! 0%nat = Some ("1", p') /\
     data p' = VoxelData 2 1 3 cells /\
     cells !! 0%nat = Some (float_of_Z 257) /\
     cells !! 1%nat = Some (float_of_Z 771) /\
     cells !! 2%nat = Some zero /\
     cells !! 3%nat = Some (float_of_Z 514) /\
     cells !! 4%nat = Some (float_of_Z 1028) /\
     cells !! 5%nat = Some (float_of_Z 1542)) /\
  (exists s' p' cells,
     read_voxel_prop long_double_files 0 long_double_voxet = Ok tt s' /\
     prop_dict s' !! 0%nat = Some ("1", p') /\
     data p' = VoxelData 1 1 2 cells /\
     cells !! 0%nat = Some (fdiv (float_of_Z 3) (float_of_Z 2)) /\
     cells !! 1%nat = Some (float_of_Z (-2))).
Proof.
  split.
  - destruct (voxel_file_fills_cells_by_position six_cell_files 0 "1"
                six_cell_props 2 1 3 six_cell_bytes (DT_int 2 false)
                six_cell_voxet)
      as (s' & p' & cells & Hrun & Hprop & Hdata & Hcells);
      try reflexivity; try discriminate; [cbn; lia |].
    exists s', p', cells.
    split; [exact Hrun |]. split; [exact Hprop |]. split; [exact Hdata |].
    assert (Hcell : forall a c item,
              (a < 2)%nat -> (c < 3)%nat ->
              chunks 12 2 six_cell_bytes !! (c * 2 + a)%nat = Some item ->
              cells !! (a * 3 + c)%nat =
                Some (kept (Some (float_of_Z 1029))
                        (decode_item (DT_int 2 false) item))).
    { intros a c item Ha Hc Hitem.
      destruct (Hcells a 0%nat c Ha (Nat.lt_0_succ 0) Hc) as (bytes & Hb & Hv).
      cbn [length six_cell_bytes itemsize] in Hb.
      rewrite Nat.mul_1_r, Nat.add_0_r in Hb.
      rewrite Hitem in Hb. injection Hb as <-.
      rewrite Nat.mul_1_r, Nat.add_0_r in Hv. exact Hv. }
    repeat split.
    + exact (Hcell 0%nat 0%nat [x01; x01] ltac:(lia) ltac:(lia) eq_refl).
    + exact (Hcell 0%nat 1%nat [x03; x03] ltac:(lia) ltac:(lia) eq_refl).
    + exact (Hcell 0%nat 2%nat [x04; x05] ltac:(lia) ltac:(lia) eq_refl).
    + exact (Hcell 1%nat 0%nat [x02; x02] ltac:(lia) ltac:(lia) eq_refl).
    + exact (Hcell 1%nat 1%nat [x04; x04] ltac:(lia) ltac:(lia) eq_refl).
    + exact (Hcell 1%nat 2%nat [x06; x06] ltac:(lia) ltac:(lia) eq_refl).
  - destruct (voxel_file_fills_cells_by_position long_double_files 0 "1"
                long_double_props 1 1 2 long_double_bytes (DT_float 16)
                long_double_voxet)
      as (s' & p' & cells & Hrun & Hprop & Hdata & Hcells);
      try reflexivity; try discriminate; [cbn; lia |].
    exists s', p', cells.
    split; [exact Hrun |]. split; [exact Hprop |]. split; [exact Hdata |].
    assert (Hcell : forall c item,
              (c < 2)%nat ->
              chunks 32 16 long_double_bytes !! c = Some item ->
              cells !! c =
                Some (kept None (decode_item (DT_float 16) item))).
    { intros c item Hc Hitem.
      destruct (Hcells 0%nat 0%nat c (Nat.lt_0_succ 0) (Nat.lt_0_succ 0) Hc)
        as (bytes & Hb & Hv).
      cbn [length long_double_bytes itemsize] in Hb.
      replace ((c * 1 + 0) * 1 + 0)%nat with c in Hb by lia.
      rewrite Hitem in Hb. injection Hb as <-.
      cbn [Nat.mul Nat.add] in Hv. exact Hv. }
    split.
    + exact (Hcell 0%nat _ ltac:(lia) eq_refl).
    + exact (Hcell 1%nat _ ltac:(lia) eq_refl).
Defined.

(** ** The offset of the flags *)

Lemma chunks_Forall {A} size : forall fuel (l : list A),
  Forall (fun c => length c = size) (chunks fuel size l).
Proof.
  induction fuel as [| fuel IH]; intros l; cbn [chunks]; [constructor |].
  destruct (Nat.leb_spec size (length l)) as [L | L]; [| constructor].
  destruct (0 <? size)%nat; cbn [andb]; [| constructor].
  constructor; [| apply IH].
  rewrite length_take. lia.
Qed.

Section FlagsLoops.
Variables (f_arr : list (list byte)) (size : Z) (k : nat).
Hypothesis Hsize : 1 <= size.
Hypothesis Hitems : Forall (fun c => Z.of_nat (length c) = size) f_arr.

Lemma read_flags_cell_in x y z p s :
  (k + p < length f_arr)%nat ->
  flags_bit_size s = size ->
  exists s',
    read_flags_cell f_arr x y z (Z.of_nat (k + p)) s =
      Ok (Z.of_nat (k + S p)) s' /\
    flags_bit_size s' = size.
Proof.
  intros Hlt Hs. unfold read_flags_cell, item_Z. msimp.
  replace (0 <=? Z.of_nat (k + p)) with true by (symmetry; apply Z.leb_le; lia).
  msimp. rewrite Nat2Z.id.
  destruct (nth_error f_arr (k + p)) as [elem |] eqn:E;
    [| apply nth_error_None in E; lia].
  assert (Hel : Z.of_nat (length elem) = size).
  { rewrite Forall_forall in Hitems. apply Hitems.
    apply list_elem_of_In. eapply nth_error_In. exact E. }
  rewrite Hs, (bit_mask_of_run size elem s Hel Hsize).
  eexists. split.
  - f_equal. lia.
  - cbn. exact Hs.
Qed.

Lemma read_flags_cell_out x y z p s :
  (length f_arr <= k + p)%nat ->
  read_flags_cell f_arr x y z (Z.of_nat (k + p)) s = Raised IndexError s.
Proof.
  intros Hge. unfold read_flags_cell, item_Z. msimp.
  replace (0 <=? Z.of_nat (k + p)) with true by (symmetry; apply Z.leb_le; lia).
  msimp. rewrite Nat2Z.id.
  destruct (nth_error f_arr (k + p)) as [elem |] eqn:E; [| reflexivity].
  assert (H : nth_error f_arr (k + p) <> None) by congruence.
  apply nth_error_Some in H. lia.
Qed.

Lemma flags_run_ok t s :
  t = 0%nat \/ (k + t <= length f_arr)%nat ->
  flags_bit_size s = size ->
  flags_run size (length f_arr) k t (Ok (Z.of_nat (k + t)) s).
Proof.
  intros Ht Hs. unfold flags_run.
  replace ((t =? 0)%nat || (k + t <=? length f_arr)%nat) with true.
  - exists s. auto.
  - symmetry. apply orb_true_iff.
    destruct Ht as [-> | Ht]; [now left | right; now apply Nat.leb_le].
Qed.

Lemma flags_run_raised t s :
  t <> 0%nat -> (length f_arr < k + t)%nat ->
  flags_run size (length f_arr) k t (Raised IndexError s).
Proof.
  intros Ht Hlt. unfold flags_run.
  replace ((t =? 0)%nat || (k + t <=? length f_arr)%nat) with false.
  - exists s. reflexivity.
  - symmetry. apply orb_false_iff. split;
      [now apply Nat.eqb_neq | now apply Nat.leb_gt].
Qed.

(** The loop over [x] *)
Lemma read_flags_row y z : forall len a0 p s,
  p = 0%nat \/ (k + p <= length f_arr)%nat ->
  flags_bit_size s = size ->
  flags_run size (length f_arr) k (p + len)
    (for_fold (map Z.of_nat (seq a0 len)) (Z.of_nat (k + p))
       (fun f_idx x => read_flags_cell f_arr x y z f_idx) s).
Proof.
  induction len as [| len IH]; intros a0 p s Hp Hs.
  - cbn [seq map for_fold]. rewrite Nat.add_0_r.
    now apply flags_run_ok.
  - cbn [seq map for_fold]. unfold bind.
    destruct (Nat.lt_ge_cases (k + p) (length f_arr)) as [L | L].
    + destruct (read_flags_cell_in (Z.of_nat a0) y z p s L Hs) as (s1 & E & Hs1).
      rewrite E.
      replace (p + S len)%nat with (S p + len)%nat by lia.
      apply IH; [right; lia | exact Hs1].
    + rewrite (read_flags_cell_out _ y z p s L).
      apply flags_run_raised; lia.
Qed.

(** A loop of loops: one round of [width] cells for each element *)
Lemma flags_rounds {X} (inner : Z -> X -> M Z) (width : nat) :
  (forall x p s,
     p = 0%nat \/ (k + p <= length f_arr)%nat -> flags_bit_size s = size ->
     flags_run size (length f_arr) k (p + width)
       (inner (Z.of_nat (k + p)) x s)) ->
  forall (xs : list X) p s,
  p = 0%nat \/ (k + p <= length f_arr)%nat -> flags_bit_size s = size ->
  flags_run size (length f_arr) k (p + length xs * width)
    (for_fold xs (Z.of_nat (k + p)) inner s).
Proof.
  intros Hinner. induction xs as [| x xs IH]; intros p s Hp Hs.
  - cbn [for_fold length Nat.mul]. rewrite Nat.add_0_r.
    now apply flags_run_ok.
  - cbn [for_fold length]. unfold bind.
    pose proof (Hinner x p s Hp Hs) as Hrow. unfold flags_run in Hrow.
    destruct ((p + width =? 0)%nat || (k + (p + width) <=? length f_arr)%nat)
      eqn:Ec.
    + destruct Hrow as (s1 & E & Hs1). rewrite E.
      replace (p + S (length xs) * width)%nat
        with ((p + width) + length xs * width)%nat by lia.
      apply IH; [| exact Hs1].
      apply orb_true_iff in Ec as [Ec | Ec];
        [left; now apply Nat.eqb_eq | right; now apply Nat.leb_le].
    + destruct Hrow as (s1 & E). rewrite E.
      apply orb_false_iff in Ec as [Ec1 Ec2].
      apply Nat.eqb_neq in Ec1. apply Nat.leb_gt in Ec2.
      apply flags_run_raised; nia.
Qed.

End FlagsLoops.

(** X30.  [FLAGS_OFFSET] is used as the index of the first item to read,
    and one item is read for every cell: with a flags file of the right
    size for a volume that is not empty, any offset above zero runs past
    the last item, and the reader raises an [IndexError] that nothing
    catches (the [try] around it only catches [IOError]).  Only a volume
    beyond the shapes [numpy.zeros] makes an array for does not get
    that far: the [ValueError] of [numpy.zeros] comes first, and nothing
    catches it either. *)
Theorem positive_flags_offset_raises fs s NX NY NZ content k :
  flags_file s <> "" ->
  fs (flags_file s) = Some content ->
  vol_dims s = Some (Z.of_nat NX, Z.of_nat NY, Z.of_nat NZ) ->
  flags_array_length s = Z.of_nat NX * Z.of_nat NY * Z.of_nat NZ ->
  1 <= flags_bit_size s ->
  Z.of_nat (length content) =
    flags_bit_size s * Z.of_nat NX * Z.of_nat NY * Z.of_nat NZ ->
  flags_offset s = Z.of_nat k ->
  (0 < k)%nat -> (0 < NX * NY * NZ)%nat ->
  exists s',
    read_flags fs s =
    Raised (if zeros_shape_ok (Z.of_nat NX) (Z.of_nat NY) (Z.of_nat NZ)
            then IndexError else ValueError) s'.
Proof.
  intros Hname Hfs Hvd Hcount Hsize Hbytes Hoff Hk Hcells.
  set (size := flags_bit_size s) in *.
  set (f_arr := chunks (length content) (Z.to_nat size) content).
  assert (Hlen : length f_arr = (NX * NY * NZ)%nat).
  { unfold f_arr. rewrite chunks_length by lia.
    assert (E : length content = (NX * NY * NZ * Z.to_nat size)%nat).
    { apply Nat2Z.inj. rewrite Hbytes, !Nat2Z.inj_mul, Z2Nat.id by lia. lia. }
    rewrite E. rewrite Nat.div_mul by lia. reflexivity. }
  assert (Hitems : Forall (fun c => Z.of_nat (length c) = size) f_arr).
  { unfold f_arr.
    pose proof (chunks_Forall (Z.to_nat size) (length content) content) as H.
    rewrite Forall_forall in H |- *. intros c Hc.
    rewrite (H c Hc). apply Z2Nat.id. lia. }
  assert (Hnovo : needs_vo fs (flags_file s) = false).
  { unfold needs_vo, isfile. now rewrite Hfs. }
  unfold read_flags.
  unfold bind at 1. unfold get at 1.
  apply String.eqb_neq in Hname. rewrite Hname. cbn [negb].
  unfold bind at 1. unfold need, or_raise. rewrite Hvd. unfold ret at 1.
  rewrite Hcount, Z.eqb_refl. cbn [negb].
  rewrite Hnovo. unfold bind at 1. unfold ret at 1.
  unfold try_except.
  unfold bind at 1. unfold get at 1.
  unfold bind at 1. unfold getsize. rewrite Hfs. unfold ret at 1.
  fold size. rewrite Hbytes, Z.eqb_refl. cbn [negb].
  unfold bind at 1. unfold numpy_zeros.
  destruct (zeros_shape_ok (Z.of_nat NX) (Z.of_nat NY) (Z.of_nat NZ));
    [| unfold raise; cbn [existsb exn_eqb orb]; eexists; reflexivity].
  unfold ret at 1.
  unfold bind at 1. unfold logger_info. rewrite logger_log_run.
  set (s1 := logged INFO "Reading binary flags file: %s" s).
  assert (Hs1 : flags_bit_size s1 = size) by (unfold s1; logged_field).
  unfold bind at 1. unfold numpy_fromfile_bytes.
  replace (size <? 1) with false by (symmetry; apply Z.ltb_ge; lia).
  rewrite Hfs. unfold ret at 1. fold f_arr.
  unfold range. rewrite !Nat2Z.id, Hoff.
  assert (Hplane : forall z p s0,
            p = 0%nat \/ (k + p <= length f_arr)%nat ->
            flags_bit_size s0 = size ->
            flags_run size (length f_arr) k (p + NY * NX)
              (for_fold (map Z.of_nat (seq 0 NY)) (Z.of_nat (k + p))
                 (fun f_idx y =>
                    for_fold (map Z.of_nat (seq 0 NX)) f_idx (fun f_idx x =>
                      read_flags_cell f_arr x y z f_idx)) s0)).
  { intros z p s0 Hp Hs0.
    pose proof (flags_rounds f_arr size k
                  (fun f_idx y =>
                     for_fold (map Z.of_nat (seq 0 NX)) f_idx (fun f_idx x =>
                       read_flags_cell f_arr x y z f_idx))
                  NX
                  (fun y p' s' Hp' Hs' =>
                     read_flags_row f_arr size k Hsize Hitems y z NX 0%nat
                       p' s' Hp' Hs')
                  (map Z.of_nat (seq 0 NY)) p s0 Hp Hs0) as H.
    rewrite length_map, length_seq in H. exact H. }
  pose proof (flags_rounds f_arr size k
                (fun f_idx z =>
                   for_fold (map Z.of_nat (seq 0 NY)) f_idx (fun f_idx y =>
                     for_fold (map Z.of_nat (seq 0 NX)) f_idx (fun f_idx x =>
                       read_flags_cell f_arr x y z f_idx)))
                (NY * NX) Hplane
                (map Z.of_nat (seq 0 NZ)) 0%nat s1 (or_introl eq_refl) Hs1)
    as Hvol.
  rewrite Nat.add_0_r in Hvol.
  rewrite length_map, length_seq in Hvol. cbn [Nat.add] in Hvol.
  unfold flags_run in Hvol.
  replace ((NZ * (NY * NX) =? 0)%nat ||
           (k + NZ * (NY * NX) <=? length f_arr)%nat) with false in Hvol.
  - destruct Hvol as (s' & E). unfold bind at 1. rewrite E.
    cbn [existsb exn_eqb orb]. eexists. reflexivity.
  - symmetry. apply orb_false_iff. split.
    + apply Nat.eqb_neq. lia.
    + apply Nat.leb_gt. rewrite Hlen. lia.
Qed.

Lemma positive_flags_offset_raises_witness :
  exists s',
    read_flags (one_cell_files [x08])
      (set_flags_offset 1
         (set_flags_bit_size 1
            (set_flags_array_length 1
               (set_flags_file "flags.bin" one_cell_voxet)))) =
    Raised IndexError s'.
Proof.
  apply (positive_flags_offset_raises (one_cell_files [x08])
           (set_flags_offset 1
              (set_flags_bit_size 1
                 (set_flags_array_length 1
                    (set_flags_file "flags.bin" one_cell_voxet))))
           1 1 1 [x08] 1); try reflexivity; try discriminate; cbn; lia.
Defined.
